(** * ViewerCodeImport: file set, import orchestration and OBJ parser

    A shallow embedding of
      - [importerfiles.js]  (InputFile, ImporterFile, ImporterFileList),
      - [engine/import/importer.js] (ImporterFileAccessor, Importer),
      - [importerobj.js]    (ObjMeshConverter, ImporterObj),
    followed by the properties of the specification that were checked
    against them.

    Conventions.
      - A JavaScript object that is mutated in place becomes a record that is
        threaded through the functions which mutate it.
      - [null] is a constructor of the value type where the source compares
        with [null], and [None] where the value is a reference.
      - Integers produced by [parseInt] are [Z]; [NaN] is [None].  OBJ indices
        are far below 2^53, where JavaScript numbers are exact.
      - Numbers produced by [parseFloat] are kept symbolic: no property below
        depends on their value. *)

From stdpp Require Import base option list gmap strings.
From Stdlib Require Import ZArith Lia Ascii String.

(** ** JavaScript built-ins used by the sources *)

Module Js.

(** [String.prototype.toLowerCase], on the ASCII letters.  Cased letters
    outside ASCII, which JavaScript lowers as well, are left as they are. *)
Definition lower_ascii (c : ascii) : ascii :=
  let n := nat_of_ascii c in
  if (65 <=? n)%nat && (n <=? 90)%nat then ascii_of_nat (n + 32) else c.

Fixpoint toLowerCase (s : string) : string :=
  match s with
  | EmptyString => EmptyString
  | String c rest => String (lower_ascii c) (toLowerCase rest)
  end.

(** White space as [trim], [parseInt] and the [\s] class see it (ASCII). *)
Definition is_space (c : ascii) : bool :=
  let n := nat_of_ascii c in
  (n =? 32)%nat || ((9 <=? n)%nat && (n <=? 13)%nat).

Definition digit_of (c : ascii) : option Z :=
  let n := nat_of_ascii c in
  if (48 <=? n)%nat && (n <=? 57)%nat then Some (Z.of_nat (n - 48)) else None.

Fixpoint skip_spaces (s : string) : string :=
  match s with
  | String c rest => if is_space c then skip_spaces rest else s
  | EmptyString => EmptyString
  end.

(** The longest prefix of decimal digits, read left to right; [None] when
    there is no digit at all. *)
Fixpoint read_digits (s : string) (acc : option Z) : option Z :=
  match s with
  | String c rest =>
      match digit_of c with
      | Some d => read_digits rest (Some (10 * default 0%Z acc + d)%Z)
      | None => acc
      end
  | EmptyString => acc
  end.

(** [parseInt (s, 10)]: leading white space, an optional sign, then the
    longest run of digits; [NaN] ([None]) when no digit follows.  The integer
    is exact, where JavaScript has the nearest double: the two agree below
    2^53 in absolute value. *)
Definition parseInt (s : string) : option Z :=
  match skip_spaces s with
  | String "-" rest => Z.opp <$> read_digits rest None
  | String "+" rest => read_digits rest None
  | t => read_digits t None
  end.

(** [s.split (sep)] for a one-character separator: always at least one
    piece. *)
Fixpoint split (sep : ascii) (s : string) : list string :=
  match s with
  | EmptyString => [EmptyString]
  | String c rest =>
      if Ascii.eqb c sep then EmptyString :: split sep rest
      else match split sep rest with
           | piece :: pieces => String c piece :: pieces
           | [] => [String c EmptyString]
           end
  end.

(** A number obtained from text, or by the arithmetic the importer does on
    such numbers. *)
Inductive number :=
  | parseFloat (text : string)
  | literal (text : string)
  | div (a b : number)
  | sub (a b : number).

End Js.

(** ** importerfiles.js *)

(** [FileSource] of [io/fileutils.js], as far as the sources use it. *)
Inductive FileSource := Url | File | Decompressed.

Global Instance FileSource_eq_dec : EqDecision FileSource.
Proof. solve_decision. Defined.

(** What an input's [data] and a file's [content] can hold. *)
Inductive JsData :=
| null
| UrlString (url : string)
| FileObject (handle : string)
| ArrayBuffer (text : string).

Global Instance JsData_eq_dec : EqDecision JsData.
Proof. solve_decision. Defined.

Definition is_null (d : JsData) : bool :=
  match d with null => true | _ => false end.

(** The helpers of [io/fileutils.js], which is not part of the sources at
    hand: they are parameters of the development.  [RequestUrl] and
    [ReadFile] stand for the settled promise: [Some content] when it
    resolves, [None] when it rejects. *)
Class FileUtils := {
  GetFileName : string -> string;
  GetFileExtension : string -> string;
  RequestUrl : JsData -> option JsData;
  ReadFile : JsData -> option JsData;
}.

Module InputFile.
Record t := new { name : string; source : FileSource; data : JsData }.
End InputFile.

Definition InputFilesFromUrls `{FileUtils} (urls : list string) : list InputFile.t :=
  map (fun url => InputFile.new (GetFileName url) Url (UrlString url)) urls.

Definition InputFilesFromFileObjects `{FileUtils} (fileObjects : list string)
  : list InputFile.t :=
  map (fun fileObject =>
         InputFile.new (GetFileName fileObject) File (FileObject fileObject))
      fileObjects.

Module ImporterFile.
Record t := mk {
  name : string;
  extension : string;
  source : FileSource;
  data : JsData;
  content : JsData;
}.

(** The constructor. *)
Definition new `{FileUtils} (name : string) (source : FileSource) (data : JsData) : t :=
  {| name := GetFileName name;
     extension := GetFileExtension name;
     source := source;
     data := data;
     content := data (* Set content directly from data *) |}.

Definition SetContent (file : t) (content : JsData) : t :=
  {| name := name file; extension := extension file; source := source file;
     data := data file; content := content |}.
End ImporterFile.

(** What one call of [GetFileContent] does about loading. *)
Inductive LoadEvent :=
| ContentAlreadySet
| LoadRequested (source : FileSource) (data : JsData)
| UnknownFileSource.

Module ImporterFileList.
Section WithFileUtils.
Context `{FileUtils}.

Record t := mk { files : list ImporterFile.t }.

Definition new : t := mk [].

Definition FillFromInputFiles (inputFiles : list InputFile.t) : t :=
  mk (fold_left
        (fun files inputFile =>
           files ++ [ImporterFile.new (InputFile.name inputFile)
                                      (InputFile.source inputFile)
                                      (InputFile.data inputFile)])
        inputFiles []).

Definition GetFiles (this : t) : list ImporterFile.t := files this.

Definition FindFileByPath (this : t) (filePath : string) : option ImporterFile.t :=
  let fileName := Js.toLowerCase (GetFileName filePath) in
  find (fun file => String.eqb (Js.toLowerCase (ImporterFile.name file)) fileName)
       (files this).

Definition ContainsFileByPath (this : t) (filePath : string) : bool :=
  bool_decide (FindFileByPath this filePath <> None).

Definition ExtendFromFileList (this fileList : t) : t :=
  fold_left
    (fun this file =>
       if negb (ContainsFileByPath this (ImporterFile.name file))
       then mk (files this ++ [file])
       else this)
    (GetFiles fileList) this.

Definition IsOnlyUrlSource (this : t) : bool :=
  match files this with
  | [] => false
  | _ => forallb (fun file =>
                    negb (bool_decide (ImporterFile.source file <> Url)
                          && bool_decide (ImporterFile.source file <> Decompressed)))
                 (files this)
  end.

Definition AddFile (this : t) (file : ImporterFile.t) : t :=
  mk (files this ++ [file]).

(** [GetFileContent]: the file after the loader's promise has settled, and
    what was asked of the loader. *)
Definition GetFileContent (file : ImporterFile.t) : ImporterFile.t * LoadEvent :=
  if negb (is_null (ImporterFile.content file)) then (file, ContentAlreadySet)
  else
    match ImporterFile.source file with
    | Url =>
        (match RequestUrl (ImporterFile.data file) with
         | Some content => ImporterFile.SetContent file content
         | None => file
         end, LoadRequested Url (ImporterFile.data file))
    | File =>
        (match ReadFile (ImporterFile.data file) with
         | Some content => ImporterFile.SetContent file content
         | None => file
         end, LoadRequested File (ImporterFile.data file))
    | Decompressed => (file, UnknownFileSource)
    end.

(** [GetContent]: [RunTasks] runs the tasks one after the other in index
    order, so the files are visited left to right. *)
Definition GetContent (this : t) : t * list LoadEvent :=
  let results := map GetFileContent (files this) in
  (mk (map fst results), map snd results).

End WithFileUtils.
End ImporterFileList.

(** ** engine/import/importer.js *)

Inductive ImportErrorCode :=
| NoImportableFile
| FailedToLoadFile
| ImportFailed
| UnknownError.

Module ImportError.
Record t := mk {
  code : ImportErrorCode;
  mainFile : option string;
  message : option string;
}.
Definition new (code : ImportErrorCode) : t := mk code None None.
End ImportError.

(** The cache in front of a [name -> buffer-or-null] callback.  The callback
    is a closure over mutable state of its owner; that state is the [World]
    threaded through the calls. *)
Module ImporterFileAccessor.
Section WithCallback.
Context `{FileUtils} {World : Type}.

Record t := mk {
  getBufferCallback : string -> World -> JsData * World;
  fileBuffers : gmap string JsData;
}.

Definition new (getBufferCallback : string -> World -> JsData * World) : t :=
  mk getBufferCallback ∅.

Definition GetFileBuffer (this : t) (filePath : string) (w : World)
  : JsData * t * World :=
  let fileName := GetFileName filePath in
  match fileBuffers this !! fileName with
  | Some buffer => (buffer, this, w)
  | None =>
      let '(buffer, w') := getBufferCallback this fileName w in
      (buffer, mk (getBufferCallback this) (<[fileName := buffer]> (fileBuffers this)), w')
  end.

(** A run of requests, one after the other. *)
Definition GetFileBuffers (filePaths : list string) (st : t * World) : t * World :=
  fold_left
    (fun '(this, w) filePath =>
       let '(_, this, w) := GetFileBuffer this filePath w in (this, w))
    filePaths st.

End WithCallback.
Arguments t World : clear implicits.
End ImporterFileAccessor.

(** The part of a format importer the orchestrator inspects when it
    classifies files. *)
Record FormatImporter := {
  formatName : string;
  CanImportExtension : string -> bool;
}.

Module Importer.
Section WithFileUtils.
Context `{FileUtils}.
(** [unzipSync] of the fflate library: the entries of an archive, in the
    order [for ... in] enumerates them. *)
Variable unzipSync : JsData -> list (string * string).

(** The [model] field is written on success only and is left out. *)
Record t := mk {
  importers : list FormatImporter;
  fileList : ImporterFileList.t;
  usedFiles : list string;
  missingFiles : list string;
}.

Definition with_fileList (this : t) (fileList : ImporterFileList.t) : t :=
  mk (importers this) fileList (usedFiles this) (missingFiles this).

Definition AddImporter (this : t) (importer : FormatImporter) : t :=
  mk (importers this ++ [importer]) (fileList this) (usedFiles this) (missingFiles this).

Definition FindImporter (file : ImporterFile.t) (importers : list FormatImporter)
  : option FormatImporter :=
  find (fun importer => CanImportExtension importer (ImporterFile.extension file))
       importers.

Definition GetImportableFiles (this : t) (fileList : ImporterFileList.t)
  : list (ImporterFile.t * FormatImporter) :=
  fold_left
    (fun importableFiles file =>
       match FindImporter file (importers this) with
       | Some importer => importableFiles ++ [(file, importer)]
       | None => importableFiles
       end)
    (ImporterFileList.GetFiles fileList) [].

Definition HasImportableFile (this : t) (fileList : ImporterFileList.t) : bool :=
  (0 <? List.length (GetImportableFiles this fileList))%nat.

(** [LoadFiles], up to and including the assignment of [this.fileList]. *)
Definition LoadFiles_reconcile (this : t) (inputFiles : list InputFile.t) : t :=
  let newFileList := ImporterFileList.FillFromInputFiles inputFiles in
  let '(reset, this) :=
    if HasImportableFile this newFileList then (true, this)
    else
      let foundMissingFile :=
        fold_left
          (fun foundMissingFile missingFile =>
             if ImporterFileList.ContainsFileByPath newFileList missingFile
             then true else foundMissingFile)
          (missingFiles this) false in
      if negb foundMissingFile then (true, this)
      else (false,
            with_fileList this
              (ImporterFileList.ExtendFromFileList (fileList this) newFileList))
  in
  if reset then with_fileList this newFileList else this.

(** [LoadFiles]: reconciliation, then the content of the resulting list. *)
Definition LoadFiles (this : t) (inputFiles : list InputFile.t)
  : t * list LoadEvent :=
  let this := LoadFiles_reconcile this inputFiles in
  let '(loaded, events) := ImporterFileList.GetContent (fileList this) in
  (with_fileList this loaded, events).

Definition DecompressArchives (fileList : ImporterFileList.t) : ImporterFileList.t :=
  let files := ImporterFileList.GetFiles fileList in
  let archives :=
    filter (fun file => ImporterFile.extension file = "zip") files in
  fold_left
    (fun fileList archiveFile =>
       fold_left
         (fun fileList '(fileName, buffer) =>
            let file := ImporterFile.new fileName Decompressed null in
            let file := ImporterFile.SetContent file (ArrayBuffer buffer) in
            ImporterFileList.AddFile fileList file)
         (unzipSync (ImporterFile.content archiveFile)) fileList)
    archives fileList.

(** The callback [ImportLoadedMainFile] gives to the file accessor. *)
Definition getBufferCallback (fileName : string) (this : t) : JsData * t :=
  match ImporterFileList.FindFileByPath (fileList this) fileName with
  | Some file =>
      if is_null (ImporterFile.content file)
      then (null, mk (importers this) (fileList this) (usedFiles this)
                     (missingFiles this ++ [fileName]))
      else (ImporterFile.content file,
            mk (importers this) (fileList this) (usedFiles this ++ [fileName])
               (missingFiles this))
  | None =>
      (null, mk (importers this) (fileList this) (usedFiles this)
                (missingFiles this ++ [fileName]))
  end.

(** [ImportLoadedMainFile] up to the call of [importer.Import]: the error it
    reports, or the orchestrator with its bookkeeping reset and the fresh
    accessor that [getFileBuffer] goes through. *)
Definition ImportLoadedMainFile_begin (this : t)
    (mainFile : option (ImporterFile.t * FormatImporter))
  : ImportError.t + (t * ImporterFileAccessor.t t) :=
  match mainFile with
  | None => inl (ImportError.new FailedToLoadFile)
  | Some (file, importer) =>
      if is_null (ImporterFile.content file)
      then inl (ImportError.mk FailedToLoadFile (Some (ImporterFile.name file)) None)
      else inr (mk (importers this) (fileList this) [ImporterFile.name file] [],
                ImporterFileAccessor.new getBufferCallback)
  end.

(** The [getFileBuffer] collaborator handed to the format importer. *)
Definition getFileBuffer (filePath : string)
    (st : t * ImporterFileAccessor.t t) : JsData * (t * ImporterFileAccessor.t t) :=
  let '(buffer, fileAccessor, this) :=
    ImporterFileAccessor.GetFileBuffer (snd st) filePath (fst st) in
  (buffer, (this, fileAccessor)).

(** What [ImportLoadedFiles] does before it calls [ImportLoadedMainFile]:
    the error it hands to [onImportError], or the argument of that call.
    [importableFiles[mainFileIndex]] is [undefined] for an index outside the
    array. *)
Inductive MainFileChoice :=
| ReportsError (error : ImportError.t)
| ImportsMainFile (mainFile : ImporterFile.t * FormatImporter)
| ImportsUndefined.

(** [ImportLoadedFiles] up to its call of [ImportLoadedMainFile].
    [onSelectMainFile] is [None] when the callbacks have none; otherwise it
    answers what the callback hands to its continuation for the names it is
    shown: [null] or an index. *)
Definition ImportLoadedFiles_select (this : t)
    (onSelectMainFile : option (list string -> option Z)) : MainFileChoice :=
  let importableFiles := GetImportableFiles this (fileList this) in
  let at_index (index : Z) :=
    match (if (0 <=? index)%Z then importableFiles !! Z.to_nat index else None) with
    | Some mainFile => ImportsMainFile mainFile
    | None => ImportsUndefined
    end in
  if (List.length importableFiles =? 0)%nat
  then ReportsError (ImportError.new NoImportableFile)
  else
    match (if (List.length importableFiles =? 1)%nat then None else onSelectMainFile) with
    | None => at_index 0%Z
    | Some select =>
        let fileNames :=
          map (fun importableFile => ImporterFile.name (fst importableFile))
              importableFiles in
        match select fileNames with
        | None => ReportsError (ImportError.new NoImportableFile)
        | Some mainFileIndex => at_index mainFileIndex
        end
    end.

(** Where [ImportLoadedFiles] stands when the format importer takes over:
    an error has been handed to [onImportError]; or [importer.Import] is
    called for the main file, with the orchestrator and the accessor that its
    [getFileBuffer] goes through; or [ImportLoadedMainFile] has thrown, which
    it does when it reads [mainFile.file] of [undefined]. *)
Inductive ImportStart :=
| OnImportError (error : ImportError.t)
| CallsImport (mainFile : ImporterFile.t * FormatImporter) (this : t)
              (fileAccessor : ImporterFileAccessor.t t)
| ThrowsTypeError.

(** [ImportLoadedFiles], with its call of [ImportLoadedMainFile], up to the
    call of [importer.Import]. *)
Definition ImportLoadedFiles (this : t)
    (onSelectMainFile : option (list string -> option Z)) : ImportStart :=
  match ImportLoadedFiles_select this onSelectMainFile with
  | ReportsError error => OnImportError error
  | ImportsMainFile mainFile =>
      match ImportLoadedMainFile_begin this (Some mainFile) with
      | inl error => OnImportError error
      | inr (this, fileAccessor) => CallsImport mainFile this fileAccessor
      end
  | ImportsUndefined => ThrowsTypeError
  end.

(** [ImportFiles], up to the call of [ImportLoadedMainFile]: the files are
    loaded, the archives of the list are opened, and the main file is
    chosen. *)
Definition ImportFiles (this : t) (inputFiles : list InputFile.t)
    (onSelectMainFile : option (list string -> option Z))
  : t * list LoadEvent * MainFileChoice :=
  let '(this, events) := LoadFiles this inputFiles in
  let this := with_fileList this (DecompressArchives (fileList this)) in
  (this, events, ImportLoadedFiles_select this onSelectMainFile).

End WithFileUtils.
End Importer.

(** ** The model entities the OBJ importer builds *)

(** The classes of [geometry/] and [model/] are not among the sources at
    hand.  A field a constructor fills with its default is [None] until it
    is assigned. *)

Module Coord3D.
(** Modelled from the spec: [Coord3D] of [geometry/coord3d.js] is missing; a
    position or a normal, with the three components the importer gives
    it. *)
Record t := mk { x : Js.number; y : Js.number; z : Js.number }.
End Coord3D.

Module Coord2D.
(** Modelled from the spec: [Coord2D] of [geometry/coord2d.js] is missing; a
    UV, "2 components only". *)
Record t := mk { x : Js.number; y : Js.number }.
End Coord2D.

Module RGBColor.
(** Modelled from the spec: [RGBColor] of [model/color.js] is missing; the
    three components of a color. *)
Record t := mk { r : Js.number; g : Js.number; b : Js.number }.
End RGBColor.

Module Line.
(** Modelled from the spec: [Line] of [model/line.js] is missing;
    "Line {ordered vertex indices, optional material index}". *)
Record t := mk { vertices : list nat; mat : option nat }.
Definition new (vertices : list nat) : t := mk vertices None.
End Line.

Module Triangle.
(** Modelled from the spec: [Triangle] of [model/triangle.js] is missing;
    "Triangle {v0, v1, v2, optional color/normal/uv triples, optional material
    index}", each setter assigning its triple. *)
Record t := mk {
  v0 : nat; v1 : nat; v2 : nat;
  colors : option (nat * nat * nat);
  normals : option (nat * nat * nat);
  uvs : option (nat * nat * nat);
  mat : option nat;
}.
Definition new (v0 v1 v2 : nat) : t := mk v0 v1 v2 None None None None.
Definition SetVertexColors (this : t) (c0 c1 c2 : nat) : t :=
  mk (v0 this) (v1 this) (v2 this) (Some (c0, c1, c2)) (normals this) (uvs this) (mat this).
Definition SetNormals (this : t) (n0 n1 n2 : nat) : t :=
  mk (v0 this) (v1 this) (v2 this) (colors this) (Some (n0, n1, n2)) (uvs this) (mat this).
Definition SetTextureUVs (this : t) (u0 u1 u2 : nat) : t :=
  mk (v0 this) (v1 this) (v2 this) (colors this) (normals this) (Some (u0, u1, u2)) (mat this).
Definition set_mat (this : t) (m : nat) : t :=
  mk (v0 this) (v1 this) (v2 this) (colors this) (normals this) (uvs this) (Some m).
End Triangle.

Module Mesh.
(** Modelled from the spec: [Mesh] of [model/mesh.js] is missing; "Vertex /
    Color / Normal / UV buffers (append-only, indexed)" with the triangles
    and lines built on them, "never resized except by append".  An [Add...]
    method appends its argument and answers the index it got, which is what
    [ObjMeshConverter] records as the mesh-local index. *)
Record t := mk {
  name : string;
  vertices : list Coord3D.t;
  vertexColors : list RGBColor.t;
  normals : list Coord3D.t;
  uvs : list Coord2D.t;
  lines : list Line.t;
  triangles : list Triangle.t;
}.
Definition new : t := mk "" [] [] [] [] [] [].
Definition SetName (this : t) (name : string) : t :=
  mk name (vertices this) (vertexColors this) (normals this) (uvs this)
     (lines this) (triangles this).
Definition AddVertex (vertex : Coord3D.t) (this : t) : nat * t :=
  (List.length (vertices this),
   mk (name this) (vertices this ++ [vertex]) (vertexColors this) (normals this)
      (uvs this) (lines this) (triangles this)).
Definition AddVertexColor (color : RGBColor.t) (this : t) : nat * t :=
  (List.length (vertexColors this),
   mk (name this) (vertices this) (vertexColors this ++ [color]) (normals this)
      (uvs this) (lines this) (triangles this)).
Definition AddNormal (normal : Coord3D.t) (this : t) : nat * t :=
  (List.length (normals this),
   mk (name this) (vertices this) (vertexColors this) (normals this ++ [normal])
      (uvs this) (lines this) (triangles this)).
Definition AddTextureUV (uv : Coord2D.t) (this : t) : nat * t :=
  (List.length (uvs this),
   mk (name this) (vertices this) (vertexColors this) (normals this)
      (uvs this ++ [uv]) (lines this) (triangles this)).
Definition AddLine (line : Line.t) (this : t) : t :=
  mk (name this) (vertices this) (vertexColors this) (normals this) (uvs this)
     (lines this ++ [line]) (triangles this).
Definition AddTriangle (triangle : Triangle.t) (this : t) : t :=
  mk (name this) (vertices this) (vertexColors this) (normals this) (uvs this)
     (lines this) (triangles this ++ [triangle]).
End Mesh.

Module TextureMap.
(** Modelled from the spec: [TextureMap] of [model/material.js] is missing;
    a texture has the name and the buffer of its file and an offset and a
    scale of "up to 2 floats" each. *)
Record t := mk {
  name : option string;
  buffer : JsData;
  offset_x : option Js.number;
  offset_y : option Js.number;
  scale_x : option Js.number;
  scale_y : option Js.number;
}.
Definition new : t := mk None null None None None None.
End TextureMap.

Module PhongMaterial.
(** Modelled from the spec: [PhongMaterial] of [model/material.js] is
    missing; the properties the material directives of the OBJ importer
    assign. *)
Record t := mk {
  name : option string;
  ambient : option RGBColor.t;
  color : option RGBColor.t;
  specular : option RGBColor.t;
  shininess : option Js.number;
  opacity : option Js.number;
  diffuseMap : option TextureMap.t;
  specularMap : option TextureMap.t;
  bumpMap : option TextureMap.t;
}.
Definition new : t := mk None None None None None None None None None.
End PhongMaterial.

(** ** importerobj.js: ObjMeshConverter *)

Module ObjMeshConverter.

Record t := mk {
  mesh : Mesh.t;
  globalToMeshVertices : gmap Z nat;
  globalToMeshVertexColors : gmap Z nat;
  globalToMeshNormals : gmap Z nat;
  globalToMeshUvs : gmap Z nat;
}.

Definition new (mesh : Mesh.t) : t := mk mesh ∅ ∅ ∅ ∅.

(** [GetMeshIndex].  [globalIndex] is [None] for [NaN] (and for
    [undefined], which [isNaN] treats alike); the look-up in
    [globalValueArray] answers [None] exactly when
    [globalIndex >= globalValueArray.length].  [valueAdderFunc] is a
    closure over the mesh, which is therefore passed along. *)
Definition GetMeshIndex {V : Type} (globalIndex : option Z)
    (globalValueArray : list V) (globalToMeshIndices : gmap Z nat)
    (valueAdderFunc : V -> Mesh.t -> nat * Mesh.t) (mesh : Mesh.t)
  : option nat * gmap Z nat * Mesh.t :=
  match globalIndex with
  | None => (None, globalToMeshIndices, mesh)
  | Some globalIndex =>
      if (globalIndex <? 0)%Z then (None, globalToMeshIndices, mesh)
      else
        match globalValueArray !! Z.to_nat globalIndex with
        | None => (None, globalToMeshIndices, mesh)
        | Some globalValue =>
            match globalToMeshIndices !! globalIndex with
            | Some meshIndex => (Some meshIndex, globalToMeshIndices, mesh)
            | None =>
                let '(meshIndex, mesh) := valueAdderFunc globalValue mesh in
                (Some meshIndex, <[globalIndex := meshIndex]> globalToMeshIndices, mesh)
            end
        end
  end.

Definition AddVertex (this : t) (globalIndex : option Z)
    (globalVertices : list Coord3D.t) : option nat * t :=
  let '(meshIndex, indices, mesh) :=
    GetMeshIndex globalIndex globalVertices (globalToMeshVertices this)
      (fun val => Mesh.AddVertex (Coord3D.mk (Coord3D.x val) (Coord3D.y val) (Coord3D.z val)))
      (mesh this) in
  (meshIndex,
   mk mesh indices (globalToMeshVertexColors this) (globalToMeshNormals this)
      (globalToMeshUvs this)).

Definition AddVertexColor (this : t) (globalIndex : option Z)
    (globalVertexColors : list RGBColor.t) : option nat * t :=
  let '(meshIndex, indices, mesh) :=
    GetMeshIndex globalIndex globalVertexColors (globalToMeshVertexColors this)
      (fun val => Mesh.AddVertexColor
                    (RGBColor.mk (RGBColor.r val) (RGBColor.g val) (RGBColor.b val)))
      (mesh this) in
  (meshIndex,
   mk mesh (globalToMeshVertices this) indices (globalToMeshNormals this)
      (globalToMeshUvs this)).

Definition AddNormal (this : t) (globalIndex : option Z)
    (globalNormals : list Coord3D.t) : option nat * t :=
  let '(meshIndex, indices, mesh) :=
    GetMeshIndex globalIndex globalNormals (globalToMeshNormals this)
      (fun val => Mesh.AddNormal (Coord3D.mk (Coord3D.x val) (Coord3D.y val) (Coord3D.z val)))
      (mesh this) in
  (meshIndex,
   mk mesh (globalToMeshVertices this) (globalToMeshVertexColors this) indices
      (globalToMeshUvs this)).

Definition AddUV (this : t) (globalIndex : option Z)
    (globalUvs : list Coord2D.t) : option nat * t :=
  let '(meshIndex, indices, mesh) :=
    GetMeshIndex globalIndex globalUvs (globalToMeshUvs this)
      (fun val => Mesh.AddTextureUV (Coord2D.mk (Coord2D.x val) (Coord2D.y val)))
      (mesh this) in
  (meshIndex,
   mk mesh (globalToMeshVertices this) (globalToMeshVertexColors this)
      (globalToMeshNormals this) indices).

Definition AddLine (this : t) (line : Line.t) : t :=
  mk (Mesh.AddLine line (mesh this)) (globalToMeshVertices this)
     (globalToMeshVertexColors this) (globalToMeshNormals this) (globalToMeshUvs this).

Definition AddTriangle (this : t) (triangle : Triangle.t) : t :=
  mk (Mesh.AddTriangle triangle (mesh this)) (globalToMeshVertices this)
     (globalToMeshVertexColors this) (globalToMeshNormals this) (globalToMeshUvs this).

End ObjMeshConverter.

(** ** importerobj.js: ImporterObj *)

(** The helpers the OBJ importer takes from [importerutils.js],
    [io/bufferutils.js], [model/color.js] and [core/localization.js], none of
    which is among the sources at hand: parameters of the development.
    [ReadLines] answers the lines its callback is called with, in order. *)
Class ImporterUtils := {
  ArrayBufferToUtf8String : JsData -> string;
  ReadLines : string -> list string;
  ParametersFromLine : string -> ascii -> list string;
  NameFromLine : string -> nat -> ascii -> string;
  UpdateMaterialTransparency : PhongMaterial.t -> PhongMaterial.t;
  RGBColorFromFloatComponents : Js.number -> Js.number -> Js.number -> RGBColor.t;
  Loc : string -> string;
}.

(** Loops that can [break] with an error message: a computation over a
    mutable state [S] answers the new state and either the message it broke
    with or its value. *)
Module Break.
Definition M (S A : Type) : Type := S -> S * (string + A).
Definition ret {S A} (a : A) : M S A := fun s => (s, inr a).
Definition fail {S A} (message : string) : M S A := fun s => (s, inl message).
Definition bind {S A B} (m : M S A) (k : A -> M S B) : M S B :=
  fun s => match m s with
           | (s, inr a) => k a s
           | (s, inl message) => (s, inl message)
           end.
Definition lift {S A} (f : S -> A * S) : M S A :=
  fun s => let '(a, s) := f s in (s, inr a).
Definition modify {S} (f : S -> S) : M S unit := fun s => (f s, inr tt).

(** [for (x of xs) body (x)], left when the body breaks. *)
Fixpoint for_each {S X} (body : X -> M S unit) (xs : list X) (s : S)
  : S * option string :=
  match xs with
  | [] => (s, None)
  | x :: xs =>
      match body x s with
      | (s, inr _) => for_each body xs s
      | (s, inl message) => (s, Some message)
      end
  end.
End Break.

Notation "'let*' x ':=' m 'in' k" := (Break.bind m (fun x => k))
  (at level 10, x name, m at level 100, k at level 200).
Notation "'let*' ' p ':=' m 'in' k" :=
  (Break.bind m (fun x => match x with p => k end))
  (at level 10, p pattern, m at level 100, k at level 200).

Module ImporterObj.
Section WithCallbacks.
Context `{ImporterUtils} {World : Type}.
(** [this.callbacks.getFileBuffer]: a closure over state of the caller. *)
Variable getFileBuffer : string -> World -> JsData * World.

(** The importer during one parse.  [error], [message] and the model belong
    to [ImporterBase] ([importerbase.js], not among the sources at hand):
    [SetError] raises the flag and keeps the message, [WasError] reads the
    flag.  The model is the list of its materials and the meshes of its root
    node.  A mesh is referenced both by the model and by its converter, and
    a converter both by [meshNameToConverter] and by
    [currentMeshConverter]: the converters, each holding its mesh, live in
    the store [converters] in creation order, and references to them are
    positions in it.  Likewise [currentMaterial] is a position in
    [materials]. *)
Record t := mk {
  error : bool;
  message : option string;
  materials : list PhongMaterial.t;
  globalVertices : list Coord3D.t;
  globalVertexColors : list RGBColor.t;
  globalNormals : list Coord3D.t;
  globalUvs : list Coord2D.t;
  converters : list ObjMeshConverter.t;
  currentMeshConverter : option nat;
  currentMaterial : option nat;
  currentMaterialIndex : option nat;
  meshNameToConverter : gmap string nat;
  materialNameToIndex : gmap string nat;
}.

(** The meshes of the model's root node. *)
Definition model_meshes (this : t) : list Mesh.t :=
  map ObjMeshConverter.mesh (converters this).

(** The importer as [Import] leaves it for [ImportContent]: no error, an
    empty model, and the fields [ResetContent] assigns. *)
Definition ResetContent : t :=
  mk false None [] [] [] [] [] [] None None None ∅ ∅.

(** Modelled from the spec: [SetError] of [ImporterBase] ([importerbase.js])
    is missing; it "flags the parse as failed" and keeps the message for
    [GetErrorMessage]. *)
Definition SetError (this : t) (message : string) : t :=
  mk true (Some message) (materials this) (globalVertices this)
     (globalVertexColors this) (globalNormals this) (globalUvs this)
     (converters this) (currentMeshConverter this) (currentMaterial this)
     (currentMaterialIndex this) (meshNameToConverter this) (materialNameToIndex this).

(** Modelled from the spec: [WasError] of [ImporterBase] ([importerbase.js])
    is missing; it reads the flag [SetError] raises. *)
Definition WasError (this : t) : bool := error this.

Definition with_materials (this : t) (materials : list PhongMaterial.t) : t :=
  mk (error this) (message this) materials (globalVertices this)
     (globalVertexColors this) (globalNormals this) (globalUvs this)
     (converters this) (currentMeshConverter this) (currentMaterial this)
     (currentMaterialIndex this) (meshNameToConverter this) (materialNameToIndex this).

Definition with_globals (this : t) (globalVertices : list Coord3D.t)
    (globalVertexColors : list RGBColor.t) (globalNormals : list Coord3D.t)
    (globalUvs : list Coord2D.t) : t :=
  mk (error this) (message this) (materials this) globalVertices
     globalVertexColors globalNormals globalUvs
     (converters this) (currentMeshConverter this) (currentMaterial this)
     (currentMaterialIndex this) (meshNameToConverter this) (materialNameToIndex this).

Definition with_converters (this : t) (converters : list ObjMeshConverter.t) : t :=
  mk (error this) (message this) (materials this) (globalVertices this)
     (globalVertexColors this) (globalNormals this) (globalUvs this)
     converters (currentMeshConverter this) (currentMaterial this)
     (currentMaterialIndex this) (meshNameToConverter this) (materialNameToIndex this).

Definition with_currentMeshConverter (this : t) (current : option nat) : t :=
  mk (error this) (message this) (materials this) (globalVertices this)
     (globalVertexColors this) (globalNormals this) (globalUvs this)
     (converters this) current (currentMaterial this)
     (currentMaterialIndex this) (meshNameToConverter this) (materialNameToIndex this).

Definition with_currentMaterialIndex (this : t) (index : option nat) : t :=
  mk (error this) (message this) (materials this) (globalVertices this)
     (globalVertexColors this) (globalNormals this) (globalUvs this)
     (converters this) (currentMeshConverter this) (currentMaterial this)
     index (meshNameToConverter this) (materialNameToIndex this).

(** [arr[i]]: [undefined] beyond the end. *)
Definition at_index (arr : list (option Z)) (i : nat) : option Z :=
  mjoin (arr !! i).

(** [parameters[i]], read where a test of [parameters.length] has made sure
    that it is there. *)
Definition param (parameters : list string) (i : nat) : string :=
  default EmptyString (parameters !! i).

Definition CreateColor (r g b : string) : RGBColor.t :=
  RGBColorFromFloatComponents (Js.parseFloat r) (Js.parseFloat g) (Js.parseFloat b).

Definition GetRelativeIndex (index : option Z) (count : nat) : option Z :=
  match index with
  | Some index =>
      if (0 <? index)%Z then Some (index - 1)%Z
      else Some (Z.of_nat count + index)%Z
  | None => None
  end.

Definition AddNewMesh (this : t) (name : string) : t :=
  match meshNameToConverter this !! name with
  | Some converter => with_currentMeshConverter this (Some converter)
  | None =>
      let mesh := Mesh.SetName Mesh.new name in
      let converter := List.length (converters this) in
      mk (error this) (message this) (materials this) (globalVertices this)
         (globalVertexColors this) (globalNormals this) (globalUvs this)
         (converters this ++ [ObjMeshConverter.new mesh]) (Some converter)
         (currentMaterial this) (currentMaterialIndex this)
         (<[name := converter]> (meshNameToConverter this)) (materialNameToIndex this)
  end.

(** The body of the loop of [ProcessLineCommand]. *)
Definition LineVertex (this : t) (parameter : string)
  : Break.M (ObjMeshConverter.t * list nat) unit :=
  (let vertexParams := Js.split "/" parameter in
   let vertexIndex :=
     GetRelativeIndex (vertexParams !! 0%nat ≫= Js.parseInt)
                      (List.length (globalVertices this)) in
   let* meshVertexIndex := Break.lift (fun '(converter, vertices) =>
     let '(meshVertexIndex, converter) :=
       ObjMeshConverter.AddVertex converter vertexIndex (globalVertices this) in
     (meshVertexIndex, (converter, vertices))) in
   match meshVertexIndex with
   | None => Break.fail "Invalid vertex index."
   | Some meshVertexIndex =>
       Break.modify (fun '(converter, vertices) =>
                       (converter, vertices ++ [meshVertexIndex]))
   end).

Definition ProcessLineCommand (this : t) (parameters : list string) : t :=
  let this :=
    match currentMeshConverter this with
    | None => AddNewMesh this EmptyString
    | Some _ => this
    end in
  match currentMeshConverter this with
  | Some current =>
      match converters this !! current with
      | Some converter =>
          let '((converter, vertices), broke) :=
            Break.for_each (LineVertex this) parameters (converter, []) in
          let line := Line.new vertices in
          let line :=
            match currentMaterialIndex this with
            | Some index => Line.mk (Line.vertices line) (Some index)
            | None => line
            end in
          let converter := ObjMeshConverter.AddLine converter line in
          let this := with_converters this (<[current := converter]> (converters this)) in
          match broke with
          | Some message => SetError this (Loc message)
          | None => this
          end
      | None => this (* a reference always points into the store *)
      end
  | None => this
  end.

(** The first loop of [ProcessFaceCommand]: the resolved global indices
    [(vertices, colors, normals, uvs)]. *)
Definition FaceIndices (this : t) (parameters : list string)
  : list (option Z) * list (option Z) * list (option Z) * list (option Z) :=
  fold_left
    (fun '(vertices, colors, normals, uvs) parameter =>
       let vertexParams := Js.split "/" parameter in
       let vertices :=
         vertices ++ [GetRelativeIndex (vertexParams !! 0%nat ≫= Js.parseInt)
                                       (List.length (globalVertices this))] in
       let colors :=
         if (List.length (globalVertices this) =? List.length (globalVertexColors this))%nat
         then colors ++ [GetRelativeIndex (vertexParams !! 0%nat ≫= Js.parseInt)
                                          (List.length (globalVertices this))]
         else colors in
       let uvs :=
         if (1 <? List.length vertexParams)%nat
            && (0 <? String.length (param vertexParams 1))%nat
         then uvs ++ [GetRelativeIndex (Js.parseInt (param vertexParams 1))
                                       (List.length (globalUvs this))]
         else uvs in
       let normals :=
         if (2 <? List.length vertexParams)%nat
            && (0 <? String.length (param vertexParams 2))%nat
         then normals ++ [GetRelativeIndex (Js.parseInt (param vertexParams 2))
                                           (List.length (globalNormals this))]
         else normals in
       (vertices, colors, normals, uvs))
    parameters ([], [], [], []).

Definition require3 {S} (a b c : option nat) (message : string)
  : Break.M S (nat * nat * nat) :=
  match a, b, c with
  | Some a, Some b, Some c => Break.ret (a, b, c)
  | _, _, _ => Break.fail message
  end.

(** The body of the second loop of [ProcessFaceCommand], for one [i]. *)
Definition FaceTriangle (this : t)
    (vertices colors normals uvs : list (option Z)) (i : nat)
  : Break.M ObjMeshConverter.t unit :=
  (let* v0 :=
     Break.lift (fun c => ObjMeshConverter.AddVertex c (at_index vertices 0)
                           (globalVertices this)) in
   let* v1 :=
     Break.lift (fun c => ObjMeshConverter.AddVertex c (at_index vertices (i + 1))
                           (globalVertices this)) in
   let* v2 :=
     Break.lift (fun c => ObjMeshConverter.AddVertex c (at_index vertices (i + 2))
                           (globalVertices this)) in
   let* '(v0, v1, v2) := require3 v0 v1 v2 "Invalid vertex index." in
   let triangle := Triangle.new v0 v1 v2 in
   let* triangle :=
     (if (List.length colors =? List.length vertices)%nat then
        let* c0 :=
          Break.lift (fun c => ObjMeshConverter.AddVertexColor c (at_index colors 0)
                                (globalVertexColors this)) in
        let* c1 :=
          Break.lift (fun c => ObjMeshConverter.AddVertexColor c (at_index colors (i + 1))
                                (globalVertexColors this)) in
        let* c2 :=
          Break.lift (fun c => ObjMeshConverter.AddVertexColor c (at_index colors (i + 2))
                                (globalVertexColors this)) in
        let* '(c0, c1, c2) := require3 c0 c1 c2 "Invalid vertex color index." in
        Break.ret (Triangle.SetVertexColors triangle c0 c1 c2)
      else Break.ret triangle) in
   let* triangle :=
     (if (List.length normals =? List.length vertices)%nat then
        let* n0 :=
          Break.lift (fun c => ObjMeshConverter.AddNormal c (at_index normals 0)
                                (globalNormals this)) in
        let* n1 :=
          Break.lift (fun c => ObjMeshConverter.AddNormal c (at_index normals (i + 1))
                                (globalNormals this)) in
        let* n2 :=
          Break.lift (fun c => ObjMeshConverter.AddNormal c (at_index normals (i + 2))
                                (globalNormals this)) in
        let* '(n0, n1, n2) := require3 n0 n1 n2 "Invalid normal index." in
        Break.ret (Triangle.SetNormals triangle n0 n1 n2)
      else Break.ret triangle) in
   let* triangle :=
     (if (List.length uvs =? List.length vertices)%nat then
        let* u0 :=
          Break.lift (fun c => ObjMeshConverter.AddUV c (at_index uvs 0)
                                (globalUvs this)) in
        let* u1 :=
          Break.lift (fun c => ObjMeshConverter.AddUV c (at_index uvs (i + 1))
                                (globalUvs this)) in
        let* u2 :=
          Break.lift (fun c => ObjMeshConverter.AddUV c (at_index uvs (i + 2))
                                (globalUvs this)) in
        let* '(u0, u1, u2) := require3 u0 u1 u2 "Invalid uv index." in
        Break.ret (Triangle.SetTextureUVs triangle u0 u1 u2)
      else Break.ret triangle) in
   let triangle :=
     match currentMaterialIndex this with
     | Some index => Triangle.set_mat triangle index
     | None => triangle
     end in
   Break.modify (fun c => ObjMeshConverter.AddTriangle c triangle)).

Definition ProcessFaceCommand (this : t) (parameters : list string) : t :=
  let this :=
    match currentMeshConverter this with
    | None => AddNewMesh this EmptyString
    | Some _ => this
    end in
  let '(vertices, colors, normals, uvs) := FaceIndices this parameters in
  match currentMeshConverter this with
  | Some current =>
      match converters this !! current with
      | Some converter =>
          let '(converter, broke) :=
            Break.for_each (FaceTriangle this vertices colors normals uvs)
                           (seq 0 (List.length vertices - 2)) converter in
          let this := with_converters this (<[current := converter]> (converters this)) in
          match broke with
          | Some message => SetError this (Loc message)
          | None => this
          end
      | None => this (* a reference always points into the store *)
      end
  | None => this
  end.

Definition ProcessMeshParameter (this : t) (keyword : string)
    (parameters : list string) (line : string) : bool * t :=
  if decide (keyword = "g" \/ keyword = "o") then
    if (List.length parameters =? 0)%nat then (true, this)
    else
      let name := NameFromLine line (String.length keyword) "#" in
      (true, AddNewMesh this name)
  else if decide (keyword = "v") then
    if (List.length parameters <? 3)%nat then (true, this)
    else
      let vertex :=
        Coord3D.mk (Js.parseFloat (param parameters 0))
                   (Js.parseFloat (param parameters 1))
                   (Js.parseFloat (param parameters 2)) in
      let colors :=
        if (6 <=? List.length parameters)%nat
        then globalVertexColors this
               ++ [CreateColor (param parameters 3) (param parameters 4)
                               (param parameters 5)]
        else globalVertexColors this in
      (true, with_globals this (globalVertices this ++ [vertex]) colors
               (globalNormals this) (globalUvs this))
  else if decide (keyword = "vn") then
    if (List.length parameters <? 3)%nat then (true, this)
    else
      let normal :=
        Coord3D.mk (Js.parseFloat (param parameters 0))
                   (Js.parseFloat (param parameters 1))
                   (Js.parseFloat (param parameters 2)) in
      (true, with_globals this (globalVertices this) (globalVertexColors this)
               (globalNormals this ++ [normal]) (globalUvs this))
  else if decide (keyword = "vt") then
    if (List.length parameters <? 2)%nat then (true, this)
    else
      let uv :=
        Coord2D.mk (Js.parseFloat (param parameters 0))
                   (Js.parseFloat (param parameters 1)) in
      (true, with_globals this (globalVertices this) (globalVertexColors this)
               (globalNormals this) (globalUvs this ++ [uv]))
  else if decide (keyword = "l") then
    if (List.length parameters <? 2)%nat then (true, this)
    else (false, ProcessLineCommand this parameters)
  else if decide (keyword = "f") then
    if (List.length parameters <? 3)%nat then (true, this)
    else (true, ProcessFaceCommand this parameters)
  else (false, this).

(** [ExtractTextureParameters], local to [ProcessMaterialParameter]. *)
Definition ExtractTextureParameters (parameters : list string)
  : gmap string (list string) :=
  fst (fold_left
         (fun '(textureParameters, lastParameter) parameter =>
            if String.prefix "-" parameter
            then (<[parameter := []]> textureParameters, Some parameter)
            else
              match lastParameter with
              | Some last =>
                  (alter (fun values => values ++ [parameter]) last textureParameters,
                   lastParameter)
              | None => (textureParameters, lastParameter)
              end)
         (take (List.length parameters - 1) parameters)
         ((∅ : gmap string (list string)), (None : option string))).

(** [CreateTexture], local to [ProcessMaterialParameter]. *)
Definition CreateTexture (parameters : list string) (w : World)
  : TextureMap.t * World :=
  let textureName := param parameters (List.length parameters - 1) in
  let '(textureBuffer, w) := getFileBuffer textureName w in
  let textureParameters := ExtractTextureParameters parameters in
  let '(offset_x, offset_y) :=
    match textureParameters !! "-o" with
    | Some offsetParameters =>
        (Js.parseFloat <$> offsetParameters !! 0%nat,
         Js.parseFloat <$> offsetParameters !! 1%nat)
    | None => (None, None)
    end in
  let '(scale_x, scale_y) :=
    match textureParameters !! "-s" with
    | Some scaleParameters =>
        (Js.parseFloat <$> scaleParameters !! 0%nat,
         Js.parseFloat <$> scaleParameters !! 1%nat)
    | None => (None, None)
    end in
  (TextureMap.mk (Some textureName) textureBuffer offset_x offset_y scale_x scale_y, w).

(** An assignment to a field of [this.currentMaterial], which is the
    material object the model holds at that position. *)
Definition update_material (this : t) (current : nat)
    (f : PhongMaterial.t -> PhongMaterial.t) : t :=
  with_materials this (alter f current (materials this)).

Definition set_diffuseMap (texture : TextureMap.t) (m : PhongMaterial.t) :=
  PhongMaterial.mk (PhongMaterial.name m) (PhongMaterial.ambient m) (PhongMaterial.color m)
    (PhongMaterial.specular m) (PhongMaterial.shininess m) (PhongMaterial.opacity m)
    (Some texture) (PhongMaterial.specularMap m) (PhongMaterial.bumpMap m).
Definition set_specularMap (texture : TextureMap.t) (m : PhongMaterial.t) :=
  PhongMaterial.mk (PhongMaterial.name m) (PhongMaterial.ambient m) (PhongMaterial.color m)
    (PhongMaterial.specular m) (PhongMaterial.shininess m) (PhongMaterial.opacity m)
    (PhongMaterial.diffuseMap m) (Some texture) (PhongMaterial.bumpMap m).
Definition set_bumpMap (texture : TextureMap.t) (m : PhongMaterial.t) :=
  PhongMaterial.mk (PhongMaterial.name m) (PhongMaterial.ambient m) (PhongMaterial.color m)
    (PhongMaterial.specular m) (PhongMaterial.shininess m) (PhongMaterial.opacity m)
    (PhongMaterial.diffuseMap m) (PhongMaterial.specularMap m) (Some texture).
Definition set_ambient (c : RGBColor.t) (m : PhongMaterial.t) :=
  PhongMaterial.mk (PhongMaterial.name m) (Some c) (PhongMaterial.color m)
    (PhongMaterial.specular m) (PhongMaterial.shininess m) (PhongMaterial.opacity m)
    (PhongMaterial.diffuseMap m) (PhongMaterial.specularMap m) (PhongMaterial.bumpMap m).
Definition set_color (c : RGBColor.t) (m : PhongMaterial.t) :=
  PhongMaterial.mk (PhongMaterial.name m) (PhongMaterial.ambient m) (Some c)
    (PhongMaterial.specular m) (PhongMaterial.shininess m) (PhongMaterial.opacity m)
    (PhongMaterial.diffuseMap m) (PhongMaterial.specularMap m) (PhongMaterial.bumpMap m).
Definition set_specular (c : RGBColor.t) (m : PhongMaterial.t) :=
  PhongMaterial.mk (PhongMaterial.name m) (PhongMaterial.ambient m) (PhongMaterial.color m)
    (Some c) (PhongMaterial.shininess m) (PhongMaterial.opacity m)
    (PhongMaterial.diffuseMap m) (PhongMaterial.specularMap m) (PhongMaterial.bumpMap m).
Definition set_shininess (v : Js.number) (m : PhongMaterial.t) :=
  PhongMaterial.mk (PhongMaterial.name m) (PhongMaterial.ambient m) (PhongMaterial.color m)
    (PhongMaterial.specular m) (Some v) (PhongMaterial.opacity m)
    (PhongMaterial.diffuseMap m) (PhongMaterial.specularMap m) (PhongMaterial.bumpMap m).
Definition set_opacity (v : Js.number) (m : PhongMaterial.t) :=
  PhongMaterial.mk (PhongMaterial.name m) (PhongMaterial.ambient m) (PhongMaterial.color m)
    (PhongMaterial.specular m) (PhongMaterial.shininess m) (Some v)
    (PhongMaterial.diffuseMap m) (PhongMaterial.specularMap m) (PhongMaterial.bumpMap m).
Definition set_name (name : string) (m : PhongMaterial.t) :=
  PhongMaterial.mk (Some name) (PhongMaterial.ambient m) (PhongMaterial.color m)
    (PhongMaterial.specular m) (PhongMaterial.shininess m) (PhongMaterial.opacity m)
    (PhongMaterial.diffuseMap m) (PhongMaterial.specularMap m) (PhongMaterial.bumpMap m).

(** The callback both [ImportContent] and [mtllib] give to [ReadLines]:
  [line => { if (!this.WasError ()) this.ProcessLine (line) }].  [None] is a
  line that did not finish. *)
Definition guarded_line (ProcessLine : string -> t * World -> option (t * World))
    (s : option (t * World)) (line : string) : option (t * World) :=
  s ← s;
  if negb (WasError (fst s)) then ProcessLine line s else Some s.

Definition ReadLines_guarded (ProcessLine : string -> t * World -> option (t * World))
    (textContent : string) (s : t * World) : option (t * World) :=
  fold_left (guarded_line ProcessLine) (ReadLines textContent) (Some s).

(** [ProcessMaterialParameter], given the line processor that [mtllib]
      calls back. *)
Definition ProcessMaterialParameter
    (ProcessLine : string -> t * World -> option (t * World))
    (keyword : string) (parameters : list string) (line : string)
    (s : t * World) : option (bool * (t * World)) :=
  let '(this, w) := s in
  if decide (keyword = "newmtl") then
    if (List.length parameters =? 0)%nat then Some (true, s)
    else
      let material := PhongMaterial.new in
      let materialName := NameFromLine line (String.length keyword) "#" in
      let materialIndex := List.length (materials this) in
      let material := set_name materialName material in
      Some (true,
            (mk (error this) (message this) (materials this ++ [material])
                (globalVertices this) (globalVertexColors this) (globalNormals this)
                (globalUvs this) (converters this) (currentMeshConverter this)
                (Some materialIndex) (currentMaterialIndex this)
                (meshNameToConverter this)
                (<[materialName := materialIndex]> (materialNameToIndex this)), w))
  else if decide (keyword = "usemtl") then
    if (List.length parameters =? 0)%nat then Some (true, s)
    else
      let materialName := NameFromLine line (String.length keyword) "#" in
      match materialNameToIndex this !! materialName with
      | Some index => Some (true, (with_currentMaterialIndex this (Some index), w))
      | None => Some (true, s)
      end
  else if decide (keyword = "mtllib") then
    if (List.length parameters =? 0)%nat then Some (true, s)
    else
      let fileName := NameFromLine line (String.length keyword) "#" in
      let '(fileBuffer, w) := getFileBuffer fileName w in
      if negb (is_null fileBuffer) then
        let textContent := ArrayBufferToUtf8String fileBuffer in
        s ← ReadLines_guarded ProcessLine textContent (this, w);
        Some (true, s)
      else Some (true, (this, w))
  else if decide (keyword = "map_kd") then
    match currentMaterial this with
    | Some current =>
        if (List.length parameters =? 0)%nat then Some (true, s)
        else
          let '(texture, w) := CreateTexture parameters w in
          let this := update_material this current (set_diffuseMap texture) in
          Some (true, (update_material this current UpdateMaterialTransparency, w))
    | None => Some (true, s)
    end
  else if decide (keyword = "map_ks") then
    match currentMaterial this with
    | Some current =>
        if (List.length parameters =? 0)%nat then Some (true, s)
        else
          let '(texture, w) := CreateTexture parameters w in
          Some (true, (update_material this current (set_specularMap texture), w))
    | None => Some (true, s)
    end
  else if decide (keyword = "map_bump" \/ keyword = "bump") then
    match currentMaterial this with
    | Some current =>
        if (List.length parameters =? 0)%nat then Some (true, s)
        else
          let '(texture, w) := CreateTexture parameters w in
          Some (true, (update_material this current (set_bumpMap texture), w))
    | None => Some (true, s)
    end
  else if decide (keyword = "ka") then
    match currentMaterial this with
    | Some current =>
        if (List.length parameters <? 3)%nat then Some (true, s)
        else
          let c := CreateColor (param parameters 0) (param parameters 1) (param parameters 2) in
          Some (true, (update_material this current (set_ambient c), w))
    | None => Some (true, s)
    end
  else if decide (keyword = "kd") then
    match currentMaterial this with
    | Some current =>
        if (List.length parameters <? 3)%nat then Some (true, s)
        else
          let c := CreateColor (param parameters 0) (param parameters 1) (param parameters 2) in
          Some (true, (update_material this current (set_color c), w))
    | None => Some (true, s)
    end
  else if decide (keyword = "ks") then
    match currentMaterial this with
    | Some current =>
        if (List.length parameters <? 3)%nat then Some (true, s)
        else
          let c := CreateColor (param parameters 0) (param parameters 1) (param parameters 2) in
          Some (true, (update_material this current (set_specular c), w))
    | None => Some (true, s)
    end
  else if decide (keyword = "ns") then
    match currentMaterial this with
    | Some current =>
        if (List.length parameters <? 1)%nat then Some (true, s)
        else
          let v := Js.div (Js.parseFloat (param parameters 0)) (Js.literal "1000.0") in
          Some (true, (update_material this current (set_shininess v), w))
    | None => Some (true, s)
    end
  else if decide (keyword = "tr") then
    match currentMaterial this with
    | Some current =>
        if (List.length parameters <? 1)%nat then Some (true, s)
        else
          let v := Js.sub (Js.literal "1.0") (Js.parseFloat (param parameters 0)) in
          let this := update_material this current (set_opacity v) in
          Some (true, (update_material this current UpdateMaterialTransparency, w))
    | None => Some (true, s)
    end
  else if decide (keyword = "d") then
    match currentMaterial this with
    | Some current =>
        if (List.length parameters <? 1)%nat then Some (true, s)
        else
          let v := Js.parseFloat (param parameters 0) in
          let this := update_material this current (set_opacity v) in
          Some (true, (update_material this current UpdateMaterialTransparency, w))
    | None => Some (true, s)
    end
  else Some (false, s).

(** [ProcessLine].  A [mtllib] directive processes the lines of another
    file with [ProcessLine] itself, and nothing bounds the nesting (a
    library can name itself): [fuel] bounds it here, and [None] is a
    nesting deeper than that. *)
Fixpoint ProcessLine (fuel : nat) (line : string) (s : t * World)
  : option (t * World) :=
  match fuel with
  | O => None
  | S fuel =>
      if bool_decide (String.get 0 line = Some "#"%char) then Some s
      else
        let parameters := ParametersFromLine line "#" in
        match parameters with
        | [] => Some s
        | first :: parameters =>
            let keyword := Js.toLowerCase first in
            let '(handled, this) :=
              ProcessMeshParameter (fst s) keyword parameters line in
            if handled then Some (this, snd s)
            else
              r ← ProcessMaterialParameter (ProcessLine fuel) keyword parameters
                    line (this, snd s);
              Some (snd r)
        end
  end.

Definition ImportContent (fuel : nat) (fileContent : JsData) (s : t * World)
  : option (t * World) :=
  let textContent := ArrayBufferToUtf8String fileContent in
  ReadLines_guarded (ProcessLine fuel) textContent s.

End WithCallbacks.
End ImporterObj.

(** ** Executable stand-ins for the helpers that are parameters above *)

Module SpecModel.

Fixpoint contains_char (c : ascii) (s : string) : bool :=
  match s with
  | EmptyString => false
  | String d rest => Ascii.eqb c d || contains_char c rest
  end.

(** The text after the last occurrence of [c] (all of it when there is
    none). *)
Fixpoint after_last (c : ascii) (s : string) : string :=
  match s with
  | EmptyString => EmptyString
  | String d rest =>
      if contains_char c s then
        (if Ascii.eqb c d && negb (contains_char c rest) then rest
         else after_last c rest)
      else s
  end.

(** The text before the first occurrence of [c]. *)
Fixpoint before_first (c : ascii) (s : string) : string :=
  match s with
  | EmptyString => EmptyString
  | String d rest => if Ascii.eqb c d then EmptyString else String d (before_first c rest)
  end.

Fixpoint drop_string (n : nat) (s : string) : string :=
  match n, s with
  | S n, String _ rest => drop_string n rest
  | _, _ => s
  end.

Fixpoint all_space (s : string) : bool :=
  match s with
  | EmptyString => true
  | String c rest => Js.is_space c && all_space rest
  end.

Fixpoint trim_end (s : string) : string :=
  match s with
  | EmptyString => EmptyString
  | String c rest => if all_space s then EmptyString else String c (trim_end rest)
  end.

Definition trim (s : string) : string := trim_end (Js.skip_spaces s).

(** The maximal runs of characters that are not white space. *)
Fixpoint tokens_from (s : string) (current : string) : list string :=
  let flush := match current with EmptyString => [] | _ => [current] end in
  match s with
  | EmptyString => flush
  | String c rest =>
      if Js.is_space c then flush ++ tokens_from rest EmptyString
      else tokens_from rest (current +:+ String c EmptyString)
  end.

(** Modelled from the spec: [GetFileName] of [io/fileutils.js] is not among
    the sources at hand; the specification has it answer "the file's base
    name (path component stripped)". *)
Definition GetFileName (filePath : string) : string := after_last "/" filePath.

(** Modelled from the spec: [GetFileExtension] of [io/fileutils.js] is not
    among the sources at hand; the specification has the extension "derived
    from name", and the importers compare it with lower-case literals. *)
Definition GetFileExtension (filePath : string) : string :=
  let fileName := GetFileName filePath in
  if contains_char "." fileName then Js.toLowerCase (after_last "." fileName)
  else EmptyString.

(** Modelled from the spec: [RequestUrl] and [ReadFile] of
    [io/fileutils.js] are the "external I/O collaborator (URL fetch or local
    read)"; here every URL and every file handle resolves to a buffer that
    holds its own name. *)
Definition load (data : JsData) : option JsData :=
  match data with
  | UrlString url => Some (ArrayBuffer url)
  | FileObject handle => Some (ArrayBuffer handle)
  | _ => None
  end.

#[global] Instance fileUtils : FileUtils :=
  Build_FileUtils GetFileName GetFileExtension load load.

(** Modelled from the spec: [ReadLines] of [importerutils.js] is not among
    the sources at hand; the parser is "line-oriented" and skips blank
    lines. *)
Definition ReadLines (text : string) : list string :=
  filter (fun line => line <> EmptyString) (map trim (Js.split "010" text)).

(** Modelled from the spec: [ParametersFromLine] of [importerutils.js] is
    not among the sources at hand; the specification has it "strip anything
    from the first # onward, tokenize remaining text on whitespace". *)
Definition ParametersFromLine (line : string) (commentChar : ascii) : list string :=
  tokens_from (before_first commentChar line) EmptyString.

(** Modelled from the spec: [NameFromLine] of [importerutils.js] is not
    among the sources at hand; a name is the rest of the line after the
    keyword, without the comment and the surrounding white space. *)
Definition NameFromLine (line : string) (startIndex : nat) (commentChar : ascii)
  : string :=
  trim (before_first commentChar (drop_string startIndex line)).

(** Modelled from the spec: [ArrayBufferToUtf8String] of
    [io/bufferutils.js] is not among the sources at hand; a buffer is kept
    as the text it decodes to. *)
Definition ArrayBufferToUtf8String (buffer : JsData) : string :=
  match buffer with
  | ArrayBuffer text => text
  | _ => EmptyString
  end.

#[global] Instance importerUtils : ImporterUtils :=
  Build_ImporterUtils ArrayBufferToUtf8String ReadLines ParametersFromLine
      NameFromLine (fun material => material) RGBColor.mk (fun text => text).

(** A line feed, and texts given line by line. *)
Definition lf : string := String "010" EmptyString.

Definition text_of_lines (lines : list string) : string :=
  String.concat lf lines.

End SpecModel.


(** ** Vocabulary of the specification *)

Section FileListVocabulary.
Context `{FileUtils}.

(** The name a file is compared by. *)
Definition lower_name (file : ImporterFile.t) : string :=
  Js.toLowerCase (ImporterFile.name file).

(** "Unique by case-insensitive name". *)
Definition unique_names (fileList : ImporterFileList.t) : Prop :=
  NoDup (map lower_name (ImporterFileList.files fileList)).

(** A file of the list answers to [filePath], compared the way
    [FindFileByPath] compares. *)
Definition has_name (fileList : ImporterFileList.t) (filePath : string) : Prop :=
  exists file, file ∈ ImporterFileList.files fileList
               /\ lower_name file = Js.toLowerCase (GetFileName filePath).

(** The name of the file is a base name already: [GetFileName] leaves it
    alone. *)
Definition normalised (name : string) : Prop := GetFileName name = name.

(** Some registered importer accepts the extension of the file. *)
Definition importable (importers : list FormatImporter) (file : ImporterFile.t) : Prop :=
  exists importer, importer ∈ importers
                   /\ CanImportExtension importer (ImporterFile.extension file) = true.
(** One step of the loop of [ExtendFromFileList]. *)
Definition extend_step (this : ImporterFileList.t) (file : ImporterFile.t)
  : ImporterFileList.t :=
  if negb (ImporterFileList.ContainsFileByPath this (ImporterFile.name file))
  then ImporterFileList.mk (ImporterFileList.files this ++ [file])
  else this.

(** The archive used in the examples: it holds two entries whose base names
    differ in case only. *)
Definition example_unzipSync (content : JsData) : list (string * string) :=
  [("textures/wood.png", "png-bytes-1"); ("alt/WOOD.PNG", "png-bytes-2")].

Definition objImporter : FormatImporter :=
  {| formatName := "obj"; CanImportExtension := fun extension => String.eqb extension "obj" |}.

Definition fbxImporter : FormatImporter :=
  {| formatName := "fbx"; CanImportExtension := fun extension => String.eqb extension "fbx" |}.

End FileListVocabulary.

(** What holds of the bookkeeping while requests go through an accessor over
    [Importer.getBufferCallback]: every recorded name is in the cache, and no
    name is recorded twice. *)
Definition recorded_once `{FileUtils} (mainName : string)
    (st : ImporterFileAccessor.t Importer.t * Importer.t) : Prop :=
  ImporterFileAccessor.getBufferCallback (fst st) = Importer.getBufferCallback
  /\ exists used,
      Importer.usedFiles (snd st) = mainName :: used
      /\ NoDup (used ++ Importer.missingFiles (snd st))
      /\ forall name, name ∈ used ++ Importer.missingFiles (snd st) ->
                      is_Some (ImporterFileAccessor.fileBuffers (fst st) !! name).

(** An index that resolves inside [[0, count)]. *)
Definition in_range (globalIndex : option Z) (count : nat) : bool :=
  match globalIndex with
  | Some globalIndex => (0 <=? globalIndex)%Z && (globalIndex <? Z.of_nat count)%Z
  | None => false
  end.

(** The four attribute kinds of a mesh converter, with the type of their
    values, their index map, their buffer in the mesh and their [Add...]
    method. *)
Inductive AttributeKind := Vertices | VertexColors | Normals | Uvs.

Global Instance AttributeKind_eq_dec : EqDecision AttributeKind.
Proof. solve_decision. Defined.

Definition attribute (kind : AttributeKind) : Type :=
  match kind with
  | Vertices => Coord3D.t
  | VertexColors => RGBColor.t
  | Normals => Coord3D.t
  | Uvs => Coord2D.t
  end.

Definition index_map (kind : AttributeKind) (converter : ObjMeshConverter.t)
  : gmap Z nat :=
  match kind with
  | Vertices => ObjMeshConverter.globalToMeshVertices converter
  | VertexColors => ObjMeshConverter.globalToMeshVertexColors converter
  | Normals => ObjMeshConverter.globalToMeshNormals converter
  | Uvs => ObjMeshConverter.globalToMeshUvs converter
  end.

Definition buffer (kind : AttributeKind) (mesh : Mesh.t) : list (attribute kind) :=
  match kind with
  | Vertices => Mesh.vertices mesh
  | VertexColors => Mesh.vertexColors mesh
  | Normals => Mesh.normals mesh
  | Uvs => Mesh.uvs mesh
  end.

Definition add (kind : AttributeKind)
  : ObjMeshConverter.t -> option Z -> list (attribute kind)
    -> option nat * ObjMeshConverter.t :=
  match kind with
  | Vertices => ObjMeshConverter.AddVertex
  | VertexColors => ObjMeshConverter.AddVertexColor
  | Normals => ObjMeshConverter.AddNormal
  | Uvs => ObjMeshConverter.AddUV
  end.

(** The index maps of the second converter hold what those of the first
    hold. *)
Definition grows (converter converter' : ObjMeshConverter.t) : Prop :=
  forall kind, index_map kind converter ⊆ index_map kind converter'.

(** Anything that can be asked of a converter, and a series of such calls. *)
Inductive ConverterCall :=
| CallAdd (kind : AttributeKind) (globalIndex : option Z) (globalValues : list (attribute kind))
| CallAddLine (line : Line.t)
| CallAddTriangle (triangle : Triangle.t).

Definition call (converter : ObjMeshConverter.t) (c : ConverterCall)
  : ObjMeshConverter.t :=
  match c with
  | CallAdd kind globalIndex globalValues => snd (add kind converter globalIndex globalValues)
  | CallAddLine line => ObjMeshConverter.AddLine converter line
  | CallAddTriangle triangle => ObjMeshConverter.AddTriangle converter triangle
  end.

Definition calls (converter : ObjMeshConverter.t) (cs : list ConverterCall)
  : ObjMeshConverter.t :=
  fold_left call cs converter.

(** The first statement of [ProcessFaceCommand] and [ProcessLineCommand]:
    a mesh without a name is begun when there is no current mesh. *)
Definition prepare (this : ImporterObj.t) : ImporterObj.t :=
  match ImporterObj.currentMeshConverter this with
  | None => ImporterObj.AddNewMesh this EmptyString
  | Some _ => this
  end.

(** The global indices one reference [vertex[/uv][/normal]] of a face
    resolves to; [None] for an absent or empty slot. *)
Definition face_vertex_index (this : ImporterObj.t) (parameter : string) : option Z :=
  ImporterObj.GetRelativeIndex (Js.split "/" parameter !! 0%nat ≫= Js.parseInt)
                               (List.length (ImporterObj.globalVertices this)).

Definition face_uv_index (this : ImporterObj.t) (parameter : string)
  : option (option Z) :=
  let vertexParams := Js.split "/" parameter in
  if (1 <? List.length vertexParams)%nat
     && (0 <? String.length (ImporterObj.param vertexParams 1))%nat
  then Some (ImporterObj.GetRelativeIndex (Js.parseInt (ImporterObj.param vertexParams 1))
                                          (List.length (ImporterObj.globalUvs this)))
  else None.

Definition face_normal_index (this : ImporterObj.t) (parameter : string)
  : option (option Z) :=
  let vertexParams := Js.split "/" parameter in
  if (2 <? List.length vertexParams)%nat
     && (0 <? String.length (ImporterObj.param vertexParams 2))%nat
  then Some (ImporterObj.GetRelativeIndex (Js.parseInt (ImporterObj.param vertexParams 2))
                                          (List.length (ImporterObj.globalNormals this)))
  else None.

(** The three [Add...] calls one triangle of the fan makes for one attribute
    kind, and the three mesh-local indices when none of them is [null]. *)
Definition add_three (kind : AttributeKind) (indices : list (option Z))
    (values : list (attribute kind)) (i : nat) (converter : ObjMeshConverter.t)
  : ObjMeshConverter.t * option (nat * nat * nat) :=
  let '(a, converter) := add kind converter (ImporterObj.at_index indices 0) values in
  let '(b, converter) := add kind converter (ImporterObj.at_index indices (i + 1)) values in
  let '(c, converter) := add kind converter (ImporterObj.at_index indices (i + 2)) values in
  (converter,
   match a, b, c with
   | Some a, Some b, Some c => Some (a, b, c)
   | _, _, _ => None
   end).

(** The mesh-local index a converter has for the [j]-th resolved index. *)
Definition local_index (kind : AttributeKind) (converter : ObjMeshConverter.t)
    (indices : list (option Z)) (j : nat) : option nat :=
  ImporterObj.at_index indices j ≫= (fun g => index_map kind converter !! g).

(** [triangle] is the [i]-th triangle of the fan over the vertex references
    [vertices]: its corners are the mesh-local indices of the references
    [0], [i + 1] and [i + 2]. *)
Definition fan_triangle (converter : ObjMeshConverter.t) (vertices : list (option Z))
    (i : nat) (triangle : Triangle.t) : Prop :=
  local_index Vertices converter vertices 0 = Some (Triangle.v0 triangle)
  /\ local_index Vertices converter vertices (i + 1) = Some (Triangle.v1 triangle)
  /\ local_index Vertices converter vertices (i + 2) = Some (Triangle.v2 triangle).

(** The attribute triples of [triangle] are present exactly for the kinds
    that have as many references as there are vertex references. *)
Definition attributes_all_or_nothing (vertices colors normals uvs : list (option Z))
    (triangle : Triangle.t) : Prop :=
  (is_Some (Triangle.colors triangle) <-> List.length colors = List.length vertices)
  /\ (is_Some (Triangle.normals triangle) <-> List.length normals = List.length vertices)
  /\ (is_Some (Triangle.uvs triangle) <-> List.length uvs = List.length vertices).

(** All indices of an attribute kind resolve in range when the kind is
    attached, that is, has as many references as there are vertices. *)
Definition attached_in_range (indices vertices : list (option Z)) (count : nat) : Prop :=
  List.length indices = List.length vertices ->
  Forall (fun index => in_range index count = true) indices.

(** Why the [i]-th triangle of a fan is given up: one of its three vertex
    indices, or one of its three indices of an attached attribute kind, is
    out of range. *)
Definition broken_by (this : ImporterObj.t) (vertices colors normals uvs : list (option Z))
    (i : nat) : Prop :=
  let bad (indices : list (option Z)) (count : nat) :=
    in_range (ImporterObj.at_index indices 0) count = false
    \/ in_range (ImporterObj.at_index indices (i + 1)) count = false
    \/ in_range (ImporterObj.at_index indices (i + 2)) count = false in
  bad vertices (List.length (ImporterObj.globalVertices this))
  \/ (List.length colors = List.length vertices
      /\ bad colors (List.length (ImporterObj.globalVertexColors this)))
  \/ (List.length normals = List.length vertices
      /\ bad normals (List.length (ImporterObj.globalNormals this)))
  \/ (List.length uvs = List.length vertices
      /\ bad uvs (List.length (ImporterObj.globalUvs this))).

(** What is known of the triangle emitted for the [i]-th step of the fan. *)
Definition emitted (this : ImporterObj.t) (vertices colors normals uvs : list (option Z))
    (converter : ObjMeshConverter.t) (i : nat) (triangle : Triangle.t) : Prop :=
  fan_triangle converter vertices i triangle
  /\ attributes_all_or_nothing vertices colors normals uvs triangle
  /\ Triangle.mat triangle = ImporterObj.currentMaterialIndex this
  /\ in_range (ImporterObj.at_index vertices 0)
              (List.length (ImporterObj.globalVertices this)) = true
  /\ in_range (ImporterObj.at_index vertices (i + 1))
              (List.length (ImporterObj.globalVertices this)) = true
  /\ in_range (ImporterObj.at_index vertices (i + 2))
              (List.length (ImporterObj.globalVertices this)) = true.

(** The states of a parse: the importer as [ResetContent] leaves it, and what
    [ProcessLine] makes of such a state. *)
Inductive parsing `{ImporterUtils} {World : Type}
    (getFileBuffer : string -> World -> JsData * World)
  : ImporterObj.t * World -> Prop :=
| parsing_start (w : World) : parsing getFileBuffer (ImporterObj.ResetContent, w)
| parsing_line (fuel : nat) (line : string) (s s' : ImporterObj.t * World) :
  parsing getFileBuffer s ->
  ImporterObj.ProcessLine getFileBuffer fuel line s = Some s' ->
  parsing getFileBuffer s'.

(** No material name is registered before a material is current. *)
Definition no_material_yet (this : ImporterObj.t) : Prop :=
  ImporterObj.currentMaterial this = None -> ImporterObj.materialNameToIndex this = ∅.

(** The inputs of the examples: a callback that finds no file, and the
    importer after the lines of a text. *)
Definition noFiles (fileName : string) (w : unit) : JsData * unit := (null, w).

Definition after_lines (lines : list string) : ImporterObj.t :=
  match ImporterObj.ImportContent noFiles 1
          (ArrayBuffer (SpecModel.text_of_lines lines)) (ImporterObj.ResetContent, tt) with
  | Some (this, _) => this
  | None => ImporterObj.ResetContent
  end.

Definition three_vertices : list string := ["v 0 0 0"; "v 1 0 0"; "v 1 1 0"].

Definition four_vertices : list string := ["v 0 0 0"; "v 1 0 0"; "v 1 1 0"; "v 0 1 0"].

(** The corners of the triangles of every mesh of the model. *)
Definition corners (this : ImporterObj.t) : list (list (nat * nat * nat)) :=
  map (fun mesh =>
         map (fun triangle =>
                (Triangle.v0 triangle, Triangle.v1 triangle, Triangle.v2 triangle))
             (Mesh.triangles mesh))
      (ImporterObj.model_meshes this).

(** An orchestrator that has loaded [cube.obj] and the material library it
    names, at the start of the import of [cube.obj]. *)
Definition cube_import : Importer.t * ImporterFileAccessor.t Importer.t :=
  (Importer.mk [objImporter]
     (ImporterFileList.mk
        [ImporterFile.new "cube.obj" File (ArrayBuffer "mtllib cube.mtl");
         ImporterFile.new "cube.mtl" File (ArrayBuffer "newmtl red")])
     ["cube.obj"] [],
   ImporterFileAccessor.new Importer.getBufferCallback).

(** Every reference to a converter points into the store. *)
Definition references_valid (this : ImporterObj.t) : Prop :=
  (forall current, ImporterObj.currentMeshConverter this = Some current ->
                   (current < List.length (ImporterObj.converters this))%nat)
  /\ (forall name converter,
        ImporterObj.meshNameToConverter this !! name = Some converter ->
        (converter < List.length (ImporterObj.converters this))%nat).

(** ** Vocabulary of the further properties: files and importers *)

Section FileListVocabulary2.
Context `{FileUtils}.

(** [filePath] names [file], compared the way [FindFileByPath] compares. *)
Definition answers_to (filePath : string) (file : ImporterFile.t) : Prop :=
  lower_name file = Js.toLowerCase (GetFileName filePath).

(** The file [DecompressArchives] makes of one entry of an archive. *)
Definition decompressed_file (entry : string * string) : ImporterFile.t :=
  ImporterFile.SetContent (ImporterFile.new (fst entry) Decompressed null)
                          (ArrayBuffer (snd entry)).

(** The files made of the entries of the archives among [files], archive by
    archive. *)
Definition archive_entries (unzipSync : JsData -> list (string * string))
    (files : list ImporterFile.t) : list ImporterFile.t :=
  flat_map (fun archiveFile =>
              map decompressed_file (unzipSync (ImporterFile.content archiveFile)))
           (filter (fun file => ImporterFile.extension file = "zip") files).

(** The first importer of [importers] that accepts [extension] is
    [importer]. *)
Definition first_accepting (importers : list FormatImporter) (extension : string)
    (importer : FormatImporter) : Prop :=
  exists before after,
    importers = before ++ importer :: after
    /\ CanImportExtension importer extension = true
    /\ Forall (fun other => CanImportExtension other extension = false) before.

End FileListVocabulary2.

(** What [GetFileContent] may do with a file, by the state it finds it in. *)
Definition content_step `{FileUtils} (file file' : ImporterFile.t) (event : LoadEvent) : Prop :=
  ImporterFile.name file' = ImporterFile.name file
  /\ ImporterFile.extension file' = ImporterFile.extension file
  /\ ImporterFile.source file' = ImporterFile.source file
  /\ ImporterFile.data file' = ImporterFile.data file
  /\ match event with
     | ContentAlreadySet => ImporterFile.content file <> null /\ file' = file
     | UnknownFileSource =>
         ImporterFile.content file = null /\ ImporterFile.source file = Decompressed
         /\ file' = file
     | LoadRequested source data =>
         ImporterFile.content file = null
         /\ source = ImporterFile.source file /\ source <> Decompressed
         /\ data = ImporterFile.data file
         /\ let loaded :=
              match source with
              | Url => RequestUrl data
              | _ => ReadFile data
              end in
            ImporterFile.content file' = default null loaded
     end.

Section ImportVocabulary.
Context `{FileUtils}.

(** What the callback of [ImportLoadedMainFile] finds for a name: whether
    the name resolves to a file of the list that has content. *)
Definition found (fileList : ImporterFileList.t) (fileName : string) : bool :=
  match ImporterFileList.FindFileByPath fileList fileName with
  | Some file => negb (is_null (ImporterFile.content file))
  | None => false
  end.

(** The base names of the requested paths, each where it is requested for
    the first time and is not among [seen]. *)
Fixpoint first_requests (seen : list string) (filePaths : list string) : list string :=
  match filePaths with
  | [] => []
  | filePath :: filePaths =>
      let fileName := GetFileName filePath in
      if bool_decide (fileName ∈ seen) then first_requests seen filePaths
      else fileName :: first_requests (fileName :: seen) filePaths
  end.

End ImportVocabulary.

(** ** Vocabulary of the further properties: converters and meshes *)

(** The global values a call refers to are the first values of [globals]:
    the global sequences of a parse grow at their end only. *)
Definition call_within (globals : forall kind, list (attribute kind)) (c : ConverterCall)
  : Prop :=
  match c with
  | CallAdd kind _ globalValues => globalValues `prefix_of` globals kind
  | _ => True
  end.

(** The index map of [kind] is a one-to-one correspondence between the
    global indices referenced so far and the positions of the mesh's buffer,
    and every position of the buffer holds the global value referenced. *)
Definition corresponds (globals : forall kind, list (attribute kind))
    (kind : AttributeKind) (converter : ObjMeshConverter.t) : Prop :=
  (forall g m,
     index_map kind converter !! g = Some m ->
     (0 <= g)%Z
     /\ is_Some (globals kind !! Z.to_nat g)
     /\ buffer kind (ObjMeshConverter.mesh converter) !! m = globals kind !! Z.to_nat g)
  /\ (forall m,
        (m < List.length (buffer kind (ObjMeshConverter.mesh converter)))%nat ->
        exists g, index_map kind converter !! g = Some m)
  /\ (forall g g' m,
        index_map kind converter !! g = Some m ->
        index_map kind converter !! g' = Some m -> g = g').

(** Every mesh-local index an index map holds is a position of the buffer
    of its kind. *)
Definition sound (converter : ObjMeshConverter.t) : Prop :=
  forall kind g m,
    index_map kind converter !! g = Some m ->
    (m < List.length (buffer kind (ObjMeshConverter.mesh converter)))%nat.

(** The second converter has what the first has: its index maps, and buffers
    at least as long, under the same mesh name. *)
Definition extends (converter converter' : ObjMeshConverter.t) : Prop :=
  grows converter converter'
  /\ (forall kind,
        (List.length (buffer kind (ObjMeshConverter.mesh converter))
         <= List.length (buffer kind (ObjMeshConverter.mesh converter')))%nat)
  /\ Mesh.name (ObjMeshConverter.mesh converter')
     = Mesh.name (ObjMeshConverter.mesh converter).

(** The three indices of a triple, when there is one, are below [bound]. *)
Definition triple_below (bound : nat) (triple : option (nat * nat * nat)) : Prop :=
  match triple with
  | Some (a, b, c) => (a < bound /\ b < bound /\ c < bound)%nat
  | None => True
  end.

(** The corners and the attribute indices of [triangle] are positions of the
    buffers of [mesh]. *)
Definition triangle_in_mesh (mesh : Mesh.t) (triangle : Triangle.t) : Prop :=
  triple_below (List.length (Mesh.vertices mesh))
               (Some (Triangle.v0 triangle, Triangle.v1 triangle, Triangle.v2 triangle))
  /\ triple_below (List.length (Mesh.vertexColors mesh)) (Triangle.colors triangle)
  /\ triple_below (List.length (Mesh.normals mesh)) (Triangle.normals triangle)
  /\ triple_below (List.length (Mesh.uvs mesh)) (Triangle.uvs triangle).

Definition line_in_mesh (mesh : Mesh.t) (line : Line.t) : Prop :=
  Forall (fun vertex => (vertex < List.length (Mesh.vertices mesh))%nat) (Line.vertices line).

(** A material index, when there is one, is below [count]. *)
Definition material_below (count : nat) (mat : option nat) : Prop :=
  match mat with
  | Some index => (index < count)%nat
  | None => True
  end.

(** Nothing in the mesh of [converter] points outside: the index maps into
    the buffers, the triangles and the lines into the buffers, and their
    materials into a model of [count] materials. *)
Definition closed (count : nat) (converter : ObjMeshConverter.t) : Prop :=
  sound converter
  /\ Forall (fun triangle =>
               triangle_in_mesh (ObjMeshConverter.mesh converter) triangle
               /\ material_below count (Triangle.mat triangle))
            (Mesh.triangles (ObjMeshConverter.mesh converter))
  /\ Forall (fun line =>
               line_in_mesh (ObjMeshConverter.mesh converter) line
               /\ material_below count (Line.mat line))
            (Mesh.lines (ObjMeshConverter.mesh converter)).

(** The test and the three calls the body of the loop of
    [ProcessFaceCommand] makes for the colors, the normals and the UVs. *)
Definition attribute_step (kind : AttributeKind) (vertices indices : list (option Z))
    (values : list (attribute kind)) (i : nat) (message : string)
    (set : Triangle.t -> nat -> nat -> nat -> Triangle.t) (triangle : Triangle.t)
  : Break.M ObjMeshConverter.t Triangle.t :=
  (if (List.length indices =? List.length vertices)%nat then
     let* a := Break.lift (fun c => add kind c (ImporterObj.at_index indices 0) values) in
     let* b := Break.lift (fun c => add kind c (ImporterObj.at_index indices (i + 1)) values) in
     let* c := Break.lift (fun c => add kind c (ImporterObj.at_index indices (i + 2)) values) in
     let* '(a, b, c) := ImporterObj.require3 a b c message in
     Break.ret (set triangle a b c)
   else Break.ret triangle).

(** The three indices a triangle of the fan takes from [indices] resolve
    inside [[0, count)]. *)
Definition three_in_range (indices : list (option Z)) (count i : nat) : Prop :=
  in_range (ImporterObj.at_index indices 0) count = true
  /\ in_range (ImporterObj.at_index indices (i + 1)) count = true
  /\ in_range (ImporterObj.at_index indices (i + 2)) count = true.

(** Why the [i]-th triangle of a fan is given up with [message]. *)
Definition face_failure (this : ImporterObj.t) (vertices colors normals uvs : list (option Z))
    (i : nat) (message : string) : Prop :=
  (message = "Invalid vertex index."
   /\ ~ three_in_range vertices (List.length (ImporterObj.globalVertices this)) i)
  \/ (three_in_range vertices (List.length (ImporterObj.globalVertices this)) i
      /\ ((message = "Invalid vertex color index."
           /\ List.length colors = List.length vertices
           /\ ~ three_in_range colors (List.length (ImporterObj.globalVertexColors this)) i)
          \/ (message = "Invalid normal index."
              /\ List.length normals = List.length vertices
              /\ ~ three_in_range normals (List.length (ImporterObj.globalNormals this)) i)
          \/ (message = "Invalid uv index."
              /\ List.length uvs = List.length vertices
              /\ ~ three_in_range uvs (List.length (ImporterObj.globalUvs this)) i))).

(** ** Vocabulary of the further properties: the states of a parse *)

(** The four lists of indices [ProcessFaceCommand] resolves the references
    of a face to. *)
Definition face_vertices (this : ImporterObj.t) (parameters : list string)
  : list (option Z) :=
  map (face_vertex_index this) parameters.

Definition face_colors (this : ImporterObj.t) (parameters : list string)
  : list (option Z) :=
  if (List.length (ImporterObj.globalVertices this)
      =? List.length (ImporterObj.globalVertexColors this))%nat
  then map (face_vertex_index this) parameters else [].

Definition face_normals (this : ImporterObj.t) (parameters : list string)
  : list (option Z) :=
  omap (face_normal_index this) parameters.

Definition face_uvs (this : ImporterObj.t) (parameters : list string)
  : list (option Z) :=
  omap (face_uv_index this) parameters.

(** The importer with the converter at position [current] replaced, and
    flagged as failed when the loop was left with a message. *)
Definition finish `{ImporterUtils} (this : ImporterObj.t) (current : nat)
    (converter : ObjMeshConverter.t) (broke : option string) : ImporterObj.t :=
  let this :=
    ImporterObj.with_converters this
      (<[current := converter]> (ImporterObj.converters this)) in
  match broke with
  | Some message => ImporterObj.SetError this (Loc message)
  | None => this
  end.

(** Nothing in the model points outside: the meshes are closed, and the
    material references of the importer are positions of the materials. *)
Definition model_closed (this : ImporterObj.t) : Prop :=
  Forall (closed (List.length (ImporterObj.materials this))) (ImporterObj.converters this)
  /\ material_below (List.length (ImporterObj.materials this))
                    (ImporterObj.currentMaterialIndex this)
  /\ material_below (List.length (ImporterObj.materials this))
                    (ImporterObj.currentMaterial this)
  /\ map_Forall (fun _ index => (index < List.length (ImporterObj.materials this))%nat)
                (ImporterObj.materialNameToIndex this).

(** The messages an OBJ parse fails with. *)
Definition parse_errors : list string :=
  ["Invalid vertex index."; "Invalid normal index."; "Invalid uv index."].

(** The flag and the message go together, and the message is one of
    [parse_errors]. *)
Definition error_reported `{ImporterUtils} (this : ImporterObj.t) : Prop :=
  if ImporterObj.error this
  then exists message, message ∈ parse_errors /\ ImporterObj.message this = Some (Loc message)
  else ImporterObj.message this = None.

(** The name map and the meshes of the model correspond: a name leads to the
    mesh of that name, and every mesh is found under its name. *)
Definition meshes_by_name (this : ImporterObj.t) : Prop :=
  (forall name index,
     ImporterObj.meshNameToConverter this !! name = Some index ->
     exists converter,
       ImporterObj.converters this !! index = Some converter
       /\ Mesh.name (ObjMeshConverter.mesh converter) = name)
  /\ (forall index converter,
        ImporterObj.converters this !! index = Some converter ->
        ImporterObj.meshNameToConverter this
          !! Mesh.name (ObjMeshConverter.mesh converter) = Some index).

(** The global sequences of the second importer begin with those of the
    first, and a color came with a vertex. *)
Definition globals_grow (this this' : ImporterObj.t) : Prop :=
  ImporterObj.globalVertices this `prefix_of` ImporterObj.globalVertices this'
  /\ ImporterObj.globalVertexColors this `prefix_of` ImporterObj.globalVertexColors this'
  /\ ImporterObj.globalNormals this `prefix_of` ImporterObj.globalNormals this'
  /\ ImporterObj.globalUvs this `prefix_of` ImporterObj.globalUvs this'
  /\ (List.length (ImporterObj.globalVertexColors this')
      + List.length (ImporterObj.globalVertices this)
      <= List.length (ImporterObj.globalVertexColors this)
         + List.length (ImporterObj.globalVertices this'))%nat.

(** The materials declared before the last one. *)
Definition earlier_materials (this : ImporterObj.t) : list PhongMaterial.t :=
  take (List.length (ImporterObj.materials this) - 1) (ImporterObj.materials this).

(** The current material is the last material of the model, and [earlier]
    are materials declared before it. *)
Definition current_is_last (earlier : list PhongMaterial.t) (this : ImporterObj.t) : Prop :=
  ImporterObj.currentMaterial this
  = match ImporterObj.materials this with
    | [] => None
    | _ => Some (List.length (ImporterObj.materials this) - 1)%nat
    end
  /\ earlier `prefix_of` earlier_materials this.

(** The number of parameters below which a directive is skipped; [None] for
    a keyword that is no directive. *)
Definition required_parameters (keyword : string) : option nat :=
  if decide (keyword = "g" \/ keyword = "o") then Some 1%nat
  else if decide (keyword = "v" \/ keyword = "vn" \/ keyword = "f") then Some 3%nat
  else if decide (keyword = "vt" \/ keyword = "l") then Some 2%nat
  else if decide (keyword = "newmtl" \/ keyword = "usemtl" \/ keyword = "mtllib")
  then Some 1%nat
  else if decide (keyword = "map_kd" \/ keyword = "map_ks" \/ keyword = "map_bump"
                  \/ keyword = "bump") then Some 1%nat
  else if decide (keyword = "ka" \/ keyword = "kd" \/ keyword = "ks") then Some 3%nat
  else if decide (keyword = "ns" \/ keyword = "tr" \/ keyword = "d") then Some 1%nat
  else None.

(** The keywords that set a property of the current material. *)
Definition material_properties : list string :=
  ["map_kd"; "map_ks"; "map_bump"; "bump"; "ka"; "kd"; "ks"; "ns"; "tr"; "d"].

(** ** Further inputs of the examples *)

(** A callback that finds, under every name, a library whose only line names
    the library [a.mtl]. *)
Definition selfLibrary (fileName : string) (w : unit) : JsData * unit :=
  (ArrayBuffer "mtllib a.mtl", w).

(** The global values of the examples: two vertices, and nothing else. *)
Definition two_vertices (kind : AttributeKind) : list (attribute kind) :=
  match kind with
  | Vertices => [Coord3D.mk (Js.parseFloat "0") (Js.parseFloat "0") (Js.parseFloat "0");
                 Coord3D.mk (Js.parseFloat "1") (Js.parseFloat "0") (Js.parseFloat "0")]
  | VertexColors => []
  | Normals => []
  | Uvs => []
  end.

(** ** Vocabulary of the further properties: textures and libraries *)

(** The body of the loop of [ExtractTextureParameters]. *)
Definition texture_step (state : gmap string (list string) * option string)
    (parameter : string) : gmap string (list string) * option string :=
  let '(textureParameters, lastParameter) := state in
  if String.prefix "-" parameter
  then (<[parameter := []]> textureParameters, Some parameter)
  else
    match lastParameter with
    | Some last =>
        (alter (fun values => values ++ [parameter]) last textureParameters,
         lastParameter)
    | None => (textureParameters, lastParameter)
    end.

(** The parameters are an option, the values that follow it, and a rest that
    is empty or begins with another option, and does not hold the option
    again. *)
Definition option_with_values (parameters : list string) (flag : string)
    (values : list string) : Prop :=
  exists before rest,
    parameters = before ++ flag :: values ++ rest
    /\ String.prefix "-" flag = true
    /\ Forall (fun value => String.prefix "-" value = false) values
    /\ (flag ∉ rest)
    /\ match rest with
       | [] => True
       | next :: _ => String.prefix "-" next = true
       end.

(** The line is no [mtllib] directive. *)
Definition names_no_library `{ImporterUtils} (line : string) : Prop :=
  match ParametersFromLine line "#" with
  | first :: _ => Js.toLowerCase first <> "mtllib"
  | [] => True
  end.

(** ** Vocabulary of the resolution of references *)

(** The index the specification lets a reference [i] resolve to in a global
    sequence of [count] elements: [i - 1] for a positive [i], and [count + i]
    for a non-positive one. *)
Definition spec_resolution (i : Z) (count : nat) : Z :=
  if decide (0 < i)%Z then (i - 1)%Z else (Z.of_nat count + i)%Z.

(** The global sequence of each attribute kind. *)
Definition globals_of (this : ImporterObj.t) (kind : AttributeKind)
  : list (attribute kind) :=
  match kind with
  | Vertices => ImporterObj.globalVertices this
  | VertexColors => ImporterObj.globalVertexColors this
  | Normals => ImporterObj.globalNormals this
  | Uvs => ImporterObj.globalUvs this
  end.

(** The text in slot [slot] of the [j]-th reference [vertex[/uv][/normal]]
    of a directive. *)
Definition reference_text (parameters : list string) (j slot : nat) : option string :=
  parameter ← parameters !! j; Js.split "/" parameter !! slot.

(** The mesh-local index [m] stands for the reference written [text],
    resolved in the global sequence [values] as the specification has it:
    the text reads as an integer [i], the converter has [m] for the global
    index [spec_resolution i count], where [count] is the length of the
    sequence, and the mesh holds at [m] the value the sequence has at that
    index. *)
Definition resolves_to (kind : AttributeKind) (converter : ObjMeshConverter.t)
    (values : list (attribute kind)) (text : option string) (m : nat) : Prop :=
  exists i value,
    text ≫= Js.parseInt = Some i
    /\ (0 <= spec_resolution i (List.length values))%Z
    /\ values !! Z.to_nat (spec_resolution i (List.length values)) = Some value
    /\ index_map kind converter !! spec_resolution i (List.length values) = Some m
    /\ buffer kind (ObjMeshConverter.mesh converter) !! m = Some value.

(** The three indices of the [k]-th triangle of a fan stand for the
    references [0], [k + 1] and [k + 2] of the face, read in slot [slot]. *)
Definition fan_resolves_to (kind : AttributeKind) (converter : ObjMeshConverter.t)
    (values : list (attribute kind)) (parameters : list string) (slot k : nat)
    (triple : nat * nat * nat) : Prop :=
  resolves_to kind converter values (reference_text parameters 0 slot) triple.1.1
  /\ resolves_to kind converter values (reference_text parameters (k + 1) slot) triple.1.2
  /\ resolves_to kind converter values (reference_text parameters (k + 2) slot) triple.2.

(** The three mesh-local indices a triangle of the fan has for an attribute
    kind, when it has them, are those the converter has for the resolved
    indices [0], [i + 1] and [i + 2] of that kind. *)
Definition attribute_indices (kind : AttributeKind) (converter : ObjMeshConverter.t)
    (indices : list (option Z)) (i : nat) (triple : option (nat * nat * nat)) : Prop :=
  match triple with
  | Some (a, b, c) =>
      local_index kind converter indices 0 = Some a
      /\ local_index kind converter indices (i + 1) = Some b
      /\ local_index kind converter indices (i + 2) = Some c
  | None => True
  end.

(** In every mesh of the model, what the converter has for a global index is
    the position of the value of that index. *)
Definition model_corresponds (this : ImporterObj.t) : Prop :=
  Forall (fun converter => forall kind, corresponds (globals_of this) kind converter)
         (ImporterObj.converters this).

(** The indices of [triangle], the [i]-th of a fan, are those the converter
    has for the resolved indices of the face; and it has the indices of an
    attribute kind only when the face has as many references of that kind as
    it has vertex references. *)
Definition fan_indices (converter : ObjMeshConverter.t)
    (vertices colors normals uvs : list (option Z)) (i : nat) (triangle : Triangle.t)
  : Prop :=
  attribute_indices Vertices converter vertices i
    (Some (Triangle.v0 triangle, Triangle.v1 triangle, Triangle.v2 triangle))
  /\ attribute_indices VertexColors converter colors i (Triangle.colors triangle)
  /\ attribute_indices Normals converter normals i (Triangle.normals triangle)
  /\ attribute_indices Uvs converter uvs i (Triangle.uvs triangle)
  /\ (is_Some (Triangle.colors triangle) -> List.length colors = List.length vertices)
  /\ (is_Some (Triangle.normals triangle) -> List.length normals = List.length vertices)
  /\ (is_Some (Triangle.uvs triangle) -> List.length uvs = List.length vertices).

(** The values the lines [v x y z], [vn x y z] and [vt x y] declare. *)
Definition xyz (x y z : string) : Coord3D.t :=
  Coord3D.mk (Js.parseFloat x) (Js.parseFloat y) (Js.parseFloat z).

Definition xy (x y : string) : Coord2D.t :=
  Coord2D.mk (Js.parseFloat x) (Js.parseFloat y).

(** ** Properties of the file list *)

Section FileListFacts.
Context `{FileUtils}.

Lemma fold_left_snoc_map {A B} (f : A -> B) (l : list A) (acc : list B) :
  fold_left (fun acc a => acc ++ [f a]) l acc = acc ++ map f l.
Proof.
  revert acc. induction l as [|a l IH]; intros acc; simpl.
  - by rewrite app_nil_r.
  - rewrite IH. by rewrite <- app_assoc.
Qed.

Lemma FillFromInputFiles_files (inputFiles : list InputFile.t) :
  ImporterFileList.files (ImporterFileList.FillFromInputFiles inputFiles)
  = map (fun inputFile => ImporterFile.new (InputFile.name inputFile)
                                            (InputFile.source inputFile)
                                            (InputFile.data inputFile)) inputFiles.
Proof. unfold ImporterFileList.FillFromInputFiles. simpl. by rewrite fold_left_snoc_map. Qed.

Lemma FillFromInputFiles_content (inputFiles : list InputFile.t) :
  map ImporterFile.content
      (ImporterFileList.files (ImporterFileList.FillFromInputFiles inputFiles))
  = map InputFile.data inputFiles.
Proof.
  rewrite FillFromInputFiles_files. rewrite map_map. reflexivity.
Qed.

Lemma GetFileContent_already_set (file : ImporterFile.t) :
  ImporterFile.content file <> null ->
  ImporterFileList.GetFileContent file = (file, ContentAlreadySet).
Proof.
  intros Hc. unfold ImporterFileList.GetFileContent.
  destruct (ImporterFile.content file); [congruence | reflexivity ..].
Qed.

Lemma FindFileByPath_Some (fileList : ImporterFileList.t) (filePath : string) :
  ImporterFileList.FindFileByPath fileList filePath <> None <-> has_name fileList filePath.
Proof.
  unfold ImporterFileList.FindFileByPath, has_name, lower_name.
  destruct fileList as [files]. simpl.
  induction files as [|file files IH]; simpl.
  - split; [congruence |]. intros (f & Hf & _). by apply elem_of_nil in Hf.
  - destruct (String.eqb_spec (Js.toLowerCase (ImporterFile.name file))
                              (Js.toLowerCase (GetFileName filePath))) as [Heq | Hne].
    + split; [| congruence]. intros _. exists file. split; [left | done].
    + rewrite IH. split.
      * intros (f & Hf & Hn). exists f. split; [by right | done].
      * intros (f & Hf & Hn). apply elem_of_cons in Hf as [-> | Hf]; [done |].
        by exists f.
Qed.

Lemma ContainsFileByPath_true (fileList : ImporterFileList.t) (filePath : string) :
  ImporterFileList.ContainsFileByPath fileList filePath = true <-> has_name fileList filePath.
Proof.
  unfold ImporterFileList.ContainsFileByPath.
  rewrite bool_decide_eq_true. apply FindFileByPath_Some.
Qed.

Lemma ContainsFileByPath_false (fileList : ImporterFileList.t) (filePath : string) :
  ImporterFileList.ContainsFileByPath fileList filePath = false <-> ~ has_name fileList filePath.
Proof.
  rewrite <- ContainsFileByPath_true. by destruct (ImporterFileList.ContainsFileByPath _ _).
Qed.

Lemma has_name_lower (fileList : ImporterFileList.t) (name : string) :
  normalised name ->
  has_name fileList name
  <-> Js.toLowerCase name ∈ map lower_name (ImporterFileList.files fileList).
Proof.
  intros Hn. unfold has_name. rewrite Hn. rewrite list_elem_of_fmap. split.
  - intros (f & Hf & Hl). by exists f.
  - intros (f & Hl & Hf). by exists f.
Qed.

Lemma ExtendFromFileList_fold (this other : ImporterFileList.t) :
  ImporterFileList.ExtendFromFileList this other
  = fold_left extend_step (ImporterFileList.files other) this.
Proof. reflexivity. Qed.

Lemma extend_fold_unique (others : list ImporterFile.t) (this : ImporterFileList.t) :
  Forall (fun file => normalised (ImporterFile.name file)) others ->
  unique_names this ->
  unique_names (fold_left extend_step others this).
Proof.
  revert this. induction others as [|file others IH]; intros this Hnorm Hu; simpl; [done |].
  apply Forall_cons in Hnorm as [Hn Hnorm].
  apply IH; [done |]. unfold extend_step.
  destruct (ImporterFileList.ContainsFileByPath this (ImporterFile.name file)) eqn:Hc;
    simpl; [done |].
  apply ContainsFileByPath_false in Hc. rewrite (has_name_lower _ _ Hn) in Hc.
  unfold unique_names in *. simpl. rewrite map_app. simpl.
  apply NoDup_app. split; [done |]. split.
  - intros x Hx Hx'. apply list_elem_of_singleton in Hx'. subst x. by apply Hc.
  - apply NoDup_singleton.
Qed.

Lemma extend_step_keeps (this : ImporterFileList.t) (file : ImporterFile.t) :
  exists added, ImporterFileList.files (extend_step this file)
                = ImporterFileList.files this ++ added.
Proof.
  unfold extend_step. destruct (negb _); simpl; [by eexists | exists []; by rewrite app_nil_r].
Qed.

Lemma has_name_mono (this that : ImporterFileList.t) (added : list ImporterFile.t)
    (filePath : string) :
  ImporterFileList.files that = ImporterFileList.files this ++ added ->
  has_name this filePath -> has_name that filePath.
Proof.
  intros Hfiles (f & Hf & Hl). exists f. split; [| done].
  rewrite Hfiles. apply elem_of_app. by left.
Qed.

Lemma extend_fold_shape (others : list ImporterFile.t) (this : ImporterFileList.t) :
  Forall (fun file => normalised (ImporterFile.name file)) others ->
  exists appended,
    ImporterFileList.files (fold_left extend_step others this)
    = ImporterFileList.files this ++ appended
    /\ sublist appended others
    /\ (forall file, file ∈ appended -> ~ has_name this (ImporterFile.name file))
    /\ (forall file, file ∈ others ->
          has_name (fold_left extend_step others this) (ImporterFile.name file)).
Proof.
  revert this. induction others as [|file others IH]; intros this Hnorm; simpl.
  - exists []. rewrite app_nil_r. repeat split; try done.
    + intros f Hf. by apply elem_of_nil in Hf.
    + intros f Hf. by apply elem_of_nil in Hf.
  - apply Forall_cons in Hnorm as [Hn Hnorm].
    destruct (IH (extend_step this file) Hnorm) as (app & Hfiles & Hsub & Hnew & Hall).
    assert (Hhere : has_name (extend_step this file) (ImporterFile.name file)).
    { unfold extend_step.
      destruct (ImporterFileList.ContainsFileByPath this (ImporterFile.name file)) eqn:Hc;
        simpl.
      - by apply ContainsFileByPath_true.
      - exists file. split; [apply elem_of_app; right; by left |].
        unfold lower_name. by rewrite Hn. }
    assert (Hlast : forall f, f ∈ file :: others ->
              has_name (fold_left extend_step others (extend_step this file))
                       (ImporterFile.name f)).
    { intros f Hf. apply elem_of_cons in Hf as [-> | Hf]; [| by apply Hall].
      by apply (has_name_mono _ _ _ _ Hfiles). }
    destruct (ImporterFileList.ContainsFileByPath this (ImporterFile.name file)) eqn:Hc.
    + assert (E : extend_step this file = this) by (unfold extend_step; by rewrite Hc).
      rewrite E in Hfiles, Hnew, Hlast |- *.
      exists app. split; [done |]. split; [by apply sublist_cons |]. done.
    + assert (E : extend_step this file
                  = ImporterFileList.mk (ImporterFileList.files this ++ [file]))
        by (unfold extend_step; by rewrite Hc).
      rewrite E in Hfiles, Hnew, Hlast |- *. simpl in Hfiles.
      exists (file :: app). split; [by rewrite Hfiles, <- app_assoc |].
      split; [by apply sublist_skip |]. split; [| done].
      intros f Hf. apply elem_of_cons in Hf as [-> | Hf].
      * by apply ContainsFileByPath_false.
      * intros Hhas. apply (Hnew f Hf).
        by apply (has_name_mono this _ [file]).
Qed.

End FileListFacts.

(** ** The file set: content, uniqueness of names, reconciliation *)

Section FileSetTheorems.
Context `{FileUtils}.

Lemma find_is_Some {A} (p : A -> bool) (l : list A) :
  find p l <> None <-> exists a, a ∈ l /\ p a = true.
Proof.
  induction l as [|a l IH]; simpl.
  - split; [done |]. intros (a & Ha & _). by apply elem_of_nil in Ha.
  - destruct (p a) eqn:Hp.
    + split; [| done]. intros _. exists a. split; [left | done].
    + rewrite IH. split.
      * intros (b & Hb & Hpb). exists b. split; [by right | done].
      * intros (b & Hb & Hpb). apply elem_of_cons in Hb as [-> | Hb]; [congruence |].
        by exists b.
Qed.

Lemma FindImporter_Some (file : ImporterFile.t) (importers : list FormatImporter) :
  Importer.FindImporter file importers <> None <-> importable importers file.
Proof. unfold Importer.FindImporter, importable. apply find_is_Some. Qed.

Lemma GetImportableFiles_length (this : Importer.t) (files : list ImporterFile.t)
    (acc : list (ImporterFile.t * FormatImporter)) :
  (0 < List.length
         (fold_left
            (fun importableFiles file =>
               match Importer.FindImporter file (Importer.importers this) with
               | Some importer => importableFiles ++ [(file, importer)]
               | None => importableFiles
               end) files acc))%nat
  <-> (0 < List.length acc)%nat
      \/ exists file, file ∈ files /\ importable (Importer.importers this) file.
Proof.
  revert acc. induction files as [|file files IH]; intros acc; simpl.
  - split; [by left |]. intros [? | (f & Hf & _)]; [done | by apply elem_of_nil in Hf].
  - rewrite IH. clear IH.
    destruct (Importer.FindImporter file (Importer.importers this)) as [importer|] eqn:Hf.
    + assert (importable (Importer.importers this) file)
        by (apply FindImporter_Some; congruence).
      rewrite length_app. simpl. split.
      * intros _. right. exists file. split; [left | done].
      * intros _. left. lia.
    + assert (~ importable (Importer.importers this) file)
        by (rewrite <- FindImporter_Some; rewrite Hf; tauto).
      split.
      * intros [? | (f & Hin & Hi)]; [by left |]. right. exists f. split; [by right | done].
      * intros [? | (f & Hin & Hi)]; [by left |].
        apply elem_of_cons in Hin as [-> | Hin]; [done |]. right. by exists f.
Qed.

Lemma HasImportableFile_true (this : Importer.t) (fileList : ImporterFileList.t) :
  Importer.HasImportableFile this fileList = true
  <-> exists file, file ∈ ImporterFileList.files fileList
                   /\ importable (Importer.importers this) file.
Proof.
  unfold Importer.HasImportableFile, Importer.GetImportableFiles.
  rewrite Nat.ltb_lt, GetImportableFiles_length. simpl. split; [| by right].
  intros [? | ?]; [lia | done].
Qed.

Lemma foundMissingFile_true (candidate : ImporterFileList.t) (missing : list string)
    (found : bool) :
  fold_left
    (fun foundMissingFile missingFile =>
       if ImporterFileList.ContainsFileByPath candidate missingFile
       then true else foundMissingFile) missing found = true
  <-> found = true \/ exists m, m ∈ missing /\ has_name candidate m.
Proof.
  revert found. induction missing as [|m missing IH]; intros found; simpl.
  - split; [by left |]. intros [? | (m & Hm & _)]; [done | by apply elem_of_nil in Hm].
  - rewrite IH. clear IH.
    destruct (ImporterFileList.ContainsFileByPath candidate m) eqn:Hc.
    + apply ContainsFileByPath_true in Hc. split; [| by left].
      intros _. right. exists m. split; [left | done].
    + apply ContainsFileByPath_false in Hc. split.
      * intros [? | (x & Hx & Hn)]; [by left |]. right. exists x. split; [by right | done].
      * intros [? | (x & Hx & Hn)]; [by left |].
        apply elem_of_cons in Hx as [-> | Hx]; [done |]. right. by exists x.
Qed.

(** C4, as amended.  Of the operations that add files, only
    [ExtendFromFileList] compares names: it keeps a list unique by
    case-insensitive name (for files whose names are base names, as the
    constructor of [ImporterFile] leaves them).  [AddFile], through which the
    entries of an archive arrive, and [FillFromInputFiles] append without
    looking: what they leave is unique exactly when the new name is not in
    the list yet, respectively when the base names of the inputs are pairwise
    different case-insensitively. *)
Theorem unique_names_by_operation
    (this other : ImporterFileList.t) (file : ImporterFile.t)
    (inputFiles : list InputFile.t) :
  Forall (fun file => normalised (ImporterFile.name file)) (ImporterFileList.files other) ->
  unique_names this ->
  unique_names (ImporterFileList.ExtendFromFileList this other)
  /\ (unique_names (ImporterFileList.AddFile this file)
      <-> lower_name file ∉ map lower_name (ImporterFileList.files this))
  /\ (unique_names (ImporterFileList.FillFromInputFiles inputFiles)
      <-> NoDup (map (fun inputFile =>
                        Js.toLowerCase (GetFileName (InputFile.name inputFile)))
                     inputFiles)).
Proof.
  intros Hnorm Hu. split; [| split].
  - rewrite ExtendFromFileList_fold. by apply extend_fold_unique.
  - unfold unique_names, ImporterFileList.AddFile. simpl. rewrite map_app. simpl.
    rewrite NoDup_app. split.
    + intros (_ & Hnot & _) Hin. apply (Hnot _ Hin). by left.
    + intros Hnot. split; [done |]. split; [| apply NoDup_singleton].
      intros x Hx Hx'. apply list_elem_of_singleton in Hx'. by subst x.
  - unfold unique_names. rewrite FillFromInputFiles_files, map_map. reflexivity.
Qed.

(** C5.  [LoadFiles] replaces the orchestrator's file list by the candidate
    built from the inputs when the candidate holds a file some registered
    importer accepts, or holds none of the names recorded as missing.
    Otherwise the existing entries stay as they are, in place, and candidate
    files are appended behind them: only files whose name the existing list
    did not have, and enough of them that every candidate name is in the list
    afterwards.  Nothing else of the orchestrator changes. *)
Theorem LoadFiles_reconciliation (this : Importer.t) (inputFiles : list InputFile.t) :
  let candidate := ImporterFileList.FillFromInputFiles inputFiles in
  let result := Importer.LoadFiles_reconcile this inputFiles in
  Forall (fun inputFile => normalised (GetFileName (InputFile.name inputFile))) inputFiles ->
  ((exists file, file ∈ ImporterFileList.files candidate
                 /\ importable (Importer.importers this) file)
   \/ (forall missingFile, missingFile ∈ Importer.missingFiles this ->
                            ~ has_name candidate missingFile) ->
   Importer.fileList result = candidate)
  /\ ((exists missingFile, missingFile ∈ Importer.missingFiles this
                            /\ has_name candidate missingFile) ->
      ~ (exists file, file ∈ ImporterFileList.files candidate
                      /\ importable (Importer.importers this) file) ->
      exists appended,
        ImporterFileList.files (Importer.fileList result)
        = ImporterFileList.files (Importer.fileList this) ++ appended
        /\ sublist appended (ImporterFileList.files candidate)
        /\ (forall file, file ∈ appended ->
              ~ has_name (Importer.fileList this) (ImporterFile.name file))
        /\ (forall file, file ∈ ImporterFileList.files candidate ->
              has_name (Importer.fileList result) (ImporterFile.name file)))
  /\ Importer.importers result = Importer.importers this
  /\ Importer.usedFiles result = Importer.usedFiles this
  /\ Importer.missingFiles result = Importer.missingFiles this.
Proof.
  intros candidate result Hnorm.
  assert (Hcand : Forall (fun file => normalised (ImporterFile.name file))
                         (ImporterFileList.files candidate)).
  { subst candidate. rewrite FillFromInputFiles_files. apply Forall_fmap.
    eapply Forall_impl; [exact Hnorm |]. intros inputFile Hn. exact Hn. }
  subst result. unfold Importer.LoadFiles_reconcile. fold candidate.
  destruct (Importer.HasImportableFile this candidate) eqn:Himp.
  - apply HasImportableFile_true in Himp. simpl.
    split; [done |]. split; [| done]. intros _ Hno. by destruct Hno.
  - assert (Hnone : ~ exists file, file ∈ ImporterFileList.files candidate
                                   /\ importable (Importer.importers this) file).
    { rewrite <- HasImportableFile_true. by rewrite Himp. }
    destruct (fold_left _ (Importer.missingFiles this) false) eqn:Hfound.
    + apply foundMissingFile_true in Hfound as [? | Hfound]; [done |]. simpl.
      split.
      { intros [Hsome | Hall]; [done |]. destruct Hfound as (m & Hm & Hhas).
        by destruct (Hall m Hm). }
      split; [| done]. intros _ _.
      rewrite ExtendFromFileList_fold.
      destruct (extend_fold_shape (ImporterFileList.files candidate)
                  (Importer.fileList this) Hcand) as (appended & H1 & H2 & H3 & H4).
      by exists appended.
    + assert (Hnotfound : ~ exists m, m ∈ Importer.missingFiles this /\ has_name candidate m).
      { intros Hex. assert (Ht : false = true); [| done].
        rewrite <- Hfound. apply foundMissingFile_true. by right. }
      simpl. split; [done |]. split; [| done]. intros Hex. by destruct Hnotfound.
Qed.

End FileSetTheorems.

(** C1: what the code does where the claim fails.  The constructor of
    [ImporterFile] copies [data] into [content], so the file made for an
    input that names a URL has that URL as its content, not [null], and
    [GetContent] asks nothing of the loader for it. *)
Theorem url_input_content_is_its_url :
  let inputFiles := InputFilesFromUrls ["http://host/models/cube.obj"] in
  let fileList := ImporterFileList.FillFromInputFiles inputFiles in
  map InputFile.source inputFiles = [Url]
  /\ map ImporterFile.content (ImporterFileList.files fileList)
     = [UrlString "http://host/models/cube.obj"]
  /\ ImporterFileList.GetContent fileList
     = (fileList, [ContentAlreadySet]).
Proof. vm_compute. repeat split. Qed.

(** C4, refuted as stated: two inputs whose names differ in case only fill a
    list with a repeated name; and the two entries of an archive, whose base
    names differ in case only, are both added to a list that was unique. *)
Lemma unique_names_counterexample :
  ~ unique_names
      (ImporterFileList.FillFromInputFiles
         [InputFile.new "cube.obj" File (FileObject "cube.obj");
          InputFile.new "CUBE.OBJ" File (FileObject "CUBE.OBJ")])
  /\ (let fileList :=
        ImporterFileList.mk
          [ImporterFile.SetContent
             (ImporterFile.new "textures.zip" File (FileObject "textures.zip"))
             (ArrayBuffer "zip-bytes")] in
      unique_names fileList
      /\ ~ unique_names
            (Importer.DecompressArchives example_unzipSync fileList)).
Proof.
  split; [| split].
  - unfold unique_names. apply (proj1 (bool_decide_eq_false _)). vm_compute. reflexivity.
  - unfold unique_names. apply (proj1 (bool_decide_eq_true _)). vm_compute. reflexivity.
  - unfold unique_names. apply (proj1 (bool_decide_eq_false _)). vm_compute. reflexivity.
Qed.

(** [unique_names_by_operation] at a list with one file, extended by a list
    that repeats its name in another case and brings one new name. *)
Lemma unique_names_by_operation_witness :
  let this :=
    ImporterFileList.FillFromInputFiles
      [InputFile.new "cube.obj" File (FileObject "cube.obj")] in
  let other :=
    ImporterFileList.FillFromInputFiles
      [InputFile.new "CUBE.OBJ" File (FileObject "CUBE.OBJ");
       InputFile.new "cube.mtl" File (FileObject "cube.mtl")] in
  Forall (fun file => normalised (ImporterFile.name file))
         (ImporterFileList.files other)
  /\ unique_names this
  /\ unique_names (ImporterFileList.ExtendFromFileList this other).
Proof.
  intros this other.
  assert (Hn : Forall (fun file => normalised (ImporterFile.name file))
                      (ImporterFileList.files other))
    by (repeat constructor).
  assert (Hu : unique_names this)
    by (unfold unique_names; apply (proj1 (bool_decide_eq_true _)); vm_compute; reflexivity).
  split; [exact Hn |]. split; [exact Hu |].
  exact (proj1 (unique_names_by_operation this other
                  (ImporterFile.new "x" File null) [] Hn Hu)).
Defined.

(** [LoadFiles_reconciliation] at an orchestrator that misses [cube.mtl] and
    is handed exactly that file. *)
Lemma LoadFiles_reconciliation_witness :
  let this :=
    Importer.mk [objImporter; fbxImporter]
      (ImporterFileList.FillFromInputFiles
         [InputFile.new "cube.obj" File (FileObject "cube.obj")])
      ["cube.obj"] ["cube.mtl"] in
  let inputFiles := [InputFile.new "dir/CUBE.MTL" File (FileObject "CUBE.MTL")] in
  Forall (fun inputFile =>
            normalised
              (GetFileName (InputFile.name inputFile)))
         inputFiles
  /\ map ImporterFile.name
         (ImporterFileList.files
            (Importer.fileList
               (Importer.LoadFiles_reconcile this inputFiles)))
     = ["cube.obj"; "CUBE.MTL"]
  /\ Importer.missingFiles
       (Importer.LoadFiles_reconcile this inputFiles)
     = ["cube.mtl"].
Proof.
  intros this inputFiles.
  assert (Hn : Forall (fun inputFile =>
                         normalised
                           (GetFileName
                                        (InputFile.name inputFile))) inputFiles)
    by (repeat constructor).
  split; [exact Hn |]. split; [reflexivity |].
  exact (proj2 (proj2 (proj2 (proj2
           (LoadFiles_reconciliation this inputFiles Hn))))).
Defined.

(** ** The dependency resolver *)

Section AccessorTheorems.
Context `{FileUtils}.

Lemma GetFileBuffer_cached {World} (this : ImporterFileAccessor.t World)
    (filePath : string) (w : World) (buffer : JsData) :
  ImporterFileAccessor.fileBuffers this !! GetFileName filePath = Some buffer ->
  ImporterFileAccessor.GetFileBuffer this filePath w = (buffer, this, w).
Proof. intros Hc. unfold ImporterFileAccessor.GetFileBuffer. by rewrite Hc. Qed.

Lemma GetFileBuffer_caches {World} (this : ImporterFileAccessor.t World)
    (filePath : string) (w : World) :
  forall buffer this' w',
    ImporterFileAccessor.GetFileBuffer this filePath w = (buffer, this', w') ->
    ImporterFileAccessor.fileBuffers this' !! GetFileName filePath = Some buffer
    /\ ImporterFileAccessor.fileBuffers this ⊆ ImporterFileAccessor.fileBuffers this'
    /\ ImporterFileAccessor.getBufferCallback this'
       = ImporterFileAccessor.getBufferCallback this.
Proof.
  intros buffer this' w'. unfold ImporterFileAccessor.GetFileBuffer.
  destruct (ImporterFileAccessor.fileBuffers this !! GetFileName filePath) as [b|] eqn:Hc.
  - intros [= <- <- <-]. done.
  - destruct (ImporterFileAccessor.getBufferCallback this (GetFileName filePath) w)
      as [b w1] eqn:Hcb.
    intros [= <- <- <-]. simpl. split; [apply lookup_insert_eq |].
    split; [by apply insert_subseteq | done].
Qed.

Lemma GetFileBuffers_caches {World} (filePaths : list string)
    (this : ImporterFileAccessor.t World) (w : World) :
  ImporterFileAccessor.fileBuffers this
  ⊆ ImporterFileAccessor.fileBuffers
      (fst (ImporterFileAccessor.GetFileBuffers filePaths (this, w))).
Proof.
  revert this w. induction filePaths as [|filePath filePaths IH]; intros this w; simpl.
  - done.
  - destruct (ImporterFileAccessor.GetFileBuffer this filePath w) as [[b this1] w1] eqn:Hg.
    apply GetFileBuffer_caches in Hg as (_ & Hsub & _).
    etrans; [exact Hsub | apply IH].
Qed.

Lemma getBufferCallback_records (fileName : string) (this : Importer.t) :
  let '(buffer, this') := Importer.getBufferCallback fileName this in
  Importer.fileList this' = Importer.fileList this
  /\ Importer.importers this' = Importer.importers this
  /\ ((Importer.usedFiles this' = Importer.usedFiles this ++ [fileName]
       /\ Importer.missingFiles this' = Importer.missingFiles this)
      \/ (Importer.usedFiles this' = Importer.usedFiles this
          /\ Importer.missingFiles this' = Importer.missingFiles this ++ [fileName])).
Proof.
  unfold Importer.getBufferCallback.
  destruct (ImporterFileList.FindFileByPath _ _) as [file|]; [| simpl; tauto].
  destruct (is_null _); simpl; tauto.
Qed.

Lemma GetFileBuffer_recorded_once (mainName filePath : string)
    (this : ImporterFileAccessor.t Importer.t) (w : Importer.t) :
  recorded_once mainName (this, w) ->
  let '(_, this', w') := ImporterFileAccessor.GetFileBuffer this filePath w in
  recorded_once mainName (this', w').
Proof.
  intros (Hcb & used & Hused & Hnd & Hin). simpl in *.
  unfold ImporterFileAccessor.GetFileBuffer.
  destruct (ImporterFileAccessor.fileBuffers this !! GetFileName filePath) as [b|] eqn:Hc.
  - split; [done |]. by exists used.
  - rewrite Hcb.
    pose proof (getBufferCallback_records (GetFileName filePath) w) as Hrec.
    destruct (Importer.getBufferCallback (GetFileName filePath) w) as [b w'].
    destruct Hrec as (_ & _ & Hrec).
    assert (Hfresh : GetFileName filePath ∉ used ++ Importer.missingFiles w).
    { intros Hx. apply Hin in Hx as [x Hx]. congruence. }
    split; [done |]. simpl.
    destruct Hrec as [[Hu Hm] | [Hu Hm]]; rewrite Hu, Hm, Hused.
    + exists (used ++ [GetFileName filePath]). split; [done |]. split.
      * rewrite <- app_assoc. simpl.
        apply NoDup_app in Hnd as (Hn1 & Hn2 & Hn3).
        apply NoDup_app. split; [done |]. split.
        -- intros x Hx Hx'. apply elem_of_cons in Hx' as [-> | Hx'].
           ++ apply Hfresh. apply elem_of_app. by left.
           ++ by apply (Hn2 x).
        -- apply NoDup_cons. split; [| done].
           intros Hx. apply Hfresh. apply elem_of_app. by right.
      * intros name Hname. rewrite <- app_assoc in Hname. simpl in Hname.
        destruct (decide (name = GetFileName filePath)) as [-> | Hne].
        -- rewrite lookup_insert_eq. by eexists.
        -- rewrite lookup_insert_ne by done. apply Hin.
           apply elem_of_app in Hname as [Hname | Hname];
             [apply elem_of_app; by left |].
           apply elem_of_cons in Hname as [-> | Hname]; [done |].
           apply elem_of_app. by right.
    + exists used. split; [done |]. split.
      * rewrite app_assoc. apply NoDup_app. split; [done |]. split.
        -- intros x Hx Hx'. apply list_elem_of_singleton in Hx'. by subst x.
        -- apply NoDup_singleton.
      * intros name Hname. rewrite app_assoc in Hname.
        destruct (decide (name = GetFileName filePath)) as [-> | Hne].
        -- rewrite lookup_insert_eq. by eexists.
        -- rewrite lookup_insert_ne by done. apply Hin.
           apply elem_of_app in Hname as [Hname | Hname]; [done |].
           apply list_elem_of_singleton in Hname. done.
Qed.

Lemma GetFileBuffers_recorded_once (mainName : string) (filePaths : list string)
    (st : ImporterFileAccessor.t Importer.t * Importer.t) :
  recorded_once mainName st ->
  recorded_once mainName (ImporterFileAccessor.GetFileBuffers filePaths st).
Proof.
  revert st. induction filePaths as [|filePath filePaths IH]; intros [this w] Hst; simpl.
  - done.
  - pose proof (GetFileBuffer_recorded_once mainName filePath this w Hst) as Hstep.
    destruct (ImporterFileAccessor.GetFileBuffer this filePath w) as [[b this1] w1].
    by apply IH.
Qed.

(** C10.  Two requests whose paths have the same base name, with any
    requests in between: the later one answers the buffer (or [null]) the
    earlier one answered and leaves the cache and the state the callback acts
    on as they are, so the callback is not run for it.  Consequently, from the
    start of an import and through any series of requests, the names recorded
    behind the main file in the used files, together with the missing files,
    hold no name twice. *)
Theorem GetFileBuffer_idempotent {World : Type}
    (accessor : ImporterFileAccessor.t World) (w : World)
    (first second : string) (between : list string)
    (this : Importer.t) (mainFile : ImporterFile.t) (importer : FormatImporter)
    (requests : list string) :
  (GetFileName first = GetFileName second ->
   let '(buffer, accessor1, w1) := ImporterFileAccessor.GetFileBuffer accessor first w in
   let '(accessor2, w2) := ImporterFileAccessor.GetFileBuffers between (accessor1, w1) in
   ImporterFileAccessor.GetFileBuffer accessor2 second w2 = (buffer, accessor2, w2))
  /\ (ImporterFile.content mainFile <> null ->
      exists this0 accessor0,
        Importer.ImportLoadedMainFile_begin this (Some (mainFile, importer))
        = inr (this0, accessor0)
        /\ let '(_, this') := ImporterFileAccessor.GetFileBuffers requests (accessor0, this0) in
           exists used,
             Importer.usedFiles this' = ImporterFile.name mainFile :: used
             /\ NoDup (used ++ Importer.missingFiles this')).
Proof.
  split.
  - intros Hsame.
    destruct (ImporterFileAccessor.GetFileBuffer accessor first w)
      as [[buffer accessor1] w1] eqn:Hfirst.
    apply GetFileBuffer_caches in Hfirst as (Hcached & _ & _).
    pose proof (GetFileBuffers_caches between accessor1 w1) as Hsub.
    destruct (ImporterFileAccessor.GetFileBuffers between (accessor1, w1))
      as [accessor2 w2]. simpl in Hsub.
    apply GetFileBuffer_cached. rewrite <- Hsame.
    by apply (lookup_weaken _ _ _ _ Hcached).
  - intros Hcontent. unfold Importer.ImportLoadedMainFile_begin.
    destruct (is_null (ImporterFile.content mainFile)) eqn:Hnull.
    { destruct (ImporterFile.content mainFile); [done | discriminate ..]. }
    eexists _, _. split; [reflexivity |].
    pose proof (GetFileBuffers_recorded_once (ImporterFile.name mainFile) requests
                  (ImporterFileAccessor.new Importer.getBufferCallback,
                   Importer.mk (Importer.importers this) (Importer.fileList this)
                               [ImporterFile.name mainFile] [])) as Hrun.
    destruct (ImporterFileAccessor.GetFileBuffers requests _) as [accessor' this'].
    destruct Hrun as (_ & used & Hused & Hnd & _).
    + split; [done |]. exists []. simpl. split; [done |]. split; [apply NoDup_nil_2 |].
      intros name Hname. by apply elem_of_nil in Hname.
    + by exists used.
Qed.

End AccessorTheorems.

(** [GetFileBuffer_idempotent] at an import of [cube.obj] that asks for
    [cube.mtl] under two paths, with another request in between. *)
Lemma GetFileBuffer_idempotent_witness :
  let mainFile := ImporterFile.new "cube.obj" File (ArrayBuffer "mtllib cube.mtl") in
  let this :=
    Importer.mk [objImporter]
      (ImporterFileList.mk
         [mainFile; ImporterFile.new "cube.mtl" File (ArrayBuffer "newmtl red")])
      ["cube.obj"] [] in
  let accessor := ImporterFileAccessor.new Importer.getBufferCallback in
  (GetFileName "cube.mtl" = GetFileName "materials/cube.mtl"
   /\ ImporterFile.content mainFile <> null)
  /\ (let '(buffer, accessor1, this1) :=
        ImporterFileAccessor.GetFileBuffer accessor "cube.mtl" this in
      let '(accessor2, this2) :=
        ImporterFileAccessor.GetFileBuffers ["wood.png"] (accessor1, this1) in
      ImporterFileAccessor.GetFileBuffer accessor2 "materials/cube.mtl" this2
      = (buffer, accessor2, this2))
  /\ Importer.usedFiles
       (snd (ImporterFileAccessor.GetFileBuffers
               ["cube.mtl"; "wood.png"; "materials/cube.mtl"] (accessor, this)))
     = ["cube.obj"; "cube.mtl"].
Proof.
  intros mainFile this accessor.
  assert (Hname : GetFileName "cube.mtl" = GetFileName "materials/cube.mtl")
    by reflexivity.
  assert (Hcontent : ImporterFile.content mainFile <> null) by discriminate.
  split; [by split |]. split; [| reflexivity].
  exact (proj1 (GetFileBuffer_idempotent accessor this "cube.mtl" "materials/cube.mtl"
                  ["wood.png"] this mainFile objImporter []) Hname).
Defined.

(** ** The mesh converter *)

Lemma in_range_lookup {V} (globalIndex : Z) (values : list V) :
  in_range (Some globalIndex) (List.length values) = true
  <-> (0 <= globalIndex)%Z /\ is_Some (values !! Z.to_nat globalIndex).
Proof.
  unfold in_range. rewrite andb_true_iff, Z.leb_le, Z.ltb_lt, lookup_lt_is_Some. lia.
Qed.

(** What [GetMeshIndex] answers, by cases. *)
Lemma GetMeshIndex_cases {V} (globalIndex : option Z) (values : list V)
    (indices : gmap Z nat) (adder : V -> Mesh.t -> nat * Mesh.t) (mesh : Mesh.t) :
  (in_range globalIndex (List.length values) = false
   /\ ObjMeshConverter.GetMeshIndex globalIndex values indices adder mesh
      = (None, indices, mesh))
  \/ (exists g value,
        globalIndex = Some g /\ in_range globalIndex (List.length values) = true
        /\ values !! Z.to_nat g = Some value
        /\ ((exists meshIndex,
               indices !! g = Some meshIndex
               /\ ObjMeshConverter.GetMeshIndex globalIndex values indices adder mesh
                  = (Some meshIndex, indices, mesh))
            \/ (indices !! g = None
                /\ ObjMeshConverter.GetMeshIndex globalIndex values indices adder mesh
                   = (Some (fst (adder value mesh)),
                      <[g := fst (adder value mesh)]> indices,
                      snd (adder value mesh))))).
Proof.
  destruct globalIndex as [g|]; [| left; done].
  unfold ObjMeshConverter.GetMeshIndex.
  destruct (g <? 0)%Z eqn:Hneg.
  { left. split; [| done]. unfold in_range. apply Z.ltb_lt in Hneg.
    apply andb_false_iff. left. apply Z.leb_gt. lia. }
  apply Z.ltb_ge in Hneg.
  destruct (values !! Z.to_nat g) as [value|] eqn:Hv.
  - right. exists g, value. split; [done |]. split.
    { apply in_range_lookup. split; [done | by eexists]. }
    split; [done |].
    destruct (indices !! g) as [meshIndex|] eqn:Hi.
    + left. by exists meshIndex.
    + right. split; [done |]. by destruct (adder value mesh).
  - left. split; [| done].
    destruct (in_range (Some g) (List.length values)) eqn:Hr; [| done].
    apply in_range_lookup in Hr as [_ [x Hx]]. congruence.
Qed.

Lemma Coord3D_eta (v : Coord3D.t) :
  Coord3D.mk (Coord3D.x v) (Coord3D.y v) (Coord3D.z v) = v.
Proof. by destruct v. Qed.

Lemma Coord2D_eta (v : Coord2D.t) : Coord2D.mk (Coord2D.x v) (Coord2D.y v) = v.
Proof. by destruct v. Qed.

Lemma RGBColor_eta (v : RGBColor.t) :
  RGBColor.mk (RGBColor.r v) (RGBColor.g v) (RGBColor.b v) = v.
Proof. by destruct v. Qed.

Lemma converter_eta (c : ObjMeshConverter.t) :
  ObjMeshConverter.mk (ObjMeshConverter.mesh c) (ObjMeshConverter.globalToMeshVertices c)
    (ObjMeshConverter.globalToMeshVertexColors c) (ObjMeshConverter.globalToMeshNormals c)
    (ObjMeshConverter.globalToMeshUvs c) = c.
Proof. by destruct c. Qed.

(** What an [Add...] method answers and does, for each attribute kind. *)
Lemma add_cases (kind : AttributeKind) (converter : ObjMeshConverter.t)
    (globalIndex : option Z) (values : list (attribute kind)) :
  (in_range globalIndex (List.length values) = false
   /\ add kind converter globalIndex values = (None, converter))
  \/ (exists g value,
        globalIndex = Some g /\ in_range globalIndex (List.length values) = true
        /\ values !! Z.to_nat g = Some value
        /\ ((exists meshIndex,
               index_map kind converter !! g = Some meshIndex
               /\ add kind converter globalIndex values = (Some meshIndex, converter))
            \/ (index_map kind converter !! g = None
                /\ exists converter',
                    add kind converter globalIndex values
                    = (Some (List.length (buffer kind (ObjMeshConverter.mesh converter))),
                       converter')
                    /\ index_map kind converter'
                       = <[g := List.length (buffer kind (ObjMeshConverter.mesh converter))]>
                           (index_map kind converter)
                    /\ buffer kind (ObjMeshConverter.mesh converter')
                       = buffer kind (ObjMeshConverter.mesh converter) ++ [value]
                    /\ (forall other, other <> kind ->
                          index_map other converter' = index_map other converter
                          /\ List.length (buffer other (ObjMeshConverter.mesh converter'))
                             = List.length (buffer other (ObjMeshConverter.mesh converter)))
                    /\ Mesh.triangles (ObjMeshConverter.mesh converter')
                       = Mesh.triangles (ObjMeshConverter.mesh converter)
                    /\ Mesh.lines (ObjMeshConverter.mesh converter')
                       = Mesh.lines (ObjMeshConverter.mesh converter)
                    /\ Mesh.name (ObjMeshConverter.mesh converter')
                       = Mesh.name (ObjMeshConverter.mesh converter)))).
Proof.
  destruct kind; simpl in *;
    unfold ObjMeshConverter.AddVertex, ObjMeshConverter.AddVertexColor,
           ObjMeshConverter.AddNormal, ObjMeshConverter.AddUV;
    match goal with
    | |- context [ObjMeshConverter.GetMeshIndex ?gi ?vs ?m ?f ?mesh] =>
        destruct (GetMeshIndex_cases gi vs m f mesh)
          as [[Hout ->] | (g & value & -> & Hin & Hv & [(meshIndex & Hi & ->) | [Hi ->]])]
    end.
  all: try (left; split; [done |]; by rewrite converter_eta).
  all: try (right; exists g, value; repeat (split; [done |]); left; exists meshIndex;
            split; [done |]; by rewrite converter_eta).
  all: right; exists g, value; repeat (split; [done |]); right; split; [done |];
    eexists; split; [reflexivity |]; simpl;
    rewrite ?Coord3D_eta, ?Coord2D_eta, ?RGBColor_eta;
    repeat (split; [done |]); try done.
  all: split; [intros other Hother; by destruct other |]; done.
Qed.

Lemma grows_refl (c : ObjMeshConverter.t) : grows c c.
Proof. intros kind. done. Qed.

Lemma grows_trans (c1 c2 c3 : ObjMeshConverter.t) : grows c1 c2 -> grows c2 c3 -> grows c1 c3.
Proof. intros H12 H23 kind. etrans; [apply H12 | apply H23]. Qed.

(** The summary of [add] that the loops are reasoned with. *)
Lemma add_summary (kind : AttributeKind) (converter : ObjMeshConverter.t)
    (globalIndex : option Z) (values : list (attribute kind)) :
  forall result converter',
    add kind converter globalIndex values = (result, converter') ->
    grows converter converter'
    /\ Mesh.triangles (ObjMeshConverter.mesh converter')
       = Mesh.triangles (ObjMeshConverter.mesh converter)
    /\ Mesh.lines (ObjMeshConverter.mesh converter')
       = Mesh.lines (ObjMeshConverter.mesh converter)
    /\ (result = None <-> in_range globalIndex (List.length values) = false)
    /\ (forall meshIndex, result = Some meshIndex ->
          exists g, globalIndex = Some g /\ index_map kind converter' !! g = Some meshIndex).
Proof.
  intros result converter' Hadd.
  destruct (add_cases kind converter globalIndex values)
    as [[Hout Heq] | (g & value & -> & Hin & Hv & [(meshIndex & Hi & Heq)
                      | (Hi & c' & Heq & Hmap & Hbuf & Hother & Htri & Hlin & Hname)])];
    rewrite Heq in Hadd; injection Hadd as <- <-.
  - split; [apply grows_refl |]. repeat (split; [done |]). done.
  - split; [apply grows_refl |]. repeat (split; [done |]). split.
    + split; [done | congruence].
    + intros ? [= <-]. by exists g.
  - split.
    { intros other. destruct (decide (other = kind)) as [-> | Hne].
      - rewrite Hmap. by apply insert_subseteq.
      - by rewrite (proj1 (Hother other Hne)). }
    repeat (split; [done |]). split.
    + split; [done | congruence].
    + intros ? [= <-]. exists g. split; [done |]. rewrite Hmap. apply lookup_insert_eq.
Qed.

Lemma add_known (kind : AttributeKind) (converter : ObjMeshConverter.t)
    (g : Z) (meshIndex : nat) (values : list (attribute kind)) :
  index_map kind converter !! g = Some meshIndex ->
  in_range (Some g) (List.length values) = true ->
  add kind converter (Some g) values = (Some meshIndex, converter).
Proof.
  intros Hi Hin.
  destruct (add_cases kind converter (Some g) values)
    as [[Hout _] | (g' & value & [= <-] & _ & _ & [(m & Hm & Heq) | (Hm & _)])];
    congruence.
Qed.

Lemma call_grows (converter : ObjMeshConverter.t) (c : ConverterCall) :
  grows converter (call converter c).
Proof.
  destruct c as [kind gi values | line | triangle]; simpl.
  - destruct (add kind converter gi values) as [r c'] eqn:Hadd.
    by apply add_summary in Hadd as (Hg & _).
  - intros kind. by destruct kind.
  - intros kind. by destruct kind.
Qed.

Lemma calls_grows (cs : list ConverterCall) (converter : ObjMeshConverter.t) :
  grows converter (calls converter cs).
Proof.
  revert converter. induction cs as [|c cs IH]; intros converter; simpl.
  - apply grows_refl.
  - eapply grows_trans; [apply call_grows | apply IH].
Qed.

(** C9.  Within one mesh converter and for each attribute kind: a reference
    to an in-range global index answers a mesh-local index; when the index
    had no mapping yet, that is the position at which the attribute value is
    appended to the mesh's buffer, and the mapping is recorded; and whatever
    the converter is asked in between, every later reference to the same
    global index answers the same mesh-local index and changes nothing. *)
Theorem mesh_index_assigned_once (kind : AttributeKind)
    (converter : ObjMeshConverter.t) (g : Z) (values : list (attribute kind))
    (value : attribute kind) :
  (0 <= g)%Z ->
  values !! Z.to_nat g = Some value ->
  exists meshIndex converter1,
    add kind converter (Some g) values = (Some meshIndex, converter1)
    /\ (index_map kind converter !! g = None ->
        meshIndex = List.length (buffer kind (ObjMeshConverter.mesh converter))
        /\ buffer kind (ObjMeshConverter.mesh converter1)
           = buffer kind (ObjMeshConverter.mesh converter) ++ [value]
        /\ index_map kind converter1 = <[g := meshIndex]> (index_map kind converter))
    /\ (forall later values',
          in_range (Some g) (List.length values') = true ->
          add kind (calls converter1 later) (Some g) values'
          = (Some meshIndex, calls converter1 later)).
Proof.
  intros Hpos Hvalue.
  destruct (add_cases kind converter (Some g) values)
    as [[Hout _] | (g' & value' & [= <-] & Hin & Hv & [(m & Hm & Heq)
                    | (Hm & c' & Heq & Hmap & Hbuf & _)])].
  - assert (in_range (Some g) (List.length values) = true); [| congruence].
    apply in_range_lookup. split; [done | by eexists].
  - exists m, converter. split; [done |]. split; [congruence |].
    intros later values' Hin'. apply add_known; [| done].
    by apply (lookup_weaken _ _ _ _ Hm (calls_grows later converter kind)).
  - rewrite Hv in Hvalue. injection Hvalue as ->.
    eexists _, c'. split; [exact Heq |]. split; [done |].
    intros later values' Hin'. apply add_known; [| done].
    apply (lookup_weaken (index_map kind c')); [| apply calls_grows].
    rewrite Hmap. apply lookup_insert_eq.
Qed.

(** [mesh_index_assigned_once] at the third of three global vertices, in a
    fresh converter. *)
Lemma mesh_index_assigned_once_witness :
  let values :=
    [Coord3D.mk (Js.parseFloat "0") (Js.parseFloat "0") (Js.parseFloat "0");
     Coord3D.mk (Js.parseFloat "1") (Js.parseFloat "0") (Js.parseFloat "0");
     Coord3D.mk (Js.parseFloat "1") (Js.parseFloat "1") (Js.parseFloat "0")] in
  let value := Coord3D.mk (Js.parseFloat "1") (Js.parseFloat "1") (Js.parseFloat "0") in
  let converter := ObjMeshConverter.new Mesh.new in
  ((0 <= 2)%Z /\ values !! Z.to_nat 2 = Some value)
  /\ exists meshIndex converter1,
      add Vertices converter (Some 2%Z) values = (Some meshIndex, converter1)
      /\ (index_map Vertices converter !! 2%Z = None ->
          meshIndex = List.length (buffer Vertices (ObjMeshConverter.mesh converter))
          /\ buffer Vertices (ObjMeshConverter.mesh converter1)
             = buffer Vertices (ObjMeshConverter.mesh converter) ++ [value]
          /\ index_map Vertices converter1
             = <[2%Z := meshIndex]> (index_map Vertices converter))
      /\ (forall later values',
            in_range (Some 2%Z) (List.length values') = true ->
            add Vertices (calls converter1 later) (Some 2%Z) values'
            = (Some meshIndex, calls converter1 later)).
Proof.
  intros values value converter.
  assert (Hpos : (0 <= 2)%Z) by lia.
  assert (Hvalue : values !! Z.to_nat 2 = Some value) by reflexivity.
  split; [by split |].
  exact (mesh_index_assigned_once Vertices converter 2 values value Hpos Hvalue).
Defined.

(** ** Faces: resolved indices and the triangles of the fan *)

Lemma fold_left_equal {A P} (f g : A -> P -> A) (l : list P) (a : A) :
  (forall a p, f a p = g a p) -> fold_left f l a = fold_left g l a.
Proof.
  intros Hfg. revert a. induction l as [|p l IH]; intros a; simpl; [done |].
  by rewrite Hfg, IH.
Qed.

Lemma face_fold (this : ImporterObj.t) (parameters : list string)
    (acc : list (option Z) * list (option Z) * list (option Z) * list (option Z)) :
  fold_left
    (fun acc parameter =>
       (acc.1.1.1 ++ [face_vertex_index this parameter],
        acc.1.1.2 ++ (if (List.length (ImporterObj.globalVertices this)
                          =? List.length (ImporterObj.globalVertexColors this))%nat
                      then [face_vertex_index this parameter] else []),
        acc.1.2 ++ option_list (face_normal_index this parameter),
        acc.2 ++ option_list (face_uv_index this parameter)))
    parameters acc
  = (acc.1.1.1 ++ map (face_vertex_index this) parameters,
     acc.1.1.2 ++ (if (List.length (ImporterObj.globalVertices this)
                       =? List.length (ImporterObj.globalVertexColors this))%nat
                   then map (face_vertex_index this) parameters else []),
     acc.1.2 ++ omap (face_normal_index this) parameters,
     acc.2 ++ omap (face_uv_index this) parameters).
Proof.
  revert acc. induction parameters as [|parameter parameters IH]; intros acc.
  - destruct acc as [[[v c] n] u]. simpl. destruct (_ =? _)%nat; by rewrite !app_nil_r.
  - cbn [fold_left]. rewrite IH. clear IH. cbn [fst snd map omap list_omap].
    destruct (_ =? _)%nat;
      destruct (face_normal_index this parameter);
      destruct (face_uv_index this parameter); simpl;
      rewrite <- ?app_assoc, ?app_nil_r; reflexivity.
Qed.

(** The four lists of [FaceIndices]: one vertex index for every reference,
    the same indices again as color indices when every global vertex has a
    color, and one index for every non-empty normal and UV slot. *)
Lemma FaceIndices_spec (this : ImporterObj.t) (parameters : list string) :
  ImporterObj.FaceIndices this parameters
  = (map (face_vertex_index this) parameters,
     (if (List.length (ImporterObj.globalVertices this)
          =? List.length (ImporterObj.globalVertexColors this))%nat
      then map (face_vertex_index this) parameters else []),
     omap (face_normal_index this) parameters,
     omap (face_uv_index this) parameters).
Proof.
  unfold ImporterObj.FaceIndices.
  erewrite fold_left_equal; [apply (face_fold this parameters ([], [], [], [])) |].
  intros [[[v c] n] u] parameter. cbn [fst snd].
  unfold face_vertex_index, face_normal_index, face_uv_index. cbn zeta.
  destruct (_ =? _)%nat; destruct (_ && _); destruct (_ && _); simpl;
    rewrite ?app_nil_r; reflexivity.
Qed.

Lemma lookup_grows (kind : AttributeKind) (c c' : ObjMeshConverter.t) (g : Z) (m : nat) :
  grows c c' -> index_map kind c !! g = Some m -> index_map kind c' !! g = Some m.
Proof. intros Hg Hm. by apply (lookup_weaken _ _ _ _ Hm (Hg kind)). Qed.

Lemma local_index_grows (kind : AttributeKind) (c c' : ObjMeshConverter.t)
    (indices : list (option Z)) (j m : nat) :
  grows c c' -> local_index kind c indices j = Some m -> local_index kind c' indices j = Some m.
Proof.
  unfold local_index. intros Hg. destruct (ImporterObj.at_index indices j) as [g|]; [| done].
  simpl. by apply lookup_grows.
Qed.

Lemma fan_triangle_grows (c c' : ObjMeshConverter.t) (vertices : list (option Z))
    (i : nat) (t : Triangle.t) :
  grows c c' -> fan_triangle c vertices i t -> fan_triangle c' vertices i t.
Proof.
  intros Hg (H0 & H1 & H2). repeat split; by apply (local_index_grows _ c).
Qed.

Lemma add_three_spec (kind : AttributeKind) (indices : list (option Z))
    (values : list (attribute kind)) (i : nat) (converter : ObjMeshConverter.t) :
  forall converter' result,
    add_three kind indices values i converter = (converter', result) ->
    grows converter converter'
    /\ Mesh.triangles (ObjMeshConverter.mesh converter')
       = Mesh.triangles (ObjMeshConverter.mesh converter)
    /\ Mesh.lines (ObjMeshConverter.mesh converter')
       = Mesh.lines (ObjMeshConverter.mesh converter)
    /\ match result with
       | None =>
           in_range (ImporterObj.at_index indices 0) (List.length values) = false
           \/ in_range (ImporterObj.at_index indices (i + 1)) (List.length values) = false
           \/ in_range (ImporterObj.at_index indices (i + 2)) (List.length values) = false
       | Some (a, b, c) =>
           (in_range (ImporterObj.at_index indices 0) (List.length values) = true
            /\ in_range (ImporterObj.at_index indices (i + 1)) (List.length values) = true
            /\ in_range (ImporterObj.at_index indices (i + 2)) (List.length values) = true)
           /\ local_index kind converter' indices 0 = Some a
           /\ local_index kind converter' indices (i + 1) = Some b
           /\ local_index kind converter' indices (i + 2) = Some c
       end.
Proof.
  intros converter' result. unfold add_three.
  destruct (add kind converter _ values) as [a c1] eqn:Ha.
  destruct (add kind c1 _ values) as [b c2] eqn:Hb.
  destruct (add kind c2 _ values) as [c c3] eqn:Hc.
  intros [= <- <-].
  apply add_summary in Ha as (Hg1 & Ht1 & Hl1 & Hn1 & Hs1).
  apply add_summary in Hb as (Hg2 & Ht2 & Hl2 & Hn2 & Hs2).
  apply add_summary in Hc as (Hg3 & Ht3 & Hl3 & Hn3 & Hs3).
  split; [eauto using grows_trans |].
  split; [congruence |]. split; [congruence |].
  destruct a as [a|]; [| left; by apply Hn1].
  destruct b as [b|]; [| right; left; by apply Hn2].
  destruct c as [c|]; [| right; right; by apply Hn3].
  destruct (Hs1 a eq_refl) as (ga & Hga & Hma).
  destruct (Hs2 b eq_refl) as (gb & Hgb & Hmb).
  destruct (Hs3 c eq_refl) as (gc & Hgc & Hmc).
  split.
  { repeat split; apply not_false_iff_true; intros E.
    - by apply Hn1 in E.
    - by apply Hn2 in E.
    - by apply Hn3 in E. }
  unfold local_index. rewrite Hga, Hgb, Hgc. simpl.
  repeat split; eauto using lookup_grows, grows_trans.
Qed.

(** The three calls and the test of one attribute kind, as they stand in the
    body of the loop, in terms of [add_three]. *)
Lemma three_adds_bind {A B} (kind : AttributeKind) (indices : list (option Z))
    (values : list (attribute kind)) (i : nat) (message : string)
    (body : nat * nat * nat -> Break.M ObjMeshConverter.t A)
    (K : A -> Break.M ObjMeshConverter.t B) (converter : ObjMeshConverter.t) :
  Break.bind
    (let* a := Break.lift (fun c => add kind c (ImporterObj.at_index indices 0) values) in
     let* b := Break.lift (fun c => add kind c (ImporterObj.at_index indices (i + 1)) values) in
     let* c := Break.lift (fun c => add kind c (ImporterObj.at_index indices (i + 2)) values) in
     let* p := ImporterObj.require3 a b c message in body p)
    K converter
  = match add_three kind indices values i converter with
    | (converter, Some p) => Break.bind (body p) K converter
    | (converter, None) => (converter, inl message)
    end.
Proof.
  unfold add_three, Break.bind, Break.lift, ImporterObj.require3, Break.ret, Break.fail.
  destruct (add kind converter _ values) as [a c1].
  destruct (add kind c1 _ values) as [b c2].
  destruct (add kind c2 _ values) as [c c3].
  destruct a, b, c; reflexivity.
Qed.

Lemma three_adds_cps {A} (kind : AttributeKind) (indices : list (option Z))
    (values : list (attribute kind)) (i : nat) (message : string)
    (body : nat * nat * nat -> Break.M ObjMeshConverter.t A)
    (converter : ObjMeshConverter.t) :
  (let* a := Break.lift (fun c => add kind c (ImporterObj.at_index indices 0) values) in
   let* b := Break.lift (fun c => add kind c (ImporterObj.at_index indices (i + 1)) values) in
   let* c := Break.lift (fun c => add kind c (ImporterObj.at_index indices (i + 2)) values) in
   let* p := ImporterObj.require3 a b c message in body p) converter
  = match add_three kind indices values i converter with
    | (converter, Some p) => body p converter
    | (converter, None) => (converter, inl message)
    end.
Proof.
  unfold add_three, Break.bind, Break.lift, ImporterObj.require3, Break.ret, Break.fail.
  destruct (add kind converter _ values) as [a c1].
  destruct (add kind c1 _ values) as [b c2].
  destruct (add kind c2 _ values) as [c c3].
  destruct a, b, c; reflexivity.
Qed.

Lemma bind_ret {S A B} (a : A) (K : A -> Break.M S B) (s : S) :
  Break.bind (Break.ret a) K s = K a s.
Proof. reflexivity. Qed.

Lemma AddTriangle_grows (c : ObjMeshConverter.t) (t : Triangle.t) :
  grows c (ObjMeshConverter.AddTriangle c t).
Proof. intros kind. by destruct kind. Qed.

Ltac grows_chain :=
  repeat (eapply grows_trans; [eassumption |]);
  first [apply AddTriangle_grows | apply grows_refl | assumption].

Ltac stage_failed :=
  eexists _, _; split; [reflexivity |];
  split; [grows_chain |];
  split; [congruence |];
  split; [congruence |];
  unfold broken_by; cbn zeta; tauto.

Ltac attribute_stage kind :=
  match goal with
  | |- context [if (?a =? ?b)%nat then _ else _] =>
      let E := fresh "Hcount" in
      destruct (a =? b)%nat eqn:E;
      [ apply Nat.eqb_eq in E;
        rewrite (three_adds_bind kind);
        match goal with
        | |- context [add_three kind ?idx ?vals ?i ?c] =>
            let Hs := fresh "Hstage" in
            let c' := fresh "c" in
            let r := fresh "r" in
            destruct (add_three kind idx vals i c) as [c' r] eqn:Hs;
            apply add_three_spec in Hs;
            destruct Hs as (? & ? & ? & ?);
            destruct r as [[[? ?] ?]|];
            [ rewrite bind_ret | stage_failed ]
        end
      | apply Nat.eqb_neq in E; rewrite bind_ret ]
  end.

Ltac attribute_present :=
  split; [intros _; assumption | intros _; by eexists].

Ltac attribute_absent :=
  split; [intros [? ?]; discriminate | intros ?; contradiction].

Lemma FaceTriangle_cases (this : ImporterObj.t)
    (vertices colors normals uvs : list (option Z)) (i : nat)
    (converter : ObjMeshConverter.t) :
  exists converter' result,
    ImporterObj.FaceTriangle this vertices colors normals uvs i converter
    = (converter', result)
    /\ grows converter converter'
    /\ Mesh.lines (ObjMeshConverter.mesh converter')
       = Mesh.lines (ObjMeshConverter.mesh converter)
    /\ match result with
       | inl _ =>
           Mesh.triangles (ObjMeshConverter.mesh converter')
           = Mesh.triangles (ObjMeshConverter.mesh converter)
           /\ broken_by this vertices colors normals uvs i
       | inr _ =>
           exists triangle,
             Mesh.triangles (ObjMeshConverter.mesh converter')
             = Mesh.triangles (ObjMeshConverter.mesh converter) ++ [triangle]
             /\ fan_triangle converter' vertices i triangle
             /\ attributes_all_or_nothing vertices colors normals uvs triangle
             /\ Triangle.mat triangle = ImporterObj.currentMaterialIndex this
             /\ in_range (ImporterObj.at_index vertices 0)
                         (List.length (ImporterObj.globalVertices this)) = true
             /\ in_range (ImporterObj.at_index vertices (i + 1))
                         (List.length (ImporterObj.globalVertices this)) = true
             /\ in_range (ImporterObj.at_index vertices (i + 2))
                         (List.length (ImporterObj.globalVertices this)) = true
       end.
Proof.
  unfold ImporterObj.FaceTriangle.
  rewrite (three_adds_cps Vertices).
  destruct (add_three Vertices vertices (ImporterObj.globalVertices this) i converter)
    as [c1 r1] eqn:Hv.
  apply add_three_spec in Hv. destruct Hv as (Hg1 & Ht1 & Hl1 & Hr1).
  destruct r1 as [[[v0 v1] v2]|].
  2:{ eexists _, _. split; [reflexivity |]. repeat (split; [done |]). by left. }
  destruct Hr1 as ((Hin0 & Hin1 & Hin2) & Hf0 & Hf1 & Hf2).
  attribute_stage VertexColors; attribute_stage Normals; attribute_stage Uvs.
  all: destruct (ImporterObj.currentMaterialIndex this) as [material|].
  all: eexists _, _; split; [reflexivity |].
  all: split; [grows_chain |].
  all: split; [simpl; congruence |].
  all: eexists; split; [simpl; apply (f_equal2 app); [congruence | reflexivity] |].
  all: split; [apply (fan_triangle_grows c1); [grows_chain | by repeat split] |].
  all: split; [| by split].
  all: unfold attributes_all_or_nothing; simpl;
    repeat split;
    first [ intros _; assumption
          | intros [? ?]; discriminate
          | intros ?; contradiction
          | intros _; by eexists ].
Qed.

Lemma emitted_grows (this : ImporterObj.t) (vertices colors normals uvs : list (option Z))
    (c c' : ObjMeshConverter.t) (i : nat) (t : Triangle.t) :
  grows c c' ->
  emitted this vertices colors normals uvs c i t ->
  emitted this vertices colors normals uvs c' i t.
Proof.
  intros Hg (Hfan & Hrest). split; [by apply (fan_triangle_grows c) | done].
Qed.

(** The second loop of [ProcessFaceCommand] over any steps [steps]: the
    triangles it appends are those of the steps [finished] it got through, a
    prefix of [steps], all of them when it was not left by [break]; and when
    it was, the step after [finished] is the one given up. *)
Lemma face_loop (this : ImporterObj.t) (vertices colors normals uvs : list (option Z))
    (steps : list nat) (converter : ObjMeshConverter.t) :
  exists converter' broke finished new,
    Break.for_each (ImporterObj.FaceTriangle this vertices colors normals uvs)
                   steps converter = (converter', broke)
    /\ grows converter converter'
    /\ Mesh.lines (ObjMeshConverter.mesh converter')
       = Mesh.lines (ObjMeshConverter.mesh converter)
    /\ Mesh.triangles (ObjMeshConverter.mesh converter')
       = Mesh.triangles (ObjMeshConverter.mesh converter) ++ new
    /\ finished `prefix_of` steps
    /\ Forall2 (emitted this vertices colors normals uvs converter') finished new
    /\ (broke = None -> finished = steps)
    /\ (forall message, broke = Some message ->
          exists i, steps !! List.length finished = Some i
                    /\ broken_by this vertices colors normals uvs i).
Proof.
  revert converter. induction steps as [|i steps IH]; intros converter.
  - exists converter, None, [], []. simpl. split; [done |].
    split; [apply grows_refl |]. split; [done |]. split; [by rewrite app_nil_r |].
    split; [done |]. split; [constructor |]. split; [done |]. intros ? [=].
  - simpl.
    destruct (FaceTriangle_cases this vertices colors normals uvs i converter)
      as (c1 & result & -> & Hg1 & Hl1 & Hres).
    destruct result as [message | []].
    + destruct Hres as [Ht1 Hbroken].
      exists c1, (Some message), [], []. split; [done |]. split; [done |].
      split; [done |]. split; [by rewrite app_nil_r |].
      split; [apply prefix_nil |]. split; [constructor |]. split; [done |].
      intros ? _. by exists i.
    + destruct Hres as (t & Ht1 & Hemitted).
      destruct (IH c1) as (c' & broke & finished & new & -> & Hg & Hl & Ht & Hpre & Hall
                           & Hnone & Hsome).
      exists c', broke, (i :: finished), (t :: new). split; [done |].
      split; [by eapply grows_trans |]. split; [congruence |].
      split; [rewrite Ht, Ht1; by rewrite <- app_assoc |].
      split; [by apply prefix_cons |].
      split; [constructor; [| done]; by apply (emitted_grows _ _ _ _ _ c1) |].
      split; [intros Hb; by rewrite (Hnone Hb) |].
      intros message Hb. apply (Hsome message Hb).
Qed.

Lemma at_index_in_range (indices : list (option Z)) (count j : nat) :
  Forall (fun index => in_range index count = true) indices ->
  (j < List.length indices)%nat ->
  in_range (ImporterObj.at_index indices j) count = true.
Proof.
  intros Hall Hj. unfold ImporterObj.at_index.
  destruct (lookup_lt_is_Some_2 indices j Hj) as [index Hindex].
  rewrite Hindex. simpl. by apply (Forall_lookup_1 _ _ _ _ Hall Hindex).
Qed.

Lemma ProcessFaceCommand_unfold `{ImporterUtils} (this : ImporterObj.t)
    (parameters : list string) (current : nat) (converter : ObjMeshConverter.t) :
  ImporterObj.currentMeshConverter (prepare this) = Some current ->
  ImporterObj.converters (prepare this) !! current = Some converter ->
  ImporterObj.ProcessFaceCommand this parameters
  = let '(vertices, colors, normals, uvs) :=
      ImporterObj.FaceIndices (prepare this) parameters in
    let '(converter, broke) :=
      Break.for_each (ImporterObj.FaceTriangle (prepare this) vertices colors normals uvs)
                     (seq 0 (List.length vertices - 2)) converter in
    let this' :=
      ImporterObj.with_converters (prepare this)
        (<[current := converter]> (ImporterObj.converters (prepare this))) in
    match broke with
    | Some message => ImporterObj.SetError this' (Loc message)
    | None => this'
    end.
Proof.
  intros Hc Hconv. unfold ImporterObj.ProcessFaceCommand.
  change (match ImporterObj.currentMeshConverter this with
          | Some _ => this
          | None => ImporterObj.AddNewMesh this ""
          end) with (prepare this).
  cbv zeta. destruct (ImporterObj.FaceIndices (prepare this) parameters) as [[[vs cs] ns] us].
  by rewrite Hc, Hconv.
Qed.

Lemma prepare_fields (this : ImporterObj.t) :
  ImporterObj.error (prepare this) = ImporterObj.error this
  /\ ImporterObj.globalVertices (prepare this) = ImporterObj.globalVertices this
  /\ ImporterObj.globalVertexColors (prepare this) = ImporterObj.globalVertexColors this
  /\ ImporterObj.globalNormals (prepare this) = ImporterObj.globalNormals this
  /\ ImporterObj.globalUvs (prepare this) = ImporterObj.globalUvs this
  /\ ImporterObj.currentMaterialIndex (prepare this) = ImporterObj.currentMaterialIndex this.
Proof.
  unfold prepare, ImporterObj.AddNewMesh.
  destruct (ImporterObj.currentMeshConverter this); [done |].
  by destruct (ImporterObj.meshNameToConverter this !! _).
Qed.

(** What [ProcessFaceCommand] does to the mesh it works on. *)
Lemma ProcessFaceCommand_outcome `{ImporterUtils} (this : ImporterObj.t)
    (parameters : list string) (current : nat) (converter : ObjMeshConverter.t) :
  ImporterObj.currentMeshConverter (prepare this) = Some current ->
  ImporterObj.converters (prepare this) !! current = Some converter ->
  forall vertices colors normals uvs,
    ImporterObj.FaceIndices (prepare this) parameters = (vertices, colors, normals, uvs) ->
    exists converter' (broke : option string) finished new,
      ImporterObj.converters (ImporterObj.ProcessFaceCommand this parameters)
      = <[current := converter']> (ImporterObj.converters (prepare this))
      /\ ImporterObj.error (ImporterObj.ProcessFaceCommand this parameters)
         = match broke with Some _ => true | None => ImporterObj.error this end
      /\ grows converter converter'
      /\ Mesh.lines (ObjMeshConverter.mesh converter')
         = Mesh.lines (ObjMeshConverter.mesh converter)
      /\ Mesh.triangles (ObjMeshConverter.mesh converter')
         = Mesh.triangles (ObjMeshConverter.mesh converter) ++ new
      /\ finished `prefix_of` seq 0 (List.length vertices - 2)
      /\ Forall2 (emitted (prepare this) vertices colors normals uvs converter') finished new
      /\ (broke = None -> finished = seq 0 (List.length vertices - 2))
      /\ (forall message, broke = Some message ->
            exists i, seq 0 (List.length vertices - 2) !! List.length finished = Some i
                      /\ broken_by (prepare this) vertices colors normals uvs i).
Proof.
  intros Hc Hconv vertices colors normals uvs Hind.
  rewrite (ProcessFaceCommand_unfold this parameters current converter Hc Hconv), Hind.
  destruct (face_loop (prepare this) vertices colors normals uvs
              (seq 0 (List.length vertices - 2)) converter)
    as (c' & broke & finished & new & -> & Hg & Hl & Ht & Hpre & Hall & Hnone & Hsome).
  exists c', broke, finished, new.
  split; [by destruct broke |].
  split; [destruct broke; [done | apply prepare_fields] |].
  done.
Qed.

Lemma lookup_insert_converter (converters : list ObjMeshConverter.t) (current : nat)
    (converter converter' : ObjMeshConverter.t) :
  converters !! current = Some converter ->
  <[current := converter']> converters !! current = Some converter'.
Proof.
  intros Hc. apply list_lookup_insert_eq. by apply lookup_lt_Some in Hc.
Qed.

(** C8.  Of the triangles a face directive adds to its mesh, each carries
    vertex colors exactly when the face has as many color references as
    vertex references, normals exactly when it has as many normal references,
    and UVs exactly when it has as many UV references: an attribute kind whose
    count differs is on none of them. *)
Theorem face_attributes_all_or_nothing `{ImporterUtils} (this : ImporterObj.t)
    (parameters : list string) (current : nat) (converter : ObjMeshConverter.t)
    (vertices colors normals uvs : list (option Z)) :
  ImporterObj.currentMeshConverter (prepare this) = Some current ->
  ImporterObj.converters (prepare this) !! current = Some converter ->
  ImporterObj.FaceIndices (prepare this) parameters = (vertices, colors, normals, uvs) ->
  exists converter' new,
    ImporterObj.converters (ImporterObj.ProcessFaceCommand this parameters) !! current
    = Some converter'
    /\ Mesh.triangles (ObjMeshConverter.mesh converter')
       = Mesh.triangles (ObjMeshConverter.mesh converter) ++ new
    /\ Forall (fun triangle =>
                 (is_Some (Triangle.colors triangle)
                  <-> List.length colors = List.length vertices)
                 /\ (is_Some (Triangle.normals triangle)
                     <-> List.length normals = List.length vertices)
                 /\ (is_Some (Triangle.uvs triangle)
                     <-> List.length uvs = List.length vertices)) new.
Proof.
  intros Hc Hconv Hind.
  destruct (ProcessFaceCommand_outcome this parameters current converter Hc Hconv
              vertices colors normals uvs Hind)
    as (c' & broke & finished & new & Hconvs & _ & _ & _ & Ht & _ & Hall & _).
  exists c', new. split; [rewrite Hconvs; by eapply lookup_insert_converter |].
  split; [done |].
  clear Ht. induction Hall as [|i t finished new (_ & Hattr & _) _ IH]; constructor; done.
Qed.

Lemma seq_prefix_length (finished : list nat) (n : nat) :
  finished `prefix_of` seq 0 n -> finished = seq 0 (List.length finished).
Proof.
  intros [rest Hrest].
  assert (Hlen : (List.length finished <= n)%nat).
  { apply (f_equal List.length) in Hrest. rewrite length_seq, length_app in Hrest. lia. }
  replace n with (List.length finished + (n - List.length finished))%nat in Hrest by lia.
  rewrite seq_app in Hrest. apply app_inj_1 in Hrest as [Hrest _]; [done |].
  by rewrite length_seq.
Qed.

(** C6, as amended.  A face directive whose vertex indices all resolve in
    range, and whose normal and UV indices do so too when the face has as
    many of them as vertex references, does not fail, and adds exactly
    [k - 2] triangles for its [k] references: the [i]-th of them has for
    corners the mesh-local indices of the references [0], [i + 1] and
    [i + 2]. *)
Theorem face_fan_triangulation `{ImporterUtils} (this : ImporterObj.t)
    (parameters : list string) (current : nat) (converter : ObjMeshConverter.t)
    (vertices colors normals uvs : list (option Z)) :
  ImporterObj.currentMeshConverter (prepare this) = Some current ->
  ImporterObj.converters (prepare this) !! current = Some converter ->
  ImporterObj.FaceIndices (prepare this) parameters = (vertices, colors, normals, uvs) ->
  Forall (fun index =>
            in_range index (List.length (ImporterObj.globalVertices this)) = true)
         vertices ->
  attached_in_range normals vertices (List.length (ImporterObj.globalNormals this)) ->
  attached_in_range uvs vertices (List.length (ImporterObj.globalUvs this)) ->
  exists converter' new,
    ImporterObj.converters (ImporterObj.ProcessFaceCommand this parameters) !! current
    = Some converter'
    /\ ImporterObj.error (ImporterObj.ProcessFaceCommand this parameters)
       = ImporterObj.error this
    /\ Mesh.triangles (ObjMeshConverter.mesh converter')
       = Mesh.triangles (ObjMeshConverter.mesh converter) ++ new
    /\ List.length new = (List.length parameters - 2)%nat
    /\ forall i, (i < List.length parameters - 2)%nat ->
         exists triangle,
           new !! i = Some triangle
           /\ local_index Vertices converter' vertices 0 = Some (Triangle.v0 triangle)
           /\ local_index Vertices converter' vertices (i + 1) = Some (Triangle.v1 triangle)
           /\ local_index Vertices converter' vertices (i + 2) = Some (Triangle.v2 triangle).
Proof.
  intros Hc Hconv Hind Hvs Hns Hus.
  rename vertices into vs, colors into cs, normals into ns, uvs into us.
  pose proof Hind as Hspec. rewrite FaceIndices_spec in Hspec.
  destruct (prepare_fields this) as (_ & Hgv & Hgc & Hgn & Hgu & _).
  injection Hspec as Hvs' Hcs' Hns' Hus'.
  assert (Hk : List.length vs = List.length parameters)
    by (rewrite <- Hvs'; apply length_map).
  destruct (ProcessFaceCommand_outcome this parameters current converter Hc Hconv
              vs cs ns us Hind)
    as (c' & broke & finished & new & Hconvs & Herr & _ & _ & Ht & Hpre & Hall
        & Hnone & Hsome).
  assert (Hbroke : broke = None).
  { destruct broke as [message|]; [| done]. exfalso.
    destruct (Hsome message eq_refl) as (i & Hi & Hbad).
    apply lookup_seq in Hi as [Hi0 Hi]. simpl in Hi0. rewrite <- Hi0 in Hi. clear Hi0.
    assert (Hgood : forall indices count,
               List.length indices = List.length vs ->
               Forall (fun index => in_range index count = true) indices ->
               ~ (in_range (ImporterObj.at_index indices 0) count = false
                  \/ in_range (ImporterObj.at_index indices (i + 1)) count = false
                  \/ in_range (ImporterObj.at_index indices (i + 2)) count = false)).
    { intros indices count Hlen Hin Hor.
      pose proof (at_index_in_range indices count 0 Hin ltac:(lia)).
      pose proof (at_index_in_range indices count (i + 1) Hin ltac:(lia)).
      pose proof (at_index_in_range indices count (i + 2) Hin ltac:(lia)).
      destruct Hor as [? | [? | ?]]; congruence. }
    unfold broken_by in Hbad. cbn zeta in Hbad. rewrite Hgv, Hgc, Hgn, Hgu in Hbad.
    destruct Hbad as [Hbad | [[Hlen Hbad] | [[Hlen Hbad] | [Hlen Hbad]]]].
    - exact (Hgood vs _ eq_refl Hvs Hbad).
    - refine (Hgood cs _ Hlen _ Hbad).
      rewrite Hgv, Hgc in Hcs'.
      destruct (_ =? _)%nat eqn:Heq.
      + apply Nat.eqb_eq in Heq. rewrite <- Heq. by rewrite <- Hcs', Hvs'.
      + subst cs. simpl in Hlen. lia.
    - exact (Hgood ns _ Hlen (Hns Hlen) Hbad).
    - exact (Hgood us _ Hlen (Hus Hlen) Hbad). }
  specialize (Hnone Hbroke). subst finished broke.
  exists c', new. split; [rewrite Hconvs; by eapply lookup_insert_converter |].
  split; [done |]. split; [done |].
  assert (Hlen : List.length new = (List.length parameters - 2)%nat).
  { apply Forall2_length in Hall. rewrite length_seq in Hall. lia. }
  split; [done |]. intros i Hi.
  destruct (lookup_lt_is_Some_2 new i ltac:(lia)) as [t Hti].
  exists t. split; [done |].
  assert (Hseq : seq 0 (List.length vs - 2) !! i = Some i).
  { rewrite lookup_seq. split; [done | lia]. }
  destruct (Forall2_lookup_lr _ _ _ _ _ _ Hall Hseq Hti) as (Hfan & _). exact Hfan.
Qed.

(** ** Index resolution and out-of-range references *)

Lemma guarded_after_error {World : Type}
    (ProcessLine : string -> ImporterObj.t * World -> option (ImporterObj.t * World))
    (lines : list string) (this : ImporterObj.t) (w : World) :
  ImporterObj.WasError this = true ->
  fold_left (ImporterObj.guarded_line ProcessLine) lines (Some (this, w)) = Some (this, w).
Proof.
  intros Herr. induction lines as [|line lines IH]; simpl; [done |].
  by rewrite Herr.
Qed.

Lemma LineVertex_cases (this : ImporterObj.t) (parameter : string)
    (converter : ObjMeshConverter.t) (vertices : list nat) :
  ImporterObj.LineVertex this parameter (converter, vertices)
  = let '(meshVertexIndex, converter') :=
      add Vertices converter (face_vertex_index this parameter)
          (ImporterObj.globalVertices this) in
    match meshVertexIndex with
    | None => ((converter', vertices), inl "Invalid vertex index.")
    | Some meshVertexIndex => ((converter', vertices ++ [meshVertexIndex]), inr tt)
    end.
Proof.
  unfold ImporterObj.LineVertex, Break.bind, Break.lift, face_vertex_index. simpl.
  destruct (ObjMeshConverter.AddVertex converter _ _) as [[m|] c']; reflexivity.
Qed.

(** The loop of [ProcessLineCommand] is left by [break] when one of the
    references resolves out of range. *)
Lemma line_loop_breaks (this : ImporterObj.t) (parameters : list string)
    (converter : ObjMeshConverter.t) (vertices : list nat) (j : nat) (parameter : string) :
  parameters !! j = Some parameter ->
  in_range (face_vertex_index this parameter)
           (List.length (ImporterObj.globalVertices this)) = false ->
  exists converter' vertices' message,
    Break.for_each (ImporterObj.LineVertex this) parameters (converter, vertices)
    = ((converter', vertices'), Some message).
Proof.
  revert converter vertices j.
  induction parameters as [|p parameters IH]; intros converter vertices j Hj Hbad;
    [done |].
  simpl. rewrite LineVertex_cases.
  destruct (add Vertices converter (face_vertex_index this p) _) as [m c'] eqn:Hadd.
  apply add_summary in Hadd as (_ & _ & _ & Hnone & _).
  destruct m as [m|]; [| by eexists _, _, _].
  destruct j as [|j]; [| by apply (IH _ _ j)].
  injection Hj as ->. apply Hnone in Hbad. done.
Qed.

Lemma ProcessLineCommand_error `{ImporterUtils} (this : ImporterObj.t)
    (parameters : list string) (current : nat) (converter : ObjMeshConverter.t)
    (j : nat) (parameter : string) :
  ImporterObj.currentMeshConverter (prepare this) = Some current ->
  ImporterObj.converters (prepare this) !! current = Some converter ->
  parameters !! j = Some parameter ->
  in_range (face_vertex_index this parameter)
           (List.length (ImporterObj.globalVertices this)) = false ->
  ImporterObj.error (ImporterObj.ProcessLineCommand this parameters) = true.
Proof.
  intros Hc Hconv Hj Hbad. unfold ImporterObj.ProcessLineCommand.
  change (match ImporterObj.currentMeshConverter this with
          | Some _ => this
          | None => ImporterObj.AddNewMesh this ""
          end) with (prepare this).
  cbv zeta. rewrite Hc, Hconv.
  destruct (prepare_fields this) as (_ & Hgv & _).
  assert (Hbad' : in_range (face_vertex_index (prepare this) parameter)
                    (List.length (ImporterObj.globalVertices (prepare this))) = false).
  { unfold face_vertex_index in *. by rewrite Hgv. }
  destruct (line_loop_breaks (prepare this) parameters converter [] j parameter Hj Hbad')
    as (c' & vs' & message & ->).
  reflexivity.
Qed.

(** C2, as amended.  When a vertex reference of a face or line directive
    resolves out of range, the parse is flagged as failed.  For a face with
    [k >= 3] references of which the [j]-th is the offending one, no triangle
    that has this reference for a corner is added: the mesh gains at most the
    triangles of the fan that come before it, which are at most [j - 2].
    Once the parse is flagged, the loops over the lines of a text leave the
    importer and the state behind the callbacks as they are, whatever the
    lines. *)
Theorem out_of_range_vertex_reference `{ImporterUtils} {World : Type}
    (this : ImporterObj.t) (parameters : list string) (current : nat)
    (converter : ObjMeshConverter.t) (j : nat) (parameter : string) :
  ImporterObj.currentMeshConverter (prepare this) = Some current ->
  ImporterObj.converters (prepare this) !! current = Some converter ->
  parameters !! j = Some parameter ->
  in_range (face_vertex_index this parameter)
           (List.length (ImporterObj.globalVertices this)) = false ->
  let face := ImporterObj.ProcessFaceCommand this parameters in
  let line := ImporterObj.ProcessLineCommand this parameters in
  ((3 <= List.length parameters)%nat ->
   ImporterObj.error face = true
   /\ exists converter' new,
       ImporterObj.converters face !! current = Some converter'
       /\ Mesh.triangles (ObjMeshConverter.mesh converter')
          = Mesh.triangles (ObjMeshConverter.mesh converter) ++ new
       /\ (List.length new <= j - 2)%nat)
  /\ ImporterObj.error line = true
  /\ (forall failed,
        failed = line \/ ((3 <= List.length parameters)%nat /\ failed = face) ->
        forall (ProcessLine : string -> ImporterObj.t * World
                              -> option (ImporterObj.t * World))
               (lines : list string) (w : World),
          fold_left (ImporterObj.guarded_line ProcessLine) lines (Some (failed, w))
          = Some (failed, w)).
Proof.
  intros Hc Hconv Hj Hbad face line.
  assert (Hline : ImporterObj.error line = true)
    by (by eapply ProcessLineCommand_error).
  assert (Hface : (3 <= List.length parameters)%nat ->
            ImporterObj.error face = true
            /\ exists converter' new,
                ImporterObj.converters face !! current = Some converter'
                /\ Mesh.triangles (ObjMeshConverter.mesh converter')
                   = Mesh.triangles (ObjMeshConverter.mesh converter) ++ new
                /\ (List.length new <= j - 2)%nat).
  { intros Hk. subst face.
    destruct (ImporterObj.FaceIndices (prepare this) parameters)
      as [[[vs cs] ns] us] eqn:Hind.
    pose proof Hind as Hspec. rewrite FaceIndices_spec in Hspec.
    injection Hspec as Hvs _ _ _.
    destruct (prepare_fields this) as (_ & Hgv & _).
    assert (Hlen : List.length vs = List.length parameters)
      by (rewrite <- Hvs; apply length_map).
    assert (Hjlt : (j < List.length parameters)%nat) by (by eapply lookup_lt_Some).
    assert (Hbadj : in_range (ImporterObj.at_index vs j)
                      (List.length (ImporterObj.globalVertices (prepare this))) = false).
    { unfold ImporterObj.at_index. rewrite <- Hvs, list_lookup_fmap, Hj. simpl.
      unfold face_vertex_index in *. by rewrite Hgv. }
    destruct (ProcessFaceCommand_outcome this parameters current converter Hc Hconv
                vs cs ns us Hind)
      as (c' & broke & finished & new & Hconvs & Herr & _ & _ & Ht & Hpre & Hall
          & Hnone & _).
    pose proof (seq_prefix_length _ _ Hpre) as Hfin.
    assert (Hnew : List.length new = List.length finished)
      by (symmetry; by eapply Forall2_length).
    assert (Hbound : (List.length finished <= j - 2)%nat).
    { apply Nat.nlt_ge. intros Hgt.
      set (i := (j - 2)%nat).
      assert (Hi : finished !! i = Some i).
      { rewrite Hfin. rewrite lookup_seq. split; [done | lia]. }
      destruct (Forall2_lookup_l _ _ _ _ _ Hall Hi) as (t & _ & _ & _ & _ & H0 & H1 & H2).
      destruct j as [|[|j]].
      - congruence.
      - subst i. simpl in H1. congruence.
      - subst i. replace (S (S j) - 2 + 2)%nat with (S (S j)) in H2 by lia. congruence. }
    assert (Hbroke : broke <> None).
    { intros Hb. specialize (Hnone Hb). rewrite Hnone, length_seq in Hbound. lia. }
    split; [destruct broke; [done | by destruct Hbroke] |].
    exists c', new. split; [rewrite Hconvs; by eapply lookup_insert_converter |].
    split; [done | lia]. }
  split; [done |]. split; [done |].
  intros failed Hfailed ProcessLine lines w. apply guarded_after_error.
  destruct Hfailed as [-> | [Hk ->]]; [done | by apply Hface].
Qed.

(** ** Invariants of a parse *)

Section ParseInvariants.
Context `{ImporterUtils} {World : Type}.
Variable getFileBuffer : string -> World -> JsData * World.
Variable P : ImporterObj.t -> Prop.
Hypothesis P_mesh :
  forall this keyword parameters line,
    P this -> P (snd (ImporterObj.ProcessMeshParameter this keyword parameters line)).
Hypothesis P_material :
  forall ProcessLine keyword parameters line s r,
    keyword <> "mtllib" ->
    P (fst s) ->
    ImporterObj.ProcessMaterialParameter getFileBuffer ProcessLine keyword parameters line s
    = Some r ->
    P (fst (snd r)).

Lemma guarded_fold_invariant
    (ProcessLine : string -> ImporterObj.t * World -> option (ImporterObj.t * World)) :
  (forall line s s', P (fst s) -> ProcessLine line s = Some s' -> P (fst s')) ->
  forall lines s s',
    P (fst s) ->
    fold_left (ImporterObj.guarded_line ProcessLine) lines (Some s) = Some s' ->
    P (fst s').
Proof.
  intros Hstep lines. induction lines as [|line lines IH]; intros s s' Hs; simpl.
  - by intros [= <-].
  - destruct (ImporterObj.WasError (fst s)); simpl; [by apply IH |].
    destruct (ProcessLine line s) as [s1|] eqn:H1.
    + apply IH. by eapply Hstep.
    + intros Hnone. exfalso. clear -Hnone.
      induction lines as [|l lines IH]; simpl in Hnone; [done | by apply IH].
Qed.

Lemma ProcessMaterialParameter_invariant
    (ProcessLine : string -> ImporterObj.t * World -> option (ImporterObj.t * World))
    (keyword : string) (parameters : list string) (line : string)
    (s : ImporterObj.t * World) (r : bool * (ImporterObj.t * World)) :
  (forall line s s', P (fst s) -> ProcessLine line s = Some s' -> P (fst s')) ->
  P (fst s) ->
  ImporterObj.ProcessMaterialParameter getFileBuffer ProcessLine keyword parameters line s
  = Some r ->
  P (fst (snd r)).
Proof.
  intros Hstep Hs.
  destruct (decide (keyword = "mtllib")) as [-> | Hne]; [| by apply P_material].
  destruct s as [this w]. unfold ImporterObj.ProcessMaterialParameter.
  repeat case_decide; try done.
  destruct (List.length parameters =? 0)%nat; [by intros [= <-] |].
  destruct (getFileBuffer _ w) as [fileBuffer w0].
  destruct (negb (is_null fileBuffer)); [| by intros [= <-]].
  destruct (ImporterObj.ReadLines_guarded ProcessLine _ (this, w0)) as [s1|] eqn:Hread;
    simpl; [| done].
  intros [= <-]. simpl.
  by apply (guarded_fold_invariant ProcessLine Hstep _ (this, w0) _ Hs Hread).
Qed.

Lemma ProcessLine_S (fuel : nat) (line : string) (s : ImporterObj.t * World) :
  ImporterObj.ProcessLine getFileBuffer (S fuel) line s
  = if bool_decide (String.get 0 line = Some "#"%char) then Some s
    else
      match ParametersFromLine line "#" with
      | [] => Some s
      | first :: parameters =>
          let '(handled, this) :=
            ImporterObj.ProcessMeshParameter (fst s) (Js.toLowerCase first)
                                             parameters line in
          if handled then Some (this, snd s)
          else
            r ← ImporterObj.ProcessMaterialParameter getFileBuffer
                  (ImporterObj.ProcessLine getFileBuffer fuel)
                  (Js.toLowerCase first) parameters line (this, snd s);
            Some (snd r)
      end.
Proof. reflexivity. Qed.

Lemma ProcessLine_invariant (fuel : nat) (line : string) (s s' : ImporterObj.t * World) :
  P (fst s) ->
  ImporterObj.ProcessLine getFileBuffer fuel line s = Some s' ->
  P (fst s').
Proof.
  revert line s s'. induction fuel as [|fuel IH]; intros line s s' Hs; [done |].
  rewrite ProcessLine_S.
  case_bool_decide; [by intros [= <-] |].
  destruct (ParametersFromLine line "#") as [|first parameters]; [by intros [= <-] |].
  pose proof (P_mesh (fst s) (Js.toLowerCase first) parameters line Hs) as Hthis.
  destruct (ImporterObj.ProcessMeshParameter _ _ _ _) as [handled this'].
  simpl in Hthis.
  destruct handled; [by intros [= <-] |].
  destruct (ImporterObj.ProcessMaterialParameter getFileBuffer _ _ _ _ _) as [r|] eqn:Hr;
    simpl; [| done].
  intros [= <-].
  by apply (ProcessMaterialParameter_invariant _ _ _ _ (this', snd s) _ IH Hthis Hr).
Qed.

(** What holds at the start of a parse, and is kept by the directives for
    the mesh and by the material directives other than [mtllib], holds
    throughout the parse. *)
Lemma parsing_invariant (s : ImporterObj.t * World) :
  P ImporterObj.ResetContent -> parsing getFileBuffer s -> P (fst s).
Proof.
  intros Hstart. induction 1 as [w | fuel line s s' _ IH Hline]; [done |].
  by eapply ProcessLine_invariant.
Qed.

End ParseInvariants.

Section ParseStates.
Context `{ImporterUtils} {World : Type}.
Variable getFileBuffer : string -> World -> JsData * World.

Lemma AddNewMesh_references (this : ImporterObj.t) (name : string) :
  references_valid this -> references_valid (ImporterObj.AddNewMesh this name).
Proof.
  intros [Hcur Hmap]. unfold ImporterObj.AddNewMesh.
  destruct (ImporterObj.meshNameToConverter this !! name) as [c|] eqn:Hl.
  - split; simpl; [| done]. intros ? [= <-]. by eapply Hmap.
  - split; simpl.
    + intros ? [= <-]. rewrite length_app. simpl. lia.
    + intros name' c. rewrite length_app. simpl.
      destruct (decide (name' = name)) as [-> | Hne].
      * rewrite lookup_insert_eq. intros [= <-]. lia.
      * rewrite lookup_insert_ne by done. intros Hn. specialize (Hmap _ _ Hn). lia.
Qed.

Lemma prepare_references (this : ImporterObj.t) :
  references_valid this -> references_valid (prepare this).
Proof.
  intros Hthis. unfold prepare.
  destruct (ImporterObj.currentMeshConverter this); [done |].
  by apply AddNewMesh_references.
Qed.

Lemma ProcessFaceCommand_references (this : ImporterObj.t) (parameters : list string) :
  references_valid this ->
  references_valid (ImporterObj.ProcessFaceCommand this parameters).
Proof.
  intros Hthis. apply prepare_references in Hthis. revert Hthis.
  unfold ImporterObj.ProcessFaceCommand.
  change (match ImporterObj.currentMeshConverter this with
          | Some _ => this
          | None => ImporterObj.AddNewMesh this ""
          end) with (prepare this).
  cbv zeta. generalize (prepare this). intros that [Hcur Hmap].
  repeat case_match; try done.
  all: split; simpl; rewrite ?length_insert;
    [intros current Hcurrent; apply Hcur; congruence | done].
Qed.

Lemma ProcessLineCommand_references (this : ImporterObj.t) (parameters : list string) :
  references_valid this ->
  references_valid (ImporterObj.ProcessLineCommand this parameters).
Proof.
  intros Hthis. apply prepare_references in Hthis. revert Hthis.
  unfold ImporterObj.ProcessLineCommand.
  change (match ImporterObj.currentMeshConverter this with
          | Some _ => this
          | None => ImporterObj.AddNewMesh this ""
          end) with (prepare this).
  cbv zeta. generalize (prepare this). intros that [Hcur Hmap].
  repeat case_match; try done.
  all: split; simpl; rewrite ?length_insert;
    [intros current Hcurrent; apply Hcur; congruence | done].
Qed.

Lemma ProcessMeshParameter_references (this : ImporterObj.t) (keyword : string)
    (parameters : list string) (line : string) :
  references_valid this ->
  references_valid (snd (ImporterObj.ProcessMeshParameter this keyword parameters line)).
Proof.
  intros Hthis. unfold ImporterObj.ProcessMeshParameter.
  repeat case_match; simpl;
    first [ done | by apply AddNewMesh_references | by apply ProcessLineCommand_references
          | by apply ProcessFaceCommand_references ].
Qed.

Lemma ProcessMaterialParameter_references
    (ProcessLine : string -> ImporterObj.t * World -> option (ImporterObj.t * World))
    (keyword : string) (parameters : list string) (line : string)
    (s : ImporterObj.t * World) (r : bool * (ImporterObj.t * World)) :
  keyword <> "mtllib" ->
  references_valid (fst s) ->
  ImporterObj.ProcessMaterialParameter getFileBuffer ProcessLine keyword parameters line s
  = Some r ->
  references_valid (fst (snd r)).
Proof.
  intros Hne Hs. destruct s as [this w]. unfold ImporterObj.ProcessMaterialParameter.
  repeat case_decide; try done.
  all: repeat (case_match; try (intros [= <-]; simpl; try done)).
  all: try (intros [= <-]; simpl; done).
Qed.

(** In every state of a parse the references to converters are valid, so
    [ProcessFaceCommand] and [ProcessLineCommand] find the converter of the
    mesh they work on. *)
Lemma parsing_references (s : ImporterObj.t * World) :
  parsing getFileBuffer s -> references_valid (fst s).
Proof.
  apply (parsing_invariant getFileBuffer references_valid).
  - apply ProcessMeshParameter_references.
  - apply ProcessMaterialParameter_references.
  - split; [done |]. intros name c. simpl. by rewrite lookup_empty.
Qed.

Lemma parsing_current_mesh (s : ImporterObj.t * World) :
  parsing getFileBuffer s ->
  exists current converter,
    ImporterObj.currentMeshConverter (prepare (fst s)) = Some current
    /\ ImporterObj.converters (prepare (fst s)) !! current = Some converter.
Proof.
  intros Hs. apply parsing_references, prepare_references in Hs as [Hcur Hmap].
  assert (Hsome : is_Some (ImporterObj.currentMeshConverter (prepare (fst s)))).
  { unfold prepare. destruct (ImporterObj.currentMeshConverter (fst s)) eqn:Hc.
    - rewrite Hc. by eexists.
    - unfold ImporterObj.AddNewMesh. case_match; simpl; by eexists. }
  destruct Hsome as [current Hcurrent]. exists current.
  destruct (lookup_lt_is_Some_2 _ _ (Hcur _ Hcurrent)) as [converter Hconverter].
  by exists converter.
Qed.

End ParseStates.

(** ** Material directives *)

Section MaterialDirectives.
Context `{ImporterUtils} {World : Type}.
Variable getFileBuffer : string -> World -> JsData * World.

Lemma AddNewMesh_materials (this : ImporterObj.t) (name : string) :
  ImporterObj.currentMaterial (ImporterObj.AddNewMesh this name)
  = ImporterObj.currentMaterial this
  /\ ImporterObj.materialNameToIndex (ImporterObj.AddNewMesh this name)
     = ImporterObj.materialNameToIndex this.
Proof. unfold ImporterObj.AddNewMesh. by case_match. Qed.

Lemma ProcessLineCommand_materials (this : ImporterObj.t) (parameters : list string) :
  ImporterObj.currentMaterial (ImporterObj.ProcessLineCommand this parameters)
  = ImporterObj.currentMaterial this
  /\ ImporterObj.materialNameToIndex (ImporterObj.ProcessLineCommand this parameters)
     = ImporterObj.materialNameToIndex this.
Proof.
  unfold ImporterObj.ProcessLineCommand.
  change (match ImporterObj.currentMeshConverter this with
          | Some _ => this
          | None => ImporterObj.AddNewMesh this ""
          end) with (prepare this).
  cbv zeta.
  assert (Hp : ImporterObj.currentMaterial (prepare this) = ImporterObj.currentMaterial this
               /\ ImporterObj.materialNameToIndex (prepare this)
                  = ImporterObj.materialNameToIndex this).
  { unfold prepare. case_match; [done | apply AddNewMesh_materials]. }
  repeat case_match; simpl; done.
Qed.

Lemma ProcessFaceCommand_materials (this : ImporterObj.t) (parameters : list string) :
  ImporterObj.currentMaterial (ImporterObj.ProcessFaceCommand this parameters)
  = ImporterObj.currentMaterial this
  /\ ImporterObj.materialNameToIndex (ImporterObj.ProcessFaceCommand this parameters)
     = ImporterObj.materialNameToIndex this.
Proof.
  unfold ImporterObj.ProcessFaceCommand.
  change (match ImporterObj.currentMeshConverter this with
          | Some _ => this
          | None => ImporterObj.AddNewMesh this ""
          end) with (prepare this).
  cbv zeta.
  assert (Hp : ImporterObj.currentMaterial (prepare this) = ImporterObj.currentMaterial this
               /\ ImporterObj.materialNameToIndex (prepare this)
                  = ImporterObj.materialNameToIndex this).
  { unfold prepare. case_match; [done | apply AddNewMesh_materials]. }
  repeat case_match; simpl; done.
Qed.

Lemma ProcessMeshParameter_materials (this : ImporterObj.t) (keyword : string)
    (parameters : list string) (line : string) :
  ImporterObj.currentMaterial (snd (ImporterObj.ProcessMeshParameter this keyword parameters line))
  = ImporterObj.currentMaterial this
  /\ ImporterObj.materialNameToIndex
       (snd (ImporterObj.ProcessMeshParameter this keyword parameters line))
     = ImporterObj.materialNameToIndex this.
Proof.
  unfold ImporterObj.ProcessMeshParameter.
  repeat case_match; simpl;
    first [ done | apply AddNewMesh_materials | apply ProcessLineCommand_materials
          | apply ProcessFaceCommand_materials ].
Qed.

Lemma ProcessMeshParameter_no_material_yet (this : ImporterObj.t) (keyword : string)
    (parameters : list string) (line : string) :
  no_material_yet this ->
  no_material_yet (snd (ImporterObj.ProcessMeshParameter this keyword parameters line)).
Proof.
  intros Hthis.
  destruct (ProcessMeshParameter_materials this keyword parameters line) as [Hm1 Hm2].
  unfold no_material_yet in *. by rewrite Hm1, Hm2.
Qed.

Lemma ProcessMaterialParameter_no_material_yet
    (ProcessLine : string -> ImporterObj.t * World -> option (ImporterObj.t * World))
    (keyword : string) (parameters : list string) (line : string)
    (s : ImporterObj.t * World) (r : bool * (ImporterObj.t * World)) :
  keyword <> "mtllib" ->
  no_material_yet (fst s) ->
  ImporterObj.ProcessMaterialParameter getFileBuffer ProcessLine keyword parameters line s
  = Some r ->
  no_material_yet (fst (snd r)).
Proof.
  intros Hne Hs. destruct s as [this w]. unfold ImporterObj.ProcessMaterialParameter.
  repeat case_decide; try done.
  all: repeat (case_match; try (intros [= <-]; simpl; try done)).
  all: try (intros [= <-]; simpl; done).
Qed.

(** In every state of a parse, no material name is registered before a
    material is current. *)
Lemma parsing_no_material_yet (s : ImporterObj.t * World) :
  parsing getFileBuffer s -> no_material_yet (fst s).
Proof.
  apply (parsing_invariant getFileBuffer no_material_yet).
  - apply ProcessMeshParameter_no_material_yet.
  - apply ProcessMaterialParameter_no_material_yet.
  - done.
Qed.

(** C3, as amended.  In a parse with no current material, every material
    directive other than [newmtl] and [mtllib] leaves the importer and the
    state behind the callbacks as they are: the directives that set a
    property of the current material return at once, and [usemtl] finds no
    name to switch to, since names are registered by [newmtl] only, which
    also sets the current material.  ([mtllib] is resolved and parsed without
    regard to the current material.) *)
Theorem material_directive_without_current_material
    (ProcessLine : string -> ImporterObj.t * World -> option (ImporterObj.t * World))
    (keyword : string) (parameters : list string) (line : string)
    (this : ImporterObj.t) (w : World) :
  parsing getFileBuffer (this, w) ->
  ImporterObj.currentMaterial this = None ->
  keyword <> "newmtl" ->
  keyword <> "mtllib" ->
  exists handled,
    ImporterObj.ProcessMaterialParameter getFileBuffer ProcessLine keyword parameters
      line (this, w)
    = Some (handled, (this, w)).
Proof.
  intros Hparsing Hnone Hnew Hlib.
  pose proof (parsing_no_material_yet _ Hparsing Hnone) as Hnames. simpl in Hnames.
  unfold ImporterObj.ProcessMaterialParameter. rewrite Hnone, Hnames.
  repeat case_decide; try done.
  all: repeat case_match.
  all: first [ by exists true | by exists false
             | exfalso; match goal with
                        | Hl : ∅ !! _ = Some _ |- _ => by rewrite lookup_empty in Hl
                        end ].
Qed.

End MaterialDirectives.

(** ** Lookup by path and extension by a list *)

Section FileListMore.
Context `{FileUtils}.

Lemma find_first {A} (p : A -> bool) (l : list A) (a : A) :
  find p l = Some a
  <-> exists before after,
        l = before ++ a :: after /\ p a = true
        /\ Forall (fun b => p b = false) before.
Proof.
  induction l as [|b l IH]; simpl.
  - split; [done |]. intros (before & after & Hl & _). by destruct before.
  - destruct (p b) eqn:Hb.
    + split.
      * intros [= <-]. exists [], l. by repeat split.
      * intros (before & after & Hl & Ha & Hbefore).
        destruct before as [|b' before]; simpl in Hl.
        -- by injection Hl as -> _.
        -- injection Hl as <- _. apply Forall_cons in Hbefore as [? _]. congruence.
    + rewrite IH. split.
      * intros (before & after & -> & Ha & Hbefore).
        exists (b :: before), after. split; [done |]. split; [done |]. by constructor.
      * intros (before & after & Hl & Ha & Hbefore).
        destruct before as [|b' before]; simpl in Hl.
        -- injection Hl as -> _. congruence.
        -- injection Hl as <- ->. apply Forall_cons in Hbefore as [_ ?].
           by exists before, after.
Qed.

Lemma find_app {A} (p : A -> bool) (l1 l2 : list A) :
  find p (l1 ++ l2) = match find p l1 with Some a => Some a | None => find p l2 end.
Proof.
  induction l1 as [|a l1 IH]; simpl; [done |]. by destruct (p a).
Qed.

Lemma eqb_lower_name (file : ImporterFile.t) (filePath : string) :
  String.eqb (Js.toLowerCase (ImporterFile.name file))
             (Js.toLowerCase (GetFileName filePath)) = true
  <-> answers_to filePath file.
Proof. unfold answers_to, lower_name. apply String.eqb_eq. Qed.

(** X1.  [FindFileByPath] answers the first file of the list, in list
    order, whose name equals the base name of the path when both are put in
    lower case; the directories of the path play no part.  It answers [null]
    exactly when no file of the list has that name. *)
Theorem FindFileByPath_first_match (fileList : ImporterFileList.t) (filePath : string) :
  (forall file,
     ImporterFileList.FindFileByPath fileList filePath = Some file
     <-> exists before after,
           ImporterFileList.files fileList = before ++ file :: after
           /\ answers_to filePath file
           /\ Forall (fun other => ~ answers_to filePath other) before)
  /\ (ImporterFileList.FindFileByPath fileList filePath = None
      <-> Forall (fun other => ~ answers_to filePath other)
                 (ImporterFileList.files fileList)).
Proof.
  unfold ImporterFileList.FindFileByPath. split.
  - intros file. rewrite find_first. split.
    + intros (before & after & Hl & Ha & Hb). exists before, after.
      split; [done |]. split; [by apply eqb_lower_name |].
      eapply Forall_impl; [exact Hb |]. intros other Ho Hans.
      apply eqb_lower_name in Hans. simpl in Ho. congruence.
    + intros (before & after & Hl & Ha & Hb). exists before, after.
      split; [done |]. split; [by apply eqb_lower_name |].
      eapply Forall_impl; [exact Hb |]. intros other Ho. simpl.
      apply not_true_is_false. intros Hans. by apply Ho, eqb_lower_name.
  - induction (ImporterFileList.files fileList) as [|file files IH]; simpl.
    + split; [constructor | done].
    + destruct (String.eqb _ _) eqn:Heq.
      * split; [done |]. intros Hall. apply Forall_cons in Hall as [Hno _].
        exfalso. by apply Hno, eqb_lower_name.
      * rewrite IH. split.
        -- intros Hall. constructor; [| done]. intros Hans.
           apply eqb_lower_name in Hans. congruence.
        -- intros Hall. by apply Forall_cons in Hall as [_ ?].
Qed.

Lemma FindFileByPath_AddFile (fileList : ImporterFileList.t) (file : ImporterFile.t)
    (filePath : string) :
  ImporterFileList.FindFileByPath (ImporterFileList.AddFile fileList file) filePath
  = match ImporterFileList.FindFileByPath fileList filePath with
    | Some found => Some found
    | None =>
        if String.eqb (Js.toLowerCase (ImporterFile.name file))
                      (Js.toLowerCase (GetFileName filePath))
        then Some file else None
    end.
Proof.
  unfold ImporterFileList.FindFileByPath, ImporterFileList.AddFile. simpl.
  rewrite find_app. simpl. reflexivity.
Qed.

Lemma FindFileByPath_app (files added : list ImporterFile.t) (filePath : string) :
  has_name (ImporterFileList.mk files) filePath ->
  ImporterFileList.FindFileByPath (ImporterFileList.mk (files ++ added)) filePath
  = ImporterFileList.FindFileByPath (ImporterFileList.mk files) filePath.
Proof.
  intros Hhas. apply FindFileByPath_Some in Hhas.
  unfold ImporterFileList.FindFileByPath in *. simpl in *. rewrite find_app.
  by destruct (find _ files).
Qed.

(** X2.  A file added with [AddFile] under a name the list already has is
    never found: the path goes on resolving to the file that was there.  A
    file added under a new (base) name is found by that name. *)
Theorem AddFile_lookup (fileList : ImporterFileList.t) (file : ImporterFile.t)
    (filePath : string) :
  (has_name fileList filePath ->
   ImporterFileList.FindFileByPath (ImporterFileList.AddFile fileList file) filePath
   = ImporterFileList.FindFileByPath fileList filePath)
  /\ (normalised (ImporterFile.name file) ->
      ~ has_name fileList (ImporterFile.name file) ->
      ImporterFileList.FindFileByPath (ImporterFileList.AddFile fileList file)
                                      (ImporterFile.name file)
      = Some file).
Proof.
  split.
  - intros Hhas. rewrite FindFileByPath_AddFile.
    apply FindFileByPath_Some in Hhas.
    by destruct (ImporterFileList.FindFileByPath fileList filePath).
  - intros Hnorm Hnew. rewrite FindFileByPath_AddFile.
    rewrite <- FindFileByPath_Some in Hnew.
    destruct (ImporterFileList.FindFileByPath fileList (ImporterFile.name file));
      [by destruct Hnew |].
    rewrite Hnorm. by rewrite String.eqb_refl.
Qed.

Lemma extend_fold_contained (others : list ImporterFile.t) (this : ImporterFileList.t) :
  (forall file, file ∈ others -> has_name this (ImporterFile.name file)) ->
  fold_left extend_step others this = this.
Proof.
  induction others as [|file others IH]; intros Hall; simpl; [done |].
  assert (Hstep : extend_step this file = this).
  { unfold extend_step.
    rewrite (proj2 (ContainsFileByPath_true this (ImporterFile.name file))); [done |].
    apply Hall. by left. }
  rewrite Hstep. apply IH. intros f Hf. apply Hall. by right.
Qed.

(** X3.  [ExtendFromFileList] is idempotent: extending once more by the same
    list adds nothing; and a list extended by itself stays as it is. *)
Theorem ExtendFromFileList_idempotent (this other : ImporterFileList.t) :
  Forall (fun file => normalised (ImporterFile.name file)) (ImporterFileList.files other) ->
  ImporterFileList.ExtendFromFileList
    (ImporterFileList.ExtendFromFileList this other) other
  = ImporterFileList.ExtendFromFileList this other
  /\ ImporterFileList.ExtendFromFileList other other = other.
Proof.
  intros Hnorm. rewrite !ExtendFromFileList_fold. split.
  - apply extend_fold_contained.
    by destruct (extend_fold_shape (ImporterFileList.files other) this Hnorm)
      as (_ & _ & _ & _ & Hall).
  - apply extend_fold_contained. intros file Hfile. exists file. split; [done |].
    unfold lower_name.
    by rewrite (proj1 (Forall_forall _ _) Hnorm file Hfile).
Qed.

End FileListMore.

(** ** Loading content *)

Section ContentFacts.
Context `{FileUtils}.

Lemma GetFileContent_step (file : ImporterFile.t) :
  content_step file (fst (ImporterFileList.GetFileContent file))
               (snd (ImporterFileList.GetFileContent file)).
Proof.
  unfold ImporterFileList.GetFileContent, content_step.
  destruct (ImporterFile.content file) eqn:Hc; simpl; try by repeat split.
  destruct (ImporterFile.source file) eqn:Hs; simpl.
  - destruct (RequestUrl _); simpl; repeat split; try done.
  - destruct (ReadFile _); simpl; repeat split; try done.
  - by repeat split.
Qed.

(** X4.  [GetContent] visits the files in order and keeps their number,
    names, extensions, sources and data.  A file that has content is left as
    it is and nothing is asked of the loader for it, whatever its source; a
    file without content is requested by URL or read from its handle, by its
    source, and gets the content the loader resolves with, staying without
    content when the loader rejects; a decompressed file without content is
    left as it is. *)
Theorem GetContent_frame (fileList : ImporterFileList.t) :
  exists loaded events,
    ImporterFileList.GetContent fileList = (loaded, events)
    /\ List.length (ImporterFileList.files loaded)
       = List.length (ImporterFileList.files fileList)
    /\ List.length events = List.length (ImporterFileList.files fileList)
    /\ forall i file,
         ImporterFileList.files fileList !! i = Some file ->
         exists file' event,
           ImporterFileList.files loaded !! i = Some file'
           /\ events !! i = Some event
           /\ content_step file file' event.
Proof.
  eexists _, _. split; [reflexivity |]. simpl. rewrite !length_map.
  split; [done |]. split; [done |]. intros i file Hi.
  exists (fst (ImporterFileList.GetFileContent file)),
         (snd (ImporterFileList.GetFileContent file)).
  rewrite !list_lookup_fmap, Hi. simpl.
  split; [done |]. split; [done |]. apply GetFileContent_step.
Qed.

(** X5.  Loading twice: a second [GetContent] over the loaded list asks the
    loader only for the files that are still without content, which are
    files of a URL or file source whose load did not give content the first
    time; every file that had or got content is left as it is. *)
Theorem GetContent_again (fileList : ImporterFileList.t) :
  let loaded := fst (ImporterFileList.GetContent fileList) in
  let events := snd (ImporterFileList.GetContent loaded) in
  forall i file event,
    ImporterFileList.files loaded !! i = Some file ->
    events !! i = Some event ->
    (ImporterFile.content file <> null ->
     event = ContentAlreadySet
     /\ ImporterFileList.files (fst (ImporterFileList.GetContent loaded)) !! i = Some file)
    /\ (forall source data,
          event = LoadRequested source data ->
          exists original,
            ImporterFileList.files fileList !! i = Some original
            /\ ImporterFile.content original = null
            /\ snd (ImporterFileList.GetFileContent original) = LoadRequested source data).
Proof.
  intros loaded events i file event Hfile Hevent.
  subst loaded events. simpl in *.
  rewrite !list_lookup_fmap in Hfile.
  rewrite !list_lookup_fmap in Hevent.
  destruct (ImporterFileList.files fileList !! i) as [original|] eqn:Horig; [| done].
  simpl in Hfile, Hevent. injection Hfile as <-. injection Hevent as <-.
  split.
  - intros Hcontent.
    rewrite !list_lookup_fmap, Horig. simpl.
    by rewrite (GetFileContent_already_set _ Hcontent).
  - intros source data Hreq. exists original. split; [done |].
    pose proof (GetFileContent_step original) as Hstep.
    pose proof (GetFileContent_step (fst (ImporterFileList.GetFileContent original)))
      as Hstep2.
    rewrite Hreq in Hstep2.
    destruct Hstep2 as (_ & _ & _ & _ & Hnull & Hsrc & Hne & Hdata & _).
    destruct Hstep as (_ & _ & Hs1 & Hd1 & Hev).
    destruct (snd (ImporterFileList.GetFileContent original)) as [| source1 data1 |].
    + destruct Hev as [Hc Heq]. rewrite Heq in Hnull. congruence.
    + destruct Hev as (Hc & Hsrc1 & _ & Hdata1 & _). split; [done |]. congruence.
    + destruct Hev as (_ & Hdec & _). congruence.
Qed.

End ContentFacts.

(** ** Importable files, importers and archives *)

Section ImporterMore.
Context `{FileUtils}.
Variable unzipSync : JsData -> list (string * string).

Lemma GetImportableFiles_omap (this : Importer.t) (fileList : ImporterFileList.t) :
  Importer.GetImportableFiles this fileList
  = omap (fun file => pair file <$> Importer.FindImporter file (Importer.importers this))
         (ImporterFileList.files fileList).
Proof.
  unfold Importer.GetImportableFiles, ImporterFileList.GetFiles.
  assert (Hfold : forall files acc,
            fold_left
              (fun importableFiles file =>
                 match Importer.FindImporter file (Importer.importers this) with
                 | Some importer => importableFiles ++ [(file, importer)]
                 | None => importableFiles
                 end) files acc
            = acc ++ omap (fun file => pair file
                                         <$> Importer.FindImporter file
                                               (Importer.importers this)) files).
  { induction files as [|file files IH]; intros acc; simpl.
    - by rewrite app_nil_r.
    - rewrite IH. destruct (Importer.FindImporter file _); simpl; [| done].
      by rewrite <- app_assoc. }
  apply Hfold.
Qed.

Lemma FindImporter_first (file : ImporterFile.t) (importers : list FormatImporter)
    (importer : FormatImporter) :
  Importer.FindImporter file importers = Some importer
  <-> first_accepting importers (ImporterFile.extension file) importer.
Proof.
  unfold Importer.FindImporter, first_accepting.
  apply (find_first (fun other => CanImportExtension other (ImporterFile.extension file))).
Qed.

(** X6.  [GetImportableFiles] keeps the order of the file list and pairs
    every file some registered importer accepts with the first importer, in
    registration order, that accepts its extension; the other files are left
    out. *)
Theorem GetImportableFiles_first_importer (this : Importer.t)
    (fileList : ImporterFileList.t) :
  map fst (Importer.GetImportableFiles this fileList)
  = filter (fun file => is_Some (Importer.FindImporter file (Importer.importers this)))
           (ImporterFileList.files fileList)
  /\ (forall file, file ∈ map fst (Importer.GetImportableFiles this fileList)
                   <-> file ∈ ImporterFileList.files fileList
                       /\ importable (Importer.importers this) file)
  /\ Forall (fun '(file, importer) =>
               first_accepting (Importer.importers this)
                               (ImporterFile.extension file) importer)
            (Importer.GetImportableFiles this fileList).
Proof.
  rewrite GetImportableFiles_omap.
  assert (Hfiles : map fst
            (omap (fun file => pair file <$> Importer.FindImporter file (Importer.importers this))
                  (ImporterFileList.files fileList))
          = filter (fun file => is_Some (Importer.FindImporter file (Importer.importers this)))
                   (ImporterFileList.files fileList)).
  { induction (ImporterFileList.files fileList) as [|file files IH]; [done |].
    cbn [omap list_omap]. rewrite filter_cons.
    destruct (Importer.FindImporter file _) as [importer|] eqn:Hf;
      case_decide as Hd; simpl.
    - by rewrite <- IH.
    - destruct Hd. by eexists.
    - by destruct Hd.
    - exact IH. }
  split; [exact Hfiles |]. split.
  - intros file. rewrite Hfiles, list_elem_of_filter.
    rewrite <- FindImporter_Some, <- not_eq_None_Some. tauto.
  - apply Forall_forall. intros [file importer] Hin.
    apply list_elem_of_omap in Hin as (file' & _ & Hsome).
    destruct (Importer.FindImporter file' _) as [importer'|] eqn:Hf; [| done].
    simpl in Hsome. injection Hsome as <- <-. by apply FindImporter_first.
Qed.

Lemma FindImporter_AddImporter (this : Importer.t) (importer : FormatImporter)
    (file : ImporterFile.t) :
  Importer.FindImporter file (Importer.importers (Importer.AddImporter this importer))
  = match Importer.FindImporter file (Importer.importers this) with
    | Some registered => Some registered
    | None =>
        if CanImportExtension importer (ImporterFile.extension file)
        then Some importer else None
    end.
Proof. unfold Importer.FindImporter. simpl. by rewrite find_app. Qed.

(** X7.  An importer registered with [AddImporter] has the lowest priority:
    every file that was importable keeps the importer it had, and the new
    importer gets exactly the files it accepts that no importer accepted
    before. *)
Theorem AddImporter_lowest_priority (this : Importer.t) (importer : FormatImporter)
    (fileList : ImporterFileList.t) :
  Importer.GetImportableFiles this fileList
    `sublist_of` Importer.GetImportableFiles (Importer.AddImporter this importer) fileList
  /\ forall file chosen,
       (file, chosen) ∈ Importer.GetImportableFiles (Importer.AddImporter this importer)
                                                   fileList ->
       (file, chosen) ∈ Importer.GetImportableFiles this fileList
       \/ (chosen = importer
           /\ CanImportExtension importer (ImporterFile.extension file) = true
           /\ ~ importable (Importer.importers this) file).
Proof.
  rewrite !GetImportableFiles_omap. split.
  - induction (ImporterFileList.files fileList) as [|file files IH]; [done |].
    cbn [omap list_omap]. rewrite FindImporter_AddImporter.
    destruct (Importer.FindImporter file (Importer.importers this)); simpl.
    + by apply sublist_skip.
    + destruct (CanImportExtension importer _); simpl; [by apply sublist_cons | done].
  - intros file chosen Hin.
    apply list_elem_of_omap in Hin as (file' & Hfile & Hsome).
    rewrite FindImporter_AddImporter in Hsome.
    destruct (Importer.FindImporter file' (Importer.importers this)) as [registered|] eqn:Hf.
    + simpl in Hsome. injection Hsome as -> ->. left.
      apply list_elem_of_omap. exists file. split; [done |]. by rewrite Hf.
    + destruct (CanImportExtension importer (ImporterFile.extension file')) eqn:Hcan;
        [| done].
      simpl in Hsome. injection Hsome as -> <-. right.
      split; [done |]. split; [done |].
      rewrite <- FindImporter_Some. intros Hsome. by apply Hsome.
Qed.

Lemma fold_left_AddFile (entries : list (string * string)) (fileList : ImporterFileList.t) :
  fold_left
    (fun fileList '(fileName, buffer) =>
       let file := ImporterFile.new fileName Decompressed null in
       let file := ImporterFile.SetContent file (ArrayBuffer buffer) in
       ImporterFileList.AddFile fileList file)
    entries fileList
  = ImporterFileList.mk (ImporterFileList.files fileList ++ map decompressed_file entries).
Proof.
  revert fileList. induction entries as [|[fileName buffer] entries IH]; intros fileList.
  - simpl. rewrite app_nil_r. by destruct fileList.
  - cbn [fold_left]. rewrite IH. simpl. by rewrite <- app_assoc.
Qed.

Lemma fold_left_archives (archives : list ImporterFile.t) (fileList : ImporterFileList.t) :
  fold_left
    (fun fileList archiveFile =>
       fold_left
         (fun fileList '(fileName, buffer) =>
            let file := ImporterFile.new fileName Decompressed null in
            let file := ImporterFile.SetContent file (ArrayBuffer buffer) in
            ImporterFileList.AddFile fileList file)
         (unzipSync (ImporterFile.content archiveFile)) fileList)
    archives fileList
  = ImporterFileList.mk
      (ImporterFileList.files fileList
       ++ flat_map (fun archiveFile =>
                      map decompressed_file (unzipSync (ImporterFile.content archiveFile)))
                   archives).
Proof.
  revert fileList. induction archives as [|archive archives IH]; intros fileList.
  - simpl. rewrite app_nil_r. by destruct fileList.
  - cbn [fold_left]. rewrite fold_left_AddFile, IH. simpl. by rewrite <- app_assoc.
Qed.

Lemma DecompressArchives_files (fileList : ImporterFileList.t) :
  ImporterFileList.files (Importer.DecompressArchives unzipSync fileList)
  = ImporterFileList.files fileList
    ++ archive_entries unzipSync (ImporterFileList.files fileList).
Proof.
  unfold Importer.DecompressArchives, archive_entries, ImporterFileList.GetFiles.
  cbv zeta. by rewrite fold_left_archives.
Qed.

Lemma archive_entries_decompressed (files : list ImporterFile.t) :
  Forall (fun file => ImporterFile.source file = Decompressed
                      /\ ImporterFile.data file = null
                      /\ ImporterFile.content file <> null)
         (archive_entries unzipSync files).
Proof.
  unfold archive_entries. apply Forall_flat_map, Forall_forall. intros archive _.
  apply Forall_fmap, Forall_forall. intros [fileName buffer] _. simpl. done.
Qed.

(** X8.  [DecompressArchives] leaves the files of the list as they are and
    in place, and appends behind them one file for every entry of every
    archive (a file with the extension [zip]) that was in the list when it
    was called, archive by archive and entry by entry.  Each of these files
    has the source [Decompressed], no data, and the entry's bytes for
    content.  A list without archive is left as it is, and archives that come
    out of an archive are not opened. *)
Theorem DecompressArchives_appends (fileList : ImporterFileList.t) :
  ImporterFileList.files (Importer.DecompressArchives unzipSync fileList)
  = ImporterFileList.files fileList
    ++ archive_entries unzipSync (ImporterFileList.files fileList)
  /\ Forall (fun file => ImporterFile.source file = Decompressed
                         /\ ImporterFile.data file = null
                         /\ ImporterFile.content file <> null)
            (archive_entries unzipSync (ImporterFileList.files fileList))
  /\ (Forall (fun file => ImporterFile.extension file <> "zip")
             (ImporterFileList.files fileList) ->
      Importer.DecompressArchives unzipSync fileList = fileList).
Proof.
  split; [apply DecompressArchives_files |].
  split; [apply archive_entries_decompressed |].
  intros Hnone.
  assert (Hfiles := DecompressArchives_files fileList).
  assert (Hempty : archive_entries unzipSync (ImporterFileList.files fileList) = []).
  { unfold archive_entries.
    replace (filter _ (ImporterFileList.files fileList)) with (@nil ImporterFile.t); [done |].
    symmetry. clear Hfiles.
    induction (ImporterFileList.files fileList) as [|file files IH]; [done |].
    apply Forall_cons in Hnone as [Hfile Hnone].
    rewrite filter_cons, decide_False by done. by apply IH. }
  rewrite Hempty, app_nil_r in Hfiles.
  destruct (Importer.DecompressArchives unzipSync fileList), fileList. simpl in *.
  by subst.
Qed.

Lemma archive_entries_app (files added : list ImporterFile.t) :
  archive_entries unzipSync (files ++ added)
  = archive_entries unzipSync files ++ archive_entries unzipSync added.
Proof. unfold archive_entries. by rewrite filter_app, flat_map_app. Qed.

(** X9.  [DecompressArchives] is not idempotent: every call opens the
    archives of the list again.  A second call appends the entries of the
    archives of the original list a second time (followed by the entries of
    the archives that came out of the first call). *)
Theorem DecompressArchives_again (fileList : ImporterFileList.t) :
  let entries := archive_entries unzipSync (ImporterFileList.files fileList) in
  ImporterFileList.files
    (Importer.DecompressArchives unzipSync
       (Importer.DecompressArchives unzipSync fileList))
  = ImporterFileList.files fileList
    ++ entries ++ entries ++ archive_entries unzipSync entries.
Proof.
  intros entries. subst entries.
  rewrite !DecompressArchives_files, archive_entries_app.
  by rewrite <- !app_assoc.
Qed.

Lemma GetImportableFiles_DecompressArchives (this : Importer.t)
    (fileList : ImporterFileList.t) :
  Importer.GetImportableFiles this (Importer.DecompressArchives unzipSync fileList)
  = Importer.GetImportableFiles this fileList
    ++ Importer.GetImportableFiles this
         (ImporterFileList.mk
            (archive_entries unzipSync (ImporterFileList.files fileList))).
Proof.
  rewrite !GetImportableFiles_omap, DecompressArchives_files. simpl.
  apply omap_app.
Qed.

(** X10.  Decompression does not change what the paths the list already
    had a file for resolve to, even when an archive holds an entry of that
    name; and the importable files of the list stay the first importable
    files, in their order, so that the file that is offered first as the
    main file stays the same. *)
Theorem DecompressArchives_keeps_resolution (this : Importer.t)
    (fileList : ImporterFileList.t) (filePath : string) :
  (has_name fileList filePath ->
   ImporterFileList.FindFileByPath (Importer.DecompressArchives unzipSync fileList) filePath
   = ImporterFileList.FindFileByPath fileList filePath)
  /\ Importer.GetImportableFiles this (Importer.DecompressArchives unzipSync fileList)
     = Importer.GetImportableFiles this fileList
       ++ Importer.GetImportableFiles this
            (ImporterFileList.mk
               (archive_entries unzipSync (ImporterFileList.files fileList))).
Proof.
  split.
  - intros Hhas.
    pose proof (DecompressArchives_files fileList) as Hfiles.
    destruct (Importer.DecompressArchives unzipSync fileList) as [files'].
    destruct fileList as [files]. simpl in Hfiles. subst files'.
    by apply FindFileByPath_app.
  - apply GetImportableFiles_DecompressArchives.
Qed.

(** X11.  Whether a list counts as coming from URLs only is not changed by
    decompression: the files that come out of archives count like files
    loaded from a URL. *)
Theorem DecompressArchives_IsOnlyUrlSource (fileList : ImporterFileList.t) :
  ImporterFileList.IsOnlyUrlSource (Importer.DecompressArchives unzipSync fileList)
  = ImporterFileList.IsOnlyUrlSource fileList.
Proof.
  unfold ImporterFileList.IsOnlyUrlSource.
  rewrite DecompressArchives_files.
  pose proof (archive_entries_decompressed (ImporterFileList.files fileList)) as Hdec.
  destruct (ImporterFileList.files fileList) as [|file files] eqn:Hfiles.
  - assert (Hnone : archive_entries unzipSync [] = []) by done.
    by rewrite Hnone.
  - cbn [app forallb]. rewrite forallb_app.
    replace (forallb _ (archive_entries unzipSync (file :: files))) with true;
      [by rewrite andb_true_r |].
    symmetry. apply forallb_forall. intros entry Hentry. apply list_elem_of_In in Hentry.
    destruct (proj1 (Forall_forall _ _) Hdec entry Hentry) as (-> & _). done.
Qed.

End ImporterMore.

(** ** The choice of the main file and the bookkeeping of an import *)

Section ImportMore.
Context `{FileUtils}.
Variable unzipSync : JsData -> list (string * string).

Lemma GetImportableFiles_elem (this : Importer.t) (fileList : ImporterFileList.t)
    (mainFile : ImporterFile.t * FormatImporter) :
  mainFile ∈ Importer.GetImportableFiles this fileList ->
  fst mainFile ∈ ImporterFileList.files fileList
  /\ first_accepting (Importer.importers this) (ImporterFile.extension (fst mainFile))
                     (snd mainFile).
Proof.
  rewrite GetImportableFiles_omap. intros Hin.
  apply list_elem_of_omap in Hin as (file & Hfile & Hsome).
  destruct (Importer.FindImporter file _) as [importer|] eqn:Hf; [| done].
  simpl in Hsome. injection Hsome as <-. simpl. split; [done |].
  by apply FindImporter_first.
Qed.

(** X12.  [ImportLoadedFiles], up to the moment the format importer takes
    over.  It reports [NoImportableFile] exactly when no file of the list is
    importable or the prompt for the main file is cancelled, and
    [FailedToLoadFile], with the name of the main file, exactly when the main
    file chosen has no content; these are the only errors before the format
    importer runs.  The main file is the first importable file when there is
    one importable file only or no prompt, and otherwise the importable file
    at the index the prompt answers for the names of the importable files; an
    index outside the importable files makes [ImportLoadedMainFile] throw.
    When the import starts, the main file is a file of the list that has
    content, its importer is the first registered importer that accepts its
    extension, the used files are the main file alone, no file is missing,
    and the file list and the importers are as before. *)
Theorem ImportLoadedFiles_outcome (this : Importer.t)
    (onSelectMainFile : option (list string -> option Z)) :
  let importableFiles := Importer.GetImportableFiles this (Importer.fileList this) in
  let fileNames := map (fun importableFile => ImporterFile.name (fst importableFile))
                       importableFiles in
  let outcome := Importer.ImportLoadedFiles this onSelectMainFile in
  let prompted (answer : option Z) :=
    (2 <= List.length importableFiles)%nat
    /\ exists select, onSelectMainFile = Some select /\ select fileNames = answer in
  let chosen (mainFile : ImporterFile.t * FormatImporter) :=
    ((List.length importableFiles = 1%nat \/ onSelectMainFile = None)
     /\ importableFiles !! 0%nat = Some mainFile)
    \/ (exists index, prompted (Some index) /\ (0 <= index)%Z
                      /\ importableFiles !! Z.to_nat index = Some mainFile) in
  (forall error,
     outcome = Importer.OnImportError error
     <-> (error = ImportError.new NoImportableFile
          /\ (importableFiles = [] \/ prompted None))
         \/ (exists mainFile,
               chosen mainFile
               /\ ImporterFile.content (fst mainFile) = null
               /\ error = ImportError.mk FailedToLoadFile
                            (Some (ImporterFile.name (fst mainFile))) None))
  /\ (forall mainFile this' fileAccessor,
        outcome = Importer.CallsImport mainFile this' fileAccessor
        <-> chosen mainFile
            /\ ImporterFile.content (fst mainFile) <> null
            /\ this' = Importer.mk (Importer.importers this) (Importer.fileList this)
                                   [ImporterFile.name (fst mainFile)] []
            /\ fileAccessor = ImporterFileAccessor.new Importer.getBufferCallback)
  /\ (outcome = Importer.ThrowsTypeError
      <-> exists index,
            prompted (Some index)
            /\ ((index < 0)%Z \/ (List.length importableFiles <= Z.to_nat index)%nat))
  /\ (forall mainFile,
        chosen mainFile ->
        fst mainFile ∈ ImporterFileList.files (Importer.fileList this)
        /\ first_accepting (Importer.importers this)
                           (ImporterFile.extension (fst mainFile)) (snd mainFile)).
Proof.
  intros importableFiles fileNames outcome prompted chosen.
  assert (Hselect :
    match Importer.ImportLoadedFiles_select this onSelectMainFile with
    | Importer.ReportsError error =>
        error = ImportError.new NoImportableFile
        /\ (importableFiles = [] \/ prompted None)
        /\ forall mainFile, ~ chosen mainFile
    | Importer.ImportsMainFile mainFile =>
        importableFiles <> [] /\ ~ prompted None
        /\ forall other, chosen other <-> other = mainFile
    | Importer.ImportsUndefined =>
        importableFiles <> [] /\ ~ prompted None
        /\ (forall mainFile, ~ chosen mainFile)
        /\ exists index,
             prompted (Some index)
             /\ ((index < 0)%Z \/ (List.length importableFiles <= Z.to_nat index)%nat)
    end
    /\ forall index, prompted (Some index) ->
         ((index < 0)%Z \/ (List.length importableFiles <= Z.to_nat index)%nat) ->
         Importer.ImportLoadedFiles_select this onSelectMainFile = Importer.ImportsUndefined).
  { subst prompted chosen. unfold Importer.ImportLoadedFiles_select.
    fold importableFiles. cbv zeta. fold fileNames.
    destruct importableFiles as [|first [|second rest]] eqn:Hfiles; simpl.
    - split.
      + split; [done |]. split; [by left |].
        intros mainFile [[_ [=]] | (index & (Hlen & _) & _)]. simpl in Hlen. lia.
      + intros index (Hlen & _). lia.
    - split.
      + split; [done |]. split; [intros (Hlen & _); lia |].
        intros other. split.
        * intros [[_ [= <-]] | (index & (Hlen & _) & _)]; [done | lia].
        * intros ->. left. split; [by left | done].
      + intros index (Hlen & _). lia.
    - destruct onSelectMainFile as [select|].
      + destruct (select fileNames) as [index|] eqn:Hsel.
        * assert (Hprompted : (2 <= S (S (List.length rest)))%nat
                              /\ exists select0, Some select = Some select0
                                                 /\ select0 fileNames = Some index)
            by (split; [lia | by exists select]).
          assert (Hnot : ~ ((2 <= S (S (List.length rest)))%nat
                            /\ exists select0, Some select = Some select0
                                               /\ select0 fileNames = None)).
          { intros (_ & select0 & [= <-] & Hnone). congruence. }
          assert (Hindex : forall index',
                    ((2 <= S (S (List.length rest)))%nat
                     /\ exists select0, Some select = Some select0
                                        /\ select0 fileNames = Some index') ->
                    index' = index).
          { intros index' (_ & select0 & [= <-] & Hsome). congruence. }
          destruct (0 <=? index)%Z eqn:Hpos.
          -- apply Z.leb_le in Hpos.
             destruct ((first :: second :: rest) !! Z.to_nat index) as [mainFile|] eqn:Hat.
             ++ split.
                ** split; [done |]. split; [done |]. intros other. split.
                   --- intros [[[Hlen | [=]] _] | (index' & Hp & _ & Hother)];
                         [simpl in Hlen; lia |].
                       rewrite (Hindex _ Hp) in Hother. congruence.
                   --- intros ->. right. by exists index.
                ** intros index' Hp Hout. rewrite (Hindex _ Hp) in Hout.
                   apply lookup_lt_Some in Hat. simpl in *. lia.
             ++ split.
                ** split; [done |]. split; [done |]. split.
                   --- intros other [[[Hlen | [=]] _] | (index' & Hp & _ & Hother)];
                         [simpl in Hlen; lia |].
                       rewrite (Hindex _ Hp) in Hother. congruence.
                   --- exists index. split; [done |]. right.
                       by apply lookup_ge_None in Hat.
                ** done.
          -- apply Z.leb_gt in Hpos. split.
             ++ split; [done |]. split; [done |]. split.
                ** intros other [[[Hlen | [=]] _] | (index' & Hp & Hpos' & _)];
                     [simpl in Hlen; lia |].
                   rewrite (Hindex _ Hp) in Hpos'. lia.
                ** exists index. split; [done | by left].
             ++ done.
        * split.
          -- split; [done |]. split.
             ++ right. split; [simpl; lia | by exists select].
             ++ intros other [[[Hlen | [=]] _] | (index' & (_ & s0 & [= <-] & Hs) & _)];
                  [simpl in Hlen; lia | congruence].
          -- intros index (_ & s0 & [= <-] & Hs). congruence.
      + split.
        * split; [done |]. split; [intros (_ & s0 & [=] & _) |].
          intros other. split.
          -- intros [[_ [= <-]] | (index' & (_ & s0 & [=] & _) & _)]. done.
          -- intros ->. left. split; [by right | done].
        * intros index (_ & s0 & [=] & _). }
  destruct Hselect as [Hselect Hthrows].
  assert (Hmember : forall mainFile, chosen mainFile -> mainFile ∈ importableFiles).
  { intros mainFile [[_ Hat] | (index & _ & _ & Hat)]; by eapply list_elem_of_lookup_2. }
  subst outcome. unfold Importer.ImportLoadedFiles.
  destruct (Importer.ImportLoadedFiles_select this onSelectMainFile)
    as [error0 | mainFile0 | ] eqn:Hsel.
  - destruct Hselect as (-> & Hwhy & Hnone).
    split; [| split; [| split]].
    + intros error. split.
      * intros [= <-]. by left.
      * intros [[-> _] | (mainFile & Hchosen & _)]; [done | by destruct (Hnone mainFile)].
    + intros mainFile this' fileAccessor. split; [done |].
      intros (Hchosen & _). by destruct (Hnone mainFile).
    + split; [done |]. intros (index & Hp & Hout).
      specialize (Hthrows index Hp Hout). congruence.
    + intros mainFile Hchosen. by destruct (Hnone mainFile).
  - destruct Hselect as (Hsome & Hnot & Honly).
    assert (Hchosen0 : chosen mainFile0) by (by apply Honly).
    split; [| split; [| split]].
    + intros error. unfold Importer.ImportLoadedMainFile_begin.
      destruct mainFile0 as [file importer]. simpl.
      destruct (is_null (ImporterFile.content file)) eqn:Hnull.
      * assert (Hcontent : ImporterFile.content file = null)
          by (by destruct (ImporterFile.content file)).
        split.
        -- intros [= <-]. right. by exists (file, importer).
        -- intros [[_ [? | ?]] | (mainFile & Hchosen & _ & ->)]; [done | done |].
           apply Honly in Hchosen. by subst mainFile.
      * split; [done |].
        intros [[_ [? | ?]] | (mainFile & Hchosen & Hcontent & _)]; [done | done |].
        apply Honly in Hchosen. subst mainFile. simpl in Hcontent.
        by rewrite Hcontent in Hnull.
    + intros mainFile this' fileAccessor. unfold Importer.ImportLoadedMainFile_begin.
      destruct mainFile0 as [file importer]. simpl.
      destruct (is_null (ImporterFile.content file)) eqn:Hnull.
      * split; [done |]. intros (Hchosen & Hcontent & _).
        apply Honly in Hchosen. subst mainFile. simpl in Hcontent.
        by destruct (ImporterFile.content file).
      * split.
        -- intros [= <- <- <-]. split; [done |]. split; [| done].
           simpl. intros Hcontent. by rewrite Hcontent in Hnull.
        -- intros (Hchosen & _ & -> & ->). apply Honly in Hchosen. by subst mainFile.
    + split.
      * destruct (Importer.ImportLoadedMainFile_begin this (Some mainFile0))
          as [error | [this' fileAccessor]]; done.
      * intros (index & Hp & Hout). specialize (Hthrows index Hp Hout). congruence.
    + intros mainFile Hchosen. by apply GetImportableFiles_elem, Hmember.
  - destruct Hselect as (Hsome & Hnot & Hnone & Hout).
    split; [| split; [| split]].
    + intros error. split; [done |].
      intros [[_ [? | ?]] | (mainFile & Hchosen & _)]; [done | done |].
      by destruct (Hnone mainFile).
    + intros mainFile this' fileAccessor. split; [done |].
      intros (Hchosen & _). by destruct (Hnone mainFile).
    + done.
    + intros mainFile Hchosen. by destruct (Hnone mainFile).
Qed.

Lemma GetContent_files (fileList : ImporterFileList.t) :
  ImporterFileList.files (fst (ImporterFileList.GetContent fileList))
  = map (fun file => fst (ImporterFileList.GetFileContent file))
        (ImporterFileList.files fileList).
Proof. simpl. by rewrite map_map. Qed.

Lemma GetFileContent_extension (file : ImporterFile.t) :
  ImporterFile.extension (fst (ImporterFileList.GetFileContent file))
  = ImporterFile.extension file.
Proof. by destruct (GetFileContent_step file) as (_ & ? & _). Qed.

Lemma GetImportableFiles_GetContent (this : Importer.t) (fileList : ImporterFileList.t) :
  Importer.GetImportableFiles this (fst (ImporterFileList.GetContent fileList))
  = map (fun '(file, importer) => (fst (ImporterFileList.GetFileContent file), importer))
        (Importer.GetImportableFiles this fileList).
Proof.
  rewrite !GetImportableFiles_omap, GetContent_files.
  induction (ImporterFileList.files fileList) as [|file files IH]; [done |].
  cbn [map omap list_omap]. unfold Importer.FindImporter in *.
  rewrite GetFileContent_extension.
  destruct (find _ (Importer.importers this)); simpl; by rewrite IH.
Qed.

Lemma GetImportableFiles_with_fileList (this : Importer.t)
    (fileList fileList' : ImporterFileList.t) :
  Importer.GetImportableFiles (Importer.with_fileList this fileList) fileList'
  = Importer.GetImportableFiles this fileList'.
Proof. reflexivity. Qed.

(** X13.  A set of inputs that holds a file some importer accepts starts a
    fresh import, whatever the orchestrator had loaded or missed before: its
    file list becomes the loaded inputs followed by what their archives
    hold, and when there is no prompt the main file is the first importable
    input, as it is after loading, with the first importer that accepts
    it. *)
Theorem ImportFiles_fresh (this : Importer.t) (inputFiles : list InputFile.t)
    (file : ImporterFile.t) (importer : FormatImporter)
    (rest : list (ImporterFile.t * FormatImporter)) :
  Importer.GetImportableFiles this (ImporterFileList.FillFromInputFiles inputFiles)
  = (file, importer) :: rest ->
  let loaded := fst (ImporterFileList.GetContent
                       (ImporterFileList.FillFromInputFiles inputFiles)) in
  exists events,
    Importer.ImportFiles unzipSync this inputFiles None
    = (Importer.with_fileList this (Importer.DecompressArchives unzipSync loaded),
       events,
       Importer.ImportsMainFile (fst (ImporterFileList.GetFileContent file), importer)).
Proof.
  intros Himportable. cbv zeta.
  unfold Importer.ImportFiles, Importer.LoadFiles.
  assert (Hreset : Importer.LoadFiles_reconcile this inputFiles
                   = Importer.with_fileList this
                       (ImporterFileList.FillFromInputFiles inputFiles)).
  { unfold Importer.LoadFiles_reconcile, Importer.HasImportableFile.
    by rewrite Himportable. }
  rewrite Hreset. simpl Importer.fileList.
  pose proof (GetImportableFiles_GetContent this
                (ImporterFileList.FillFromInputFiles inputFiles)) as Hloaded.
  rewrite Himportable in Hloaded.
  destruct (ImporterFileList.GetContent (ImporterFileList.FillFromInputFiles inputFiles))
    as [loaded events].
  simpl fst in *. exists events. simpl Importer.fileList. f_equal.
  unfold Importer.ImportLoadedFiles_select. simpl Importer.fileList. cbv zeta.
  rewrite !GetImportableFiles_with_fileList.
  rewrite (GetImportableFiles_DecompressArchives unzipSync this loaded).
  rewrite Hloaded. cbn [map app List.length Nat.eqb].
  by destruct (_ =? _)%nat.
Qed.

Lemma getBufferCallback_found (fileName : string) (this : Importer.t) :
  Importer.getBufferCallback fileName this
  = if found (Importer.fileList this) fileName
    then (default null (ImporterFile.content
                          <$> ImporterFileList.FindFileByPath (Importer.fileList this)
                                                              fileName),
          Importer.mk (Importer.importers this) (Importer.fileList this)
                      (Importer.usedFiles this ++ [fileName]) (Importer.missingFiles this))
    else (null,
          Importer.mk (Importer.importers this) (Importer.fileList this)
                      (Importer.usedFiles this) (Importer.missingFiles this ++ [fileName])).
Proof.
  unfold Importer.getBufferCallback, found.
  destruct (ImporterFileList.FindFileByPath _ _) as [file|]; [| done].
  by destruct (is_null (ImporterFile.content file)).
Qed.

Lemma GetFileBuffers_cons {World} (filePath : string) (filePaths : list string)
    (accessor : ImporterFileAccessor.t World) (w : World) :
  ImporterFileAccessor.GetFileBuffers (filePath :: filePaths) (accessor, w)
  = ImporterFileAccessor.GetFileBuffers filePaths
      (let '(_, accessor, w) := ImporterFileAccessor.GetFileBuffer accessor filePath w in
       (accessor, w)).
Proof. reflexivity. Qed.

Lemma GetFileBuffers_bookkeeping (filePaths : list string) :
  forall (accessor : ImporterFileAccessor.t Importer.t) (this : Importer.t)
         (seen : list string),
    ImporterFileAccessor.getBufferCallback accessor = Importer.getBufferCallback ->
    (forall fileName,
       is_Some (ImporterFileAccessor.fileBuffers accessor !! fileName) <-> fileName ∈ seen) ->
    Importer.usedFiles (snd (ImporterFileAccessor.GetFileBuffers filePaths (accessor, this)))
    = Importer.usedFiles this
      ++ filter (fun fileName => found (Importer.fileList this) fileName = true)
                (first_requests seen filePaths)
    /\ Importer.missingFiles
         (snd (ImporterFileAccessor.GetFileBuffers filePaths (accessor, this)))
       = Importer.missingFiles this
         ++ filter (fun fileName => found (Importer.fileList this) fileName = false)
                   (first_requests seen filePaths)
    /\ Importer.fileList (snd (ImporterFileAccessor.GetFileBuffers filePaths (accessor, this)))
       = Importer.fileList this
    /\ Importer.importers (snd (ImporterFileAccessor.GetFileBuffers filePaths (accessor, this)))
       = Importer.importers this.
Proof.
  induction filePaths as [|filePath filePaths IH]; intros accessor this seen Hcb Hseen.
  - simpl. by rewrite !app_nil_r.
  - rewrite GetFileBuffers_cons. cbn [first_requests].
    unfold ImporterFileAccessor.GetFileBuffer.
    case_bool_decide as Hin.
    + apply Hseen in Hin as [buffer Hbuffer]. rewrite Hbuffer.
      by apply (IH accessor this seen).
    + assert (Hnone : ImporterFileAccessor.fileBuffers accessor !! GetFileName filePath
                      = None).
      { apply eq_None_not_Some. by rewrite Hseen. }
      rewrite Hnone, Hcb, getBufferCallback_found.
      set (fileName := GetFileName filePath) in *.
      assert (Hseen' : forall buffer name,
                is_Some (<[fileName := buffer]> (ImporterFileAccessor.fileBuffers accessor)
                           !! name)
                <-> name ∈ fileName :: seen).
      { intros buffer name. rewrite elem_of_cons.
        destruct (decide (name = fileName)) as [-> | Hne].
        - rewrite lookup_insert_eq. split; [by left | by eexists].
        - rewrite lookup_insert_ne by done. rewrite Hseen. split; [by right |].
          by intros [? | ?]. }
      rewrite !filter_cons.
      destruct (found (Importer.fileList this) fileName) eqn:Hfound; cbv beta iota zeta.
      * match goal with
        | |- context [ImporterFileAccessor.GetFileBuffers filePaths (?a, ?t)] =>
            destruct (IH a t (fileName :: seen)) as (Hu & Hm & Hf & Hi)
        end; [done | apply Hseen' |].
        simpl in Hu, Hm, Hf, Hi. rewrite Hu, Hm, Hf, Hi.
        rewrite decide_True by done. rewrite decide_False by done.
        by rewrite <- app_assoc.
      * match goal with
        | |- context [ImporterFileAccessor.GetFileBuffers filePaths (?a, ?t)] =>
            destruct (IH a t (fileName :: seen)) as (Hu & Hm & Hf & Hi)
        end; [done | apply Hseen' |].
        simpl in Hu, Hm, Hf, Hi. rewrite Hu, Hm, Hf, Hi.
        rewrite decide_False by done. rewrite decide_True by done.
        by rewrite <- app_assoc.
Qed.

(** X14.  The bookkeeping of an import.  After the requests a format
    importer makes through [getFileBuffer], the used files are the main file
    followed by the base names that were requested and resolve to a file
    with content, and the missing files are the requested base names that do
    not; each name stands once, at the place of its first request.  The file
    list is not touched. *)
Theorem import_bookkeeping (this : Importer.t) (mainFile : ImporterFile.t)
    (importer : FormatImporter) (requests : list string) :
  ImporterFile.content mainFile <> null ->
  exists this0 accessor0,
    Importer.ImportLoadedMainFile_begin this (Some (mainFile, importer))
    = inr (this0, accessor0)
    /\ let this' := snd (ImporterFileAccessor.GetFileBuffers requests (accessor0, this0)) in
       Importer.usedFiles this'
       = ImporterFile.name mainFile
           :: filter (fun fileName => found (Importer.fileList this) fileName = true)
                     (first_requests [] requests)
       /\ Importer.missingFiles this'
          = filter (fun fileName => found (Importer.fileList this) fileName = false)
                   (first_requests [] requests)
       /\ Importer.fileList this' = Importer.fileList this.
Proof.
  intros Hcontent. unfold Importer.ImportLoadedMainFile_begin.
  destruct (is_null (ImporterFile.content mainFile)) eqn:Hnull.
  { destruct (ImporterFile.content mainFile); [done | discriminate ..]. }
  eexists _, _. split; [reflexivity |].
  destruct (GetFileBuffers_bookkeeping requests
              (ImporterFileAccessor.new Importer.getBufferCallback)
              (Importer.mk (Importer.importers this) (Importer.fileList this)
                           [ImporterFile.name mainFile] []) [])
    as (Hu & Hm & Hf & _); [done | |].
  { intros name. simpl. rewrite lookup_empty. split; [by intros [? ?] |].
    intros Hin. by apply elem_of_nil in Hin. }
  simpl in Hu, Hm, Hf. by rewrite Hu, Hm, Hf.
Qed.

End ImportMore.

(** ** The correspondence a converter keeps *)

(** What an [Add...] method does, in full. *)
Lemma add_effect (kind : AttributeKind) (converter : ObjMeshConverter.t)
    (globalIndex : option Z) (values : list (attribute kind)) :
  (in_range globalIndex (List.length values) = false
   /\ add kind converter globalIndex values = (None, converter))
  \/ (exists g value,
        globalIndex = Some g /\ (0 <= g)%Z /\ values !! Z.to_nat g = Some value
        /\ ((exists meshIndex,
               index_map kind converter !! g = Some meshIndex
               /\ add kind converter globalIndex values = (Some meshIndex, converter))
            \/ (index_map kind converter !! g = None
                /\ exists converter',
                    add kind converter globalIndex values
                    = (Some (List.length (buffer kind (ObjMeshConverter.mesh converter))),
                       converter')
                    /\ index_map kind converter'
                       = <[g := List.length (buffer kind (ObjMeshConverter.mesh converter))]>
                           (index_map kind converter)
                    /\ buffer kind (ObjMeshConverter.mesh converter')
                       = buffer kind (ObjMeshConverter.mesh converter) ++ [value]
                    /\ (forall other, other <> kind ->
                          index_map other converter' = index_map other converter
                          /\ buffer other (ObjMeshConverter.mesh converter')
                             = buffer other (ObjMeshConverter.mesh converter))
                    /\ Mesh.triangles (ObjMeshConverter.mesh converter')
                       = Mesh.triangles (ObjMeshConverter.mesh converter)
                    /\ Mesh.lines (ObjMeshConverter.mesh converter')
                       = Mesh.lines (ObjMeshConverter.mesh converter)
                    /\ Mesh.name (ObjMeshConverter.mesh converter')
                       = Mesh.name (ObjMeshConverter.mesh converter)))).
Proof.
  destruct kind; simpl in *;
    unfold ObjMeshConverter.AddVertex, ObjMeshConverter.AddVertexColor,
           ObjMeshConverter.AddNormal, ObjMeshConverter.AddUV;
    match goal with
    | |- context [ObjMeshConverter.GetMeshIndex ?gi ?vs ?m ?f ?mesh] =>
        destruct (GetMeshIndex_cases gi vs m f mesh)
          as [[Hout ->] | (g & value & -> & Hin & Hv & [(meshIndex & Hi & ->) | [Hi ->]])]
    end.
  all: try (left; split; [done |]; by rewrite converter_eta).
  all: try (apply in_range_lookup in Hin as [Hpos _]).
  all: try (right; exists g, value; repeat (split; [done |]); left; exists meshIndex;
            split; [done |]; by rewrite converter_eta).
  all: right; exists g, value; repeat (split; [done |]); right; split; [done |];
    eexists; split; [reflexivity |]; simpl;
    rewrite ?Coord3D_eta, ?Coord2D_eta, ?RGBColor_eta;
    repeat (split; [done |]); try done.
  all: split; [intros other Hother; by destruct other |]; done.
Qed.

Lemma extends_refl (c : ObjMeshConverter.t) : extends c c.
Proof. split; [apply grows_refl |]. split; [intros kind; lia | done]. Qed.

Lemma extends_trans (c1 c2 c3 : ObjMeshConverter.t) :
  extends c1 c2 -> extends c2 c3 -> extends c1 c3.
Proof.
  intros (Hg1 & Hl1 & Hn1) (Hg2 & Hl2 & Hn2).
  split; [by eapply grows_trans |]. split; [| congruence].
  intros kind. specialize (Hl1 kind). specialize (Hl2 kind). lia.
Qed.

(** What the loops need to know of one [Add...] call. *)
Lemma add_sound (kind : AttributeKind) (converter : ObjMeshConverter.t)
    (globalIndex : option Z) (values : list (attribute kind)) :
  forall result converter',
    add kind converter globalIndex values = (result, converter') ->
    extends converter converter'
    /\ (sound converter -> sound converter')
    /\ Mesh.triangles (ObjMeshConverter.mesh converter')
       = Mesh.triangles (ObjMeshConverter.mesh converter)
    /\ Mesh.lines (ObjMeshConverter.mesh converter')
       = Mesh.lines (ObjMeshConverter.mesh converter)
    /\ (result = None <-> in_range globalIndex (List.length values) = false)
    /\ (forall meshIndex, result = Some meshIndex ->
          exists g, globalIndex = Some g /\ index_map kind converter' !! g = Some meshIndex).
Proof.
  intros result converter' Hadd.
  destruct (add_summary kind converter globalIndex values result converter' Hadd)
    as (Hgrows & Htri & Hlin & Hnone & Hsome).
  destruct (add_effect kind converter globalIndex values)
    as [[Hout Heq] | (g & value & -> & Hpos & Hv & [(meshIndex & Hi & Heq)
                      | (Hi & c' & Heq & Hmap & Hbuf & Hother & _ & _ & Hname)])];
    rewrite Heq in Hadd; injection Hadd as <- <-.
  - split; [apply extends_refl |]. done.
  - split; [apply extends_refl |]. done.
  - split.
    { split; [done |]. split; [| done]. intros other.
      destruct (decide (other = kind)) as [-> | Hne].
      - rewrite Hbuf, length_app. lia.
      - by rewrite (proj2 (Hother other Hne)). }
    split; [| done].
    intros Hsound other g' m.
    destruct (decide (other = kind)) as [-> | Hne].
    + rewrite Hmap, Hbuf, length_app. simpl.
      destruct (decide (g' = g)) as [-> | Hneg].
      * rewrite lookup_insert_eq. intros [= <-]. lia.
      * rewrite lookup_insert_ne by done. intros Hm. specialize (Hsound _ _ _ Hm). lia.
    + destruct (Hother other Hne) as [-> ->]. apply Hsound.
Qed.

Lemma call_corresponds (globals : forall kind, list (attribute kind))
    (converter : ObjMeshConverter.t) (c : ConverterCall) :
  call_within globals c ->
  (forall kind, corresponds globals kind converter) ->
  forall kind, corresponds globals kind (call converter c).
Proof.
  intros Hwithin Hall.
  destruct c as [kind gi values | line | triangle]; simpl in *.
  2:{ intros kind. specialize (Hall kind). by destruct kind. }
  2:{ intros kind. specialize (Hall kind). by destruct kind. }
  destruct (add_effect kind converter gi values)
    as [[Hout Heq] | (g & value & -> & Hpos & Hv & [(meshIndex & Hi & Heq)
                      | (Hi & c' & Heq & Hmap & Hbuf & Hother & _)])];
    rewrite Heq; simpl; [done | done |].
  intros other. destruct (decide (other = kind)) as [-> | Hne].
  2:{ destruct (Hother other Hne) as [Hm Hb]. specialize (Hall other).
      unfold corresponds in *. by rewrite Hm, Hb. }
  destruct (Hall kind) as (Hcopy & Honto & Hinj).
  assert (Hglobal : globals kind !! Z.to_nat g = Some value)
    by (by apply (prefix_lookup_Some values)).
  assert (Hfresh : forall g', index_map kind converter !! g'
                              <> Some (List.length (buffer kind
                                                      (ObjMeshConverter.mesh converter)))).
  { intros g' Hg'. destruct (Hcopy _ _ Hg') as (_ & [v Hgv] & Hbuf').
    rewrite Hgv in Hbuf'. apply lookup_lt_Some in Hbuf'. lia. }
  unfold corresponds. rewrite Hmap, Hbuf. split; [| split].
  - intros g' m. destruct (decide (g' = g)) as [-> | Hneg].
    + rewrite lookup_insert_eq. intros [= <-]. split; [done |].
      split; [by eexists |]. rewrite Hglobal.
      by rewrite lookup_app_r, Nat.sub_diag by lia.
    + rewrite lookup_insert_ne by done. intros Hm.
      destruct (Hcopy _ _ Hm) as (Hp & Hs & Hb). split; [done |]. split; [done |].
      rewrite <- Hb. apply lookup_app_l.
      destruct Hs as [v Hs]. rewrite Hs in Hb. by apply lookup_lt_Some in Hb.
  - intros m. rewrite length_app. simpl. intros Hm.
    destruct (decide (m = List.length (buffer kind (ObjMeshConverter.mesh converter))))
      as [-> | Hne].
    + exists g. apply lookup_insert_eq.
    + destruct (Honto m ltac:(lia)) as [g' Hg']. exists g'.
      rewrite lookup_insert_ne; [done |]. intros <-. congruence.
  - intros g1 g2 m.
    destruct (decide (g1 = g)) as [-> | Hn1]; destruct (decide (g2 = g)) as [-> | Hn2];
      rewrite ?lookup_insert_eq, ?lookup_insert_ne by done; try done.
    + intros [= <-] Hg2. by destruct (Hfresh g2).
    + intros Hg1 [= <-]. by destruct (Hfresh g1).
    + apply Hinj.
Qed.

Lemma call_size (converter : ObjMeshConverter.t) (c : ConverterCall) :
  (forall kind, List.length (buffer kind (ObjMeshConverter.mesh converter))
                = size (index_map kind converter)) ->
  forall kind, List.length (buffer kind (ObjMeshConverter.mesh (call converter c)))
               = size (index_map kind (call converter c)).
Proof.
  intros Hall.
  destruct c as [kind gi values | line | triangle]; simpl in *.
  2:{ intros kind. specialize (Hall kind). by destruct kind. }
  2:{ intros kind. specialize (Hall kind). by destruct kind. }
  destruct (add_effect kind converter gi values)
    as [[Hout Heq] | (g & value & -> & Hpos & Hv & [(meshIndex & Hi & Heq)
                      | (Hi & c' & Heq & Hmap & Hbuf & Hother & _)])];
    rewrite Heq; simpl; [done | done |].
  intros other. destruct (decide (other = kind)) as [-> | Hne].
  - rewrite Hmap, Hbuf, length_app, map_size_insert_None by done. simpl.
    rewrite Hall. lia.
  - destruct (Hother other Hne) as [-> ->]. apply Hall.
Qed.

(** X15.  Whatever is asked of a converter that starts with a mesh without
    attributes, its index map of every attribute kind stays a one-to-one
    correspondence between the global indices referenced and the positions
    of the mesh's buffer of that kind: the buffer has exactly one entry for
    every distinct global index referenced, no two indices share an entry,
    and every entry is the global value of its index. *)
Theorem converter_correspondence (globals : forall kind, list (attribute kind))
    (name : string) (cs : list ConverterCall) (kind : AttributeKind) :
  Forall (call_within globals) cs ->
  let converter := calls (ObjMeshConverter.new (Mesh.SetName Mesh.new name)) cs in
  corresponds globals kind converter
  /\ List.length (buffer kind (ObjMeshConverter.mesh converter))
     = size (index_map kind converter).
Proof.
  intros Hcs converter. subst converter.
  assert (Hstart : forall kind,
            corresponds globals kind (ObjMeshConverter.new (Mesh.SetName Mesh.new name))
            /\ List.length (buffer kind (ObjMeshConverter.mesh
                                           (ObjMeshConverter.new (Mesh.SetName Mesh.new name))))
               = size (index_map kind (ObjMeshConverter.new (Mesh.SetName Mesh.new name)))).
  { intros k. unfold corresponds. split; [split; [| split] |].
    - intros g m. destruct k; simpl; by rewrite lookup_empty.
    - intros m. destruct k; simpl; lia.
    - intros g g' m. destruct k; simpl; by rewrite lookup_empty.
    - by destruct k. }
  revert Hstart. generalize (ObjMeshConverter.new (Mesh.SetName Mesh.new name)).
  induction Hcs as [|c cs Hc Hcs IH]; intros converter Hstart; [apply Hstart |].
  simpl. apply IH. intros k. split.
  - apply call_corresponds; [done |]. intros k'. apply Hstart.
  - apply call_size. intros k'. apply Hstart.
Qed.

(** ** The stages of a triangle of a fan *)

Lemma FaceTriangle_stages (this : ImporterObj.t)
    (vertices colors normals uvs : list (option Z)) (i : nat) :
  ImporterObj.FaceTriangle this vertices colors normals uvs i
  = (let* v0 := Break.lift (fun c => add Vertices c (ImporterObj.at_index vertices 0)
                                         (ImporterObj.globalVertices this)) in
     let* v1 := Break.lift (fun c => add Vertices c (ImporterObj.at_index vertices (i + 1))
                                         (ImporterObj.globalVertices this)) in
     let* v2 := Break.lift (fun c => add Vertices c (ImporterObj.at_index vertices (i + 2))
                                         (ImporterObj.globalVertices this)) in
     let* '(v0, v1, v2) := ImporterObj.require3 v0 v1 v2 "Invalid vertex index." in
     let* triangle :=
       attribute_step VertexColors vertices colors (ImporterObj.globalVertexColors this) i
         "Invalid vertex color index." Triangle.SetVertexColors (Triangle.new v0 v1 v2) in
     let* triangle :=
       attribute_step Normals vertices normals (ImporterObj.globalNormals this) i
         "Invalid normal index." Triangle.SetNormals triangle in
     let* triangle :=
       attribute_step Uvs vertices uvs (ImporterObj.globalUvs this) i
         "Invalid uv index." Triangle.SetTextureUVs triangle in
     Break.modify
       (fun c => ObjMeshConverter.AddTriangle c
                   match ImporterObj.currentMaterialIndex this with
                   | Some index => Triangle.set_mat triangle index
                   | None => triangle
                   end)).
Proof. reflexivity. Qed.

Lemma add_three_sound (kind : AttributeKind) (indices : list (option Z))
    (values : list (attribute kind)) (i : nat) (converter : ObjMeshConverter.t) :
  forall converter' result,
    add_three kind indices values i converter = (converter', result) ->
    extends converter converter'
    /\ (sound converter -> sound converter')
    /\ Mesh.triangles (ObjMeshConverter.mesh converter')
       = Mesh.triangles (ObjMeshConverter.mesh converter)
    /\ Mesh.lines (ObjMeshConverter.mesh converter')
       = Mesh.lines (ObjMeshConverter.mesh converter)
    /\ match result with
       | None => ~ three_in_range indices (List.length values) i
       | Some triple =>
           three_in_range indices (List.length values) i
           /\ (sound converter ->
               triple_below
                 (List.length (buffer kind (ObjMeshConverter.mesh converter')))
                 (Some triple))
       end.
Proof.
  intros converter' result Hthree.
  pose proof (add_three_spec kind indices values i converter converter' result Hthree)
    as (_ & _ & _ & Hres).
  unfold add_three in Hthree.
  destruct (add kind converter _ values) as [a c1] eqn:Ha.
  destruct (add kind c1 _ values) as [b c2] eqn:Hb.
  destruct (add kind c2 _ values) as [c c3] eqn:Hc.
  injection Hthree as <- <-.
  apply add_sound in Ha as (He1 & Hs1 & Ht1 & Hl1 & _).
  apply add_sound in Hb as (He2 & Hs2 & Ht2 & Hl2 & _).
  apply add_sound in Hc as (He3 & Hs3 & Ht3 & Hl3 & _).
  split; [eauto using extends_trans |].
  split; [tauto |]. split; [congruence |]. split; [congruence |].
  destruct a as [a|], b as [b|], c as [c|]; try (unfold three_in_range; intros (? & ? & ?);
    destruct Hres as [? | [? | ?]]; congruence).
  destruct Hres as (Hin & Ha & Hb & Hc). split; [done |].
  intros Hsound. assert (Hs : sound c3) by tauto.
  unfold local_index in Ha, Hb, Hc. simpl.
  destruct (ImporterObj.at_index indices 0) as [ga|]; [| done].
  destruct (ImporterObj.at_index indices (i + 1)) as [gb|]; [| done].
  destruct (ImporterObj.at_index indices (i + 2)) as [gc|]; [| done].
  simpl in Ha, Hb, Hc. repeat split; by eapply Hs.
Qed.

Lemma triangle_in_mesh_extends (c c' : ObjMeshConverter.t) (triangle : Triangle.t) :
  extends c c' ->
  triangle_in_mesh (ObjMeshConverter.mesh c) triangle ->
  triangle_in_mesh (ObjMeshConverter.mesh c') triangle.
Proof.
  intros (_ & Hlen & _) (Hv & Hc & Hn & Hu).
  pose proof (Hlen Vertices) as Hlv. pose proof (Hlen VertexColors) as Hlc.
  pose proof (Hlen Normals) as Hln. pose proof (Hlen Uvs) as Hlu. simpl in *.
  unfold triangle_in_mesh, triple_below in *.
  destruct (Triangle.colors triangle) as [[[? ?] ?]|];
    destruct (Triangle.normals triangle) as [[[? ?] ?]|];
    destruct (Triangle.uvs triangle) as [[[? ?] ?]|]; repeat split; lia.
Qed.

Lemma line_in_mesh_extends (c c' : ObjMeshConverter.t) (line : Line.t) :
  extends c c' ->
  line_in_mesh (ObjMeshConverter.mesh c) line ->
  line_in_mesh (ObjMeshConverter.mesh c') line.
Proof.
  intros (_ & Hlen & _) Hline. specialize (Hlen Vertices). simpl in Hlen.
  unfold line_in_mesh in *. eapply Forall_impl; [exact Hline |]. simpl. intros v Hv. lia.
Qed.

(** One attribute stage of the body of the loop over the fan. *)
Lemma attribute_step_spec (kind : AttributeKind) (vertices indices : list (option Z))
    (values : list (attribute kind)) (i : nat) (message : string)
    (set : Triangle.t -> nat -> nat -> nat -> Triangle.t) (triangle : Triangle.t)
    (converter : ObjMeshConverter.t) :
  (forall mesh t a b c,
     triangle_in_mesh mesh t ->
     triple_below (List.length (buffer kind mesh)) (Some (a, b, c)) ->
     triangle_in_mesh mesh (set t a b c)) ->
  (forall t a b c, Triangle.mat (set t a b c) = Triangle.mat t) ->
  exists converter' result,
    attribute_step kind vertices indices values i message set triangle converter
    = (converter', result)
    /\ extends converter converter'
    /\ (sound converter -> sound converter')
    /\ Mesh.triangles (ObjMeshConverter.mesh converter')
       = Mesh.triangles (ObjMeshConverter.mesh converter)
    /\ Mesh.lines (ObjMeshConverter.mesh converter')
       = Mesh.lines (ObjMeshConverter.mesh converter)
    /\ match result with
       | inl broke =>
           broke = message
           /\ List.length indices = List.length vertices
           /\ ~ three_in_range indices (List.length values) i
       | inr triangle' =>
           Triangle.mat triangle' = Triangle.mat triangle
           /\ (sound converter ->
               triangle_in_mesh (ObjMeshConverter.mesh converter) triangle ->
               triangle_in_mesh (ObjMeshConverter.mesh converter') triangle')
       end.
Proof.
  intros Hset Hmat. unfold attribute_step.
  destruct (_ =? _)%nat eqn:Hcount.
  - apply Nat.eqb_eq in Hcount. rewrite three_adds_cps.
    destruct (add_three kind indices values i converter) as [c' r] eqn:Hthree.
    apply add_three_sound in Hthree as (Hext & Hsound & Htri & Hlin & Hres).
    destruct r as [[[a b] c]|].
    + eexists _, _. split; [reflexivity |]. do 4 (split; [done |]).
      split; [apply Hmat |]. intros Hs Hin. apply Hset.
      * by apply (triangle_in_mesh_extends converter).
      * by apply Hres.
    + eexists _, _. split; [reflexivity |]. do 4 (split; [done |]). done.
  - eexists _, _. split; [reflexivity |]. split; [apply extends_refl |].
    do 3 (split; [done |]). done.
Qed.

Lemma AddTriangle_extends (c : ObjMeshConverter.t) (t : Triangle.t) :
  extends c (ObjMeshConverter.AddTriangle c t).
Proof.
  split; [apply AddTriangle_grows |]. split; [| done]. intros kind. by destruct kind.
Qed.

Lemma AddTriangle_sound (c : ObjMeshConverter.t) (t : Triangle.t) :
  sound c -> sound (ObjMeshConverter.AddTriangle c t).
Proof. intros Hs kind. specialize (Hs kind). by destruct kind. Qed.

Lemma set_mat_in_mesh (mesh : Mesh.t) (triangle : Triangle.t) (index : nat) :
  triangle_in_mesh mesh triangle -> triangle_in_mesh mesh (Triangle.set_mat triangle index).
Proof. done. Qed.

(** The body of the loop over the fan, for one [i]. *)
Lemma FaceTriangle_effect (this : ImporterObj.t)
    (vertices colors normals uvs : list (option Z)) (i : nat)
    (converter : ObjMeshConverter.t) :
  exists converter' result,
    ImporterObj.FaceTriangle this vertices colors normals uvs i converter
    = (converter', result)
    /\ extends converter converter'
    /\ (sound converter -> sound converter')
    /\ Mesh.lines (ObjMeshConverter.mesh converter')
       = Mesh.lines (ObjMeshConverter.mesh converter)
    /\ match result with
       | inl message =>
           Mesh.triangles (ObjMeshConverter.mesh converter')
           = Mesh.triangles (ObjMeshConverter.mesh converter)
           /\ face_failure this vertices colors normals uvs i message
       | inr _ =>
           exists triangle,
             Mesh.triangles (ObjMeshConverter.mesh converter')
             = Mesh.triangles (ObjMeshConverter.mesh converter) ++ [triangle]
             /\ Triangle.mat triangle = ImporterObj.currentMaterialIndex this
             /\ (sound converter ->
                 triangle_in_mesh (ObjMeshConverter.mesh converter') triangle)
       end.
Proof.
  rewrite FaceTriangle_stages. rewrite (three_adds_cps Vertices).
  destruct (add_three Vertices vertices (ImporterObj.globalVertices this) i converter)
    as [c1 r1] eqn:Hv.
  apply add_three_sound in Hv as (He1 & Hs1 & Ht1 & Hl1 & Hr1).
  destruct r1 as [[[v0 v1] v2]|].
  2:{ eexists _, _. split; [reflexivity |]. do 3 (split; [done |]).
      split; [done |]. by left. }
  destruct Hr1 as [Hin1 Hb1].
  unfold Break.bind at 1.
  destruct (attribute_step_spec VertexColors vertices colors
              (ImporterObj.globalVertexColors this) i "Invalid vertex color index."
              Triangle.SetVertexColors (Triangle.new v0 v1 v2) c1)
    as (c2 & r2 & -> & He2 & Hs2 & Ht2 & Hl2 & Hr2).
  { intros mesh t a b c Hin Hbelow. unfold triangle_in_mesh in *. simpl in *. tauto. }
  { done. }
  destruct r2 as [m2 | t2].
  { destruct Hr2 as (-> & Hlen & Hbad).
    eexists _, _. split; [reflexivity |].
    split; [eauto using extends_trans |]. split; [tauto |]. split; [congruence |].
    split; [congruence |]. right. split; [done |]. left. done. }
  destruct Hr2 as [Hm2 Hin2].
  unfold Break.bind at 1.
  destruct (attribute_step_spec Normals vertices normals
              (ImporterObj.globalNormals this) i "Invalid normal index."
              Triangle.SetNormals t2 c2)
    as (c3 & r3 & -> & He3 & Hs3 & Ht3 & Hl3 & Hr3).
  { intros mesh t a b c Hin Hbelow. unfold triangle_in_mesh in *. simpl in *. tauto. }
  { done. }
  destruct r3 as [m3 | t3].
  { destruct Hr3 as (-> & Hlen & Hbad).
    eexists _, _. split; [reflexivity |].
    split; [eauto using extends_trans |]. split; [tauto |]. split; [congruence |].
    split; [congruence |]. right. split; [done |]. right. left. done. }
  destruct Hr3 as [Hm3 Hin3].
  unfold Break.bind at 1.
  destruct (attribute_step_spec Uvs vertices uvs
              (ImporterObj.globalUvs this) i "Invalid uv index."
              Triangle.SetTextureUVs t3 c3)
    as (c4 & r4 & -> & He4 & Hs4 & Ht4 & Hl4 & Hr4).
  { intros mesh t a b c Hin Hbelow. unfold triangle_in_mesh in *. simpl in *. tauto. }
  { done. }
  destruct r4 as [m4 | t4].
  { destruct Hr4 as (-> & Hlen & Hbad).
    eexists _, _. split; [reflexivity |].
    split; [eauto using extends_trans |]. split; [tauto |]. split; [congruence |].
    split; [congruence |]. right. split; [done |]. right. right. done. }
  destruct Hr4 as [Hm4 Hin4].
  eexists _, _. split; [reflexivity |].
  split; [eauto using extends_trans, AddTriangle_extends |].
  split; [intros Hs; apply AddTriangle_sound; tauto |].
  split; [simpl; congruence |].
  eexists. split; [simpl; apply (f_equal2 app); [congruence | reflexivity] |].
  assert (Hnew : Triangle.mat t4 = None) by (rewrite Hm4, Hm3, Hm2; reflexivity).
  split.
  { destruct (ImporterObj.currentMaterialIndex this); [reflexivity | exact Hnew]. }
  intros Hs.
  assert (Hin : triangle_in_mesh (ObjMeshConverter.mesh c4) t4).
  { apply Hin4; [tauto |]. apply Hin3; [tauto |]. apply Hin2; [tauto |].
    specialize (Hb1 Hs). simpl in Hb1. unfold triangle_in_mesh. simpl. tauto. }
  destruct (ImporterObj.currentMaterialIndex this); exact Hin.
Qed.

(** The loop over the fan. *)
Lemma face_loop_effect (this : ImporterObj.t)
    (vertices colors normals uvs : list (option Z)) (steps : list nat)
    (converter : ObjMeshConverter.t) :
  exists converter' broke new,
    Break.for_each (ImporterObj.FaceTriangle this vertices colors normals uvs)
                   steps converter = (converter', broke)
    /\ extends converter converter'
    /\ (sound converter -> sound converter')
    /\ Mesh.lines (ObjMeshConverter.mesh converter')
       = Mesh.lines (ObjMeshConverter.mesh converter)
    /\ Mesh.triangles (ObjMeshConverter.mesh converter')
       = Mesh.triangles (ObjMeshConverter.mesh converter) ++ new
    /\ Forall (fun triangle =>
                 Triangle.mat triangle = ImporterObj.currentMaterialIndex this) new
    /\ (sound converter ->
        Forall (triangle_in_mesh (ObjMeshConverter.mesh converter')) new)
    /\ (forall message, broke = Some message ->
          exists i, i ∈ steps /\ face_failure this vertices colors normals uvs i message).
Proof.
  revert converter. induction steps as [|i steps IH]; intros converter.
  - exists converter, None, []. simpl. split; [done |]. split; [apply extends_refl |].
    split; [done |]. split; [done |]. split; [by rewrite app_nil_r |].
    split; [constructor |]. split; [constructor |]. intros ? [=].
  - simpl.
    destruct (FaceTriangle_effect this vertices colors normals uvs i converter)
      as (c1 & result & -> & He1 & Hs1 & Hl1 & Hres).
    destruct result as [message | []].
    + destruct Hres as [Ht1 Hfail].
      exists c1, (Some message), []. split; [done |]. split; [done |]. split; [done |].
      split; [done |]. split; [by rewrite app_nil_r |].
      split; [constructor |]. split; [constructor |].
      intros ? [= <-]. exists i. split; [left | done].
    + destruct Hres as (t & Ht1 & Hmat & Hin).
      destruct (IH c1) as (c' & broke & new & -> & He & Hs & Hl & Ht & Hmats & Hins & Hb).
      exists c', broke, (t :: new). split; [done |].
      split; [by eapply extends_trans |]. split; [tauto |]. split; [congruence |].
      split; [rewrite Ht, Ht1; by rewrite <- app_assoc |].
      split; [by constructor |].
      split.
      { intros Hsound. constructor; [| tauto].
        apply (triangle_in_mesh_extends c1); tauto. }
      intros message Hm. destruct (Hb message Hm) as (j & Hj & Hfail).
      exists j. split; [by right | done].
Qed.

(** ** Face and line directives, by cases *)

Section Shapes.
Context `{ImporterUtils}.

Lemma prepare_is (this : ImporterObj.t) :
  match ImporterObj.currentMeshConverter this with
  | Some _ => this
  | None => ImporterObj.AddNewMesh this ""
  end = prepare this.
Proof. unfold prepare. by destruct (ImporterObj.currentMeshConverter this). Qed.

(** [ProcessFaceCommand], as a loop over the fan on the converter of the
    current mesh. *)
Lemma ProcessFaceCommand_shape (this : ImporterObj.t) (parameters : list string) :
  let that := prepare this in
  ImporterObj.ProcessFaceCommand this parameters = that
  \/ exists current converter converter' broke,
       ImporterObj.currentMeshConverter that = Some current
       /\ ImporterObj.converters that !! current = Some converter
       /\ Break.for_each
            (ImporterObj.FaceTriangle that (face_vertices that parameters)
               (face_colors that parameters) (face_normals that parameters)
               (face_uvs that parameters))
            (seq 0 (List.length parameters - 2)) converter
          = (converter', broke)
       /\ ImporterObj.ProcessFaceCommand this parameters
          = finish that current converter' broke.
Proof.
  intros that. unfold ImporterObj.ProcessFaceCommand. rewrite prepare_is. fold that.
  cbv zeta. rewrite FaceIndices_spec.
  destruct (ImporterObj.currentMeshConverter that) as [current|] eqn:Hc; [| by left].
  destruct (ImporterObj.converters that !! current) as [converter|] eqn:Hconv; [| by left].
  right. rewrite length_map.
  fold (face_vertices that parameters) (face_colors that parameters)
       (face_normals that parameters) (face_uvs that parameters).
  destruct (Break.for_each _ _ converter) as [converter' broke] eqn:Hloop.
  exists current, converter, converter', broke. done.
Qed.

(** [ProcessLineCommand], as a loop over the references on the converter of
    the current mesh, followed by the line that is added in any case. *)
Lemma ProcessLineCommand_shape (this : ImporterObj.t) (parameters : list string) :
  let that := prepare this in
  ImporterObj.ProcessLineCommand this parameters = that
  \/ exists current converter converter' vertices broke,
       ImporterObj.currentMeshConverter that = Some current
       /\ ImporterObj.converters that !! current = Some converter
       /\ Break.for_each (ImporterObj.LineVertex that) parameters (converter, [])
          = ((converter', vertices), broke)
       /\ ImporterObj.ProcessLineCommand this parameters
          = finish that current
              (ObjMeshConverter.AddLine converter'
                 (Line.mk vertices (ImporterObj.currentMaterialIndex that)))
              broke.
Proof.
  intros that. unfold ImporterObj.ProcessLineCommand. rewrite prepare_is. fold that.
  cbv zeta.
  destruct (ImporterObj.currentMeshConverter that) as [current|] eqn:Hc; [| by left].
  destruct (ImporterObj.converters that !! current) as [converter|] eqn:Hconv; [| by left].
  right.
  destruct (Break.for_each _ _ (converter, [])) as [[converter' vertices] broke] eqn:Hloop.
  exists current, converter, converter', vertices, broke.
  repeat (split; [done |]). unfold finish.
  by destruct (ImporterObj.currentMaterialIndex that).
Qed.

(** The loop of [ProcessLineCommand]. *)
Lemma line_loop_effect (this : ImporterObj.t) (parameters : list string)
    (converter : ObjMeshConverter.t) (vertices : list nat) :
  exists converter' new broke,
    Break.for_each (ImporterObj.LineVertex this) parameters (converter, vertices)
    = ((converter', vertices ++ new), broke)
    /\ extends converter converter'
    /\ (sound converter -> sound converter')
    /\ Mesh.triangles (ObjMeshConverter.mesh converter')
       = Mesh.triangles (ObjMeshConverter.mesh converter)
    /\ Mesh.lines (ObjMeshConverter.mesh converter')
       = Mesh.lines (ObjMeshConverter.mesh converter)
    /\ Forall2 (fun parameter vertex =>
                  in_range (face_vertex_index this parameter)
                           (List.length (ImporterObj.globalVertices this)) = true
                  /\ exists g, face_vertex_index this parameter = Some g
                               /\ index_map Vertices converter' !! g = Some vertex)
               (take (List.length new) parameters) new
    /\ match broke with
       | Some message =>
           message = "Invalid vertex index."
           /\ exists parameter,
               parameters !! List.length new = Some parameter
               /\ in_range (face_vertex_index this parameter)
                           (List.length (ImporterObj.globalVertices this)) = false
       | None => List.length new = List.length parameters
       end.
Proof.
  revert converter vertices.
  induction parameters as [|parameter parameters IH]; intros converter vertices.
  - exists converter, [], None. simpl. rewrite app_nil_r. split; [done |].
    split; [apply extends_refl |]. do 3 (split; [done |]). split; [constructor | done].
  - simpl. rewrite LineVertex_cases.
    destruct (add Vertices converter (face_vertex_index this parameter) _)
      as [meshVertexIndex c1] eqn:Hadd.
    apply add_sound in Hadd as (He1 & Hs1 & Ht1 & Hl1 & Hnone & Hsome).
    destruct meshVertexIndex as [vertex|].
    + destruct (IH c1 (vertices ++ [vertex]))
        as (c' & new & broke & -> & He & Hs & Ht & Hl & Hall & Hbroke).
      exists c', (vertex :: new), broke.
      split; [by rewrite <- app_assoc |]. split; [by eapply extends_trans |].
      split; [tauto |]. split; [congruence |]. split; [congruence |].
      split.
      { simpl. constructor; [| done]. split.
        - apply not_false_iff_true. intros Hbad. by apply Hnone in Hbad.
        - destruct (Hsome vertex eq_refl) as (g & Hg & Hm). exists g. split; [done |].
          destruct He as (Hgrows & _). by apply (lookup_grows Vertices c1). }
      destruct broke as [message|]; simpl; [done | by f_equal].
    + exists c1, [], (Some "Invalid vertex index."). rewrite app_nil_r.
      split; [done |]. do 4 (split; [done |]). split; [constructor |].
      split; [done |]. exists parameter. split; [done |]. by apply Hnone.
Qed.

Lemma ProcessLineCommand_at (this : ImporterObj.t) (parameters : list string)
    (current : nat) (converter : ObjMeshConverter.t) :
  ImporterObj.currentMeshConverter (prepare this) = Some current ->
  ImporterObj.converters (prepare this) !! current = Some converter ->
  exists converter' vertices broke,
    Break.for_each (ImporterObj.LineVertex (prepare this)) parameters (converter, [])
    = ((converter', vertices), broke)
    /\ ImporterObj.ProcessLineCommand this parameters
       = finish (prepare this) current
           (ObjMeshConverter.AddLine converter'
              (Line.mk vertices (ImporterObj.currentMaterialIndex (prepare this))))
           broke.
Proof.
  intros Hcur Hconv. unfold ImporterObj.ProcessLineCommand. rewrite prepare_is. cbv zeta.
  rewrite Hcur, Hconv.
  destruct (Break.for_each _ _ (converter, [])) as [[converter' vertices] broke] eqn:Hloop.
  exists converter', vertices, broke. split; [done |]. unfold finish.
  by destruct (ImporterObj.currentMaterialIndex (prepare this)).
Qed.

End Shapes.

(** ** Mesh and material directives, by cases *)

Section Shapes2.
Context `{ImporterUtils} {World : Type}.
Variable getFileBuffer : string -> World -> JsData * World.

(** What a directive for the mesh does to the importer, by cases. *)
Lemma ProcessMeshParameter_shape (this : ImporterObj.t) (keyword : string)
    (parameters : list string) (line : string) :
  let this' := snd (ImporterObj.ProcessMeshParameter this keyword parameters line) in
  this' = this
  \/ (exists name, this' = ImporterObj.AddNewMesh this name)
  \/ (exists vertices colors normals uvs,
        this' = ImporterObj.with_globals this vertices colors normals uvs
        /\ globals_grow this this')
  \/ this' = ImporterObj.ProcessLineCommand this parameters
  \/ this' = ImporterObj.ProcessFaceCommand this parameters.
Proof.
  unfold ImporterObj.ProcessMeshParameter.
  repeat case_decide; repeat case_match; simpl; try by left.
  - right. left. by eexists.
  - right. right. left. eexists _, _, _, _. split; [reflexivity |].
    unfold globals_grow. simpl. rewrite !length_app. simpl.
    repeat split; try done; try (by apply prefix_app_r); lia.
  - right. right. left. eexists _, _, _, _. split; [reflexivity |].
    unfold globals_grow. simpl. rewrite !length_app. simpl.
    repeat split; try done; try (by apply prefix_app_r); lia.
  - right. right. left. eexists _, _, _, _. split; [reflexivity |].
    unfold globals_grow. simpl.
    repeat split; try done; try (by apply prefix_app_r); lia.
  - right. right. left. eexists _, _, _, _. split; [reflexivity |].
    unfold globals_grow. simpl.
    repeat split; try done; try (by apply prefix_app_r); lia.
  - right. right. right. by left.
  - right. right. right. by right.
Qed.

(** What a material directive other than [mtllib] does to the importer, by
    cases: nothing; a new material, which becomes the current one and is
    registered under its name; the current material index set to the index
    registered under a name; or the current material changed in place. *)
Lemma ProcessMaterialParameter_shape
    (ProcessLine : string -> ImporterObj.t * World -> option (ImporterObj.t * World))
    (keyword : string) (parameters : list string) (line : string)
    (this : ImporterObj.t) (w : World) (r : bool * (ImporterObj.t * World)) :
  keyword <> "mtllib" ->
  ImporterObj.ProcessMaterialParameter getFileBuffer ProcessLine keyword parameters line
    (this, w) = Some r ->
  let this' := fst (snd r) in
  this' = this
  \/ (exists name,
        this' = ImporterObj.mk (ImporterObj.error this) (ImporterObj.message this)
                  (ImporterObj.materials this ++ [ImporterObj.set_name name PhongMaterial.new])
                  (ImporterObj.globalVertices this) (ImporterObj.globalVertexColors this)
                  (ImporterObj.globalNormals this) (ImporterObj.globalUvs this)
                  (ImporterObj.converters this) (ImporterObj.currentMeshConverter this)
                  (Some (List.length (ImporterObj.materials this)))
                  (ImporterObj.currentMaterialIndex this)
                  (ImporterObj.meshNameToConverter this)
                  (<[name := List.length (ImporterObj.materials this)]>
                     (ImporterObj.materialNameToIndex this)))
  \/ (exists name index,
        ImporterObj.materialNameToIndex this !! name = Some index
        /\ this' = ImporterObj.with_currentMaterialIndex this (Some index))
  \/ (exists current materials',
        ImporterObj.currentMaterial this = Some current
        /\ this' = ImporterObj.with_materials this materials'
        /\ List.length materials' = List.length (ImporterObj.materials this)
        /\ forall j, j <> current -> materials' !! j = ImporterObj.materials this !! j).
Proof.
  intros Hne. unfold ImporterObj.ProcessMaterialParameter.
  repeat case_decide; try done.
  all: repeat (case_match; try (intros [= <-]; simpl; try by left)).
  all: try (intros [= <-]; simpl; by left).
  all: try (right; left; by eexists).
  all: try (right; right; left; eexists _, _; by split).
  all: right; right; right; unfold ImporterObj.update_material; simpl;
    eexists _, _; split; [done |]; split; [reflexivity |];
    rewrite ?length_alter; split; [done |];
    intros j Hj; rewrite ?list_lookup_alter_ne by done; done.
Qed.

End Shapes2.

(** ** The model of a parse is closed *)

Section ClosedModel.
Context `{ImporterUtils} {World : Type}.
Variable getFileBuffer : string -> World -> JsData * World.

Lemma material_below_mono (count count' : nat) (mat : option nat) :
  (count <= count')%nat -> material_below count mat -> material_below count' mat.
Proof. destruct mat; simpl; [lia | done]. Qed.

Lemma closed_mono (count count' : nat) (converter : ObjMeshConverter.t) :
  (count <= count')%nat -> closed count converter -> closed count' converter.
Proof.
  intros Hle (Hs & Ht & Hl). split; [done |]. split.
  - eapply Forall_impl; [exact Ht |]. intros t [? ?]. split; [done |].
    by eapply material_below_mono.
  - eapply Forall_impl; [exact Hl |]. intros l [? ?]. split; [done |].
    by eapply material_below_mono.
Qed.

Lemma closed_new (count : nat) (name : string) :
  closed count (ObjMeshConverter.new (Mesh.SetName Mesh.new name)).
Proof.
  split; [| split]; simpl; [| constructor ..].
  intros kind g m. destruct kind; simpl; by rewrite lookup_empty.
Qed.

Lemma face_loop_closed (this : ImporterObj.t)
    (vertices colors normals uvs : list (option Z)) (steps : list nat)
    (converter converter' : ObjMeshConverter.t) (broke : option string) (count : nat) :
  closed count converter ->
  material_below count (ImporterObj.currentMaterialIndex this) ->
  Break.for_each (ImporterObj.FaceTriangle this vertices colors normals uvs)
                 steps converter = (converter', broke) ->
  closed count converter'.
Proof.
  intros (Hs & Ht & Hl) Hmat Hloop.
  destruct (face_loop_effect this vertices colors normals uvs steps converter)
    as (c' & broke' & new & Heq & Hext & Hsound & Hlines & Htri & Hmats & Hins & _).
  rewrite Hloop in Heq. injection Heq as <- <-.
  split; [tauto |]. split.
  - rewrite Htri. apply Forall_app. split.
    + eapply Forall_impl; [exact Ht |]. intros t [? ?]. split; [| done].
      by apply (triangle_in_mesh_extends converter).
    + specialize (Hins Hs). clear Htri.
      induction new as [|t new IH]; [constructor |].
      apply Forall_cons in Hmats as [Hm Hmats]. apply Forall_cons in Hins as [Hi Hins].
      constructor; [| by apply IH]. split; [done |]. by rewrite Hm.
  - rewrite Hlines. eapply Forall_impl; [exact Hl |]. intros l [? ?]. split; [| done].
    by apply (line_in_mesh_extends converter).
Qed.

Lemma line_loop_closed (this : ImporterObj.t) (parameters : list string)
    (converter converter' : ObjMeshConverter.t) (vertices : list nat)
    (broke : option string) (count : nat) :
  closed count converter ->
  material_below count (ImporterObj.currentMaterialIndex this) ->
  Break.for_each (ImporterObj.LineVertex this) parameters (converter, [])
  = ((converter', vertices), broke) ->
  closed count
    (ObjMeshConverter.AddLine converter'
       (Line.mk vertices (ImporterObj.currentMaterialIndex this))).
Proof.
  intros (Hs & Ht & Hl) Hmat Hloop.
  destruct (line_loop_effect this parameters converter [])
    as (c' & new & broke' & Heq & Hext & Hsound & Htri & Hlines & Hall & _).
  rewrite Hloop in Heq. simpl in Heq. injection Heq as <- <- <-.
  split; [| split].
  - intros kind. specialize (Hsound Hs kind). by destruct kind.
  - simpl. rewrite Htri. eapply Forall_impl; [exact Ht |]. intros t [? ?].
    split; [| done]. by apply (triangle_in_mesh_extends converter).
  - simpl. rewrite Hlines. apply Forall_app. split.
    + eapply Forall_impl; [exact Hl |]. intros l [? ?]. split; [| done].
      by apply (line_in_mesh_extends converter).
    + constructor; [| constructor]. split; [| done].
      unfold line_in_mesh. simpl.
      specialize (Hsound Hs Vertices). simpl in Hsound.
      clear -Hall Hsound. induction Hall as [|p v ps vs (_ & g & _ & Hg) _ IH]; constructor.
      * by eapply Hsound.
      * exact IH.
Qed.

Lemma finish_closed (that : ImporterObj.t) (current : nat)
    (converter : ObjMeshConverter.t) (broke : option string) :
  model_closed that ->
  closed (List.length (ImporterObj.materials that)) converter ->
  model_closed (finish that current converter broke).
Proof.
  intros (Hconv & Hrest) Hc.
  assert (Hins : Forall (closed (List.length (ImporterObj.materials that)))
                        (<[current := converter]> (ImporterObj.converters that))).
  { destruct (decide (current < List.length (ImporterObj.converters that))%nat).
    - by apply Forall_insert.
    - by rewrite list_insert_ge by lia. }
  unfold finish. by destruct broke.
Qed.

Lemma AddNewMesh_closed (this : ImporterObj.t) (name : string) :
  model_closed this -> model_closed (ImporterObj.AddNewMesh this name).
Proof.
  intros (Hconv & Hrest). unfold ImporterObj.AddNewMesh.
  destruct (ImporterObj.meshNameToConverter this !! name); [done |].
  split; [| done]. simpl. apply Forall_app. split; [done |].
  constructor; [apply closed_new | constructor].
Qed.

Lemma prepare_closed (this : ImporterObj.t) :
  model_closed this -> model_closed (prepare this).
Proof.
  intros Hthis. unfold prepare.
  destruct (ImporterObj.currentMeshConverter this); [done |]. by apply AddNewMesh_closed.
Qed.

Lemma ProcessFaceCommand_closed (this : ImporterObj.t) (parameters : list string) :
  model_closed this -> model_closed (ImporterObj.ProcessFaceCommand this parameters).
Proof.
  intros Hthis. apply prepare_closed in Hthis.
  destruct (ProcessFaceCommand_shape this parameters)
    as [-> | (current & c & c' & broke & Hcur & Hconv & Hloop & ->)]; [done |].
  apply finish_closed; [done |].
  destruct Hthis as (Hall & Hmat & _).
  eapply face_loop_closed; [| exact Hmat | exact Hloop].
  by apply (Forall_lookup_1 _ _ _ _ Hall Hconv).
Qed.

Lemma ProcessLineCommand_closed (this : ImporterObj.t) (parameters : list string) :
  model_closed this -> model_closed (ImporterObj.ProcessLineCommand this parameters).
Proof.
  intros Hthis. apply prepare_closed in Hthis.
  destruct (ProcessLineCommand_shape this parameters)
    as [-> | (current & c & c' & vs & broke & Hcur & Hconv & Hloop & ->)]; [done |].
  apply finish_closed; [done |].
  destruct Hthis as (Hall & Hmat & _).
  eapply line_loop_closed; [| exact Hmat | exact Hloop].
  by apply (Forall_lookup_1 _ _ _ _ Hall Hconv).
Qed.

Lemma ProcessMeshParameter_closed (this : ImporterObj.t) (keyword : string)
    (parameters : list string) (line : string) :
  model_closed this ->
  model_closed (snd (ImporterObj.ProcessMeshParameter this keyword parameters line)).
Proof.
  intros Hthis.
  destruct (ProcessMeshParameter_shape this keyword parameters line)
    as [-> | [[name ->] | [(vs & cs & ns & us & -> & _) | [-> | ->]]]].
  - done.
  - by apply AddNewMesh_closed.
  - done.
  - by apply ProcessLineCommand_closed.
  - by apply ProcessFaceCommand_closed.
Qed.

Lemma ProcessMaterialParameter_closed
    (ProcessLine : string -> ImporterObj.t * World -> option (ImporterObj.t * World))
    (keyword : string) (parameters : list string) (line : string)
    (s : ImporterObj.t * World) (r : bool * (ImporterObj.t * World)) :
  keyword <> "mtllib" ->
  model_closed (fst s) ->
  ImporterObj.ProcessMaterialParameter getFileBuffer ProcessLine keyword parameters line s
  = Some r ->
  model_closed (fst (snd r)).
Proof.
  intros Hne Hs Hr. destruct s as [this w]. simpl in Hs.
  destruct Hs as (Hconv & Hindex & Hcurrent & Hmap).
  destruct (ProcessMaterialParameter_shape getFileBuffer ProcessLine keyword parameters
              line this w r Hne Hr)
    as [-> | [[name ->] | [(name & index & Hname & ->)
              | (current & ms & Hcur & -> & Hlen & _)]]].
  - done.
  - unfold model_closed. simpl. rewrite length_app. simpl. split; [| split; [| split]].
    + eapply Forall_impl; [exact Hconv |]. intros c. apply closed_mono. lia.
    + eapply material_below_mono; [| exact Hindex]. lia.
    + lia.
    + apply map_Forall_insert_2; [lia |].
      eapply map_Forall_impl; [exact Hmap |]. simpl. intros. lia.
  - unfold model_closed. simpl. split; [done |]. split; [| done].
    by apply (Hmap name index).
  - unfold model_closed. simpl. by rewrite Hlen.
Qed.

(** X16.  In every state of a parse the model is closed: in every mesh,
    the corners of every triangle and the vertices of every line are
    positions of the mesh's vertex buffer, the color, normal and UV indices a
    triangle carries are positions of the buffers of their kind, and the
    material index of a triangle or a line is the position of a material of
    the model. *)
Theorem parsed_model_closed (s : ImporterObj.t * World) (mesh : Mesh.t) :
  parsing getFileBuffer s ->
  mesh ∈ ImporterObj.model_meshes (fst s) ->
  Forall (fun triangle =>
            triangle_in_mesh mesh triangle
            /\ material_below (List.length (ImporterObj.materials (fst s)))
                              (Triangle.mat triangle))
         (Mesh.triangles mesh)
  /\ Forall (fun line =>
               line_in_mesh mesh line
               /\ material_below (List.length (ImporterObj.materials (fst s)))
                                 (Line.mat line))
            (Mesh.lines mesh).
Proof.
  intros Hparsing Hmesh.
  assert (Hclosed : model_closed (fst s)).
  { revert Hparsing. apply (parsing_invariant getFileBuffer model_closed).
    - apply ProcessMeshParameter_closed.
    - apply ProcessMaterialParameter_closed.
    - split; [constructor |]. split; [done |]. split; [done |]. apply map_Forall_empty. }
  destruct Hclosed as (Hall & _).
  unfold ImporterObj.model_meshes in Hmesh.
  apply list_elem_of_fmap in Hmesh as (converter & -> & Hin).
  by destruct (proj1 (Forall_forall _ _) Hall converter Hin) as (_ & ? & ?).
Qed.

End ClosedModel.

(** ** Failures and mesh names of a parse *)

Section ParseMore.
Context `{ImporterUtils} {World : Type}.
Variable getFileBuffer : string -> World -> JsData * World.

Lemma finish_fields (that : ImporterObj.t) (current : nat)
    (converter : ObjMeshConverter.t) (broke : option string) :
  let this' := finish that current converter broke in
  ImporterObj.converters this' = <[current := converter]> (ImporterObj.converters that)
  /\ ImporterObj.materials this' = ImporterObj.materials that
  /\ ImporterObj.globalVertices this' = ImporterObj.globalVertices that
  /\ ImporterObj.globalVertexColors this' = ImporterObj.globalVertexColors that
  /\ ImporterObj.globalNormals this' = ImporterObj.globalNormals that
  /\ ImporterObj.globalUvs this' = ImporterObj.globalUvs that
  /\ ImporterObj.currentMeshConverter this' = ImporterObj.currentMeshConverter that
  /\ ImporterObj.currentMaterial this' = ImporterObj.currentMaterial that
  /\ ImporterObj.currentMaterialIndex this' = ImporterObj.currentMaterialIndex that
  /\ ImporterObj.meshNameToConverter this' = ImporterObj.meshNameToConverter that
  /\ ImporterObj.materialNameToIndex this' = ImporterObj.materialNameToIndex that
  /\ ImporterObj.error this'
     = match broke with Some _ => true | None => ImporterObj.error that end
  /\ ImporterObj.message this'
     = match broke with
       | Some message => Some (Loc message)
       | None => ImporterObj.message that
       end.
Proof. unfold finish. by destruct broke. Qed.

Lemma prepare_error (this : ImporterObj.t) :
  ImporterObj.error (prepare this) = ImporterObj.error this
  /\ ImporterObj.message (prepare this) = ImporterObj.message this.
Proof.
  unfold prepare, ImporterObj.AddNewMesh.
  destruct (ImporterObj.currentMeshConverter this); [done |].
  by destruct (ImporterObj.meshNameToConverter this !! _).
Qed.

Lemma error_reported_same (this this' : ImporterObj.t) :
  ImporterObj.error this' = ImporterObj.error this ->
  ImporterObj.message this' = ImporterObj.message this ->
  error_reported this -> error_reported this'.
Proof. unfold error_reported. by intros -> ->. Qed.

(** The colors of a face are its vertices again: no triangle of a face is
    given up for its colors. *)
Lemma face_failure_message (that : ImporterObj.t) (parameters : list string)
    (i : nat) (message : string) :
  face_failure that (face_vertices that parameters) (face_colors that parameters)
               (face_normals that parameters) (face_uvs that parameters) i message ->
  message ∈ parse_errors.
Proof.
  unfold parse_errors.
  intros [[-> _] | [Hv [(-> & Hlen & Hbad) | [(-> & _) | (-> & _)]]]].
  - by left.
  - exfalso. apply Hbad. unfold face_colors, face_vertices in *.
    destruct (_ =? _)%nat eqn:Hcount.
    + apply Nat.eqb_eq in Hcount. by rewrite <- Hcount.
    + destruct Hv as (H0 & _). simpl in Hlen. symmetry in Hlen.
      apply length_zero_iff_nil in Hlen. by rewrite Hlen in H0.
  - right. by left.
  - right. right. by left.
Qed.

Lemma ProcessFaceCommand_reported (this : ImporterObj.t) (parameters : list string) :
  error_reported this -> error_reported (ImporterObj.ProcessFaceCommand this parameters).
Proof.
  intros Hthis.
  assert (Hthat : error_reported (prepare this)).
  { destruct (prepare_error this). by apply (error_reported_same this). }
  destruct (ProcessFaceCommand_shape this parameters)
    as [-> | (current & c & c' & broke & Hcur & Hconv & Hloop & ->)]; [done |].
  destruct (finish_fields (prepare this) current c' broke)
    as (_ & _ & _ & _ & _ & _ & _ & _ & _ & _ & _ & He & Hm).
  destruct broke as [message|]; [| by apply (error_reported_same (prepare this))].
  unfold error_reported. rewrite He, Hm. exists message. split; [| done].
  destruct (face_loop_effect (prepare this) (face_vertices (prepare this) parameters)
              (face_colors (prepare this) parameters)
              (face_normals (prepare this) parameters)
              (face_uvs (prepare this) parameters)
              (seq 0 (List.length parameters - 2)) c)
    as (c'' & broke' & new & Heq & _ & _ & _ & _ & _ & _ & Hfail).
  rewrite Hloop in Heq. injection Heq as <- <-.
  destruct (Hfail message eq_refl) as (i & _ & Hi).
  by eapply face_failure_message.
Qed.

Lemma ProcessLineCommand_reported (this : ImporterObj.t) (parameters : list string) :
  error_reported this -> error_reported (ImporterObj.ProcessLineCommand this parameters).
Proof.
  intros Hthis.
  assert (Hthat : error_reported (prepare this)).
  { destruct (prepare_error this). by apply (error_reported_same this). }
  destruct (ProcessLineCommand_shape this parameters)
    as [-> | (current & c & c' & vs & broke & Hcur & Hconv & Hloop & ->)]; [done |].
  match goal with
  | |- error_reported (finish ?t ?cur ?cv ?b) =>
      destruct (finish_fields t cur cv b)
        as (_ & _ & _ & _ & _ & _ & _ & _ & _ & _ & _ & He & Hm)
  end.
  destruct broke as [message|]; [| by apply (error_reported_same (prepare this))].
  unfold error_reported. rewrite He, Hm. exists message. split; [| done].
  destruct (line_loop_effect (prepare this) parameters c [])
    as (c'' & new & broke' & Heq & _ & _ & _ & _ & _ & Hbroke).
  rewrite Hloop in Heq. injection Heq as <- <- <-.
  destruct Hbroke as [-> _]. by left.
Qed.

Lemma AddNewMesh_error (this : ImporterObj.t) (name : string) :
  ImporterObj.error (ImporterObj.AddNewMesh this name) = ImporterObj.error this
  /\ ImporterObj.message (ImporterObj.AddNewMesh this name) = ImporterObj.message this.
Proof. unfold ImporterObj.AddNewMesh. by destruct (_ !! name). Qed.

Lemma ProcessMeshParameter_reported (this : ImporterObj.t) (keyword : string)
    (parameters : list string) (line : string) :
  error_reported this ->
  error_reported (snd (ImporterObj.ProcessMeshParameter this keyword parameters line)).
Proof.
  intros Hthis.
  destruct (ProcessMeshParameter_shape this keyword parameters line)
    as [-> | [[name ->] | [(vs & cs & ns & us & -> & _) | [-> | ->]]]].
  - done.
  - destruct (AddNewMesh_error this name). by apply (error_reported_same this).
  - done.
  - by apply ProcessLineCommand_reported.
  - by apply ProcessFaceCommand_reported.
Qed.

Lemma ProcessMaterialParameter_reported
    (ProcessLine : string -> ImporterObj.t * World -> option (ImporterObj.t * World))
    (keyword : string) (parameters : list string) (line : string)
    (s : ImporterObj.t * World) (r : bool * (ImporterObj.t * World)) :
  keyword <> "mtllib" ->
  error_reported (fst s) ->
  ImporterObj.ProcessMaterialParameter getFileBuffer ProcessLine keyword parameters line s
  = Some r ->
  error_reported (fst (snd r)).
Proof.
  intros Hne Hs Hr. destruct s as [this w]. simpl in Hs.
  destruct (ProcessMaterialParameter_shape getFileBuffer ProcessLine keyword parameters
              line this w r Hne Hr)
    as [-> | [[name ->] | [(name & index & Hname & ->)
              | (current & ms & Hcur & -> & Hlen & _)]]]; done.
Qed.

(** X17.  The failures of an OBJ parse.  In every state of a parse the
    flag is raised exactly when a message is set, and the message is one of
    [Invalid vertex index.], [Invalid normal index.] and [Invalid uv index.]:
    a parse never fails with [Invalid vertex color index.], since the color
    indices of a face are its vertex indices, which have been checked when
    the colors are looked at. *)
Theorem parse_failures (s : ImporterObj.t * World) :
  parsing getFileBuffer s ->
  if ImporterObj.WasError (fst s)
  then exists message,
         message ∈ ["Invalid vertex index."; "Invalid normal index."; "Invalid uv index."]
         /\ ImporterObj.message (fst s) = Some (Loc message)
  else ImporterObj.message (fst s) = None.
Proof.
  apply (parsing_invariant getFileBuffer error_reported).
  - apply ProcessMeshParameter_reported.
  - apply ProcessMaterialParameter_reported.
  - done.
Qed.

Lemma AddNewMesh_by_name (this : ImporterObj.t) (name : string) :
  meshes_by_name this -> meshes_by_name (ImporterObj.AddNewMesh this name).
Proof.
  intros [Hmap Hconv]. unfold ImporterObj.AddNewMesh.
  destruct (ImporterObj.meshNameToConverter this !! name) as [i|] eqn:Hname; [done |].
  split; simpl.
  - intros name' index. destruct (decide (name' = name)) as [-> | Hne].
    + rewrite lookup_insert_eq. intros [= <-].
      exists (ObjMeshConverter.new (Mesh.SetName Mesh.new name)). split; [| reflexivity].
      by rewrite lookup_app_r, Nat.sub_diag by lia.
    + rewrite lookup_insert_ne by done. intros Hl.
      destruct (Hmap _ _ Hl) as (c & Hc & Hn). exists c. split; [| done].
      by apply lookup_app_l_Some.
  - intros index c Hc. apply lookup_app_Some in Hc as [Hc | [Hge Hc]].
    + pose proof (Hconv _ _ Hc) as Hl.
      rewrite lookup_insert_ne; [done |]. intros Heq. rewrite Heq in Hname. congruence.
    + destruct (index - List.length (ImporterObj.converters this))%nat as [|n] eqn:Hn;
        [| done].
      simpl in Hc. injection Hc as <-. simpl.
      replace index with (List.length (ImporterObj.converters this)) by lia.
      apply lookup_insert_eq.
Qed.

Lemma finish_by_name (that : ImporterObj.t) (current : nat)
    (converter converter' : ObjMeshConverter.t) (broke : option string) :
  meshes_by_name that ->
  ImporterObj.converters that !! current = Some converter ->
  Mesh.name (ObjMeshConverter.mesh converter') = Mesh.name (ObjMeshConverter.mesh converter) ->
  meshes_by_name (finish that current converter' broke).
Proof.
  intros [Hmap Hconv] Hc Hname.
  destruct (finish_fields that current converter' broke)
    as (Hcs & _ & _ & _ & _ & _ & _ & _ & _ & Hm & _).
  unfold meshes_by_name. rewrite Hcs, Hm.
  assert (Hlt : (current < List.length (ImporterObj.converters that))%nat)
    by (by eapply lookup_lt_Some).
  split.
  - intros name index Hl. destruct (Hmap _ _ Hl) as (c & Hci & Hn).
    destruct (decide (index = current)) as [-> | Hne].
    + exists converter'. split; [by apply list_lookup_insert_eq |]. congruence.
    + exists c. split; [| done]. by rewrite list_lookup_insert_ne.
  - intros index c. destruct (decide (index = current)) as [-> | Hne].
    + rewrite list_lookup_insert_eq by done. intros [= <-]. rewrite Hname. by apply Hconv.
    + rewrite list_lookup_insert_ne by done. apply Hconv.
Qed.

Lemma prepare_by_name (this : ImporterObj.t) :
  meshes_by_name this -> meshes_by_name (prepare this).
Proof.
  intros Hthis. unfold prepare.
  destruct (ImporterObj.currentMeshConverter this); [done |]. by apply AddNewMesh_by_name.
Qed.

Lemma ProcessMeshParameter_by_name (this : ImporterObj.t) (keyword : string)
    (parameters : list string) (line : string) :
  meshes_by_name this ->
  meshes_by_name (snd (ImporterObj.ProcessMeshParameter this keyword parameters line)).
Proof.
  intros Hthis.
  destruct (ProcessMeshParameter_shape this keyword parameters line)
    as [-> | [[name ->] | [(vs & cs & ns & us & -> & _) | [-> | ->]]]].
  - done.
  - by apply AddNewMesh_by_name.
  - done.
  - apply prepare_by_name in Hthis.
    destruct (ProcessLineCommand_shape this parameters)
      as [-> | (current & c & c' & vs & broke & Hcur & Hconv & Hloop & ->)]; [done |].
    apply (finish_by_name _ _ c); [done | done |].
    destruct (line_loop_effect (prepare this) parameters c [])
      as (c'' & new & broke' & Heq & (_ & _ & Hname) & _).
    rewrite Hloop in Heq. injection Heq as <- <- <-. exact Hname.
  - apply prepare_by_name in Hthis.
    destruct (ProcessFaceCommand_shape this parameters)
      as [-> | (current & c & c' & broke & Hcur & Hconv & Hloop & ->)]; [done |].
    apply (finish_by_name _ _ c); [done | done |].
    destruct (face_loop_effect (prepare this) (face_vertices (prepare this) parameters)
                (face_colors (prepare this) parameters)
                (face_normals (prepare this) parameters)
                (face_uvs (prepare this) parameters)
                (seq 0 (List.length parameters - 2)) c)
      as (c'' & broke' & new & Heq & (_ & _ & Hname) & _).
    rewrite Hloop in Heq. injection Heq as <- <-. exact Hname.
Qed.

Lemma ProcessMaterialParameter_by_name
    (ProcessLine : string -> ImporterObj.t * World -> option (ImporterObj.t * World))
    (keyword : string) (parameters : list string) (line : string)
    (s : ImporterObj.t * World) (r : bool * (ImporterObj.t * World)) :
  keyword <> "mtllib" ->
  meshes_by_name (fst s) ->
  ImporterObj.ProcessMaterialParameter getFileBuffer ProcessLine keyword parameters line s
  = Some r ->
  meshes_by_name (fst (snd r)).
Proof.
  intros Hne Hs Hr. destruct s as [this w]. simpl in Hs.
  destruct (ProcessMaterialParameter_shape getFileBuffer ProcessLine keyword parameters
              line this w r Hne Hr)
    as [-> | [[name ->] | [(name & index & Hname & ->)
              | (current & ms & Hcur & -> & Hlen & _)]]]; done.
Qed.

(** X18.  In every state of a parse, the meshes of the model have pairwise
    different names, and the name map leads from every name used to the mesh
    of that name: a [g] or [o] directive with a name used before resumes the
    mesh of that name, and no second mesh of a name is ever made. *)
Theorem mesh_names_distinct (s : ImporterObj.t * World) :
  parsing getFileBuffer s ->
  NoDup (map Mesh.name (ImporterObj.model_meshes (fst s)))
  /\ forall name,
       is_Some (ImporterObj.meshNameToConverter (fst s) !! name)
       <-> name ∈ map Mesh.name (ImporterObj.model_meshes (fst s)).
Proof.
  intros Hparsing.
  assert (Hnames : meshes_by_name (fst s)).
  { revert Hparsing. apply (parsing_invariant getFileBuffer meshes_by_name).
    - apply ProcessMeshParameter_by_name.
    - apply ProcessMaterialParameter_by_name.
    - split; [intros name index; simpl; by rewrite lookup_empty | done]. }
  destruct Hnames as [Hmap Hconv]. unfold ImporterObj.model_meshes. split.
  - apply NoDup_alt. intros i j name Hi Hj.
    rewrite !list_lookup_fmap in Hi, Hj.
    destruct (ImporterObj.converters (fst s) !! i) as [ci|] eqn:Hci; [| done].
    destruct (ImporterObj.converters (fst s) !! j) as [cj|] eqn:Hcj; [| done].
    simpl in Hi, Hj. injection Hi as Hi. injection Hj as Hj.
    apply Hconv in Hci, Hcj. rewrite Hi in Hci. rewrite Hj in Hcj. congruence.
  - intros name. rewrite map_map, list_elem_of_fmap. split.
    + intros [index Hindex]. destruct (Hmap _ _ Hindex) as (c & Hc & Hn).
      exists c. split; [done |]. by eapply list_elem_of_lookup_2.
    + intros (c & -> & Hin). apply list_elem_of_lookup in Hin as [index Hindex].
      exists index. by apply Hconv.
Qed.

End ParseMore.

(** ** Materials and vertex colors of a parse *)

Section MaterialsMore.
Context `{ImporterUtils} {World : Type}.
Variable getFileBuffer : string -> World -> JsData * World.

Lemma AddNewMesh_material_fields (this : ImporterObj.t) (name : string) :
  ImporterObj.materials (ImporterObj.AddNewMesh this name) = ImporterObj.materials this
  /\ ImporterObj.currentMaterial (ImporterObj.AddNewMesh this name)
     = ImporterObj.currentMaterial this.
Proof. unfold ImporterObj.AddNewMesh. by destruct (_ !! name). Qed.

Lemma prepare_material_fields (this : ImporterObj.t) :
  ImporterObj.materials (prepare this) = ImporterObj.materials this
  /\ ImporterObj.currentMaterial (prepare this) = ImporterObj.currentMaterial this.
Proof.
  unfold prepare. destruct (ImporterObj.currentMeshConverter this); [done |].
  apply AddNewMesh_material_fields.
Qed.

Lemma ProcessMeshParameter_material_fields (this : ImporterObj.t) (keyword : string)
    (parameters : list string) (line : string) :
  let this' := snd (ImporterObj.ProcessMeshParameter this keyword parameters line) in
  ImporterObj.materials this' = ImporterObj.materials this
  /\ ImporterObj.currentMaterial this' = ImporterObj.currentMaterial this.
Proof.
  destruct (ProcessMeshParameter_shape this keyword parameters line)
    as [-> | [[name ->] | [(vs & cs & ns & us & -> & _) | [-> | ->]]]]; cbv zeta.
  - done.
  - apply AddNewMesh_material_fields.
  - done.
  - destruct (ProcessLineCommand_shape this parameters)
      as [-> | (current & c & c' & vs & broke & Hcur & Hconv & Hloop & ->)];
      [apply prepare_material_fields |].
    match goal with
    | |- context [finish ?t ?cur ?cv ?b] =>
        destruct (finish_fields t cur cv b) as (_ & -> & _ & _ & _ & _ & _ & -> & _)
    end.
    apply prepare_material_fields.
  - destruct (ProcessFaceCommand_shape this parameters)
      as [-> | (current & c & c' & broke & Hcur & Hconv & Hloop & ->)];
      [apply prepare_material_fields |].
    match goal with
    | |- context [finish ?t ?cur ?cv ?b] =>
        destruct (finish_fields t cur cv b) as (_ & -> & _ & _ & _ & _ & _ & -> & _)
    end.
    apply prepare_material_fields.
Qed.

Lemma ProcessMeshParameter_current_is_last (earlier : list PhongMaterial.t)
    (this : ImporterObj.t) (keyword : string) (parameters : list string) (line : string) :
  current_is_last earlier this ->
  current_is_last earlier
    (snd (ImporterObj.ProcessMeshParameter this keyword parameters line)).
Proof.
  destruct (ProcessMeshParameter_material_fields this keyword parameters line) as [Hm Hc].
  unfold current_is_last, earlier_materials. by rewrite Hm, Hc.
Qed.

Lemma ProcessMaterialParameter_current_is_last (earlier : list PhongMaterial.t)
    (ProcessLine : string -> ImporterObj.t * World -> option (ImporterObj.t * World))
    (keyword : string) (parameters : list string) (line : string)
    (s : ImporterObj.t * World) (r : bool * (ImporterObj.t * World)) :
  keyword <> "mtllib" ->
  current_is_last earlier (fst s) ->
  ImporterObj.ProcessMaterialParameter getFileBuffer ProcessLine keyword parameters line s
  = Some r ->
  current_is_last earlier (fst (snd r)).
Proof.
  intros Hne Hs Hr. destruct s as [this w]. simpl in Hs.
  destruct Hs as [Hlast Hearlier].
  destruct (ProcessMaterialParameter_shape getFileBuffer ProcessLine keyword parameters
              line this w r Hne Hr)
    as [-> | [[name ->] | [(name & index & Hname & ->)
              | (current & ms & Hcur & -> & Hlen & Hsame)]]].
  - done.
  - unfold current_is_last, earlier_materials in *. simpl. rewrite length_app. simpl.
    split.
    + destruct (ImporterObj.materials this); simpl; [done |]. f_equal.
      by rewrite Nat.sub_0_r, Nat.add_1_r.
    + replace (List.length (ImporterObj.materials this) + 1 - 1)%nat
        with (List.length (ImporterObj.materials this)) by lia.
      rewrite take_app_length. etrans; [exact Hearlier |]. apply prefix_take.
  - done.
  - unfold current_is_last, earlier_materials in *. simpl.
    rewrite Hcur in Hlast.
    destruct (ImporterObj.materials this) as [|m rest] eqn:Hms; [done |].
    injection Hlast as ->.
    split.
    + destruct ms; [done |]. by rewrite Hlen.
    + rewrite Hlen.
      replace (take (List.length (m :: rest) - 1) ms)
        with (take (List.length (m :: rest) - 1) (m :: rest)); [done |].
      apply list_eq. intros j.
      destruct (decide (j < List.length (m :: rest) - 1)%nat) as [Hj | Hj].
      * rewrite !lookup_take_lt by done. symmetry. apply Hsame. simpl in Hj. lia.
      * by rewrite !lookup_take_ge by lia.
Qed.

(** X19.  In every state of a parse the current material is the material
    declared last; and a line, whatever it does (a library named by [mtllib]
    included), leaves the materials declared before the last one as they
    are and in place. *)
Theorem earlier_materials_final (fuel : nat) (line : string)
    (s s' : ImporterObj.t * World) :
  parsing getFileBuffer s ->
  ImporterObj.ProcessLine getFileBuffer fuel line s = Some s' ->
  ImporterObj.currentMaterial (fst s)
  = match ImporterObj.materials (fst s) with
    | [] => None
    | _ => Some (List.length (ImporterObj.materials (fst s)) - 1)%nat
    end
  /\ earlier_materials (fst s) `prefix_of` ImporterObj.materials (fst s').
Proof.
  intros Hparsing Hline.
  assert (Hs : current_is_last [] (fst s)).
  { revert Hparsing. apply (parsing_invariant getFileBuffer (current_is_last [])).
    - apply ProcessMeshParameter_current_is_last.
    - apply ProcessMaterialParameter_current_is_last.
    - split; [done | apply prefix_nil]. }
  split; [apply Hs |].
  assert (Hs' : current_is_last (earlier_materials (fst s)) (fst s')).
  { revert Hline.
    apply (ProcessLine_invariant getFileBuffer (current_is_last (earlier_materials (fst s)))).
    - apply ProcessMeshParameter_current_is_last.
    - apply ProcessMaterialParameter_current_is_last.
    - split; [apply Hs | done]. }
  destruct Hs' as [_ Hpre]. etrans; [exact Hpre |]. apply prefix_take.
Qed.

(** The colors fall behind the vertices by at least [deficit]. *)
Lemma ProcessMeshParameter_deficit (deficit : nat) (this : ImporterObj.t)
    (keyword : string) (parameters : list string) (line : string) :
  let this' := snd (ImporterObj.ProcessMeshParameter this keyword parameters line) in
  (List.length (ImporterObj.globalVertexColors this) + deficit
   <= List.length (ImporterObj.globalVertices this))%nat ->
  (List.length (ImporterObj.globalVertexColors this') + deficit
   <= List.length (ImporterObj.globalVertices this'))%nat.
Proof.
  cbv zeta. intros Hd.
  assert (Hprep : ImporterObj.globalVertices (prepare this) = ImporterObj.globalVertices this
                  /\ ImporterObj.globalVertexColors (prepare this)
                     = ImporterObj.globalVertexColors this).
  { by destruct (prepare_fields this) as (_ & ? & ? & _). }
  destruct (ProcessMeshParameter_shape this keyword parameters line)
    as [-> | [[name ->] | [(vs & cs & ns & us & -> & Hgrow) | [-> | ->]]]].
  - done.
  - unfold ImporterObj.AddNewMesh. by destruct (_ !! name).
  - destruct Hgrow as (_ & _ & _ & _ & Hlen). simpl in *. lia.
  - destruct (ProcessLineCommand_shape this parameters)
      as [-> | (current & c & c' & vs & broke & Hcur & Hconv & Hloop & ->)].
    + destruct Hprep as [-> ->]. done.
    + match goal with
      | |- context [finish ?t ?cur ?cv ?b] =>
          destruct (finish_fields t cur cv b) as (_ & _ & -> & -> & _)
      end.
      destruct Hprep as [-> ->]. done.
  - destruct (ProcessFaceCommand_shape this parameters)
      as [-> | (current & c & c' & broke & Hcur & Hconv & Hloop & ->)].
    + destruct Hprep as [-> ->]. done.
    + match goal with
      | |- context [finish ?t ?cur ?cv ?b] =>
          destruct (finish_fields t cur cv b) as (_ & _ & -> & -> & _)
      end.
      destruct Hprep as [-> ->]. done.
Qed.

Lemma ProcessMaterialParameter_deficit (deficit : nat)
    (ProcessLine : string -> ImporterObj.t * World -> option (ImporterObj.t * World))
    (keyword : string) (parameters : list string) (line : string)
    (s : ImporterObj.t * World) (r : bool * (ImporterObj.t * World)) :
  keyword <> "mtllib" ->
  (List.length (ImporterObj.globalVertexColors (fst s)) + deficit
   <= List.length (ImporterObj.globalVertices (fst s)))%nat ->
  ImporterObj.ProcessMaterialParameter getFileBuffer ProcessLine keyword parameters line s
  = Some r ->
  (List.length (ImporterObj.globalVertexColors (fst (snd r))) + deficit
   <= List.length (ImporterObj.globalVertices (fst (snd r))))%nat.
Proof.
  intros Hne Hs Hr. destruct s as [this w]. simpl in Hs.
  destruct (ProcessMaterialParameter_shape getFileBuffer ProcessLine keyword parameters
              line this w r Hne Hr)
    as [-> | [[name ->] | [(name & index & Hname & ->)
              | (current & ms & Hcur & -> & Hlen & _)]]]; done.
Qed.

(** X20.  Vertex colors.  In every state of a parse there are at most as
    many global vertex colors as global vertices, and a line never lets the
    colors catch up: once a vertex has been declared without a color, there
    are fewer colors than vertices for the rest of the parse.  A face
    processed in such a state changes the current mesh only, and the
    triangles it adds to the current mesh are without colors. *)
Theorem vertex_colors_fall_behind (fuel : nat) (line : string)
    (s s' : ImporterObj.t * World) (parameters : list string) :
  parsing getFileBuffer s ->
  ImporterObj.ProcessLine getFileBuffer fuel line s = Some s' ->
  (List.length (ImporterObj.globalVertexColors (fst s))
   <= List.length (ImporterObj.globalVertices (fst s)))%nat
  /\ (List.length (ImporterObj.globalVertices (fst s))
      - List.length (ImporterObj.globalVertexColors (fst s))
      <= List.length (ImporterObj.globalVertices (fst s'))
         - List.length (ImporterObj.globalVertexColors (fst s')))%nat
  /\ ((List.length (ImporterObj.globalVertexColors (fst s))
       < List.length (ImporterObj.globalVertices (fst s)))%nat ->
      exists current converter converter' new,
        ImporterObj.currentMeshConverter (prepare (fst s)) = Some current
        /\ ImporterObj.converters (prepare (fst s)) !! current = Some converter
        /\ ImporterObj.converters (ImporterObj.ProcessFaceCommand (fst s) parameters)
           = <[current := converter']> (ImporterObj.converters (prepare (fst s)))
        /\ ImporterObj.converters (ImporterObj.ProcessFaceCommand (fst s) parameters)
             !! current = Some converter'
        /\ Mesh.triangles (ObjMeshConverter.mesh converter')
           = Mesh.triangles (ObjMeshConverter.mesh converter) ++ new
        /\ Forall (fun triangle => Triangle.colors triangle = None) new).
Proof.
  intros Hparsing Hline.
  assert (Hle : (List.length (ImporterObj.globalVertexColors (fst s)) + 0
                 <= List.length (ImporterObj.globalVertices (fst s)))%nat).
  { revert Hparsing.
    apply (parsing_invariant getFileBuffer
             (fun this => (List.length (ImporterObj.globalVertexColors this) + 0
                           <= List.length (ImporterObj.globalVertices this))%nat)).
    - intros this keyword ps l. apply ProcessMeshParameter_deficit.
    - intros PL keyword ps l s0 r. apply ProcessMaterialParameter_deficit.
    - simpl. lia. }
  split; [lia |]. split.
  - set (deficit := (List.length (ImporterObj.globalVertices (fst s))
                     - List.length (ImporterObj.globalVertexColors (fst s)))%nat).
    assert (Hd : (List.length (ImporterObj.globalVertexColors (fst s')) + deficit
                  <= List.length (ImporterObj.globalVertices (fst s')))%nat).
    { revert Hline.
      apply (ProcessLine_invariant getFileBuffer
               (fun this => (List.length (ImporterObj.globalVertexColors this) + deficit
                             <= List.length (ImporterObj.globalVertices this))%nat)).
      - intros this keyword ps l. apply ProcessMeshParameter_deficit.
      - intros PL keyword ps l s0 r. apply ProcessMaterialParameter_deficit.
      - subst deficit. lia. }
    lia.
  - intros Hlt.
    destruct (parsing_current_mesh getFileBuffer s Hparsing) as (current & c & Hcur & Hconv).
    destruct (ProcessFaceCommand_outcome (fst s) parameters current c Hcur Hconv
                (face_vertices (prepare (fst s)) parameters)
                (face_colors (prepare (fst s)) parameters)
                (face_normals (prepare (fst s)) parameters)
                (face_uvs (prepare (fst s)) parameters))
      as (c' & broke & finished & new & Hconvs & _ & _ & _ & Htri & _ & Hall & _);
      [apply FaceIndices_spec |].
    exists current, c, c', new. split; [done |]. split; [done |]. split; [done |].
    split; [rewrite Hconvs; by eapply lookup_insert_converter |]. split; [done |].
    assert (Hcolors : face_colors (prepare (fst s)) parameters = []).
    { unfold face_colors. destruct (prepare_fields (fst s)) as (_ & -> & -> & _).
      destruct (_ =? _)%nat eqn:Heq; [| done]. apply Nat.eqb_eq in Heq. lia. }
    rewrite Hcolors in Hall. clear Htri.
    induction Hall as [|i t finished new (Hfan & (Hattr & _) & _ & H0 & _) _ IH];
      constructor; [| exact IH].
    destruct (Triangle.colors t) as [triple|] eqn:Ht; [| done]. exfalso.
    assert (Hlen : List.length (@nil (option Z))
                   = List.length (face_vertices (prepare (fst s)) parameters))
      by (apply Hattr; by eexists).
    symmetry in Hlen. apply length_zero_iff_nil in Hlen. by rewrite Hlen in H0.
Qed.

End MaterialsMore.

(** ** Line directives *)

Section LinesMore.
Context `{ImporterUtils} {World : Type}.
Variable getFileBuffer : string -> World -> JsData * World.

(** X21.  A line directive on the mesh it works on.  The line is added in
    any case, with the current material index: when every reference
    resolves in range, it has one vertex for every reference, the mesh-local
    index of that reference, and the parse is not flagged; when a reference
    resolves out of range, the parse is flagged, and the line that is added
    has the vertices of the references before the first such reference.
    Nothing else of the mesh changes but the vertices the references bring
    in. *)
Theorem line_directive (this : ImporterObj.t) (parameters : list string)
    (current : nat) (converter : ObjMeshConverter.t) :
  ImporterObj.currentMeshConverter (prepare this) = Some current ->
  ImporterObj.converters (prepare this) !! current = Some converter ->
  exists converter' line,
    ImporterObj.converters (ImporterObj.ProcessLineCommand this parameters) !! current
    = Some converter'
    /\ Mesh.lines (ObjMeshConverter.mesh converter')
       = Mesh.lines (ObjMeshConverter.mesh converter) ++ [line]
    /\ Mesh.triangles (ObjMeshConverter.mesh converter')
       = Mesh.triangles (ObjMeshConverter.mesh converter)
    /\ Line.mat line = ImporterObj.currentMaterialIndex this
    /\ Forall2 (fun parameter vertex =>
                  exists g, face_vertex_index this parameter = Some g
                            /\ index_map Vertices converter' !! g = Some vertex)
               (take (List.length (Line.vertices line)) parameters) (Line.vertices line)
    /\ (Forall (fun parameter =>
                  in_range (face_vertex_index this parameter)
                           (List.length (ImporterObj.globalVertices this)) = true)
               parameters ->
        List.length (Line.vertices line) = List.length parameters
        /\ ImporterObj.error (ImporterObj.ProcessLineCommand this parameters)
           = ImporterObj.error this)
    /\ (forall j parameter,
          parameters !! j = Some parameter ->
          in_range (face_vertex_index this parameter)
                   (List.length (ImporterObj.globalVertices this)) = false ->
          (List.length (Line.vertices line) <= j)%nat
          /\ ImporterObj.error (ImporterObj.ProcessLineCommand this parameters) = true).
Proof.
  intros Hcur Hconv.
  destruct (ProcessLineCommand_at this parameters current converter Hcur Hconv)
    as (c' & vs & broke & Hloop & Heq).
  destruct (prepare_fields this) as (Herr & Hgv & _ & _ & _ & Hmat).
  destruct (line_loop_effect (prepare this) parameters converter [])
    as (c'' & new & broke' & Heq' & _ & _ & Htri & Hlines & Hall & Hbroke).
  rewrite Hloop in Heq'. simpl in Heq'. injection Heq' as <- <- <-.
  assert (Hsame : forall parameter,
            face_vertex_index (prepare this) parameter = face_vertex_index this parameter).
  { intros parameter. unfold face_vertex_index. by rewrite Hgv. }
  destruct (finish_fields (prepare this) current
              (ObjMeshConverter.AddLine c'
                 (Line.mk vs (ImporterObj.currentMaterialIndex (prepare this)))) broke)
    as (Hconvs & _ & _ & _ & _ & _ & _ & _ & _ & _ & _ & Herror & _).
  rewrite <- Heq in Hconvs, Herror.
  exists (ObjMeshConverter.AddLine c'
            (Line.mk vs (ImporterObj.currentMaterialIndex (prepare this)))),
         (Line.mk vs (ImporterObj.currentMaterialIndex (prepare this))).
  split; [rewrite Hconvs; by eapply lookup_insert_converter |].
  split; [simpl; by rewrite Hlines |]. split; [done |]. split; [done |].
  split.
  { simpl. eapply Forall2_impl; [exact Hall |].
    intros parameter vertex (_ & g & Hg & Hm).
    exists g. split; [by rewrite <- Hsame | done]. }
  split.
  - intros Hin. simpl.
    destruct broke as [message|].
    + exfalso. destruct Hbroke as (_ & parameter & Hp & Hbad).
      apply list_elem_of_lookup_2 in Hp.
      pose proof (proj1 (Forall_forall _ _) Hin parameter Hp) as Hgood. simpl in Hgood.
      rewrite Hsame, Hgv in Hbad. congruence.
    + split; [done |]. by rewrite Herror.
  - intros j parameter Hj Hbad. simpl.
    destruct broke as [message|].
    + split; [| by rewrite Herror].
      apply Nat.nlt_ge. intros Hlt.
      assert (Hjn : take (List.length vs) parameters !! j = Some parameter)
        by (by rewrite lookup_take_lt).
      destruct (Forall2_lookup_l _ _ _ _ _ Hall Hjn) as (vertex & _ & Hgood & _).
      rewrite Hsame, Hgv in Hgood. congruence.
    + exfalso. simpl in Hbroke.
      assert (Hjn : take (List.length vs) parameters !! j = Some parameter).
      { rewrite lookup_take_lt; [done |]. rewrite Hbroke. by eapply lookup_lt_Some. }
      destruct (Forall2_lookup_l _ _ _ _ _ Hall Hjn) as (vertex & _ & Hgood & _).
      rewrite Hsame, Hgv in Hgood. congruence.
Qed.

End LinesMore.

(** ** Libraries that name themselves, and lines that are skipped *)

Section LibrariesMore.
Context `{ImporterUtils} {World : Type}.
Variable getFileBuffer : string -> World -> JsData * World.

Lemma guarded_fold_None
    (ProcessLine : string -> ImporterObj.t * World -> option (ImporterObj.t * World))
    (lines : list string) :
  fold_left (ImporterObj.guarded_line ProcessLine) lines None = None.
Proof. induction lines as [|line lines IH]; [done | exact IH]. Qed.

(** What [ReadLines] makes of a state of a parse, with the callback of
    [ImportContent] and [mtllib], is a state of a parse. *)
Lemma parsing_guarded (fuel : nat) (lines : list string) (s s' : ImporterObj.t * World) :
  parsing getFileBuffer s ->
  fold_left (ImporterObj.guarded_line (ImporterObj.ProcessLine getFileBuffer fuel))
            lines (Some s) = Some s' ->
  parsing getFileBuffer s'.
Proof.
  revert s. induction lines as [|line lines IH]; intros s Hs Hfold; simpl in Hfold.
  - by injection Hfold as <-.
  - destruct (negb (ImporterObj.WasError (fst s))); [| by eapply IH].
    destruct (ImporterObj.ProcessLine getFileBuffer fuel line s) as [s1|] eqn:Hline.
    + eapply IH; [| exact Hfold]. by eapply parsing_line.
    + by rewrite guarded_fold_None in Hfold.
Qed.

Lemma parsing_ImportContent (fuel : nat) (fileContent : JsData)
    (s s' : ImporterObj.t * World) :
  parsing getFileBuffer s ->
  ImporterObj.ImportContent getFileBuffer fuel fileContent s = Some s' ->
  parsing getFileBuffer s'.
Proof. intros Hs. apply parsing_guarded, Hs. Qed.

Lemma ProcessMeshParameter_mtllib (this : ImporterObj.t) (parameters : list string)
    (line : string) :
  ImporterObj.ProcessMeshParameter this "mtllib" parameters line = (false, this).
Proof.
  unfold ImporterObj.ProcessMeshParameter.
  repeat case_decide; try done. by destruct_or!.
Qed.

(** X22.  A library that names itself is read without end.  When the first
    line of the file that [mtllib] names is again a [mtllib] directive for
    that file, processing the directive calls [ProcessLine] on it again,
    at every depth: no nesting however deep finishes the line. *)
Theorem mtllib_self_reference (line first : string) (parameters others : list string)
    (fileBuffer : JsData) (this : ImporterObj.t) (w : World) :
  String.get 0 line <> Some "#"%char ->
  ParametersFromLine line "#" = first :: parameters ->
  Js.toLowerCase first = "mtllib" ->
  parameters <> [] ->
  (forall w0, exists w1,
     getFileBuffer (NameFromLine line (String.length "mtllib") "#") w0 = (fileBuffer, w1)) ->
  fileBuffer <> null ->
  ReadLines (ArrayBufferToUtf8String fileBuffer) = line :: others ->
  ImporterObj.WasError this = false ->
  forall fuel, ImporterObj.ProcessLine getFileBuffer fuel line (this, w) = None.
Proof.
  intros Hcomment Hparameters Hkeyword Hsome Hbuffer Hnull Hlines Herror fuel.
  revert w. induction fuel as [|fuel IH]; intros w; [done |].
  rewrite ProcessLine_S. rewrite bool_decide_eq_false_2 by done.
  rewrite Hparameters, Hkeyword, ProcessMeshParameter_mtllib. simpl fst. simpl snd.
  unfold ImporterObj.ProcessMaterialParameter.
  rewrite decide_False by done. rewrite decide_False by done. rewrite decide_True by done.
  destruct parameters as [|parameter parameters]; [done |]. simpl List.length. cbn [Nat.eqb].
  destruct (Hbuffer w) as [w1 ->].
  assert (Hnot : negb (is_null fileBuffer) = true) by (by destruct fileBuffer).
  rewrite Hnot. unfold ImporterObj.ReadLines_guarded. rewrite Hlines. cbn [fold_left].
  unfold ImporterObj.guarded_line at 2. simpl. rewrite Herror. simpl.
  rewrite IH. by rewrite guarded_fold_None.
Qed.

(** X23.  Lines that are skipped.  A line that begins with [#], a line
    without parameters, a line whose first word is no directive, a directive
    with fewer parameters than it needs, and a material property while no
    material has been started, leave the importer and the state behind the
    callbacks as they are; no failure is flagged for them. *)
Theorem skipped_lines (fuel : nat) (line : string) (s : ImporterObj.t * World) :
  (String.get 0 line = Some "#"%char
   \/ ParametersFromLine line "#" = []
   \/ exists first parameters,
        ParametersFromLine line "#" = first :: parameters
        /\ (match required_parameters (Js.toLowerCase first) with
            | Some required => (List.length parameters < required)%nat
            | None => True
            end
            \/ (Js.toLowerCase first ∈ material_properties
                /\ ImporterObj.currentMaterial (fst s) = None))) ->
  ImporterObj.ProcessLine getFileBuffer (S fuel) line s = Some s.
Proof.
  intros Hskip. rewrite ProcessLine_S.
  case_bool_decide as Hcomment; [done |].
  destruct Hskip as [? | [-> | (first & parameters & -> & Hrequired)]]; [done | done |].
  destruct s as [this w]. simpl fst in *. simpl snd.
  destruct Hrequired as [Hrequired | [Hproperty Hnone]].
  - unfold required_parameters in Hrequired.
    repeat case_decide; destruct_or?;
      try match goal with Hk : Js.toLowerCase first = _ |- _ => rewrite Hk; clear Hk end.
    all: try (destruct parameters as [|p1 [|p2 [|p3 rest]]]; simpl in Hrequired; try lia;
              simpl; by repeat case_match).
    unfold ImporterObj.ProcessMeshParameter, ImporterObj.ProcessMaterialParameter.
    repeat (rewrite decide_False by tauto). done.
  - unfold material_properties in Hproperty. set_unfold in Hproperty.
    destruct_or!; try done; rewrite Hproperty; simpl; by rewrite Hnone.
Qed.

End LibrariesMore.

(** ** The texture of a map directive *)

Section Textures.
Context `{ImporterUtils} {World : Type}.
Variable getFileBuffer : string -> World -> JsData * World.

Lemma ExtractTextureParameters_fold (parameters : list string) (name : string) :
  ImporterObj.ExtractTextureParameters (parameters ++ [name])
  = fst (fold_left texture_step parameters (∅, None)).
Proof.
  unfold ImporterObj.ExtractTextureParameters.
  rewrite length_app. simpl. rewrite Nat.add_sub, take_app_length.
  f_equal. apply fold_left_equal. by intros [m last] parameter.
Qed.

Lemma texture_values (values : list string) (flag : string)
    (m : gmap string (list string)) (vs0 : list string) :
  Forall (fun value => String.prefix "-" value = false) values ->
  fold_left texture_step values (<[flag := vs0]> m, Some flag)
  = (<[flag := vs0 ++ values]> m, Some flag).
Proof.
  revert vs0. induction values as [|value values IH]; intros vs0 Hall; simpl.
  - by rewrite app_nil_r.
  - apply Forall_cons in Hall as [Hvalue Hall]. rewrite Hvalue.
    rewrite alter_insert_eq, IH by done. by rewrite <- app_assoc.
Qed.

Lemma texture_rest (rest : list string) (flag : string)
    (m : gmap string (list string)) (last : option string) :
  flag ∉ rest ->
  last <> Some flag ->
  fst (fold_left texture_step rest (m, last)) !! flag = m !! flag.
Proof.
  revert m last. induction rest as [|parameter rest IH]; intros m last Hnot Hlast; [done |].
  apply not_elem_of_cons in Hnot as [Hne Hnot]. simpl.
  destruct (String.prefix "-" parameter).
  - rewrite IH; [| done | congruence]. by rewrite lookup_insert_ne.
  - destruct last as [l|]; rewrite IH by done; [| done].
    rewrite lookup_alter_ne; [done | congruence].
Qed.

Lemma texture_absent (parameters : list string) (flag : string)
    (m : gmap string (list string)) (last : option string) :
  flag ∉ parameters ->
  m !! flag = None ->
  fst (fold_left texture_step parameters (m, last)) !! flag = None.
Proof.
  revert m last. induction parameters as [|parameter parameters IH];
    intros m last Hnot Hm; [done |].
  apply not_elem_of_cons in Hnot as [Hne Hnot]. simpl.
  destruct (String.prefix "-" parameter).
  - apply IH; [done |]. by rewrite lookup_insert_ne.
  - destruct last as [l|]; apply IH; try done.
    by rewrite lookup_alter_None.
Qed.

Lemma ExtractTextureParameters_option (parameters : list string) (name flag : string)
    (values : list string) :
  option_with_values parameters flag values ->
  ImporterObj.ExtractTextureParameters (parameters ++ [name]) !! flag = Some values.
Proof.
  intros (before & rest & -> & Hoption & Hvalues & Hnot & Hrest).
  rewrite ExtractTextureParameters_fold.
  rewrite fold_left_app. simpl.
  destruct (fold_left texture_step before (∅, None)) as [m last].
  simpl. rewrite Hoption. rewrite fold_left_app.
  rewrite texture_values by done. simpl.
  destruct rest as [|next rest]; simpl.
  - by rewrite lookup_insert_eq.
  - rewrite Hrest. apply not_elem_of_cons in Hnot as [Hne Hnot].
    rewrite texture_rest; [| done | congruence].
    rewrite lookup_insert_ne by done. by rewrite lookup_insert_eq.
Qed.

Lemma ExtractTextureParameters_absent (parameters : list string) (name flag : string) :
  flag ∉ parameters ->
  ImporterObj.ExtractTextureParameters (parameters ++ [name]) !! flag = None.
Proof.
  intros Hnot. rewrite ExtractTextureParameters_fold. by apply texture_absent.
Qed.

(** X24.  The texture of a [map_Kd], [map_Ks], [map_bump] or [bump]
    directive.  Its file is the last parameter, whatever comes before, and
    it is requested through [getFileBuffer] once.  The offset and the scale
    are read from the first two values that follow the last [-o] and the
    last [-s] among the other parameters, up to the next option: further
    values are left out, an option given again replaces the earlier one, the
    values of other options and the parameters before the first option are
    skipped, and without the option the offset and the scale are left as the
    constructor makes them. *)
Theorem texture_options (parameters : list string) (name : string) (w : World) :
  let texture := fst (ImporterObj.CreateTexture getFileBuffer (parameters ++ [name]) w) in
  TextureMap.name texture = Some name
  /\ TextureMap.buffer texture = fst (getFileBuffer name w)
  /\ snd (ImporterObj.CreateTexture getFileBuffer (parameters ++ [name]) w)
     = snd (getFileBuffer name w)
  /\ (forall values,
        option_with_values parameters "-o" values ->
        TextureMap.offset_x texture = Js.parseFloat <$> values !! 0%nat
        /\ TextureMap.offset_y texture = Js.parseFloat <$> values !! 1%nat)
  /\ (forall values,
        option_with_values parameters "-s" values ->
        TextureMap.scale_x texture = Js.parseFloat <$> values !! 0%nat
        /\ TextureMap.scale_y texture = Js.parseFloat <$> values !! 1%nat)
  /\ ("-o" ∉ parameters ->
      TextureMap.offset_x texture = None /\ TextureMap.offset_y texture = None)
  /\ ("-s" ∉ parameters ->
      TextureMap.scale_x texture = None /\ TextureMap.scale_y texture = None).
Proof.
  cbv zeta. unfold ImporterObj.CreateTexture.
  assert (Hname : ImporterObj.param (parameters ++ [name])
                    (List.length (parameters ++ [name]) - 1) = name).
  { unfold ImporterObj.param. rewrite length_app. simpl. rewrite Nat.add_sub.
    by rewrite lookup_app_r, Nat.sub_diag by lia. }
  rewrite Hname. destruct (getFileBuffer name w) as [textureBuffer w'].
  split; [by repeat case_match |]. split; [by repeat case_match |].
  split; [by repeat case_match |].
  split; [| split; [| split]].
  - intros values Hvalues.
    rewrite (ExtractTextureParameters_option _ _ _ _ Hvalues). by repeat case_match.
  - intros values Hvalues.
    rewrite (ExtractTextureParameters_option parameters name "-s" values Hvalues).
    by repeat case_match.
  - intros Hnot. rewrite (ExtractTextureParameters_absent parameters name "-o" Hnot).
    by repeat case_match.
  - intros Hnot. rewrite (ExtractTextureParameters_absent parameters name "-s" Hnot).
    by repeat case_match.
Qed.

End Textures.

(** ** Texts without material library *)

Section WithoutLibraries.
Context `{ImporterUtils} {World : Type}.
Variable getFileBuffer : string -> World -> JsData * World.

Lemma ProcessMaterialParameter_total
    (ProcessLine : string -> ImporterObj.t * World -> option (ImporterObj.t * World))
    (keyword : string) (parameters : list string) (line : string)
    (s : ImporterObj.t * World) :
  keyword <> "mtllib" ->
  is_Some (ImporterObj.ProcessMaterialParameter getFileBuffer ProcessLine keyword
             parameters line s).
Proof.
  intros Hne. destruct s as [this w]. unfold ImporterObj.ProcessMaterialParameter.
  repeat case_decide; try done; repeat case_match; by eexists.
Qed.

Lemma ProcessMaterialParameter_callback
    (ProcessLine ProcessLine' : string -> ImporterObj.t * World
                                -> option (ImporterObj.t * World))
    (keyword : string) (parameters : list string) (line : string)
    (s : ImporterObj.t * World) :
  keyword <> "mtllib" ->
  ImporterObj.ProcessMaterialParameter getFileBuffer ProcessLine keyword parameters line s
  = ImporterObj.ProcessMaterialParameter getFileBuffer ProcessLine' keyword parameters
      line s.
Proof.
  intros Hne. destruct s as [this w]. unfold ImporterObj.ProcessMaterialParameter.
  repeat case_decide; done.
Qed.

Lemma guarded_line_Some
    (ProcessLine : string -> ImporterObj.t * World -> option (ImporterObj.t * World))
    (s : ImporterObj.t * World) (line : string) :
  ImporterObj.guarded_line ProcessLine (Some s) line
  = if negb (ImporterObj.WasError (fst s)) then ProcessLine line s else Some s.
Proof. reflexivity. Qed.

Lemma ProcessLine_without_library (fuel : nat) (line : string)
    (s : ImporterObj.t * World) :
  names_no_library line ->
  is_Some (ImporterObj.ProcessLine getFileBuffer 1 line s)
  /\ ImporterObj.ProcessLine getFileBuffer (S fuel) line s
     = ImporterObj.ProcessLine getFileBuffer 1 line s.
Proof.
  unfold names_no_library. intros Hline. rewrite !ProcessLine_S.
  case_bool_decide; [by split |].
  destruct (ParametersFromLine line "#") as [|first parameters]; [by split |].
  destruct (ImporterObj.ProcessMeshParameter (fst s) (Js.toLowerCase first) parameters line)
    as [handled this].
  destruct handled; [by split |].
  rewrite (ProcessMaterialParameter_callback
             (ImporterObj.ProcessLine getFileBuffer fuel)
             (ImporterObj.ProcessLine getFileBuffer 0)) by done.
  split; [| done].
  destruct (ProcessMaterialParameter_total (ImporterObj.ProcessLine getFileBuffer 0)
              (Js.toLowerCase first) parameters line (this, snd s) Hline) as [r Hr].
  rewrite Hr. by eexists.
Qed.

(** X25.  A text without [mtllib] directive is always read to its end, and
    without any nesting: [ImportContent] answers a state of a parse, the
    same at every depth allowed. *)
Theorem text_without_libraries (fileContent : JsData) (s : ImporterObj.t * World) :
  Forall names_no_library (ReadLines (ArrayBufferToUtf8String fileContent)) ->
  parsing getFileBuffer s ->
  exists s',
    parsing getFileBuffer s'
    /\ forall fuel,
         ImporterObj.ImportContent getFileBuffer (S fuel) fileContent s = Some s'.
Proof.
  unfold ImporterObj.ImportContent, ImporterObj.ReadLines_guarded.
  generalize (ReadLines (ArrayBufferToUtf8String fileContent)). intros lines.
  revert s. induction lines as [|line lines IH]; intros s Hall Hs.
  - by exists s.
  - apply Forall_cons in Hall as [Hline Hall].
    destruct (negb (ImporterObj.WasError (fst s))) eqn:Herror.
    + destruct (ProcessLine_without_library 0 line s Hline) as [[s1 Hs1] _].
      destruct (IH s1 Hall) as (s' & Hs' & Hfold); [by eapply parsing_line |].
      exists s'. split; [done |]. intros fuel.
      cbn [fold_left]. rewrite guarded_line_Some, Herror.
      rewrite (proj2 (ProcessLine_without_library fuel line s Hline)), Hs1.
      apply Hfold.
    + destruct (IH s Hall Hs) as (s' & Hs' & Hfold). exists s'. split; [done |].
      intros fuel. cbn [fold_left]. rewrite guarded_line_Some, Herror. apply Hfold.
Qed.

End WithoutLibraries.

(** ** The rule of resolution *)

Section Resolution.
Context `{ImporterUtils}.

Lemma GetRelativeIndex_spec (index : option Z) (count : nat) :
  ImporterObj.GetRelativeIndex index count
  = (fun i => spec_resolution i count) <$> index.
Proof.
  destruct index as [i|]; [| done]. unfold ImporterObj.GetRelativeIndex, spec_resolution.
  simpl. destruct (0 <? i)%Z eqn:Hpos; case_decide; try done.
  - apply Z.ltb_lt in Hpos. lia.
  - apply Z.ltb_ge in Hpos. lia.
Qed.

Lemma omap_length_le {A B} (f : A -> option B) (l : list A) :
  (List.length (omap f l) <= List.length l)%nat.
Proof.
  induction l as [|a l IH]; [done |]. cbn [omap list_omap].
  destruct (f a); simpl; lia.
Qed.

Lemma omap_lookup_full {A B} (f : A -> option B) (l : list A) (j : nat) :
  List.length (omap f l) = List.length l ->
  omap f l !! j = l !! j ≫= f.
Proof.
  revert j. induction l as [|a l IH]; intros j Hlen; [done |].
  cbn [omap list_omap] in *. pose proof (omap_length_le f l) as Hle.
  destruct (f a) as [b|] eqn:Hfa; simpl in Hlen; [| lia].
  destruct j as [|j]; simpl; [done |]. apply IH. lia.
Qed.

Lemma index_map_AddLine (kind : AttributeKind) (converter : ObjMeshConverter.t)
    (line : Line.t) :
  index_map kind (ObjMeshConverter.AddLine converter line) = index_map kind converter
  /\ buffer kind (ObjMeshConverter.mesh (ObjMeshConverter.AddLine converter line))
     = buffer kind (ObjMeshConverter.mesh converter).
Proof. by destruct kind. Qed.

End Resolution.

(** ** The indices of the triangles of a fan *)

Section FanAttributes.
Context `{ImporterUtils}.
Variable this : ImporterObj.t.
Variable Q : ObjMeshConverter.t -> Prop.
Hypothesis Q_add : forall kind converter index,
  Q converter -> Q (snd (add kind converter index (globals_of this kind))).
Hypothesis Q_triangle : forall converter triangle,
  Q converter -> Q (ObjMeshConverter.AddTriangle converter triangle).

Lemma add_three_Q (kind : AttributeKind) (indices : list (option Z)) (i : nat)
    (converter : ObjMeshConverter.t) :
  Q converter -> Q (fst (add_three kind indices (globals_of this kind) i converter)).
Proof.
  intros HQ. unfold add_three.
  pose proof (Q_add kind converter (ImporterObj.at_index indices 0) HQ) as H1.
  destruct (add kind converter _ _) as [a c1]. simpl in H1.
  pose proof (Q_add kind c1 (ImporterObj.at_index indices (i + 1)) H1) as H2.
  destruct (add kind c1 _ _) as [b c2]. simpl in H2.
  pose proof (Q_add kind c2 (ImporterObj.at_index indices (i + 2)) H2) as H3.
  by destruct (add kind c2 _ _) as [c c3].
Qed.

Lemma attribute_step_resolved (kind : AttributeKind) (vertices indices : list (option Z))
    (i : nat) (message : string)
    (set : Triangle.t -> nat -> nat -> nat -> Triangle.t) (triangle : Triangle.t)
    (converter : ObjMeshConverter.t) :
  exists converter' result,
    attribute_step kind vertices indices (globals_of this kind) i message set triangle
      converter = (converter', result)
    /\ grows converter converter'
    /\ (Q converter -> Q converter')
    /\ Mesh.triangles (ObjMeshConverter.mesh converter')
       = Mesh.triangles (ObjMeshConverter.mesh converter)
    /\ match result with
       | inl _ => True
       | inr triangle' =>
           (exists a b c,
              triangle' = set triangle a b c
              /\ List.length indices = List.length vertices
              /\ attribute_indices kind converter' indices i (Some (a, b, c)))
           \/ (triangle' = triangle
               /\ List.length indices <> List.length vertices)
       end.
Proof.
  unfold attribute_step.
  destruct (_ =? _)%nat eqn:Hcount.
  - rewrite three_adds_cps.
    pose proof (add_three_Q kind indices i converter) as HQ.
    destruct (add_three kind indices (globals_of this kind) i converter) as [c' r] eqn:Hthree.
    apply add_three_spec in Hthree as (Hg & Htri & Hlin & Hres).
    destruct r as [[[a b] c]|].
    + eexists _, _. split; [reflexivity |]. do 3 (split; [done |]).
      left. exists a, b, c. split; [done |]. split; [by apply Nat.eqb_eq |]. simpl. tauto.
    + eexists _, _. split; [reflexivity |]. do 3 (split; [done |]). done.
  - eexists _, _. split; [reflexivity |]. split; [apply grows_refl |].
    do 2 (split; [done |]). right. split; [done |]. by apply Nat.eqb_neq.
Qed.

Lemma attribute_indices_grows (kind : AttributeKind) (c c' : ObjMeshConverter.t)
    (indices : list (option Z)) (i : nat) (triple : option (nat * nat * nat)) :
  grows c c' -> attribute_indices kind c indices i triple ->
  attribute_indices kind c' indices i triple.
Proof.
  intros Hg. destruct triple as [[[a b] d]|]; [| done]. simpl.
  intros (H0 & H1 & H2). repeat split; by apply (local_index_grows kind c).
Qed.

(** The body of the loop over the fan: the indices of the triangle it adds. *)
Lemma FaceTriangle_resolved (vertices colors normals uvs : list (option Z)) (i : nat)
    (converter : ObjMeshConverter.t) :
  exists converter' result,
    ImporterObj.FaceTriangle this vertices colors normals uvs i converter
    = (converter', result)
    /\ grows converter converter'
    /\ (Q converter -> Q converter')
    /\ match result with
       | inl _ =>
           Mesh.triangles (ObjMeshConverter.mesh converter')
           = Mesh.triangles (ObjMeshConverter.mesh converter)
       | inr _ =>
           exists triangle,
             Mesh.triangles (ObjMeshConverter.mesh converter')
             = Mesh.triangles (ObjMeshConverter.mesh converter) ++ [triangle]
             /\ fan_indices converter' vertices colors normals uvs i triangle
       end.
Proof.
  rewrite FaceTriangle_stages. rewrite (three_adds_cps Vertices).
  pose proof (add_three_Q Vertices vertices i converter) as HQ1.
  simpl globals_of in HQ1.
  destruct (add_three Vertices vertices (ImporterObj.globalVertices this) i converter)
    as [c1 r1] eqn:Hv.
  apply add_three_spec in Hv as (Hg1 & Ht1 & _ & Hr1).
  destruct r1 as [[[v0 v1] v2]|].
  2:{ eexists _, _. split; [reflexivity |]. done. }
  destruct Hr1 as (_ & Hv0 & Hv1 & Hv2).
  unfold Break.bind at 1.
  destruct (attribute_step_resolved VertexColors vertices colors i
              "Invalid vertex color index." Triangle.SetVertexColors
              (Triangle.new v0 v1 v2) c1)
    as (c2 & r2 & Heq2 & Hg2 & HQ2 & Ht2 & Hr2).
  simpl globals_of in Heq2. rewrite Heq2.
  destruct r2 as [m2 | t2].
  { eexists _, _. split; [reflexivity |]. split; [by eapply grows_trans |].
    split; [tauto | congruence]. }
  unfold Break.bind at 1.
  destruct (attribute_step_resolved Normals vertices normals i
              "Invalid normal index." Triangle.SetNormals t2 c2)
    as (c3 & r3 & Heq3 & Hg3 & HQ3 & Ht3 & Hr3).
  simpl globals_of in Heq3. rewrite Heq3.
  destruct r3 as [m3 | t3].
  { eexists _, _. split; [reflexivity |].
    split; [eauto using grows_trans |]. split; [tauto | congruence]. }
  unfold Break.bind at 1.
  destruct (attribute_step_resolved Uvs vertices uvs i
              "Invalid uv index." Triangle.SetTextureUVs t3 c3)
    as (c4 & r4 & Heq4 & Hg4 & HQ4 & Ht4 & Hr4).
  simpl globals_of in Heq4. rewrite Heq4.
  destruct r4 as [m4 | t4].
  { eexists _, _. split; [reflexivity |].
    split; [eauto using grows_trans |]. split; [tauto | congruence]. }
  set (triangle := match ImporterObj.currentMaterialIndex this with
                   | Some index => Triangle.set_mat t4 index
                   | None => t4
                   end).
  assert (Hg14 : grows c1 c4) by eauto using grows_trans.
  assert (Hg24 : grows c2 c4) by eauto using grows_trans.
  assert (Hfinal : forall kind indices triple,
            attribute_indices kind c4 indices i triple ->
            attribute_indices kind (ObjMeshConverter.AddTriangle c4 triangle) indices i
                              triple).
  { intros kind indices triple. apply attribute_indices_grows, AddTriangle_grows. }
  assert (Hfields : Triangle.v0 triangle = Triangle.v0 t4
                    /\ Triangle.v1 triangle = Triangle.v1 t4
                    /\ Triangle.v2 triangle = Triangle.v2 t4
                    /\ Triangle.colors triangle = Triangle.colors t4
                    /\ Triangle.normals triangle = Triangle.normals t4
                    /\ Triangle.uvs triangle = Triangle.uvs t4).
  { subst triangle. by destruct (ImporterObj.currentMaterialIndex this). }
  destruct Hfields as (E0 & E1 & E2 & Ec & En & Eu).
  eexists _, _. split; [reflexivity |].
  split; [eauto using grows_trans, AddTriangle_grows |].
  split; [intros HQ; apply Q_triangle; tauto |].
  exists triangle.
  split; [simpl; apply (f_equal2 app); [congruence | reflexivity] |].
  unfold fan_indices. rewrite E0, E1, E2, Ec, En, Eu.
  assert (Hvertices : attribute_indices Vertices c1 vertices i (Some (v0, v1, v2)))
    by (simpl; tauto).
  destruct Hr2 as [(a2 & b2 & d2 & -> & Hl2 & Hi2) | [-> Hn2]];
    destruct Hr3 as [(a3 & b3 & d3 & -> & Hl3 & Hi3) | [-> Hn3]];
    destruct Hr4 as [(a4 & b4 & d4 & -> & Hl4 & Hi4) | [-> Hn4]];
    cbn [Triangle.v0 Triangle.v1 Triangle.v2 Triangle.colors Triangle.normals Triangle.uvs
         Triangle.SetVertexColors Triangle.SetNormals Triangle.SetTextureUVs Triangle.new].
  all: split; [apply Hfinal, (attribute_indices_grows Vertices c1); done |].
  all: split; [first [ apply Hfinal, (attribute_indices_grows VertexColors c2); done
                     | exact I ] |].
  all: split; [first [ apply Hfinal, (attribute_indices_grows Normals c3); done
                     | exact I ] |].
  all: split; [first [ apply Hfinal; done | exact I ] |].
  all: repeat split; first [ intros _; assumption | intros [? ?]; discriminate ].
Qed.

Lemma fan_indices_grows (c c' : ObjMeshConverter.t)
    (vertices colors normals uvs : list (option Z)) (i : nat) (triangle : Triangle.t) :
  grows c c' ->
  fan_indices c vertices colors normals uvs i triangle ->
  fan_indices c' vertices colors normals uvs i triangle.
Proof.
  intros Hg (Hv & Hc & Hn & Hu & Hrest).
  split; [by apply (attribute_indices_grows Vertices c) |].
  split; [by apply (attribute_indices_grows VertexColors c) |].
  split; [by apply (attribute_indices_grows Normals c) |].
  split; [by apply (attribute_indices_grows Uvs c) | done].
Qed.

(** The loop over the fan. *)
Lemma face_loop_resolved (vertices colors normals uvs : list (option Z))
    (steps : list nat) (converter : ObjMeshConverter.t) :
  exists converter' broke new,
    Break.for_each (ImporterObj.FaceTriangle this vertices colors normals uvs)
                   steps converter = (converter', broke)
    /\ grows converter converter'
    /\ (Q converter -> Q converter')
    /\ Mesh.triangles (ObjMeshConverter.mesh converter')
       = Mesh.triangles (ObjMeshConverter.mesh converter) ++ new
    /\ Forall2 (fan_indices converter' vertices colors normals uvs)
               (take (List.length new) steps) new
    /\ (broke = None -> List.length new = List.length steps).
Proof.
  revert converter. induction steps as [|i steps IH]; intros converter.
  - exists converter, None, []. simpl. split; [done |]. split; [apply grows_refl |].
    split; [done |]. split; [by rewrite app_nil_r |]. split; [constructor | done].
  - simpl.
    destruct (FaceTriangle_resolved vertices colors normals uvs i converter)
      as (c1 & result & -> & Hg1 & HQ1 & Hres).
    destruct result as [message | []].
    + exists c1, (Some message), []. split; [done |]. split; [done |]. split; [done |].
      split; [by rewrite app_nil_r |]. split; [constructor | done].
    + destruct Hres as (t & Ht1 & Hfan).
      destruct (IH c1) as (c' & broke & new & -> & Hg & HQ & Ht & Hall & Hnone).
      exists c', broke, (t :: new). split; [done |].
      split; [by eapply grows_trans |]. split; [tauto |].
      split; [rewrite Ht, Ht1; by rewrite <- app_assoc |].
      split; [| intros Hb; simpl; by rewrite Hnone].
      simpl. constructor; [| done]. by apply (fan_indices_grows c1).
Qed.

End FanAttributes.

(** ** What a converter has for a global index, in a parse *)

Section Correspondence.
Context `{ImporterUtils} {World : Type}.
Variable getFileBuffer : string -> World -> JsData * World.

Lemma corresponds_mono (globals globals' : forall kind, list (attribute kind))
    (converter : ObjMeshConverter.t) :
  (forall kind, globals kind `prefix_of` globals' kind) ->
  (forall kind, corresponds globals kind converter) ->
  forall kind, corresponds globals' kind converter.
Proof.
  intros Hprefix Hall kind. destruct (Hall kind) as (Hcopy & Honto & Hinj).
  split; [| done]. intros g m Hm. destruct (Hcopy g m Hm) as (Hpos & [value Hv] & Hb).
  pose proof (prefix_lookup_Some _ _ _ _ Hv (Hprefix kind)) as Hv'.
  split; [done |]. split; [by eexists |]. congruence.
Qed.

Lemma corresponds_new (globals : forall kind, list (attribute kind)) (name : string)
    (kind : AttributeKind) :
  corresponds globals kind (ObjMeshConverter.new (Mesh.SetName Mesh.new name)).
Proof.
  split; [| split].
  - intros g m. destruct kind; simpl; by rewrite lookup_empty.
  - intros m. destruct kind; simpl; lia.
  - intros g g' m. destruct kind; simpl; by rewrite lookup_empty.
Qed.

Lemma corresponds_add (this : ImporterObj.t) (kind : AttributeKind)
    (converter : ObjMeshConverter.t) (index : option Z) :
  (forall other, corresponds (globals_of this) other converter) ->
  forall other, corresponds (globals_of this) other
                  (snd (add kind converter index (globals_of this kind))).
Proof.
  intros Hall.
  apply (call_corresponds (globals_of this) converter
           (CallAdd kind index (globals_of this kind))); [| exact Hall].
  simpl. reflexivity.
Qed.

Lemma corresponds_AddTriangle (this : ImporterObj.t) (converter : ObjMeshConverter.t)
    (triangle : Triangle.t) :
  (forall other, corresponds (globals_of this) other converter) ->
  forall other, corresponds (globals_of this) other
                  (ObjMeshConverter.AddTriangle converter triangle).
Proof.
  intros Hall.
  apply (call_corresponds (globals_of this) converter (CallAddTriangle triangle));
    [exact I | exact Hall].
Qed.

Lemma corresponds_AddLine (this : ImporterObj.t) (converter : ObjMeshConverter.t)
    (line : Line.t) :
  (forall other, corresponds (globals_of this) other converter) ->
  forall other, corresponds (globals_of this) other
                  (ObjMeshConverter.AddLine converter line).
Proof.
  intros Hall.
  apply (call_corresponds (globals_of this) converter (CallAddLine line));
    [exact I | exact Hall].
Qed.

Lemma line_loop_corresponds (this : ImporterObj.t) (parameters : list string)
    (converter converter' : ObjMeshConverter.t) (vertices vertices' : list nat)
    (broke : option string) :
  Break.for_each (ImporterObj.LineVertex this) parameters (converter, vertices)
  = ((converter', vertices'), broke) ->
  (forall kind, corresponds (globals_of this) kind converter) ->
  forall kind, corresponds (globals_of this) kind converter'.
Proof.
  revert converter vertices.
  induction parameters as [|parameter parameters IH]; intros converter vertices Hloop Hall.
  - by injection Hloop as <- _ _.
  - simpl in Hloop. rewrite LineVertex_cases in Hloop.
    pose proof (corresponds_add this Vertices converter
                  (face_vertex_index this parameter) Hall) as Hstep.
    simpl globals_of in Hstep at 2.
    destruct (add Vertices converter _ _) as [[m|] c1]; simpl in Hstep.
    + by eapply IH.
    + by injection Hloop as <- _ _.
Qed.

Lemma same_globals (this this' : ImporterObj.t) :
  ImporterObj.globalVertices this' = ImporterObj.globalVertices this ->
  ImporterObj.globalVertexColors this' = ImporterObj.globalVertexColors this ->
  ImporterObj.globalNormals this' = ImporterObj.globalNormals this ->
  ImporterObj.globalUvs this' = ImporterObj.globalUvs this ->
  forall kind, globals_of this' kind = globals_of this kind.
Proof. intros Hv Hc Hn Hu kind. by destruct kind. Qed.

Lemma model_corresponds_same (this this' : ImporterObj.t) :
  (forall kind, globals_of this' kind = globals_of this kind) ->
  ImporterObj.converters this' = ImporterObj.converters this ->
  model_corresponds this -> model_corresponds this'.
Proof.
  intros Hglobals Hconverters. unfold model_corresponds. rewrite Hconverters.
  intros Hthis. eapply Forall_impl; [exact Hthis |]. intros converter Hall kind.
  apply (corresponds_mono (globals_of this)); [| done].
  intros other. by rewrite Hglobals.
Qed.

Lemma AddNewMesh_corresponds (this : ImporterObj.t) (name : string) :
  model_corresponds this -> model_corresponds (ImporterObj.AddNewMesh this name).
Proof.
  intros Hthis. unfold ImporterObj.AddNewMesh.
  destruct (ImporterObj.meshNameToConverter this !! name); [done |].
  unfold model_corresponds. simpl. apply Forall_app. split; [done |].
  constructor; [| constructor]. intros kind. apply corresponds_new.
Qed.

Lemma prepare_corresponds (this : ImporterObj.t) :
  model_corresponds this -> model_corresponds (prepare this).
Proof.
  intros Hthis. unfold prepare.
  destruct (ImporterObj.currentMeshConverter this); [done |]. by apply AddNewMesh_corresponds.
Qed.

Lemma finish_corresponds (that : ImporterObj.t) (current : nat)
    (converter : ObjMeshConverter.t) (broke : option string) :
  model_corresponds that ->
  (forall kind, corresponds (globals_of that) kind converter) ->
  model_corresponds (finish that current converter broke).
Proof.
  intros Hthat Hconverter.
  assert (Hins : Forall (fun c => forall kind, corresponds (globals_of that) kind c)
                        (<[current := converter]> (ImporterObj.converters that))).
  { destruct (decide (current < List.length (ImporterObj.converters that))%nat).
    - by apply Forall_insert.
    - by rewrite list_insert_ge by lia. }
  unfold finish. by destruct broke.
Qed.

Lemma ProcessFaceCommand_corresponds (this : ImporterObj.t) (parameters : list string) :
  model_corresponds this ->
  model_corresponds (ImporterObj.ProcessFaceCommand this parameters).
Proof.
  intros Hthis. apply prepare_corresponds in Hthis.
  destruct (ProcessFaceCommand_shape this parameters)
    as [-> | (current & c & c' & broke & Hcur & Hconv & Hloop & ->)]; [done |].
  apply finish_corresponds; [done |].
  destruct (face_loop_resolved (prepare this)
              (fun converter => forall kind,
                 corresponds (globals_of (prepare this)) kind converter)
              (corresponds_add (prepare this)) (corresponds_AddTriangle (prepare this))
              (face_vertices (prepare this) parameters)
              (face_colors (prepare this) parameters)
              (face_normals (prepare this) parameters)
              (face_uvs (prepare this) parameters)
              (seq 0 (List.length parameters - 2)) c)
    as (c'' & broke' & new & Heq & _ & HQ & _).
  rewrite Hloop in Heq. injection Heq as <- <-. apply HQ.
  by apply (Forall_lookup_1 _ _ _ _ Hthis Hconv).
Qed.

Lemma ProcessLineCommand_corresponds (this : ImporterObj.t) (parameters : list string) :
  model_corresponds this ->
  model_corresponds (ImporterObj.ProcessLineCommand this parameters).
Proof.
  intros Hthis. apply prepare_corresponds in Hthis.
  destruct (ProcessLineCommand_shape this parameters)
    as [-> | (current & c & c' & vs & broke & Hcur & Hconv & Hloop & ->)]; [done |].
  apply finish_corresponds; [done |].
  apply corresponds_AddLine.
  eapply line_loop_corresponds; [exact Hloop |].
  by apply (Forall_lookup_1 _ _ _ _ Hthis Hconv).
Qed.

Lemma ProcessMeshParameter_corresponds (this : ImporterObj.t) (keyword : string)
    (parameters : list string) (line : string) :
  model_corresponds this ->
  model_corresponds (snd (ImporterObj.ProcessMeshParameter this keyword parameters line)).
Proof.
  intros Hthis.
  destruct (ProcessMeshParameter_shape this keyword parameters line)
    as [-> | [[name ->] | [(vs & cs & ns & us & -> & Hgrow) | [-> | ->]]]].
  - done.
  - by apply AddNewMesh_corresponds.
  - destruct Hgrow as (Hv & Hc & Hn & Hu & _). simpl in *.
    unfold model_corresponds. simpl. eapply Forall_impl; [exact Hthis |].
    intros converter Hall. apply (corresponds_mono (globals_of this)); [| done].
    intros kind. by destruct kind.
  - by apply ProcessLineCommand_corresponds.
  - by apply ProcessFaceCommand_corresponds.
Qed.

Lemma ProcessMaterialParameter_corresponds
    (ProcessLine : string -> ImporterObj.t * World -> option (ImporterObj.t * World))
    (keyword : string) (parameters : list string) (line : string)
    (s : ImporterObj.t * World) (r : bool * (ImporterObj.t * World)) :
  keyword <> "mtllib" ->
  model_corresponds (fst s) ->
  ImporterObj.ProcessMaterialParameter getFileBuffer ProcessLine keyword parameters line s
  = Some r ->
  model_corresponds (fst (snd r)).
Proof.
  intros Hne Hs Hr. destruct s as [this w]. simpl in Hs.
  destruct (ProcessMaterialParameter_shape getFileBuffer ProcessLine keyword parameters
              line this w r Hne Hr)
    as [-> | [[name ->] | [(name & index & Hname & ->)
              | (current & ms & Hcur & -> & Hlen & _)]]]; done.
Qed.

(** In every state of a parse, in every mesh, the mesh-local index a
    converter has for a global index is the position of the value the global
    sequence has at that index. *)
Lemma parsing_corresponds (s : ImporterObj.t * World) :
  parsing getFileBuffer s -> model_corresponds (fst s).
Proof.
  apply (parsing_invariant getFileBuffer model_corresponds).
  - apply ProcessMeshParameter_corresponds.
  - apply ProcessMaterialParameter_corresponds.
  - constructor.
Qed.

End Correspondence.

(** ** Every reference is resolved in the sequence of its kind *)

Section ResolutionOfReferences.
Context `{ImporterUtils} {World : Type}.
Variable getFileBuffer : string -> World -> JsData * World.

Lemma resolved_of_index (kind : AttributeKind) (converter : ObjMeshConverter.t)
    (values : list (attribute kind)) (globals : forall kind, list (attribute kind))
    (text : option string) (g : Z) (m : nat) :
  globals kind = values ->
  corresponds globals kind converter ->
  ImporterObj.GetRelativeIndex (text ≫= Js.parseInt) (List.length values) = Some g ->
  index_map kind converter !! g = Some m ->
  resolves_to kind converter values text m.
Proof.
  intros <- (Hcopy & _) Hg Hm. rewrite GetRelativeIndex_spec in Hg.
  destruct (text ≫= Js.parseInt) as [i|] eqn:Hi; [| done].
  simpl in Hg. injection Hg as <-.
  destruct (Hcopy _ _ Hm) as (Hpos & [value Hvalue] & Hbuffer).
  exists i, value. split; [done |]. split; [done |]. split; [done |]. split; [done |].
  congruence.
Qed.

Lemma at_index_map (f : string -> option Z) (parameters : list string) (j : nat) (g : Z) :
  ImporterObj.at_index (map f parameters) j = Some g ->
  exists parameter, parameters !! j = Some parameter /\ f parameter = Some g.
Proof.
  unfold ImporterObj.at_index. rewrite list_lookup_fmap.
  destruct (parameters !! j) as [parameter|]; [| done]. simpl. intros Hg.
  by exists parameter.
Qed.

Lemma at_index_omap (f : string -> option (option Z)) (parameters : list string)
    (j : nat) (g : Z) :
  List.length (omap f parameters) = List.length parameters ->
  ImporterObj.at_index (omap f parameters) j = Some g ->
  exists parameter, parameters !! j = Some parameter /\ f parameter = Some (Some g).
Proof.
  intros Hlen. unfold ImporterObj.at_index. rewrite omap_lookup_full by done.
  destruct (parameters !! j) as [parameter|]; [| done]. simpl.
  destruct (f parameter) as [[g'|]|] eqn:Hf; try done. simpl. intros [= ->].
  by exists parameter.
Qed.

(** A mesh-local index for the [j]-th index of each of the four lists of a
    face stands for the [j]-th reference, resolved in the global sequence of
    its kind. *)
Lemma vertex_reference (this : ImporterObj.t) (converter : ObjMeshConverter.t)
    (parameters : list string) (j m : nat) :
  (forall kind, corresponds (globals_of this) kind converter) ->
  local_index Vertices converter (face_vertices this parameters) j = Some m ->
  resolves_to Vertices converter (ImporterObj.globalVertices this)
              (reference_text parameters j 0) m.
Proof.
  intros Hall. unfold local_index, face_vertices.
  destruct (ImporterObj.at_index _ j) as [g|] eqn:Hat; [| done]. simpl. intros Hm.
  apply at_index_map in Hat as (parameter & Hj & Hg).
  apply (resolved_of_index Vertices converter _ (globals_of this) _ g); try done.
  unfold reference_text. rewrite Hj. exact Hg.
Qed.

Lemma color_reference (this : ImporterObj.t) (converter : ObjMeshConverter.t)
    (parameters : list string) (j m : nat) :
  (forall kind, corresponds (globals_of this) kind converter) ->
  local_index VertexColors converter (face_colors this parameters) j = Some m ->
  resolves_to VertexColors converter (ImporterObj.globalVertexColors this)
              (reference_text parameters j 0) m.
Proof.
  intros Hall. unfold local_index, face_colors.
  destruct (_ =? _)%nat eqn:Hcount; [| by destruct j].
  apply Nat.eqb_eq in Hcount.
  destruct (ImporterObj.at_index _ j) as [g|] eqn:Hat; [| done]. simpl. intros Hm.
  apply at_index_map in Hat as (parameter & Hj & Hg).
  apply (resolved_of_index VertexColors converter _ (globals_of this) _ g); try done.
  unfold reference_text. rewrite Hj. simpl. rewrite <- Hcount. exact Hg.
Qed.

Lemma normal_reference (this : ImporterObj.t) (converter : ObjMeshConverter.t)
    (parameters : list string) (j m : nat) :
  (forall kind, corresponds (globals_of this) kind converter) ->
  List.length (face_normals this parameters) = List.length parameters ->
  local_index Normals converter (face_normals this parameters) j = Some m ->
  resolves_to Normals converter (ImporterObj.globalNormals this)
              (reference_text parameters j 2) m.
Proof.
  intros Hall Hlen. unfold local_index, face_normals in *.
  destruct (ImporterObj.at_index _ j) as [g|] eqn:Hat; [| done]. simpl. intros Hm.
  apply at_index_omap in Hat as (parameter & Hj & Hg); [| done].
  unfold face_normal_index in Hg. cbv zeta in Hg.
  destruct (_ && _) eqn:Hguard; [| done]. injection Hg as Hg.
  apply andb_true_iff in Hguard as [Hslot _]. apply Nat.ltb_lt in Hslot.
  destruct (lookup_lt_is_Some_2 (Js.split "/" parameter) 2 Hslot) as [text Htext].
  apply (resolved_of_index Normals converter _ (globals_of this) _ g); try done.
  unfold reference_text. rewrite Hj. simpl. rewrite Htext. simpl.
  unfold ImporterObj.param in Hg. by rewrite Htext in Hg.
Qed.

Lemma uv_reference (this : ImporterObj.t) (converter : ObjMeshConverter.t)
    (parameters : list string) (j m : nat) :
  (forall kind, corresponds (globals_of this) kind converter) ->
  List.length (face_uvs this parameters) = List.length parameters ->
  local_index Uvs converter (face_uvs this parameters) j = Some m ->
  resolves_to Uvs converter (ImporterObj.globalUvs this)
              (reference_text parameters j 1) m.
Proof.
  intros Hall Hlen. unfold local_index, face_uvs in *.
  destruct (ImporterObj.at_index _ j) as [g|] eqn:Hat; [| done]. simpl. intros Hm.
  apply at_index_omap in Hat as (parameter & Hj & Hg); [| done].
  unfold face_uv_index in Hg. cbv zeta in Hg.
  destruct (_ && _) eqn:Hguard; [| done]. injection Hg as Hg.
  apply andb_true_iff in Hguard as [Hslot _]. apply Nat.ltb_lt in Hslot.
  destruct (lookup_lt_is_Some_2 (Js.split "/" parameter) 1 Hslot) as [text Htext].
  apply (resolved_of_index Uvs converter _ (globals_of this) _ g); try done.
  unfold reference_text. rewrite Hj. simpl. rewrite Htext. simpl.
  unfold ImporterObj.param in Hg. by rewrite Htext in Hg.
Qed.

Lemma fan_of_indices (kind : AttributeKind) (converter : ObjMeshConverter.t)
    (values : list (attribute kind)) (indices : list (option Z))
    (parameters : list string) (slot i : nat) (triple : nat * nat * nat) :
  (forall j m, local_index kind converter indices j = Some m ->
               resolves_to kind converter values (reference_text parameters j slot) m) ->
  attribute_indices kind converter indices i (Some triple) ->
  fan_resolves_to kind converter values parameters slot i triple.
Proof.
  intros Hone. destruct triple as [[a b] c]. simpl. intros (Ha & Hb & Hc).
  repeat split; by apply Hone.
Qed.

(** C7.  Every index reference of a face or line directive is resolved as
    the specification has it, in the global sequence of its kind as long as
    it is when the directive is processed.  In any state of a parse, for a
    face: the corners of every triangle it adds to the current mesh stand
    for the vertex references [0], [k + 1] and [k + 2], a positive [i]
    resolved to index [i - 1] of the global vertices and a non-positive [i]
    to index [count + i], and the mesh holds at the corner the global vertex
    of that index; likewise the color, normal and UV indices of the
    triangle stand for slot 0, slot 2 and slot 1 of these references,
    resolved in the global colors, normals and UVs, each with its own
    count; and unless the parse is flagged there is a triangle for every
    [k] below the number of references less two.  For a line: its vertices
    stand for the references in order, resolved in the global vertices, and
    unless the parse is flagged there is one for every reference.  The code's
    [GetRelativeIndex] is the rule of the specification on the integers that
    JavaScript numbers hold exactly; and with exactly three vertices
    declared, [f -1 -2 -3] is processed to the same effect as [f 3 2 1]. *)
Theorem GetRelativeIndex_resolution (s : ImporterObj.t * World)
    (parameters : list string) :
  parsing getFileBuffer s ->
  exists current converter,
    ImporterObj.currentMeshConverter (prepare (fst s)) = Some current
    /\ ImporterObj.converters (prepare (fst s)) !! current = Some converter
    /\ (exists converter' new,
          ImporterObj.converters (ImporterObj.ProcessFaceCommand (fst s) parameters)
            !! current = Some converter'
          /\ Mesh.triangles (ObjMeshConverter.mesh converter')
             = Mesh.triangles (ObjMeshConverter.mesh converter) ++ new
          /\ (ImporterObj.error (ImporterObj.ProcessFaceCommand (fst s) parameters) = false ->
              List.length new = (List.length parameters - 2)%nat)
          /\ forall k triangle,
               new !! k = Some triangle ->
               fan_resolves_to Vertices converter' (ImporterObj.globalVertices (fst s))
                 parameters 0 k
                 (Triangle.v0 triangle, Triangle.v1 triangle, Triangle.v2 triangle)
               /\ (forall triple,
                     Triangle.colors triangle = Some triple ->
                     fan_resolves_to VertexColors converter'
                       (ImporterObj.globalVertexColors (fst s)) parameters 0 k triple)
               /\ (forall triple,
                     Triangle.normals triangle = Some triple ->
                     fan_resolves_to Normals converter'
                       (ImporterObj.globalNormals (fst s)) parameters 2 k triple)
               /\ (forall triple,
                     Triangle.uvs triangle = Some triple ->
                     fan_resolves_to Uvs converter'
                       (ImporterObj.globalUvs (fst s)) parameters 1 k triple))
    /\ (exists converter' line,
          ImporterObj.converters (ImporterObj.ProcessLineCommand (fst s) parameters)
            !! current = Some converter'
          /\ Mesh.lines (ObjMeshConverter.mesh converter')
             = Mesh.lines (ObjMeshConverter.mesh converter) ++ [line]
          /\ (ImporterObj.error (ImporterObj.ProcessLineCommand (fst s) parameters) = false ->
              List.length (Line.vertices line) = List.length parameters)
          /\ forall j vertex,
               Line.vertices line !! j = Some vertex ->
               resolves_to Vertices converter' (ImporterObj.globalVertices (fst s))
                           (reference_text parameters j 0) vertex)
    /\ (forall i count,
          (Z.abs i < 2 ^ 53)%Z -> (Z.of_nat count < 2 ^ 32)%Z ->
          ImporterObj.GetRelativeIndex (Some i) count = Some (spec_resolution i count))
    /\ (List.length (ImporterObj.globalVertices (fst s)) = 3%nat ->
        ImporterObj.ProcessFaceCommand (fst s) ["-1"; "-2"; "-3"]
        = ImporterObj.ProcessFaceCommand (fst s) ["3"; "2"; "1"]).
Proof.
  intros Hparsing.
  destruct (parsing_current_mesh getFileBuffer s Hparsing)
    as (current & converter & Hcur & Hconv).
  pose proof (prepare_corresponds _ (parsing_corresponds getFileBuffer s Hparsing))
    as Hmodel.
  assert (Hc : forall kind, corresponds (globals_of (prepare (fst s))) kind converter)
    by (by apply (Forall_lookup_1 _ _ _ _ Hmodel Hconv)).
  destruct (prepare_fields (fst s)) as (Herr & Hgv & Hgc & Hgn & Hgu & Hmat).
  set (that := prepare (fst s)) in *.
  exists current, converter. split; [done |]. split; [done |].
  split; [| split; [| split]].
  - rewrite (ProcessFaceCommand_unfold (fst s) parameters current converter Hcur Hconv).
    fold that. rewrite FaceIndices_spec.
    fold (face_colors that parameters).
    fold (face_vertices that parameters) (face_normals that parameters)
         (face_uvs that parameters).
    destruct (face_loop_resolved that
                (fun c => forall kind, corresponds (globals_of that) kind c)
                (corresponds_add that) (corresponds_AddTriangle that)
                (face_vertices that parameters) (face_colors that parameters)
                (face_normals that parameters) (face_uvs that parameters)
                (seq 0 (List.length (face_vertices that parameters) - 2)) converter)
      as (c' & broke & new & -> & Hg & HQ & Htri & Hall & Hnone).
    specialize (HQ Hc).
    assert (Hvs : List.length (face_vertices that parameters) = List.length parameters)
      by apply length_map.
    exists c', new.
    split; [destruct broke; simpl; by eapply lookup_insert_converter |].
    split; [done |]. split.
    { intros Herror. destruct broke as [message|]; [done |].
      rewrite (Hnone eq_refl), length_seq. by rewrite Hvs. }
    intros k triangle Hk.
    destruct (Forall2_lookup_r _ _ _ _ _ Hall Hk) as (i & Hi & Hfan).
    assert (i = k) as ->.
    { apply lookup_take_Some in Hi as [Hi _]. apply lookup_seq in Hi. lia. }
    destruct Hfan as (Hv & Hcol & Hnor & Huv & Hlc & Hln & Hlu).
    rewrite <- Hgv, <- Hgc, <- Hgn, <- Hgu. fold that.
    split; [| split; [| split]].
    + apply (fan_of_indices Vertices c' _ (face_vertices that parameters)); [| done].
      intros j m. by apply vertex_reference.
    + intros triple Htriple. rewrite Htriple in Hcol.
      apply (fan_of_indices VertexColors c' _ (face_colors that parameters)); [| done].
      intros j m. by apply color_reference.
    + intros triple Htriple. rewrite Htriple in Hnor, Hln.
      apply (fan_of_indices Normals c' _ (face_normals that parameters)); [| done].
      intros j m. apply normal_reference; [done |]. rewrite <- Hvs. by apply Hln.
    + intros triple Htriple. rewrite Htriple in Huv, Hlu.
      apply (fan_of_indices Uvs c' _ (face_uvs that parameters)); [| done].
      intros j m. apply uv_reference; [done |]. rewrite <- Hvs. by apply Hlu.
  - destruct (ProcessLineCommand_at (fst s) parameters current converter Hcur Hconv)
      as (c' & vs & broke & Hloop & ->).
    fold that in Hloop |- *.
    destruct (line_loop_effect that parameters converter [])
      as (c'' & new & broke' & Heq & _ & _ & _ & Hlines & Hall & Hbroke).
    rewrite Hloop in Heq. simpl in Heq. injection Heq as <- <- <-.
    pose proof (line_loop_corresponds that parameters converter c' [] vs broke Hloop Hc)
      as Hc'.
    destruct (finish_fields that current
                (ObjMeshConverter.AddLine c'
                   (Line.mk vs (ImporterObj.currentMaterialIndex that))) broke)
      as (Hconvs & _ & _ & _ & _ & _ & _ & _ & _ & _ & _ & Herror & _).
    eexists _, _. split; [rewrite Hconvs; by eapply lookup_insert_converter |].
    split; [simpl; by rewrite Hlines |]. split.
    { rewrite Herror. intros Hno. destruct broke as [message|]; [done | by simpl]. }
    intros j vertex Hj. simpl in Hj.
    destruct (Forall2_lookup_r _ _ _ _ _ Hall Hj) as (parameter & Hp & _ & g & Hg & Hm).
    apply lookup_take_Some in Hp as [Hp _].
    rewrite <- Hgv. fold that.
    destruct (resolved_of_index Vertices c' (ImporterObj.globalVertices that)
                (globals_of that) (reference_text parameters j 0) g vertex)
      as (i & value & Hi & Hpos & Hvalue & Hmap & Hbuffer); try done.
    { unfold reference_text. rewrite Hp. exact Hg. }
    exists i, value. do 3 (split; [done |]). split; [exact Hmap | exact Hbuffer].
  - intros i count _ _. by rewrite GetRelativeIndex_spec.
  - intros Hthree.
    rewrite !(ProcessFaceCommand_unfold (fst s) _ current converter Hcur Hconv).
    fold that. rewrite !FaceIndices_spec. unfold face_vertex_index. rewrite Hgv, Hthree.
    reflexivity.
Qed.

End ResolutionOfReferences.

(** ** The theorems at concrete inputs *)

(** [face_fan_triangulation] at the quad [f 1 2 3 4] over four declared
    vertices: it adds the two triangles (0,1,2) and (0,2,3). *)
Lemma face_fan_triangulation_witness :
  let this := after_lines four_vertices in
  let parameters := ["1"; "2"; "3"; "4"] in
  let converter := ObjMeshConverter.new (Mesh.SetName Mesh.new "") in
  let vertices := [Some 0%Z; Some 1%Z; Some 2%Z; Some 3%Z] in
  (ImporterObj.currentMeshConverter (prepare this) = Some 0%nat
   /\ ImporterObj.converters (prepare this) !! 0%nat = Some converter
   /\ ImporterObj.FaceIndices (prepare this) parameters = (vertices, [], [], [])
   /\ Forall (fun index =>
                in_range index (List.length (ImporterObj.globalVertices this)) = true)
             vertices
   /\ attached_in_range [] vertices (List.length (ImporterObj.globalNormals this))
   /\ attached_in_range [] vertices (List.length (ImporterObj.globalUvs this)))
  /\ (exists converter' new,
        ImporterObj.converters (ImporterObj.ProcessFaceCommand this parameters) !! 0%nat
        = Some converter'
        /\ ImporterObj.error (ImporterObj.ProcessFaceCommand this parameters)
           = ImporterObj.error this
        /\ Mesh.triangles (ObjMeshConverter.mesh converter')
           = Mesh.triangles (ObjMeshConverter.mesh converter) ++ new
        /\ List.length new = (List.length parameters - 2)%nat
        /\ forall i, (i < List.length parameters - 2)%nat ->
             exists triangle,
               new !! i = Some triangle
               /\ local_index Vertices converter' vertices 0 = Some (Triangle.v0 triangle)
               /\ local_index Vertices converter' vertices (i + 1)
                  = Some (Triangle.v1 triangle)
               /\ local_index Vertices converter' vertices (i + 2)
                  = Some (Triangle.v2 triangle))
  /\ corners (ImporterObj.ProcessFaceCommand this parameters)
     = [[(0, 1, 2); (0, 2, 3)]]%nat.
Proof.
  intros this parameters converter vertices.
  assert (H1 : ImporterObj.currentMeshConverter (prepare this) = Some 0%nat) by reflexivity.
  assert (H2 : ImporterObj.converters (prepare this) !! 0%nat = Some converter)
    by reflexivity.
  assert (H3 : ImporterObj.FaceIndices (prepare this) parameters = (vertices, [], [], []))
    by reflexivity.
  assert (H4 : Forall (fun index =>
                         in_range index (List.length (ImporterObj.globalVertices this))
                         = true) vertices)
    by (repeat constructor).
  assert (H5 : attached_in_range [] vertices (List.length (ImporterObj.globalNormals this)))
    by (intros Hlen; discriminate Hlen).
  assert (H6 : attached_in_range [] vertices (List.length (ImporterObj.globalUvs this)))
    by (intros Hlen; discriminate Hlen).
  split; [by repeat split |]. split; [| reflexivity].
  exact (face_fan_triangulation this parameters 0 converter vertices [] [] []
           H1 H2 H3 H4 H5 H6).
Defined.

(** C6, refuted as stated: with three vertices and no normal declared, the
    vertex references of [f 1//9 2//9 3//9] all resolve in range, and yet no
    triangle is emitted. *)
Lemma face_fan_triangulation_counterexample :
  let this := after_lines three_vertices in
  let parameters := ["1//9"; "2//9"; "3//9"] in
  fst (fst (fst (ImporterObj.FaceIndices (prepare this) parameters)))
  = [Some 0%Z; Some 1%Z; Some 2%Z]
  /\ Forall (fun index =>
               in_range index (List.length (ImporterObj.globalVertices this)) = true)
            [Some 0%Z; Some 1%Z; Some 2%Z]
  /\ corners this = []
  /\ corners (ImporterObj.ProcessFaceCommand this parameters) = [[]]
  /\ ImporterObj.message (ImporterObj.ProcessFaceCommand this parameters)
     = Some "Invalid normal index.".
Proof.
  intros this parameters. split; [reflexivity |]. split; [repeat constructor |].
  repeat split.
Qed.

(** [face_attributes_all_or_nothing] at a face of three references of which
    two name a normal: its triangle has no normals. *)
Lemma face_attributes_all_or_nothing_witness :
  let this := after_lines (three_vertices ++ ["vn 0 0 1"]) in
  let parameters := ["1//1"; "2//1"; "3"] in
  let converter := ObjMeshConverter.new (Mesh.SetName Mesh.new "") in
  let vertices := [Some 0%Z; Some 1%Z; Some 2%Z] in
  let normals := [Some 0%Z; Some 0%Z] in
  (ImporterObj.currentMeshConverter (prepare this) = Some 0%nat
   /\ ImporterObj.converters (prepare this) !! 0%nat = Some converter
   /\ ImporterObj.FaceIndices (prepare this) parameters = (vertices, [], normals, []))
  /\ (exists converter' new,
        ImporterObj.converters (ImporterObj.ProcessFaceCommand this parameters) !! 0%nat
        = Some converter'
        /\ Mesh.triangles (ObjMeshConverter.mesh converter')
           = Mesh.triangles (ObjMeshConverter.mesh converter) ++ new
        /\ Forall (fun triangle =>
                     (is_Some (Triangle.colors triangle)
                      <-> List.length (@nil (option Z)) = List.length vertices)
                     /\ (is_Some (Triangle.normals triangle)
                         <-> List.length normals = List.length vertices)
                     /\ (is_Some (Triangle.uvs triangle)
                         <-> List.length (@nil (option Z)) = List.length vertices)) new)
  /\ map (map Triangle.normals)
         (map Mesh.triangles
              (ImporterObj.model_meshes (ImporterObj.ProcessFaceCommand this parameters)))
     = [[None]].
Proof.
  intros this parameters converter vertices normals.
  assert (H1 : ImporterObj.currentMeshConverter (prepare this) = Some 0%nat) by reflexivity.
  assert (H2 : ImporterObj.converters (prepare this) !! 0%nat = Some converter)
    by reflexivity.
  assert (H3 : ImporterObj.FaceIndices (prepare this) parameters
               = (vertices, [], normals, [])) by reflexivity.
  split; [by repeat split |]. split; [| reflexivity].
  exact (face_attributes_all_or_nothing this parameters 0 converter vertices [] normals []
           H1 H2 H3).
Defined.

(** C2, refuted as stated: after three vertices, the fourth reference of
    [f 1 2 3 9] is out of range, and the triangle (0,1,2) of that face is in
    the mesh all the same; likewise the line of [l 1 2 9] is added, with the
    two vertices that come before the offending reference. *)
Lemma out_of_range_vertex_reference_counterexample :
  let this := after_lines three_vertices in
  in_range (face_vertex_index this "9")
           (List.length (ImporterObj.globalVertices this)) = false
  /\ corners this = []
  /\ corners (ImporterObj.ProcessFaceCommand this ["1"; "2"; "3"; "9"]) = [[(0, 1, 2)]]%nat
  /\ ImporterObj.error (ImporterObj.ProcessFaceCommand this ["1"; "2"; "3"; "9"]) = true
  /\ map Mesh.lines
         (ImporterObj.model_meshes (ImporterObj.ProcessLineCommand this ["1"; "2"; "9"]))
     = [[Line.mk [0; 1]%nat None]]
  /\ ImporterObj.error (ImporterObj.ProcessLineCommand this ["1"; "2"; "9"]) = true.
Proof. intros this. repeat split. Qed.

(** [out_of_range_vertex_reference] at [f 1 2 3 9] and [l 1 2 3 9] after
    three vertices. *)
Lemma out_of_range_vertex_reference_witness :
  let this := after_lines three_vertices in
  let parameters := ["1"; "2"; "3"; "9"] in
  let converter := ObjMeshConverter.new (Mesh.SetName Mesh.new "") in
  let face := ImporterObj.ProcessFaceCommand this parameters in
  let line := ImporterObj.ProcessLineCommand this parameters in
  (ImporterObj.currentMeshConverter (prepare this) = Some 0%nat
   /\ ImporterObj.converters (prepare this) !! 0%nat = Some converter
   /\ parameters !! 3%nat = Some "9"
   /\ in_range (face_vertex_index this "9")
               (List.length (ImporterObj.globalVertices this)) = false)
  /\ ((3 <= List.length parameters)%nat ->
      ImporterObj.error face = true
      /\ exists converter' new,
          ImporterObj.converters face !! 0%nat = Some converter'
          /\ Mesh.triangles (ObjMeshConverter.mesh converter')
             = Mesh.triangles (ObjMeshConverter.mesh converter) ++ new
          /\ (List.length new <= 3 - 2)%nat)
  /\ ImporterObj.error line = true
  /\ (forall failed,
        failed = line \/ ((3 <= List.length parameters)%nat /\ failed = face) ->
        forall (ProcessLine : string -> ImporterObj.t * unit
                              -> option (ImporterObj.t * unit))
               (lines : list string) (w : unit),
          fold_left (ImporterObj.guarded_line ProcessLine) lines (Some (failed, w))
          = Some (failed, w)).
Proof.
  intros this parameters converter face line.
  assert (H1 : ImporterObj.currentMeshConverter (prepare this) = Some 0%nat) by reflexivity.
  assert (H2 : ImporterObj.converters (prepare this) !! 0%nat = Some converter)
    by reflexivity.
  assert (H3 : parameters !! 3%nat = Some "9") by reflexivity.
  assert (H4 : in_range (face_vertex_index this "9")
                 (List.length (ImporterObj.globalVertices this)) = false) by reflexivity.
  split; [by repeat split |].
  exact (out_of_range_vertex_reference (World := unit) this parameters 0 converter 3 "9"
           H1 H2 H3 H4).
Defined.

(** [material_directive_without_current_material] at the first line of a
    parse, [Kd 1 0 0]. *)
Lemma material_directive_without_current_material_witness :
  (parsing noFiles (ImporterObj.ResetContent, tt)
   /\ ImporterObj.currentMaterial ImporterObj.ResetContent = None
   /\ "kd" <> "newmtl" /\ "kd" <> "mtllib")
  /\ exists handled,
      ImporterObj.ProcessMaterialParameter noFiles (ImporterObj.ProcessLine noFiles 1)
        "kd" ["1"; "0"; "0"] "Kd 1 0 0" (ImporterObj.ResetContent, tt)
      = Some (handled, (ImporterObj.ResetContent, tt)).
Proof.
  assert (H1 : parsing noFiles (ImporterObj.ResetContent, tt)) by constructor.
  assert (H2 : ImporterObj.currentMaterial ImporterObj.ResetContent = None) by reflexivity.
  assert (H3 : "kd" <> "newmtl") by discriminate.
  assert (H4 : "kd" <> "mtllib") by discriminate.
  split; [by repeat split |].
  exact (material_directive_without_current_material noFiles
           (ImporterObj.ProcessLine noFiles 1) "kd" ["1"; "0"; "0"] "Kd 1 0 0"
           ImporterObj.ResetContent tt H1 H2 H3 H4).
Defined.

(** C3, refuted as stated: at the start of a parse no material is current,
    and [mtllib cube.mtl] is not ignored: the library is fetched through the
    dependency resolver, which records it as used, and its [newmtl red] adds
    a material to the model and makes it current. *)
Lemma material_directive_without_current_material_counterexample :
  ImporterObj.currentMaterial ImporterObj.ResetContent = None
  /\ match ImporterObj.ProcessMaterialParameter Importer.getFileBuffer
            (ImporterObj.ProcessLine Importer.getFileBuffer 1)
            "mtllib" ["cube.mtl"] "mtllib cube.mtl"
            (ImporterObj.ResetContent, cube_import) with
     | Some (handled, (this, (orchestrator, _))) =>
         handled = true
         /\ ImporterObj.currentMaterial this = Some 0%nat
         /\ map PhongMaterial.name (ImporterObj.materials this) = [Some "red"]
         /\ Importer.usedFiles orchestrator = ["cube.obj"; "cube.mtl"]
     | None => False
     end.
Proof. split; [reflexivity |]. vm_compute. repeat split. Qed.

(** The importer after the lines of a text is in a state of a parse. *)
Lemma parsing_after_lines (lines : list string) :
  is_Some (ImporterObj.ImportContent noFiles 1
             (ArrayBuffer (SpecModel.text_of_lines lines)) (ImporterObj.ResetContent, tt)) ->
  parsing noFiles (after_lines lines, tt).
Proof.
  intros [[this []] Hsome]. unfold after_lines. rewrite Hsome.
  eapply parsing_ImportContent; [| exact Hsome]. constructor.
Qed.

(** [ExtendFromFileList_idempotent] at a list of one file extended by a list
    of two. *)
Lemma ExtendFromFileList_idempotent_witness :
  let this := ImporterFileList.mk [ImporterFile.new "a.obj" Url (UrlString "a.obj")] in
  let other := ImporterFileList.mk [ImporterFile.new "b.mtl" Url (UrlString "b.mtl");
                                    ImporterFile.new "A.OBJ" Url (UrlString "A.OBJ")] in
  Forall (fun file => normalised (ImporterFile.name file)) (ImporterFileList.files other)
  /\ (ImporterFileList.ExtendFromFileList
        (ImporterFileList.ExtendFromFileList this other) other
      = ImporterFileList.ExtendFromFileList this other
      /\ ImporterFileList.ExtendFromFileList other other = other)
  /\ map ImporterFile.name
         (ImporterFileList.files (ImporterFileList.ExtendFromFileList this other))
     = ["a.obj"; "b.mtl"].
Proof.
  intros this other.
  assert (H1 : Forall (fun file => normalised (ImporterFile.name file))
                      (ImporterFileList.files other)) by (repeat constructor).
  split; [exact H1 |]. split; [| reflexivity].
  exact (ExtendFromFileList_idempotent this other H1).
Defined.

(** [GetContent_again] at a file whose URL is missing: it is requested a
    second time. *)
Lemma GetContent_again_witness :
  let fileList := ImporterFileList.mk [ImporterFile.new "a.obj" Url null] in
  let loaded := fst (ImporterFileList.GetContent fileList) in
  let events := snd (ImporterFileList.GetContent loaded) in
  let file := ImporterFile.new "a.obj" Url null in
  (ImporterFileList.files loaded !! 0%nat = Some file
   /\ events !! 0%nat = Some (LoadRequested Url null))
  /\ (ImporterFile.content file <> null ->
      LoadRequested Url null = ContentAlreadySet
      /\ ImporterFileList.files (fst (ImporterFileList.GetContent loaded)) !! 0%nat
         = Some file)
  /\ (forall source data,
        LoadRequested Url null = LoadRequested source data ->
        exists original,
          ImporterFileList.files fileList !! 0%nat = Some original
          /\ ImporterFile.content original = null
          /\ snd (ImporterFileList.GetFileContent original) = LoadRequested source data).
Proof.
  intros fileList loaded events file.
  assert (H1 : ImporterFileList.files loaded !! 0%nat = Some file) by reflexivity.
  assert (H2 : events !! 0%nat = Some (LoadRequested Url null)) by reflexivity.
  split; [by split |].
  exact (GetContent_again fileList 0 file (LoadRequested Url null) H1 H2).
Defined.

(** [ImportFiles_fresh] at one model given by URL. *)
Lemma ImportFiles_fresh_witness :
  let this := Importer.mk [fbxImporter; objImporter] (ImporterFileList.mk [])
                          ["old.obj"] ["old.mtl"] in
  let inputFiles := [InputFile.new "cube.obj" Url (UrlString "models/cube.obj")] in
  let file := ImporterFile.new "cube.obj" Url (UrlString "models/cube.obj") in
  let loaded := fst (ImporterFileList.GetContent
                       (ImporterFileList.FillFromInputFiles inputFiles)) in
  Importer.GetImportableFiles this (ImporterFileList.FillFromInputFiles inputFiles)
  = [(file, objImporter)]
  /\ exists events,
      Importer.ImportFiles example_unzipSync this inputFiles None
      = (Importer.with_fileList this (Importer.DecompressArchives example_unzipSync loaded),
         events,
         Importer.ImportsMainFile (fst (ImporterFileList.GetFileContent file), objImporter)).
Proof.
  intros this inputFiles file loaded.
  assert (H1 : Importer.GetImportableFiles this
                 (ImporterFileList.FillFromInputFiles inputFiles)
               = [(file, objImporter)]) by reflexivity.
  split; [exact H1 |].
  exact (ImportFiles_fresh example_unzipSync this inputFiles file objImporter [] H1).
Defined.

(** [import_bookkeeping] at the import of [cube.obj], which asks for its
    library twice and for a texture that is not there. *)
Lemma import_bookkeeping_witness :
  let this := fst cube_import in
  let mainFile := ImporterFile.new "cube.obj" File (ArrayBuffer "mtllib cube.mtl") in
  let requests := ["cube.mtl"; "textures/wood.png"; "lib/CUBE.MTL"; "wood.png"] in
  ImporterFile.content mainFile <> null
  /\ (exists this0 accessor0,
        Importer.ImportLoadedMainFile_begin this (Some (mainFile, objImporter))
        = inr (this0, accessor0)
        /\ let this' :=
             snd (ImporterFileAccessor.GetFileBuffers requests (accessor0, this0)) in
           Importer.usedFiles this'
           = ImporterFile.name mainFile
               :: filter (fun fileName => found (Importer.fileList this) fileName = true)
                         (first_requests [] requests)
           /\ Importer.missingFiles this'
              = filter (fun fileName => found (Importer.fileList this) fileName = false)
                       (first_requests [] requests)
           /\ Importer.fileList this' = Importer.fileList this)
  /\ first_requests [] requests = ["cube.mtl"; "wood.png"; "CUBE.MTL"].
Proof.
  intros this mainFile requests.
  assert (H1 : ImporterFile.content mainFile <> null) by discriminate.
  split; [exact H1 |]. split; [| reflexivity].
  exact (import_bookkeeping this mainFile objImporter requests H1).
Defined.

(** [converter_correspondence] at a converter asked twice for the second
    vertex and once for the first. *)
Lemma converter_correspondence_witness :
  let cs := [CallAdd Vertices (Some 1%Z) (two_vertices Vertices);
             CallAdd Vertices (Some 0%Z) (two_vertices Vertices);
             CallAdd Vertices (Some 1%Z) (two_vertices Vertices)] in
  let converter := calls (ObjMeshConverter.new (Mesh.SetName Mesh.new "")) cs in
  Forall (call_within two_vertices) cs
  /\ (corresponds two_vertices Vertices converter
      /\ List.length (buffer Vertices (ObjMeshConverter.mesh converter))
         = size (index_map Vertices converter))
  /\ List.length (buffer Vertices (ObjMeshConverter.mesh converter)) = 2%nat.
Proof.
  intros cs converter.
  assert (H1 : Forall (call_within two_vertices) cs)
    by (repeat constructor; by exists []).
  split; [exact H1 |]. split; [| reflexivity].
  exact (converter_correspondence two_vertices "" cs Vertices H1).
Defined.

(** [parsed_model_closed] at the mesh of a triangle with a material. *)
Lemma parsed_model_closed_witness :
  let s := (after_lines (three_vertices ++ ["newmtl red"; "usemtl red"; "f 1 2 3"]), tt) in
  let mesh := default Mesh.new (head (ImporterObj.model_meshes (fst s))) in
  (parsing noFiles s /\ mesh ∈ ImporterObj.model_meshes (fst s))
  /\ (Forall (fun triangle =>
                triangle_in_mesh mesh triangle
                /\ material_below (List.length (ImporterObj.materials (fst s)))
                                  (Triangle.mat triangle))
             (Mesh.triangles mesh)
      /\ Forall (fun line =>
                   line_in_mesh mesh line
                   /\ material_below (List.length (ImporterObj.materials (fst s)))
                                     (Line.mat line))
                (Mesh.lines mesh))
  /\ map Triangle.mat (Mesh.triangles mesh) = [Some 0%nat].
Proof.
  intros s mesh.
  assert (H1 : parsing noFiles s)
    by (apply parsing_after_lines; vm_compute; eexists; reflexivity).
  assert (H2 : mesh ∈ ImporterObj.model_meshes (fst s)) by (vm_compute; left).
  split; [by split |]. split; [| vm_compute; reflexivity].
  exact (parsed_model_closed noFiles s mesh H1 H2).
Defined.

(** [parse_failures] after a face that names a vertex that is not there. *)
Lemma parse_failures_witness :
  let s := (after_lines (three_vertices ++ ["f 1 2 9"]), tt) in
  parsing noFiles s
  /\ (if ImporterObj.WasError (fst s)
      then exists message,
             message ∈ ["Invalid vertex index."; "Invalid normal index.";
                        "Invalid uv index."]
             /\ ImporterObj.message (fst s) = Some (Loc message)
      else ImporterObj.message (fst s) = None)
  /\ ImporterObj.WasError (fst s) = true.
Proof.
  intros s.
  assert (H1 : parsing noFiles s)
    by (apply parsing_after_lines; vm_compute; eexists; reflexivity).
  split; [exact H1 |]. split; [| vm_compute; reflexivity].
  exact (parse_failures noFiles s H1).
Defined.

(** [mesh_names_distinct] after a group is named, left and named again. *)
Lemma mesh_names_distinct_witness :
  let s := (after_lines ["g a"; "g b"; "g a"], tt) in
  parsing noFiles s
  /\ (NoDup (map Mesh.name (ImporterObj.model_meshes (fst s)))
      /\ forall name,
           is_Some (ImporterObj.meshNameToConverter (fst s) !! name)
           <-> name ∈ map Mesh.name (ImporterObj.model_meshes (fst s)))
  /\ map Mesh.name (ImporterObj.model_meshes (fst s)) = ["a"; "b"].
Proof.
  intros s.
  assert (H1 : parsing noFiles s)
    by (apply parsing_after_lines; vm_compute; eexists; reflexivity).
  split; [exact H1 |]. split; [| vm_compute; reflexivity].
  exact (mesh_names_distinct noFiles s H1).
Defined.

(** [earlier_materials_final] at the declaration of a third material. *)
Lemma earlier_materials_final_witness :
  let lines := ["newmtl a"; "Kd 1 0 0"; "newmtl b"] in
  let s := (after_lines lines, tt) in
  let s' := (after_lines (lines ++ ["newmtl c"]), tt) in
  (parsing noFiles s
   /\ ImporterObj.ProcessLine noFiles 1 "newmtl c" s = Some s')
  /\ ImporterObj.currentMaterial (fst s)
     = match ImporterObj.materials (fst s) with
       | [] => None
       | _ => Some (List.length (ImporterObj.materials (fst s)) - 1)%nat
       end
  /\ earlier_materials (fst s) `prefix_of` ImporterObj.materials (fst s').
Proof.
  intros lines s s'.
  assert (H1 : parsing noFiles s)
    by (apply parsing_after_lines; vm_compute; eexists; reflexivity).
  assert (H2 : ImporterObj.ProcessLine noFiles 1 "newmtl c" s = Some s')
    by (vm_compute; reflexivity).
  split; [by split |].
  exact (earlier_materials_final noFiles 1 "newmtl c" s s' H1 H2).
Defined.

(** [vertex_colors_fall_behind] after a vertex with a color and two
    without, at the declaration of a further vertex with a color. *)
Lemma vertex_colors_fall_behind_witness :
  let lines := ["v 0 0 0 1 0 0"; "v 1 0 0"; "v 1 1 0"] in
  let s := (after_lines lines, tt) in
  let s' := (after_lines (lines ++ ["v 0 1 0 0 1 0"]), tt) in
  let parameters := ["1"; "2"; "3"] in
  (parsing noFiles s
   /\ ImporterObj.ProcessLine noFiles 1 "v 0 1 0 0 1 0" s = Some s')
  /\ (List.length (ImporterObj.globalVertexColors (fst s))
      <= List.length (ImporterObj.globalVertices (fst s)))%nat
  /\ (List.length (ImporterObj.globalVertices (fst s))
      - List.length (ImporterObj.globalVertexColors (fst s))
      <= List.length (ImporterObj.globalVertices (fst s'))
         - List.length (ImporterObj.globalVertexColors (fst s')))%nat
  /\ ((List.length (ImporterObj.globalVertexColors (fst s))
       < List.length (ImporterObj.globalVertices (fst s)))%nat ->
      exists current converter converter' new,
        ImporterObj.currentMeshConverter (prepare (fst s)) = Some current
        /\ ImporterObj.converters (prepare (fst s)) !! current = Some converter
        /\ ImporterObj.converters (ImporterObj.ProcessFaceCommand (fst s) parameters)
           = <[current := converter']> (ImporterObj.converters (prepare (fst s)))
        /\ ImporterObj.converters (ImporterObj.ProcessFaceCommand (fst s) parameters)
             !! current = Some converter'
        /\ Mesh.triangles (ObjMeshConverter.mesh converter')
           = Mesh.triangles (ObjMeshConverter.mesh converter) ++ new
        /\ Forall (fun triangle => Triangle.colors triangle = None) new)
  /\ map (map Triangle.colors)
         (map Mesh.triangles
              (ImporterObj.model_meshes (ImporterObj.ProcessFaceCommand (fst s) parameters)))
     = [[None]].
Proof.
  intros lines s s' parameters.
  assert (H1 : parsing noFiles s)
    by (apply parsing_after_lines; vm_compute; eexists; reflexivity).
  assert (H2 : ImporterObj.ProcessLine noFiles 1 "v 0 1 0 0 1 0" s = Some s')
    by (vm_compute; reflexivity).
  split; [by split |].
  pose proof (vertex_colors_fall_behind noFiles 1 "v 0 1 0 0 1 0" s s' parameters H1 H2)
    as (Hle & Hdeficit & Hface).
  split; [exact Hle |]. split; [exact Hdeficit |]. split; [exact Hface |].
  vm_compute. reflexivity.
Defined.

(** [line_directive] at [l 1 2 9 3] after three vertices: the line has the
    vertices of the two references before the one that is out of range. *)
Lemma line_directive_witness :
  let this := after_lines three_vertices in
  let parameters := ["1"; "2"; "9"; "3"] in
  let converter := ObjMeshConverter.new (Mesh.SetName Mesh.new "") in
  (ImporterObj.currentMeshConverter (prepare this) = Some 0%nat
   /\ ImporterObj.converters (prepare this) !! 0%nat = Some converter)
  /\ (exists converter' line,
        ImporterObj.converters (ImporterObj.ProcessLineCommand this parameters) !! 0%nat
        = Some converter'
        /\ Mesh.lines (ObjMeshConverter.mesh converter')
           = Mesh.lines (ObjMeshConverter.mesh converter) ++ [line]
        /\ Mesh.triangles (ObjMeshConverter.mesh converter')
           = Mesh.triangles (ObjMeshConverter.mesh converter)
        /\ Line.mat line = ImporterObj.currentMaterialIndex this
        /\ Forall2 (fun parameter vertex =>
                      exists g, face_vertex_index this parameter = Some g
                                /\ index_map Vertices converter' !! g = Some vertex)
                   (take (List.length (Line.vertices line)) parameters)
                   (Line.vertices line)
        /\ (Forall (fun parameter =>
                      in_range (face_vertex_index this parameter)
                               (List.length (ImporterObj.globalVertices this)) = true)
                   parameters ->
            List.length (Line.vertices line) = List.length parameters
            /\ ImporterObj.error (ImporterObj.ProcessLineCommand this parameters)
               = ImporterObj.error this)
        /\ (forall j parameter,
              parameters !! j = Some parameter ->
              in_range (face_vertex_index this parameter)
                       (List.length (ImporterObj.globalVertices this)) = false ->
              (List.length (Line.vertices line) <= j)%nat
              /\ ImporterObj.error (ImporterObj.ProcessLineCommand this parameters) = true))
  /\ map Mesh.lines
         (ImporterObj.model_meshes (ImporterObj.ProcessLineCommand this parameters))
     = [[Line.mk [0; 1]%nat None]].
Proof.
  intros this parameters converter.
  assert (H1 : ImporterObj.currentMeshConverter (prepare this) = Some 0%nat) by reflexivity.
  assert (H2 : ImporterObj.converters (prepare this) !! 0%nat = Some converter)
    by reflexivity.
  split; [by split |]. split; [| reflexivity].
  exact (line_directive this parameters 0 converter H1 H2).
Defined.

(** [mtllib_self_reference] at a library whose only line names itself. *)
Lemma mtllib_self_reference_witness :
  let line := "mtllib a.mtl" in
  (String.get 0 line <> Some "#"%char
   /\ ParametersFromLine line "#" = ["mtllib"; "a.mtl"]
   /\ Js.toLowerCase "mtllib" = "mtllib"
   /\ ["a.mtl"] <> @nil string
   /\ (forall w0, exists w1,
         selfLibrary (NameFromLine line (String.length "mtllib") "#") w0
         = (ArrayBuffer line, w1))
   /\ ArrayBuffer line <> null
   /\ ReadLines (ArrayBufferToUtf8String (ArrayBuffer line)) = [line]
   /\ ImporterObj.WasError ImporterObj.ResetContent = false)
  /\ forall fuel,
       ImporterObj.ProcessLine selfLibrary fuel line (ImporterObj.ResetContent, tt) = None.
Proof.
  intros line.
  assert (H1 : String.get 0 line <> Some "#"%char) by discriminate.
  assert (H2 : ParametersFromLine line "#" = ["mtllib"; "a.mtl"]) by reflexivity.
  assert (H3 : Js.toLowerCase "mtllib" = "mtllib") by reflexivity.
  assert (H4 : ["a.mtl"] <> @nil string) by discriminate.
  assert (H5 : forall w0, exists w1,
               selfLibrary (NameFromLine line (String.length "mtllib") "#") w0
               = (ArrayBuffer line, w1))
    by (intros w0; exists w0; reflexivity).
  assert (H6 : ArrayBuffer line <> null) by discriminate.
  assert (H7 : ReadLines (ArrayBufferToUtf8String (ArrayBuffer line)) = [line])
    by reflexivity.
  assert (H8 : ImporterObj.WasError ImporterObj.ResetContent = false) by reflexivity.
  split; [by repeat split |].
  exact (mtllib_self_reference selfLibrary line "mtllib" ["a.mtl"] [] (ArrayBuffer line)
           ImporterObj.ResetContent tt H1 H2 H3 H4 H5 H6 H7 H8).
Defined.

(** [skipped_lines] at a vertex with two coordinates and at a color before
    any material. *)
Lemma skipped_lines_witness :
  let s := (after_lines three_vertices, tt) in
  (String.get 0 "v 1 2" = Some "#"%char
   \/ ParametersFromLine "v 1 2" "#" = []
   \/ exists first parameters,
        ParametersFromLine "v 1 2" "#" = first :: parameters
        /\ (match required_parameters (Js.toLowerCase first) with
            | Some required => (List.length parameters < required)%nat
            | None => True
            end
            \/ (Js.toLowerCase first ∈ material_properties
                /\ ImporterObj.currentMaterial (fst s) = None)))
  /\ ImporterObj.ProcessLine noFiles 1 "v 1 2" s = Some s.
Proof.
  intros s.
  assert (H1 : String.get 0 "v 1 2" = Some "#"%char
               \/ ParametersFromLine "v 1 2" "#" = []
               \/ exists first parameters,
                    ParametersFromLine "v 1 2" "#" = first :: parameters
                    /\ (match required_parameters (Js.toLowerCase first) with
                        | Some required => (List.length parameters < required)%nat
                        | None => True
                        end
                        \/ (Js.toLowerCase first ∈ material_properties
                            /\ ImporterObj.currentMaterial (fst s) = None))).
  { right. right. exists "v", ["1"; "2"]. split; [reflexivity |]. left. simpl. lia. }
  split; [exact H1 |].
  exact (skipped_lines noFiles 0 "v 1 2" s H1).
Defined.

(** [texture_options] at [map_Kd -o 1 2 3 -s 4 -o 5 wood.png]: the offset is
    read from the second [-o], the scale from [-s]. *)
Lemma texture_options_witness :
  let parameters := ["-o"; "1"; "2"; "3"; "-s"; "4"; "-o"; "5"] in
  let texture := fst (ImporterObj.CreateTexture noFiles (parameters ++ ["wood.png"]) tt) in
  (option_with_values parameters "-o" ["5"] /\ option_with_values parameters "-s" ["4"])
  /\ (TextureMap.offset_x texture = Js.parseFloat <$> ["5"] !! 0%nat
      /\ TextureMap.offset_y texture = Js.parseFloat <$> ["5"] !! 1%nat)
  /\ (TextureMap.scale_x texture = Js.parseFloat <$> ["4"] !! 0%nat
      /\ TextureMap.scale_y texture = Js.parseFloat <$> ["4"] !! 1%nat)
  /\ TextureMap.name texture = Some "wood.png".
Proof.
  intros parameters texture.
  assert (H1 : option_with_values parameters "-o" ["5"]).
  { exists ["-o"; "1"; "2"; "3"; "-s"; "4"], [].
    split; [reflexivity |]. split; [reflexivity |]. split; [by repeat constructor |].
    split; [apply not_elem_of_nil | exact I]. }
  assert (H2 : option_with_values parameters "-s" ["4"]).
  { exists ["-o"; "1"; "2"; "3"], ["-o"; "5"].
    split; [reflexivity |]. split; [reflexivity |]. split; [by repeat constructor |].
    split; [| reflexivity].
    rewrite !not_elem_of_cons. repeat split; try discriminate. apply not_elem_of_nil. }
  split; [by split |].
  pose proof (texture_options noFiles parameters "wood.png" tt) as Hall.
  cbv zeta in Hall. destruct Hall as (Hname & _ & _ & Ho & Hs & _).
  split; [exact (Ho _ H1) |]. split; [exact (Hs _ H2) | exact Hname].
Defined.

(** [text_without_libraries] at the text of a triangle. *)
Lemma text_without_libraries_witness :
  let fileContent := ArrayBuffer (SpecModel.text_of_lines (three_vertices ++ ["f 1 2 3"])) in
  let s := (ImporterObj.ResetContent, tt) in
  (Forall names_no_library (ReadLines (ArrayBufferToUtf8String fileContent))
   /\ parsing noFiles s)
  /\ exists s',
      parsing noFiles s'
      /\ forall fuel,
           ImporterObj.ImportContent noFiles (S fuel) fileContent s = Some s'.
Proof.
  intros fileContent s.
  assert (H1 : Forall names_no_library (ReadLines (ArrayBufferToUtf8String fileContent))).
  { replace (ReadLines (ArrayBufferToUtf8String fileContent))
      with (three_vertices ++ ["f 1 2 3"]) by (vm_compute; reflexivity).
    repeat (constructor; [vm_compute; intros Heq; discriminate Heq |]). constructor. }
  assert (H2 : parsing noFiles s) by constructor.
  split; [by split |].
  exact (text_without_libraries noFiles fileContent s H1 H2).
Defined.

(** [ImportLoadedFiles_outcome] at a list whose only importable file has no
    content: without a prompt it is the main file, and the failure to load it
    is reported, with its name. *)
Lemma ImportLoadedFiles_outcome_witness :
  let this := Importer.mk [objImporter]
                (ImporterFileList.mk [ImporterFile.new "notes.txt" Url (UrlString "notes.txt");
                                      ImporterFile.new "cube.obj" Url null])
                [] [] in
  let mainFile := (ImporterFile.new "cube.obj" Url null, objImporter) in
  Importer.GetImportableFiles this (Importer.fileList this) = [mainFile]
  /\ ImporterFile.content (fst mainFile) = null
  /\ Importer.ImportLoadedFiles this None
     = Importer.OnImportError (ImportError.mk FailedToLoadFile (Some "cube.obj") None).
Proof.
  intros this mainFile.
  assert (H1 : Importer.GetImportableFiles this (Importer.fileList this) = [mainFile])
    by reflexivity.
  assert (H2 : ImporterFile.content (fst mainFile) = null) by reflexivity.
  split; [exact H1 |]. split; [exact H2 |].
  apply (proj1 (ImportLoadedFiles_outcome this None)).
  right. exists mainFile. split; [| by split].
  left. split; [by right | by rewrite H1].
Defined.

(** [GetRelativeIndex_resolution] after three vertices, one normal and two
    UVs, at a face whose references mix positive and negative indices: [-1]
    is the third vertex but the second UV and the first normal.  After a
    fourth vertex, [-1] is that vertex. *)
Lemma GetRelativeIndex_resolution_witness :
  let s := (after_lines (three_vertices ++ ["vn 0 0 1"; "vt 0 0"; "vt 1 0"]), tt) in
  let parameters := ["-1/-1/-1"; "-2/1/1"; "-3/2/-1"] in
  let face := ImporterObj.ProcessFaceCommand (fst s) parameters in
  parsing noFiles s
  /\ (exists current converter,
        ImporterObj.currentMeshConverter (prepare (fst s)) = Some current
        /\ ImporterObj.converters (prepare (fst s)) !! current = Some converter
        /\ (exists converter' new,
              ImporterObj.converters (ImporterObj.ProcessFaceCommand (fst s) parameters)
                !! current = Some converter'
              /\ Mesh.triangles (ObjMeshConverter.mesh converter')
                 = Mesh.triangles (ObjMeshConverter.mesh converter) ++ new
              /\ (ImporterObj.error (ImporterObj.ProcessFaceCommand (fst s) parameters)
                  = false ->
                  List.length new = (List.length parameters - 2)%nat)
              /\ forall k triangle,
                   new !! k = Some triangle ->
                   fan_resolves_to Vertices converter' (ImporterObj.globalVertices (fst s))
                     parameters 0 k
                     (Triangle.v0 triangle, Triangle.v1 triangle, Triangle.v2 triangle)
                   /\ (forall triple,
                         Triangle.colors triangle = Some triple ->
                         fan_resolves_to VertexColors converter'
                           (ImporterObj.globalVertexColors (fst s)) parameters 0 k triple)
                   /\ (forall triple,
                         Triangle.normals triangle = Some triple ->
                         fan_resolves_to Normals converter'
                           (ImporterObj.globalNormals (fst s)) parameters 2 k triple)
                   /\ (forall triple,
                         Triangle.uvs triangle = Some triple ->
                         fan_resolves_to Uvs converter'
                           (ImporterObj.globalUvs (fst s)) parameters 1 k triple))
        /\ (exists converter' line,
              ImporterObj.converters (ImporterObj.ProcessLineCommand (fst s) parameters)
                !! current = Some converter'
              /\ Mesh.lines (ObjMeshConverter.mesh converter')
                 = Mesh.lines (ObjMeshConverter.mesh converter) ++ [line]
              /\ (ImporterObj.error (ImporterObj.ProcessLineCommand (fst s) parameters)
                  = false ->
                  List.length (Line.vertices line) = List.length parameters)
              /\ forall j vertex,
                   Line.vertices line !! j = Some vertex ->
                   resolves_to Vertices converter' (ImporterObj.globalVertices (fst s))
                               (reference_text parameters j 0) vertex)
        /\ (forall i count,
              (Z.abs i < 2 ^ 53)%Z -> (Z.of_nat count < 2 ^ 32)%Z ->
              ImporterObj.GetRelativeIndex (Some i) count = Some (spec_resolution i count))
        /\ (List.length (ImporterObj.globalVertices (fst s)) = 3%nat ->
            ImporterObj.ProcessFaceCommand (fst s) ["-1"; "-2"; "-3"]
            = ImporterObj.ProcessFaceCommand (fst s) ["3"; "2"; "1"]))
  /\ ImporterObj.error face = false
  /\ map Mesh.triangles (ImporterObj.model_meshes face)
     = [[Triangle.mk 0 1 2 None (Some (0, 0, 0)) (Some (0, 1, 0)) None]]%nat
  /\ map Mesh.vertices (ImporterObj.model_meshes face)
     = [[xyz "1" "1" "0"; xyz "1" "0" "0"; xyz "0" "0" "0"]]
  /\ map Mesh.uvs (ImporterObj.model_meshes face) = [[xy "1" "0"; xy "0" "0"]]
  /\ map Mesh.normals (ImporterObj.model_meshes face) = [[xyz "0" "0" "1"]]
  /\ map Mesh.vertices
         (ImporterObj.model_meshes
            (ImporterObj.ProcessFaceCommand (after_lines (three_vertices ++ ["v 0 1 0"]))
                                            ["-1"; "-2"; "-3"]))
     = [[xyz "0" "1" "0"; xyz "1" "1" "0"; xyz "1" "0" "0"]]
  /\ map (fun mesh => (Mesh.vertices mesh, Mesh.lines mesh))
         (ImporterObj.model_meshes (ImporterObj.ProcessLineCommand (fst s) ["-1"; "1"]))
     = [([xyz "1" "1" "0"; xyz "0" "0" "0"], [Line.mk [0; 1]%nat None])].
Proof.
  intros s parameters face.
  assert (H1 : parsing noFiles s)
    by (apply parsing_after_lines; vm_compute; eexists; reflexivity).
  split; [exact H1 |].
  split; [exact (GetRelativeIndex_resolution noFiles s parameters H1) |].
  repeat split; vm_compute; reflexivity.
Defined.
